(** * sqlb: a shallow embedding of the SQL builder and of its row scanner

    The development follows the Go package [sqlb]:
    - [types.go]           string-valued enumerations, join and order types;
    - [table_metadata.go]  the keyword set, table metadata and its builder;
    - [column_metadata]    column metadata and select/insert specs;
    - [use_table.go]       tables in use (unique id, name, alias, seal);
    - [column_to_use]      columns in use and their renderings;
    - [builder]            the fluent [SqlBuilder] and [Build];
    - [scanner.go]         [ScannedRows] and [scanRows].

    Go strings are byte strings ([string]); maps are [gmap]; a panic is an
    explicit outcome that keeps the builder as the panic left it, and a
    [defer] is a combinator that runs on both exits. *)

From Stdlib Require Import ZArith NArith String Ascii List Decimal DecimalString Lia.
From Stdlib Require Import DecimalFacts DecimalPos.
From stdpp Require Import base option list gmap strings sorting.

Set Warnings "-register-all".
Local Open Scope string_scope.
Local Open Scope list_scope.

(** ** The Go library functions the package calls *)

Module strings.

(** A byte string given by its byte values. *)
Definition bytes (l : list nat) : string :=
  fold_right (fun n s => String (ascii_of_nat n) s) EmptyString l.

(** The UTF-8 encodings of the runes for which [unicode.IsSpace] holds:
    tab, LF, VT, FF, CR, space, U+0085, U+00A0, U+1680, U+2000..U+200A,
    U+2028, U+2029, U+202F, U+205F and U+3000. *)
Definition spaceRunes : list string :=
  [ bytes [9]; bytes [10]; bytes [11]; bytes [12]; bytes [13]; bytes [32];
    bytes [194; 133]; bytes [194; 160]; bytes [225; 154; 128];
    bytes [226; 128; 128]; bytes [226; 128; 129]; bytes [226; 128; 130];
    bytes [226; 128; 131]; bytes [226; 128; 132]; bytes [226; 128; 133];
    bytes [226; 128; 134]; bytes [226; 128; 135]; bytes [226; 128; 136];
    bytes [226; 128; 137]; bytes [226; 128; 138]; bytes [226; 128; 168];
    bytes [226; 128; 169]; bytes [226; 128; 175]; bytes [226; 129; 159];
    bytes [227; 128; 128] ].

Fixpoint dropBytes (n : nat) (s : string) : string :=
  match n, s with
  | S n', String _ s' => dropBytes n' s'
  | _, _ => s
  end.

(** [leadingSpace pats s] is the length of the pattern of [pats] that [s]
    starts with, if any. *)
Definition leadingSpace (pats : list string) (s : string) : option nat :=
  String.length <$> List.find (fun w => String.prefix w s) pats.

Fixpoint trimLeftWith (pats : list string) (fuel : nat) (s : string) : string :=
  match fuel with
  | O => s
  | S fuel' =>
      match leadingSpace pats s with
      | Some n => trimLeftWith pats fuel' (dropBytes n s)
      | None => s
      end
  end.

Definition TrimLeftSpace (s : string) : string :=
  trimLeftWith spaceRunes (String.length s) s.

(** Trailing runes are found on the reversed string with reversed patterns. *)
Definition TrimRightSpace (s : string) : string :=
  String.rev (trimLeftWith (List.map String.rev spaceRunes) (String.length s) (String.rev s)).

(** [strings.TrimSpace]: all leading and trailing white space removed. *)
Definition TrimSpace (s : string) : string := TrimRightSpace (TrimLeftSpace s).

(** [strings.ToLower]. A string of ASCII bytes is lowered byte by byte, as
    the Go function does on its fast path. Any other string goes through
    [strings.Map(unicode.ToLower, s)], which decodes the runes (an invalid
    byte as U+FFFD) and maps each by the case tables of the Unicode version of
    the Go release; the tables are no part of the package, and [mapRunes]
    stands for this mapping. *)
Definition isASCII (s : string) : bool :=
  forallb (fun c => Nat.ltb (nat_of_ascii c) 128) (list_ascii_of_string s).

Definition lowerByte (c : ascii) : ascii :=
  let n := nat_of_ascii c in
  if andb (Nat.leb 65 n) (Nat.leb n 90) then ascii_of_nat (n + 32) else c.

Fixpoint lowerBytes (s : string) : string :=
  match s with
  | EmptyString => EmptyString
  | String c s' => String (lowerByte c) (lowerBytes s')
  end.

Definition ToLower (mapRunes : string -> string) (s : string) : string :=
  if isASCII s then lowerBytes s else mapRunes s.

(** [strings.Join]. *)
Definition Join (elems : list string) (sep : string) : string :=
  String.concat sep elems.

End strings.

Module fmt.

(** [fmt.Sprintf("%d", n)] for an unsigned and for a signed integer. *)
Definition uintd (n : N) : string := NilZero.string_of_uint (N.to_uint n).
Definition intd (z : Z) : string := NilZero.string_of_int (Z.to_int z).

End fmt.

(** ** Go values of interface type [any]

    The dynamic values that flow through the builder as arguments, insert
    values and extracted column values. *)

Inductive intKind : Type :=
  | Kint8 | Kuint8 | Kint16 | Kuint16 | Kint32 | Kuint32 | Kint64 | Kuint64
  | Kint | Kuint.

Inductive any : Type :=
  | AString (s : string)
  | AInt (k : intKind) (z : Z)
  | ABool (b : bool)
  | AStruct (typeName : string) (fields : list any)
  | APtr (elem : any)
  | AFieldPtr (row : nat) (slot : string)
  | ARecordAt (typeName : string) (row : nat)
  | AOther (typeName : string)
  | ANil.

Definition intKindName (k : intKind) : string :=
  match k with
  | Kint8 => "int8" | Kuint8 => "uint8" | Kint16 => "int16" | Kuint16 => "uint16"
  | Kint32 => "int32" | Kuint32 => "uint32" | Kint64 => "int64" | Kuint64 => "uint64"
  | Kint => "int" | Kuint => "uint"
  end.

(** [AStruct] is a struct value of a defined type, [APtr] a pointer to a
    value, [AFieldPtr row slot] a pointer into the record allocated as [row],
    [ARecordAt tn row] the record of type [tn] held there, [AOther] a value of
    any other type and [ANil] the nil interface. The record types of the
    tables are defined struct types; a field pointer is a scan target only,
    and the type of the field it points to is not recorded. *)

(** [reflect.TypeOf(v).Name()]: the name of a defined type, empty for a
    pointer type. *)
Definition reflectName (v : any) : string :=
  match v with
  | AString _ => "string"
  | AInt k _ => intKindName k
  | ABool _ => "bool"
  | AStruct tn _ => tn
  | APtr _ => ""
  | AFieldPtr _ _ => ""
  | ARecordAt tn _ => tn
  | AOther tn => tn
  | ANil => ""
  end.

(** The verb [%T]. *)
Fixpoint typeString (v : any) : string :=
  match v with
  | APtr e => "*" +:+ typeString e
  | AFieldPtr _ slot => "*" +:+ slot
  | ANil => "<nil>"
  | _ => reflectName v
  end.

(** ** Outcomes: a returned value or a panic *)

Inductive outcome (A : Type) : Type :=
  | Done (a : A)
  | Panic (msg : string).
Arguments Done {A} a.
Arguments Panic {A} msg.

Definition obind {A B} (o : outcome A) (k : A -> outcome B) : outcome B :=
  match o with
  | Done a => k a
  | Panic m => Panic m
  end.

#[global] Instance outcome_ret : MRet outcome := fun _ a => Done a.
#[global] Instance outcome_bind : MBind outcome := fun _ _ k o => obind o k.
#[global] Instance outcome_fmap : FMap outcome :=
  fun _ _ f o => match o with Done a => Done (f a) | Panic msg => Panic msg end.

(** [getStructTypeName]: the element's name for a pointer, else the name;
    [reflect.TypeOf(nil)] is nil and its [Kind] call panics. *)
Definition getStructTypeName (v : any) : outcome string :=
  match v with
  | APtr e => Done (reflectName e)
  | ANil => Panic "runtime error: invalid memory address or nil pointer dereference"
  | _ => Done (reflectName v)
  end.

Fixpoint omapM {A B} (f : A -> outcome B) (l : list A) : outcome (list B) :=
  match l with
  | [] => Done []
  | x :: l' =>
      match f x with
      | Done y =>
          match omapM f l' with
          | Done ys => Done (y :: ys)
          | Panic m => Panic m
          end
      | Panic m => Panic m
      end
  end.

Definition dquote : string := strings.bytes [34].
Definition LF : string := strings.bytes [10].

(** ** types.go *)

Definition sqlBuilderType := string.
Definition sqlBuilderTypeSelect : sqlBuilderType := "SELECT".
Definition sqlBuilderTypeInsert : sqlBuilderType := "INSERT".

Definition selectType := string.
Definition notSelectTypeBasic : selectType := "-".
Definition selectTypeBasic : selectType := "SELECT".
Definition selectTypeExists : selectType := "SELECT EXISTS".
Definition selectTypeCount : selectType := "SELECT COUNT".

Definition previousAddedBuilderAction := string.
Definition nonePrevious : previousAddedBuilderAction := "none".
Definition previousIsSelect : previousAddedBuilderAction := "SELECT".
Definition previousIsSelectFrom : previousAddedBuilderAction := "SELECT FROM".
Definition previousIsSelectJoin : previousAddedBuilderAction := "SELECT JOIN".
Definition previousIsSelectWhere : previousAddedBuilderAction := "SELECT WHERE".
Definition previousIsSelectOrderBy : previousAddedBuilderAction := "SELECT ORDER BY".
Definition previousIsSelectOffset : previousAddedBuilderAction := "SELECT OFFSET".
Definition previousIsSelectLimit : previousAddedBuilderAction := "SELECT LIMIT".
Definition previousIsInsertInto : previousAddedBuilderAction := "INSERT INTO".
Definition previousIsInsertIntoValues : previousAddedBuilderAction := "INSERT VALUES".
Definition previousIsInsertIntoOnConflict : previousAddedBuilderAction :=
  "INSERT ON CONFLICT".
Definition previousIsInsertIntoOnConflictDoUpdate : previousAddedBuilderAction :=
  "INSERT ON CONFLICT DO UPDATE".
Definition previousIsInsertIntoOnConflictDoUpdateWhere : previousAddedBuilderAction :=
  "INSERT ON CONFLICT DO UPDATE WHERE".
Definition previousIsInsertIntoOnConflictDoNoThing : previousAddedBuilderAction :=
  "INSERT ON CONFLICT DO NOTHING".

Inductive JoinType : Type := InnerJoin | LeftJoin | RightJoin.

Definition OrderType := bool.
Definition ASC : OrderType := true.
Definition DESC : OrderType := false.

Module Pagination.
Record t : Type := { offset : N; limit : N }.
End Pagination.

(** ** The keyword set (table_metadata.go) *)

Definition predefinedList : list string :=
  [ "count"; "index"; "name"; "type"; "types"; "from"; "to"; "order"; "value";
    "state"; "time"; "left"; "right"; "day"; "local" ].

(** The package-level variable [sqlKeywords] after [init]. *)
Definition initSqlKeywords : gset string := list_to_set predefinedList.

(** [AddSqlKeyword]; [mapRunes] is the case mapping of [strings.ToLower]
    on the strings that are not ASCII. *)
Definition AddSqlKeyword (mapRunes : string -> string) (sqlKeywords : gset string)
    (keyword : string) : gset string :=
  {[ strings.ToLower mapRunes keyword ]} ∪ sqlKeywords.

Definition wrapWithDoubleQuoteIfSqlKeyword (sqlKeywords : gset string) (name : string) : string :=
  if decide (name ∈ sqlKeywords) then dquote +:+ name +:+ dquote else name.

Definition wrapManyWithDoubleQuoteIfSqlKeyword (sqlKeywords : gset string)
    (name : list string) : list string :=
  List.map (wrapWithDoubleQuoteIfSqlKeyword sqlKeywords) name.

(** ** Column metadata *)

Module ResultColumnSelectSpec.
Record t : Type := {
  ToQueryArg : unit -> any;
  OptionalTransform : option (unit -> option string)
}.
End ResultColumnSelectSpec.

(** The type parameter [T] of the Go code is the name of the record type;
    a spec left unset is the nil function. A select spec takes the address of
    the row it fills. *)
Module ColumnMetadata.
Record t : Type := {
  name : string;
  isPk : bool;
  insertSpec : option (any -> any);
  selectSpec : option (nat -> ResultColumnSelectSpec.t)
}.
Definition Name (c : t) : string := name c.
Definition InsertSpec (c : t) : string * option (any -> any) :=
  (name c, insertSpec c).
Definition SelectSpec (c : t) : string * option (nat -> ResultColumnSelectSpec.t) :=
  (name c, selectSpec c).
End ColumnMetadata.

Module ColumnMetadataBuilder.
Record t : Type := { column : ColumnMetadata.t }.
Definition SelectSpec (b : t) (spec : nat -> ResultColumnSelectSpec.t) : t :=
  {| column := {| ColumnMetadata.name := ColumnMetadata.name (column b);
                  ColumnMetadata.isPk := ColumnMetadata.isPk (column b);
                  ColumnMetadata.insertSpec := ColumnMetadata.insertSpec (column b);
                  ColumnMetadata.selectSpec := Some spec |} |}.
Definition InsertSpec (b : t) (spec : any -> any) : t :=
  {| column := {| ColumnMetadata.name := ColumnMetadata.name (column b);
                  ColumnMetadata.isPk := ColumnMetadata.isPk (column b);
                  ColumnMetadata.insertSpec := Some spec;
                  ColumnMetadata.selectSpec := ColumnMetadata.selectSpec (column b) |} |}.
Definition PrimaryKey (b : t) : t :=
  {| column := {| ColumnMetadata.name := ColumnMetadata.name (column b);
                  ColumnMetadata.isPk := true;
                  ColumnMetadata.insertSpec := ColumnMetadata.insertSpec (column b);
                  ColumnMetadata.selectSpec := ColumnMetadata.selectSpec (column b) |} |}.
Definition setName (b : t) (n : string) : t :=
  {| column := {| ColumnMetadata.name := n;
                  ColumnMetadata.isPk := ColumnMetadata.isPk (column b);
                  ColumnMetadata.insertSpec := ColumnMetadata.insertSpec (column b);
                  ColumnMetadata.selectSpec := ColumnMetadata.selectSpec (column b) |} |}.
End ColumnMetadataBuilder.

Definition NewColumnMetadata (name : string) : ColumnMetadataBuilder.t :=
  {| ColumnMetadataBuilder.column :=
       {| ColumnMetadata.name := name; ColumnMetadata.isPk := false;
          ColumnMetadata.insertSpec := None; ColumnMetadata.selectSpec := None |} |}.

(** ** Table metadata (table_metadata.go) *)

(** [a.(T)]: the type assertion to the record type named [T]. *)
Definition assertRecord (T : string) (a : any) : outcome any :=
  match a with
  | AStruct tn _ | ARecordAt tn _ =>
      if String.eqb tn T then Done a
      else Panic ("interface conversion: interface {} is " +:+ tn +:+ ", not " +:+ T)
  | _ => Panic ("interface conversion: interface {} is " +:+ typeString a +:+ ", not " +:+ T)
  end.

Definition nilDereference : string :=
  "runtime error: invalid memory address or nil pointer dereference".

Module TableMetadata.
Record t : Type := {
  recordType : string;
  name : string;
  columns : list ColumnMetadata.t;
  columnsByName : gmap string ColumnMetadata.t
}.

Definition Name (t : t) : string := name t.
Definition Columns (t : t) : list ColumnMetadata.t := columns t.
Definition PrimaryKeyColumns (t : t) : list ColumnMetadata.t :=
  List.filter ColumnMetadata.isPk (columns t).
Definition ColumnsName (t : t) : list string :=
  List.map ColumnMetadata.name (columns t).

Definition MustGetColumnByName (sqlKeywords : gset string) (t : t) (name : string)
    : outcome ColumnMetadata.t :=
  match columnsByName t !! wrapWithDoubleQuoteIfSqlKeyword sqlKeywords name with
  | Some col => Done col
  | None => Panic ("column with name " +:+ name +:+ " not found")
  end.

Definition typeName (t : t) : string := recordType t.

(** [row] is the address of the fresh record [t.NewRow()] the specs fill. *)
Definition selectSpecOfColumns (sqlKeywords : gset string) (t : t) (row : nat)
    (columnsName : list string)
    : outcome ((unit -> any) * list ResultColumnSelectSpec.t) :=
  let columnsName :=
    if Nat.eqb (length columnsName) 0 then ColumnsName t else columnsName in
  columns ← omapM (fun name =>
      let name := wrapWithDoubleQuoteIfSqlKeyword sqlKeywords name in
      col ← MustGetColumnByName sqlKeywords t name;
      match snd (ColumnMetadata.SelectSpec col) with
      | Some selectSpec => Done (selectSpec row)
      | None => Panic nilDereference
      end) columnsName;
  Done (fun _ : unit => ARecordAt (recordType t) row, columns).

Definition insertSpecOfColumns (sqlKeywords : gset string) (t : t)
    (columnsName : list string) : outcome (list (any -> outcome any)) :=
  let columnsName :=
    if Nat.eqb (length columnsName) 0 then ColumnsName t else columnsName in
  omapM (fun name =>
      let name := wrapWithDoubleQuoteIfSqlKeyword sqlKeywords name in
      col ← MustGetColumnByName sqlKeywords t name;
      let insertSpec := snd (ColumnMetadata.InsertSpec col) in
      Done (fun a : any =>
              x ← assertRecord (recordType t) a;
              match insertSpec with
              | Some f => Done (f x)
              | None => Panic nilDereference
              end)) columnsName.
End TableMetadata.

(** The package-level variables. *)
Module Registry.
Record t : Type := {
  registeredTableTypeToName : gmap string string;
  registeredTables : gmap string TableMetadata.t;
  sqlKeywords : gset string
}.
Definition init : t :=
  {| registeredTableTypeToName := ∅; registeredTables := ∅;
     sqlKeywords := initSqlKeywords |}.
Definition addKeyword (mapRunes : string -> string) (g : t) (keyword : string) : t :=
  {| registeredTableTypeToName := registeredTableTypeToName g;
     registeredTables := registeredTables g;
     sqlKeywords := AddSqlKeyword mapRunes (sqlKeywords g) keyword |}.
End Registry.

Definition GetTableMetadata (g : Registry.t) (T : string) : outcome TableMetadata.t :=
  match Registry.registeredTableTypeToName g !! T with
  | Some name =>
      match Registry.registeredTables g !! name with
      | Some tm =>
          if String.eqb (TableMetadata.recordType tm) T then Done tm
          else Panic ("interface conversion: interface {} is TableMetadata["
                      +:+ TableMetadata.recordType tm +:+ "], not TableMetadata[" +:+ T +:+ "]")
      | None => Panic ("interface conversion: interface {} is nil, not TableMetadata["
                       +:+ T +:+ "]")
      end
  | None => Panic ("table for type " +:+ T +:+ " is not registered")
  end.

Definition GetRegisteredTablesName (g : Registry.t) : list string :=
  List.map fst (map_to_list (Registry.registeredTables g)).

Module TableMetadataBuildOption.
Record t : Type := { ExpectedPkColumns : list string }.
End TableMetadataBuildOption.

(** [sort.Strings] and [reflect.DeepEqual] on two non-nil string slices. *)
Definition sortStrings (l : list string) : list string := merge_sort String.le l.
Definition deepEqualStrings (a b : list string) : bool := bool_decide (a = b).

Module TableMetadataBuilder.
Record t : Type := {
  recordType : string;
  name : string;
  columns : list ColumnMetadataBuilder.t
}.

Definition AddColumns (sqlKeywords : gset string) (b : t)
    (columns' : list ColumnMetadataBuilder.t) : t :=
  List.fold_left (fun b cb =>
      let column := ColumnMetadataBuilder.column cb in
      let cb := ColumnMetadataBuilder.setName cb
                  (wrapWithDoubleQuoteIfSqlKeyword sqlKeywords
                     (strings.TrimSpace (ColumnMetadata.name column))) in
      {| recordType := recordType b; name := name b;
         columns := columns b ++ [cb] |}) columns' b.

(** The loop of [Build] over the added columns: the columns in order, the
    map by name and the names of the primary-key columns. *)
Fixpoint collectColumns (cols : list ColumnMetadataBuilder.t)
    (columns : list ColumnMetadata.t) (columnsByName : gmap string ColumnMetadata.t)
    (pkColumnsName : list string)
    : outcome (list ColumnMetadata.t * gmap string ColumnMetadata.t * list string) :=
  match cols with
  | [] => Done (columns, columnsByName, pkColumnsName)
  | col :: cols' =>
      let c := ColumnMetadataBuilder.column col in
      match columnsByName !! ColumnMetadata.name c with
      | Some _ =>
          Panic ("column with name " +:+ ColumnMetadata.name c +:+ " is already added")
      | None =>
          collectColumns cols' (columns ++ [c])
            (<[ColumnMetadata.name c := c]> columnsByName)
            (if ColumnMetadata.isPk c then pkColumnsName ++ [ColumnMetadata.name c]
             else pkColumnsName)
      end
  end.

Definition Build (g : Registry.t) (b : t) (opt : TableMetadataBuildOption.t)
    : outcome (TableMetadata.t * Registry.t) :=
  '(columns, columnsByName, pkColumnsName) ← collectColumns (columns b) [] ∅ [];
  let expected :=
    wrapManyWithDoubleQuoteIfSqlKeyword (Registry.sqlKeywords g)
      (TableMetadataBuildOption.ExpectedPkColumns opt) in
  let pkColumnsName := sortStrings pkColumnsName in
  let expected := sortStrings expected in
  if negb (deepEqualStrings pkColumnsName expected) then
    Panic ("expected primary keys [" +:+ strings.Join expected ", " +:+ "] for table "
           +:+ name b +:+ ", but got [" +:+ strings.Join pkColumnsName ", " +:+ "]")
  else
    let tableMetadata :=
      {| TableMetadata.recordType := recordType b;
         TableMetadata.name := name b;
         TableMetadata.columns := columns;
         TableMetadata.columnsByName := columnsByName |} in
    let typeName := recordType b in
    match Registry.registeredTableTypeToName g !! typeName with
    | Some _ => Panic ("table for type " +:+ typeName +:+ " is already registered")
    | None =>
        Done (tableMetadata,
              {| Registry.registeredTableTypeToName :=
                   <[typeName := name b]> (Registry.registeredTableTypeToName g);
                 Registry.registeredTables :=
                   <[name b := tableMetadata]> (Registry.registeredTables g);
                 Registry.sqlKeywords := Registry.sqlKeywords g |})
    end.
End TableMetadataBuilder.

Definition NewTableMetadata (T : string) (name : string) : TableMetadataBuilder.t :=
  {| TableMetadataBuilder.recordType := T; TableMetadataBuilder.name := name;
     TableMetadataBuilder.columns := [] |}.

(** ** Tables in use (use_table.go) and columns in use *)

Module TableToUse.
Record t : Type := {
  uid : Z;
  sealed : bool;
  metadata : TableMetadata.t;
  name : string;
  alias : string
}.

Definition mustNotSealed (t : t) : outcome unit :=
  if sealed t then
    Panic ("table " +:+ TableMetadata.name (metadata t) +:+ " is sealed")
  else Done tt.

Definition mustSealed (t : t) : outcome unit :=
  if negb (sealed t) then
    Panic ("table " +:+ TableMetadata.name (metadata t) +:+ " is must be sealed")
  else Done tt.

(** [name'] alters the table name, for partitioned tables. *)
Definition As (t : t) (name' : string) : outcome TableToUse.t :=
  _ ← mustNotSealed t;
  if String.eqb name' "" then Panic "name cannot be empty"
  else if negb (String.eqb (name t) (TableMetadata.name (metadata t))) then
    Panic "name already set"
  else Done {| uid := uid t; sealed := sealed t; metadata := metadata t;
               name := name'; alias := alias t |}.

Definition Alias (t : t) (alias' : string) : outcome TableToUse.t :=
  _ ← mustNotSealed t;
  if String.eqb alias' "" then Panic "alias cannot be empty"
  else if negb (String.eqb (alias t) (TableMetadata.name (metadata t))) then
    Panic "alias already set"
  else Done {| uid := uid t; sealed := sealed t; metadata := metadata t;
               name := name t; alias := alias' |}.

(** [Seal]. The Go method sets [sealed] before it checks the name and the
    alias. A table is a value here and the outcome of a panic carries none:
    [Seal] speaks of the table it returns; after a panic the Go table is
    left sealed. *)
Definition Seal (t : t) : outcome TableToUse.t :=
  if Nat.eqb (String.length (name t)) 0 then Panic "name must be set"
  else if Nat.eqb (String.length (alias t)) 0 then Panic "alias must be set"
  else Done {| uid := uid t; sealed := true; metadata := metadata t;
               name := name t; alias := alias t |}.

Definition Metadata (t : t) : TableMetadata.t := metadata t.
Definition uniqueIdentity (t : t) : Z := uid t.
Definition tableName (t : t) : string := name t.
Definition tableAlias (t : t) : string := alias t.
Definition genericTableMeta (t : t) : TableMetadata.t := metadata t.
End TableToUse.

(** [UseTable[T]()]; [uid] is the value drawn by [rand.Int64()]. *)
Definition UseTable (g : Registry.t) (T : string) (uid : Z) : outcome TableToUse.t :=
  metadata ← GetTableMetadata g T;
  Done {| TableToUse.uid := uid; TableToUse.sealed := false;
          TableToUse.metadata := metadata;
          TableToUse.name := TableMetadata.name metadata;
          TableToUse.alias := TableMetadata.name metadata |}.

Module GenericColumnToUse.
Record t : Type := {
  name : string;
  isPk : bool;
  table : TableToUse.t
}.

Definition nameWithAlias (c : t) : string :=
  TableToUse.tableAlias (table c) +:+ "." +:+ name c.
Definition NameOnly (c : t) : string := name c.
Definition NameWithTableName (c : t) : string :=
  TableMetadata.Name (TableToUse.genericTableMeta (table c)) +:+ "." +:+ name c.
Definition Excluded (c : t) : string := "excluded." +:+ name c.
Definition FromExcluded (c : t) : string := name c +:+ " = " +:+ Excluded c.
Definition FromCoalesceWithExcluded (c : t) : string :=
  name c +:+ " = COALESCE(" +:+ NameWithTableName c +:+ ", " +:+ Excluded c +:+ ")".
Definition EqualsToCurrent (c : t) : string :=
  name c +:+ " = " +:+ NameWithTableName c.
Definition Greatest (c : t) : string :=
  name c +:+ " = GREATEST(" +:+ NameWithTableName c +:+ ", " +:+ Excluded c +:+ ")".
Definition Least (c : t) : string :=
  name c +:+ " = LEAST(" +:+ NameWithTableName c +:+ ", " +:+ Excluded c +:+ ")".
End GenericColumnToUse.

Definition newGenericColumnToUse (column : ColumnMetadata.t) (table : TableToUse.t)
    : GenericColumnToUse.t :=
  {| GenericColumnToUse.name := ColumnMetadata.Name column;
     GenericColumnToUse.isPk := ColumnMetadata.isPk column;
     GenericColumnToUse.table := table |}.

(** [TableToUse.Columns]: the columns of the given names, all when none is given. *)
Definition Columns (sqlKeywords : gset string) (t : TableToUse.t)
    (columns : list string) : outcome (list GenericColumnToUse.t) :=
  _ ← TableToUse.mustSealed t;
  let columns :=
    if Nat.eqb (length columns) 0
    then TableMetadata.ColumnsName (TableToUse.metadata t) else columns in
  omapM (fun column =>
      col ← TableMetadata.MustGetColumnByName sqlKeywords (TableToUse.metadata t) column;
      Done (newGenericColumnToUse col t)) columns.

Definition Column (sqlKeywords : gset string) (t : TableToUse.t) (column : string)
    : outcome GenericColumnToUse.t :=
  uc ← Columns sqlKeywords t [column];
  match uc with
  | c :: _ => Done c
  | [] => Panic "runtime error: index out of range [0] with length 0"
  end.

Definition Col := Column.

Definition ColumnsExcept (sqlKeywords : gset string) (t : TableToUse.t)
    (exceptColumns : list string) : outcome (list GenericColumnToUse.t) :=
  _ ← TableToUse.mustSealed t;
  if Nat.eqb (length exceptColumns) 0 then Panic "no columns to exclude"
  else
    let trackerExcept : gset string :=
      list_to_set (List.map (wrapWithDoubleQuoteIfSqlKeyword sqlKeywords) exceptColumns) in
    let columns :=
      List.filter (fun columnName => negb (bool_decide (columnName ∈ trackerExcept)))
        (TableMetadata.ColumnsName (TableToUse.metadata t)) in
    Columns sqlKeywords t columns.

Definition PrimaryKeyColumns (sqlKeywords : gset string) (t : TableToUse.t)
    : outcome (list GenericColumnToUse.t) :=
  let columns := TableMetadata.PrimaryKeyColumns (TableToUse.metadata t) in
  if Nat.eqb (length columns) 0 then Panic "no primary key found"
  else omapM (fun column => Col sqlKeywords t (ColumnMetadata.name column)) columns.

Definition allColumns (t : TableToUse.t) : list GenericColumnToUse.t :=
  List.map (fun col => newGenericColumnToUse col t)
    (TableMetadata.columns (TableToUse.metadata t)).

(** ** The builder (builder.go) *)

Module joinOn.
Record t : Type := {
  joinType : JoinType;
  joinOnTable : TableToUse.t;
  joinOnColumns : list GenericColumnToUse.t
}.
End joinOn.

Module orderBy.
Record t : Type := { column : GenericColumnToUse.t; asc : bool }.
End orderBy.

(** An element of a token list of type [[]any]: a column in use, or any
    other value. *)
Inductive token : Type :=
  | TokColumn (c : GenericColumnToUse.t)
  | TokAny (v : any).


(** The builder; [insertIntoTable] is nil until [InsertInto] sets it. *)
Module SqlBuilder.
Record t : Type := {
  _type : sqlBuilderType;
  previousAction : previousAddedBuilderAction;
  aliasToTableUniqueId : gmap string Z;
  tableUniqueIdToAlias : gmap Z string;
  selectType : selectType;
  selectColumns : list GenericColumnToUse.t;
  selectFromTable : list TableToUse.t;
  joinsOn : list joinOn.t;
  whereTokens : list token;
  whereArgs : list any;
  orders : list orderBy.t;
  offset : N;
  limit : N;
  insertIntoTable : option TableToUse.t;
  insertColumns : list GenericColumnToUse.t;
  insertValues : list any;
  insertOnConflictKeys : list GenericColumnToUse.t;
  insertOnConflictDoUpdateTokens : list token;
  insertOnConflictDoUpdateWhereTokens : list token;
  insertOnConflictDoNothing : bool
}.

Definition set__type v (b : t) : t :=
  {| _type := v;
     previousAction := previousAction b;
     aliasToTableUniqueId := aliasToTableUniqueId b;
     tableUniqueIdToAlias := tableUniqueIdToAlias b;
     selectType := selectType b;
     selectColumns := selectColumns b;
     selectFromTable := selectFromTable b;
     joinsOn := joinsOn b;
     whereTokens := whereTokens b;
     whereArgs := whereArgs b;
     orders := orders b;
     offset := offset b;
     limit := limit b;
     insertIntoTable := insertIntoTable b;
     insertColumns := insertColumns b;
     insertValues := insertValues b;
     insertOnConflictKeys := insertOnConflictKeys b;
     insertOnConflictDoUpdateTokens := insertOnConflictDoUpdateTokens b;
     insertOnConflictDoUpdateWhereTokens := insertOnConflictDoUpdateWhereTokens b;
     insertOnConflictDoNothing := insertOnConflictDoNothing b |}.

Definition set_previousAction v (b : t) : t :=
  {| _type := _type b;
     previousAction := v;
     aliasToTableUniqueId := aliasToTableUniqueId b;
     tableUniqueIdToAlias := tableUniqueIdToAlias b;
     selectType := selectType b;
     selectColumns := selectColumns b;
     selectFromTable := selectFromTable b;
     joinsOn := joinsOn b;
     whereTokens := whereTokens b;
     whereArgs := whereArgs b;
     orders := orders b;
     offset := offset b;
     limit := limit b;
     insertIntoTable := insertIntoTable b;
     insertColumns := insertColumns b;
     insertValues := insertValues b;
     insertOnConflictKeys := insertOnConflictKeys b;
     insertOnConflictDoUpdateTokens := insertOnConflictDoUpdateTokens b;
     insertOnConflictDoUpdateWhereTokens := insertOnConflictDoUpdateWhereTokens b;
     insertOnConflictDoNothing := insertOnConflictDoNothing b |}.

Definition set_aliasToTableUniqueId v (b : t) : t :=
  {| _type := _type b;
     previousAction := previousAction b;
     aliasToTableUniqueId := v;
     tableUniqueIdToAlias := tableUniqueIdToAlias b;
     selectType := selectType b;
     selectColumns := selectColumns b;
     selectFromTable := selectFromTable b;
     joinsOn := joinsOn b;
     whereTokens := whereTokens b;
     whereArgs := whereArgs b;
     orders := orders b;
     offset := offset b;
     limit := limit b;
     insertIntoTable := insertIntoTable b;
     insertColumns := insertColumns b;
     insertValues := insertValues b;
     insertOnConflictKeys := insertOnConflictKeys b;
     insertOnConflictDoUpdateTokens := insertOnConflictDoUpdateTokens b;
     insertOnConflictDoUpdateWhereTokens := insertOnConflictDoUpdateWhereTokens b;
     insertOnConflictDoNothing := insertOnConflictDoNothing b |}.

Definition set_tableUniqueIdToAlias v (b : t) : t :=
  {| _type := _type b;
     previousAction := previousAction b;
     aliasToTableUniqueId := aliasToTableUniqueId b;
     tableUniqueIdToAlias := v;
     selectType := selectType b;
     selectColumns := selectColumns b;
     selectFromTable := selectFromTable b;
     joinsOn := joinsOn b;
     whereTokens := whereTokens b;
     whereArgs := whereArgs b;
     orders := orders b;
     offset := offset b;
     limit := limit b;
     insertIntoTable := insertIntoTable b;
     insertColumns := insertColumns b;
     insertValues := insertValues b;
     insertOnConflictKeys := insertOnConflictKeys b;
     insertOnConflictDoUpdateTokens := insertOnConflictDoUpdateTokens b;
     insertOnConflictDoUpdateWhereTokens := insertOnConflictDoUpdateWhereTokens b;
     insertOnConflictDoNothing := insertOnConflictDoNothing b |}.

Definition set_selectType v (b : t) : t :=
  {| _type := _type b;
     previousAction := previousAction b;
     aliasToTableUniqueId := aliasToTableUniqueId b;
     tableUniqueIdToAlias := tableUniqueIdToAlias b;
     selectType := v;
     selectColumns := selectColumns b;
     selectFromTable := selectFromTable b;
     joinsOn := joinsOn b;
     whereTokens := whereTokens b;
     whereArgs := whereArgs b;
     orders := orders b;
     offset := offset b;
     limit := limit b;
     insertIntoTable := insertIntoTable b;
     insertColumns := insertColumns b;
     insertValues := insertValues b;
     insertOnConflictKeys := insertOnConflictKeys b;
     insertOnConflictDoUpdateTokens := insertOnConflictDoUpdateTokens b;
     insertOnConflictDoUpdateWhereTokens := insertOnConflictDoUpdateWhereTokens b;
     insertOnConflictDoNothing := insertOnConflictDoNothing b |}.

Definition set_selectColumns v (b : t) : t :=
  {| _type := _type b;
     previousAction := previousAction b;
     aliasToTableUniqueId := aliasToTableUniqueId b;
     tableUniqueIdToAlias := tableUniqueIdToAlias b;
     selectType := selectType b;
     selectColumns := v;
     selectFromTable := selectFromTable b;
     joinsOn := joinsOn b;
     whereTokens := whereTokens b;
     whereArgs := whereArgs b;
     orders := orders b;
     offset := offset b;
     limit := limit b;
     insertIntoTable := insertIntoTable b;
     insertColumns := insertColumns b;
     insertValues := insertValues b;
     insertOnConflictKeys := insertOnConflictKeys b;
     insertOnConflictDoUpdateTokens := insertOnConflictDoUpdateTokens b;
     insertOnConflictDoUpdateWhereTokens := insertOnConflictDoUpdateWhereTokens b;
     insertOnConflictDoNothing := insertOnConflictDoNothing b |}.

Definition set_selectFromTable v (b : t) : t :=
  {| _type := _type b;
     previousAction := previousAction b;
     aliasToTableUniqueId := aliasToTableUniqueId b;
     tableUniqueIdToAlias := tableUniqueIdToAlias b;
     selectType := selectType b;
     selectColumns := selectColumns b;
     selectFromTable := v;
     joinsOn := joinsOn b;
     whereTokens := whereTokens b;
     whereArgs := whereArgs b;
     orders := orders b;
     offset := offset b;
     limit := limit b;
     insertIntoTable := insertIntoTable b;
     insertColumns := insertColumns b;
     insertValues := insertValues b;
     insertOnConflictKeys := insertOnConflictKeys b;
     insertOnConflictDoUpdateTokens := insertOnConflictDoUpdateTokens b;
     insertOnConflictDoUpdateWhereTokens := insertOnConflictDoUpdateWhereTokens b;
     insertOnConflictDoNothing := insertOnConflictDoNothing b |}.

Definition set_joinsOn v (b : t) : t :=
  {| _type := _type b;
     previousAction := previousAction b;
     aliasToTableUniqueId := aliasToTableUniqueId b;
     tableUniqueIdToAlias := tableUniqueIdToAlias b;
     selectType := selectType b;
     selectColumns := selectColumns b;
     selectFromTable := selectFromTable b;
     joinsOn := v;
     whereTokens := whereTokens b;
     whereArgs := whereArgs b;
     orders := orders b;
     offset := offset b;
     limit := limit b;
     insertIntoTable := insertIntoTable b;
     insertColumns := insertColumns b;
     insertValues := insertValues b;
     insertOnConflictKeys := insertOnConflictKeys b;
     insertOnConflictDoUpdateTokens := insertOnConflictDoUpdateTokens b;
     insertOnConflictDoUpdateWhereTokens := insertOnConflictDoUpdateWhereTokens b;
     insertOnConflictDoNothing := insertOnConflictDoNothing b |}.

Definition set_whereTokens v (b : t) : t :=
  {| _type := _type b;
     previousAction := previousAction b;
     aliasToTableUniqueId := aliasToTableUniqueId b;
     tableUniqueIdToAlias := tableUniqueIdToAlias b;
     selectType := selectType b;
     selectColumns := selectColumns b;
     selectFromTable := selectFromTable b;
     joinsOn := joinsOn b;
     whereTokens := v;
     whereArgs := whereArgs b;
     orders := orders b;
     offset := offset b;
     limit := limit b;
     insertIntoTable := insertIntoTable b;
     insertColumns := insertColumns b;
     insertValues := insertValues b;
     insertOnConflictKeys := insertOnConflictKeys b;
     insertOnConflictDoUpdateTokens := insertOnConflictDoUpdateTokens b;
     insertOnConflictDoUpdateWhereTokens := insertOnConflictDoUpdateWhereTokens b;
     insertOnConflictDoNothing := insertOnConflictDoNothing b |}.

Definition set_whereArgs v (b : t) : t :=
  {| _type := _type b;
     previousAction := previousAction b;
     aliasToTableUniqueId := aliasToTableUniqueId b;
     tableUniqueIdToAlias := tableUniqueIdToAlias b;
     selectType := selectType b;
     selectColumns := selectColumns b;
     selectFromTable := selectFromTable b;
     joinsOn := joinsOn b;
     whereTokens := whereTokens b;
     whereArgs := v;
     orders := orders b;
     offset := offset b;
     limit := limit b;
     insertIntoTable := insertIntoTable b;
     insertColumns := insertColumns b;
     insertValues := insertValues b;
     insertOnConflictKeys := insertOnConflictKeys b;
     insertOnConflictDoUpdateTokens := insertOnConflictDoUpdateTokens b;
     insertOnConflictDoUpdateWhereTokens := insertOnConflictDoUpdateWhereTokens b;
     insertOnConflictDoNothing := insertOnConflictDoNothing b |}.

Definition set_orders v (b : t) : t :=
  {| _type := _type b;
     previousAction := previousAction b;
     aliasToTableUniqueId := aliasToTableUniqueId b;
     tableUniqueIdToAlias := tableUniqueIdToAlias b;
     selectType := selectType b;
     selectColumns := selectColumns b;
     selectFromTable := selectFromTable b;
     joinsOn := joinsOn b;
     whereTokens := whereTokens b;
     whereArgs := whereArgs b;
     orders := v;
     offset := offset b;
     limit := limit b;
     insertIntoTable := insertIntoTable b;
     insertColumns := insertColumns b;
     insertValues := insertValues b;
     insertOnConflictKeys := insertOnConflictKeys b;
     insertOnConflictDoUpdateTokens := insertOnConflictDoUpdateTokens b;
     insertOnConflictDoUpdateWhereTokens := insertOnConflictDoUpdateWhereTokens b;
     insertOnConflictDoNothing := insertOnConflictDoNothing b |}.

Definition set_offset v (b : t) : t :=
  {| _type := _type b;
     previousAction := previousAction b;
     aliasToTableUniqueId := aliasToTableUniqueId b;
     tableUniqueIdToAlias := tableUniqueIdToAlias b;
     selectType := selectType b;
     selectColumns := selectColumns b;
     selectFromTable := selectFromTable b;
     joinsOn := joinsOn b;
     whereTokens := whereTokens b;
     whereArgs := whereArgs b;
     orders := orders b;
     offset := v;
     limit := limit b;
     insertIntoTable := insertIntoTable b;
     insertColumns := insertColumns b;
     insertValues := insertValues b;
     insertOnConflictKeys := insertOnConflictKeys b;
     insertOnConflictDoUpdateTokens := insertOnConflictDoUpdateTokens b;
     insertOnConflictDoUpdateWhereTokens := insertOnConflictDoUpdateWhereTokens b;
     insertOnConflictDoNothing := insertOnConflictDoNothing b |}.

Definition set_limit v (b : t) : t :=
  {| _type := _type b;
     previousAction := previousAction b;
     aliasToTableUniqueId := aliasToTableUniqueId b;
     tableUniqueIdToAlias := tableUniqueIdToAlias b;
     selectType := selectType b;
     selectColumns := selectColumns b;
     selectFromTable := selectFromTable b;
     joinsOn := joinsOn b;
     whereTokens := whereTokens b;
     whereArgs := whereArgs b;
     orders := orders b;
     offset := offset b;
     limit := v;
     insertIntoTable := insertIntoTable b;
     insertColumns := insertColumns b;
     insertValues := insertValues b;
     insertOnConflictKeys := insertOnConflictKeys b;
     insertOnConflictDoUpdateTokens := insertOnConflictDoUpdateTokens b;
     insertOnConflictDoUpdateWhereTokens := insertOnConflictDoUpdateWhereTokens b;
     insertOnConflictDoNothing := insertOnConflictDoNothing b |}.

Definition set_insertIntoTable v (b : t) : t :=
  {| _type := _type b;
     previousAction := previousAction b;
     aliasToTableUniqueId := aliasToTableUniqueId b;
     tableUniqueIdToAlias := tableUniqueIdToAlias b;
     selectType := selectType b;
     selectColumns := selectColumns b;
     selectFromTable := selectFromTable b;
     joinsOn := joinsOn b;
     whereTokens := whereTokens b;
     whereArgs := whereArgs b;
     orders := orders b;
     offset := offset b;
     limit := limit b;
     insertIntoTable := v;
     insertColumns := insertColumns b;
     insertValues := insertValues b;
     insertOnConflictKeys := insertOnConflictKeys b;
     insertOnConflictDoUpdateTokens := insertOnConflictDoUpdateTokens b;
     insertOnConflictDoUpdateWhereTokens := insertOnConflictDoUpdateWhereTokens b;
     insertOnConflictDoNothing := insertOnConflictDoNothing b |}.

Definition set_insertColumns v (b : t) : t :=
  {| _type := _type b;
     previousAction := previousAction b;
     aliasToTableUniqueId := aliasToTableUniqueId b;
     tableUniqueIdToAlias := tableUniqueIdToAlias b;
     selectType := selectType b;
     selectColumns := selectColumns b;
     selectFromTable := selectFromTable b;
     joinsOn := joinsOn b;
     whereTokens := whereTokens b;
     whereArgs := whereArgs b;
     orders := orders b;
     offset := offset b;
     limit := limit b;
     insertIntoTable := insertIntoTable b;
     insertColumns := v;
     insertValues := insertValues b;
     insertOnConflictKeys := insertOnConflictKeys b;
     insertOnConflictDoUpdateTokens := insertOnConflictDoUpdateTokens b;
     insertOnConflictDoUpdateWhereTokens := insertOnConflictDoUpdateWhereTokens b;
     insertOnConflictDoNothing := insertOnConflictDoNothing b |}.

Definition set_insertValues v (b : t) : t :=
  {| _type := _type b;
     previousAction := previousAction b;
     aliasToTableUniqueId := aliasToTableUniqueId b;
     tableUniqueIdToAlias := tableUniqueIdToAlias b;
     selectType := selectType b;
     selectColumns := selectColumns b;
     selectFromTable := selectFromTable b;
     joinsOn := joinsOn b;
     whereTokens := whereTokens b;
     whereArgs := whereArgs b;
     orders := orders b;
     offset := offset b;
     limit := limit b;
     insertIntoTable := insertIntoTable b;
     insertColumns := insertColumns b;
     insertValues := v;
     insertOnConflictKeys := insertOnConflictKeys b;
     insertOnConflictDoUpdateTokens := insertOnConflictDoUpdateTokens b;
     insertOnConflictDoUpdateWhereTokens := insertOnConflictDoUpdateWhereTokens b;
     insertOnConflictDoNothing := insertOnConflictDoNothing b |}.

Definition set_insertOnConflictKeys v (b : t) : t :=
  {| _type := _type b;
     previousAction := previousAction b;
     aliasToTableUniqueId := aliasToTableUniqueId b;
     tableUniqueIdToAlias := tableUniqueIdToAlias b;
     selectType := selectType b;
     selectColumns := selectColumns b;
     selectFromTable := selectFromTable b;
     joinsOn := joinsOn b;
     whereTokens := whereTokens b;
     whereArgs := whereArgs b;
     orders := orders b;
     offset := offset b;
     limit := limit b;
     insertIntoTable := insertIntoTable b;
     insertColumns := insertColumns b;
     insertValues := insertValues b;
     insertOnConflictKeys := v;
     insertOnConflictDoUpdateTokens := insertOnConflictDoUpdateTokens b;
     insertOnConflictDoUpdateWhereTokens := insertOnConflictDoUpdateWhereTokens b;
     insertOnConflictDoNothing := insertOnConflictDoNothing b |}.

Definition set_insertOnConflictDoUpdateTokens v (b : t) : t :=
  {| _type := _type b;
     previousAction := previousAction b;
     aliasToTableUniqueId := aliasToTableUniqueId b;
     tableUniqueIdToAlias := tableUniqueIdToAlias b;
     selectType := selectType b;
     selectColumns := selectColumns b;
     selectFromTable := selectFromTable b;
     joinsOn := joinsOn b;
     whereTokens := whereTokens b;
     whereArgs := whereArgs b;
     orders := orders b;
     offset := offset b;
     limit := limit b;
     insertIntoTable := insertIntoTable b;
     insertColumns := insertColumns b;
     insertValues := insertValues b;
     insertOnConflictKeys := insertOnConflictKeys b;
     insertOnConflictDoUpdateTokens := v;
     insertOnConflictDoUpdateWhereTokens := insertOnConflictDoUpdateWhereTokens b;
     insertOnConflictDoNothing := insertOnConflictDoNothing b |}.

Definition set_insertOnConflictDoUpdateWhereTokens v (b : t) : t :=
  {| _type := _type b;
     previousAction := previousAction b;
     aliasToTableUniqueId := aliasToTableUniqueId b;
     tableUniqueIdToAlias := tableUniqueIdToAlias b;
     selectType := selectType b;
     selectColumns := selectColumns b;
     selectFromTable := selectFromTable b;
     joinsOn := joinsOn b;
     whereTokens := whereTokens b;
     whereArgs := whereArgs b;
     orders := orders b;
     offset := offset b;
     limit := limit b;
     insertIntoTable := insertIntoTable b;
     insertColumns := insertColumns b;
     insertValues := insertValues b;
     insertOnConflictKeys := insertOnConflictKeys b;
     insertOnConflictDoUpdateTokens := insertOnConflictDoUpdateTokens b;
     insertOnConflictDoUpdateWhereTokens := v;
     insertOnConflictDoNothing := insertOnConflictDoNothing b |}.

Definition set_insertOnConflictDoNothing v (b : t) : t :=
  {| _type := _type b;
     previousAction := previousAction b;
     aliasToTableUniqueId := aliasToTableUniqueId b;
     tableUniqueIdToAlias := tableUniqueIdToAlias b;
     selectType := selectType b;
     selectColumns := selectColumns b;
     selectFromTable := selectFromTable b;
     joinsOn := joinsOn b;
     whereTokens := whereTokens b;
     whereArgs := whereArgs b;
     orders := orders b;
     offset := offset b;
     limit := limit b;
     insertIntoTable := insertIntoTable b;
     insertColumns := insertColumns b;
     insertValues := insertValues b;
     insertOnConflictKeys := insertOnConflictKeys b;
     insertOnConflictDoUpdateTokens := insertOnConflictDoUpdateTokens b;
     insertOnConflictDoUpdateWhereTokens := insertOnConflictDoUpdateWhereTokens b;
     insertOnConflictDoNothing := v |}.

End SqlBuilder.

(** A call on a builder returns, or panics, and in both cases leaves the
    builder (which the Go code holds by pointer) as it was at that moment. *)
Inductive result (A : Type) : Type :=
  | Ok (a : A) (b : SqlBuilder.t)
  | Panicked (msg : string) (b : SqlBuilder.t).
Arguments Ok {A} a b.
Arguments Panicked {A} msg b.

Definition B (A : Type) : Type := SqlBuilder.t -> result A.

Definition retB {A} (a : A) : B A := fun b => Ok a b.
Definition bindB {A C} (m : B A) (k : A -> B C) : B C :=
  fun b => match m b with
           | Ok a b' => k a b'
           | Panicked msg b' => Panicked msg b'
           end.
#[global] Instance B_ret : MRet B := @retB.
#[global] Instance B_bind : MBind B := fun _ _ k m => bindB m k.

Definition panic {A} (msg : string) : B A := fun b => Panicked msg b.
Definition modify (f : SqlBuilder.t -> SqlBuilder.t) : B unit := fun b => Ok tt (f b).
Definition get : B SqlBuilder.t := fun b => Ok b b.
Definition lift {A} (o : outcome A) : B A :=
  fun b => match o with Done a => Ok a b | Panic msg => Panicked msg b end.

(** [defer d; body]: [d] runs when [body] returns and when it panics. *)
Definition defer {A} (d : SqlBuilder.t -> SqlBuilder.t) (body : B A) : B A :=
  fun b => match body b with
           | Ok a b' => Ok a (d b')
           | Panicked msg b' => Panicked msg (d b')
           end.

Fixpoint forEach {A} (l : list A) (f : A -> B unit) : B unit :=
  match l with
  | [] => retB tt
  | x :: l' => bindB (f x) (fun _ => forEach l' f)
  end.

(** The builder after a call, whichever way it ended. *)
Definition builderOf {A} (r : result A) : SqlBuilder.t :=
  match r with Ok _ b => b | Panicked _ b => b end.

Definition newSqlBuilder : SqlBuilder.t :=
  {| SqlBuilder._type := sqlBuilderTypeSelect;
     SqlBuilder.previousAction := nonePrevious;
     SqlBuilder.aliasToTableUniqueId := ∅;
     SqlBuilder.tableUniqueIdToAlias := ∅;
     SqlBuilder.selectType := notSelectTypeBasic;
     SqlBuilder.selectColumns := [];
     SqlBuilder.selectFromTable := [];
     SqlBuilder.joinsOn := [];
     SqlBuilder.whereTokens := [];
     SqlBuilder.whereArgs := [];
     SqlBuilder.orders := [];
     SqlBuilder.offset := 0%N;
     SqlBuilder.limit := 0%N;
     SqlBuilder.insertIntoTable := None;
     SqlBuilder.insertColumns := [];
     SqlBuilder.insertValues := [];
     SqlBuilder.insertOnConflictKeys := [];
     SqlBuilder.insertOnConflictDoUpdateTokens := [];
     SqlBuilder.insertOnConflictDoUpdateWhereTokens := [];
     SqlBuilder.insertOnConflictDoNothing := false |}.

(** [registerUsingTable] validates and registers the table in use. *)
Definition registerUsingTable (use : TableToUse.t) : B unit :=
  _ ← lift (TableToUse.mustSealed use);
  let alias := TableToUse.tableAlias use in
  let uid := TableToUse.uniqueIdentity use in
  b ← get;
  match SqlBuilder.aliasToTableUniqueId b !! alias with
  | Some byTableUid =>
      if negb (Z.eqb byTableUid uid) then
        panic ("alias " +:+ alias +:+ " already used by table (alias): "
               +:+ default "" (SqlBuilder.tableUniqueIdToAlias b !! byTableUid))
      else retB tt
  | None => retB tt
  end;;
  modify (fun b =>
    SqlBuilder.set_tableUniqueIdToAlias (<[uid := alias]> (SqlBuilder.tableUniqueIdToAlias b))
      (SqlBuilder.set_aliasToTableUniqueId
         (<[alias := uid]> (SqlBuilder.aliasToTableUniqueId b)) b)).

(** [mustPreviousAction] checks that the previous action is an expected one. *)
Definition mustPreviousAction (expected : list previousAddedBuilderAction) : B unit :=
  b ← get;
  let matchAny := List.existsb (String.eqb (SqlBuilder.previousAction b)) expected in
  if negb matchAny then
    match expected with
    | [e] =>
        panic ("unexpected previous action " +:+ SqlBuilder.previousAction b
               +:+ ", expected " +:+ e)
    | _ =>
        panic ("unexpected previous action " +:+ SqlBuilder.previousAction b
               +:+ ", expected any of [" +:+ strings.Join expected "," +:+ "]")
    end
  else retB tt.

Definition setPreviousAction (a : previousAddedBuilderAction) (b : SqlBuilder.t)
    : SqlBuilder.t :=
  SqlBuilder.set_previousAction a b.

Definition mustTypeSelect : B unit :=
  b ← get;
  if negb (String.eqb (SqlBuilder._type b) sqlBuilderTypeSelect) then
    panic ("only " +:+ sqlBuilderTypeSelect +:+ " is supported, got " +:+ SqlBuilder._type b)
  else retB tt.

Definition mustSelectType (_type : selectType) : B unit :=
  mustTypeSelect;;
  b ← get;
  if negb (String.eqb (SqlBuilder.selectType b) _type) then
    panic ("only " +:+ _type +:+ " is supported by this operation, got "
           +:+ SqlBuilder.selectType b)
  else retB tt.

Definition mustBasicSelect : B unit := mustSelectType selectTypeBasic.
Definition mustSelectExists : B unit := mustSelectType selectTypeExists.
Definition mustSelectCount : B unit := mustSelectType selectTypeCount.

Definition mustTypeInsert : B unit :=
  b ← get;
  if negb (String.eqb (SqlBuilder._type b) sqlBuilderTypeInsert) then
    panic ("only " +:+ sqlBuilderTypeInsert +:+ " is supported, got " +:+ SqlBuilder._type b)
  else retB tt.

(** *** The fluent calls *)

Module Builder.

(** [Select] adds more columns to the SELECT statement. *)
Definition Select (columns : list GenericColumnToUse.t) : B unit :=
  mustTypeSelect;;
  mustBasicSelect;;
  mustPreviousAction [previousIsSelect];;
  defer (setPreviousAction previousIsSelect)
    (forEach columns (fun column => registerUsingTable (GenericColumnToUse.table column));;
     modify (fun b => SqlBuilder.set_selectColumns (SqlBuilder.selectColumns b ++ columns) b)).

(** [From] specifies the tables to SELECT FROM. *)
Definition From (tables : list TableToUse.t) : B unit :=
  mustTypeSelect;;
  mustPreviousAction [previousIsSelect; previousIsSelectFrom];;
  defer (setPreviousAction previousIsSelectFrom)
    (forEach tables registerUsingTable;;
     modify (SqlBuilder.set_selectFromTable tables)).

(** The loop of [Join] over the key pairs; [i] is the index of the pair's
    left column. *)
Fixpoint joinPairs (joinOnTableName : string) (onKeyPairs : list GenericColumnToUse.t)
    (i : nat) : B unit :=
  match onKeyPairs with
  | l :: r :: rest =>
      let leftTable := GenericColumnToUse.table l in
      let rightTable := GenericColumnToUse.table r in
      (if String.eqb (TableToUse.tableName leftTable) (TableToUse.tableName rightTable) then
         panic ("join on the same table at pair no." +:+ fmt.uintd (N.of_nat (i / 2 + 1)))
       else if andb (negb (String.eqb (TableToUse.tableName leftTable) joinOnTableName))
                    (negb (String.eqb (TableToUse.tableName rightTable) joinOnTableName)) then
         panic ("either of the join must be table " +:+ joinOnTableName +:+ ", got "
                +:+ TableToUse.tableName leftTable +:+ " and "
                +:+ TableToUse.tableName rightTable)
       else retB tt);;
      registerUsingTable leftTable;;
      registerUsingTable rightTable;;
      joinPairs joinOnTableName rest (i + 2)
  | _ => retB tt
  end.

(** [Join] adds a JOIN...ON clause. *)
Definition Join (joinType : JoinType) (joinOnTable : TableToUse.t)
    (onKeyPairs : list GenericColumnToUse.t) : B unit :=
  mustTypeSelect;;
  mustPreviousAction [previousIsSelectFrom; previousIsSelectJoin];;
  (if negb (Nat.eqb (length onKeyPairs mod 2) 0) then panic "onKeyPairs must be even"
   else retB tt);;
  defer (setPreviousAction previousIsSelectJoin)
    (joinPairs (TableToUse.tableName joinOnTable) onKeyPairs 0;;
     modify (fun b => SqlBuilder.set_joinsOn
       (SqlBuilder.joinsOn b ++
          [{| joinOn.joinType := joinType; joinOn.joinOnTable := joinOnTable;
              joinOn.joinOnColumns := onKeyPairs |}]) b)).

(** [Where] adds the WHERE clause. *)
Definition Where (whereTokens : list token) : B unit :=
  b ← get;
  if String.eqb (SqlBuilder._type b) sqlBuilderTypeSelect then
    mustPreviousAction [previousIsSelectFrom; previousIsSelectJoin; previousIsSelectWhere];;
    defer (setPreviousAction previousIsSelectWhere)
      (modify (fun b => SqlBuilder.set_whereTokens (SqlBuilder.whereTokens b ++ whereTokens) b))
  else if String.eqb (SqlBuilder._type b) sqlBuilderTypeInsert then
    mustPreviousAction [previousIsInsertIntoOnConflictDoUpdate];;
    defer (setPreviousAction previousIsInsertIntoOnConflictDoUpdateWhere)
      (modify (SqlBuilder.set_insertOnConflictDoUpdateWhereTokens whereTokens))
  else panic ("WHERE is not supported for this type " +:+ SqlBuilder._type b).

(** [And] and [Or] continue the WHERE clause with the connective [word]. *)
Definition continueWhere (word : string) (whereTokens : list token) : B unit :=
  b ← get;
  if String.eqb (SqlBuilder._type b) sqlBuilderTypeSelect then
    mustPreviousAction [previousIsSelectWhere];;
    b ← get;
    (if Nat.eqb (length (SqlBuilder.whereTokens b)) 0 then
       panic (word +:+ " must be after WHERE")
     else if Nat.eqb (length whereTokens) 0 then
       panic (word +:+ " must have at least one token")
     else retB tt);;
    modify (fun b => SqlBuilder.set_whereTokens
                       (SqlBuilder.whereTokens b ++ [TokAny (AString word)]) b);;
    modify (fun b => SqlBuilder.set_whereTokens (SqlBuilder.whereTokens b ++ whereTokens) b)
  else if String.eqb (SqlBuilder._type b) sqlBuilderTypeInsert then
    mustPreviousAction [previousIsInsertIntoOnConflictDoUpdateWhere];;
    b ← get;
    (if Nat.eqb (length (SqlBuilder.insertOnConflictDoUpdateWhereTokens b)) 0 then
       panic (word +:+ " must be after WHERE")
     else if Nat.eqb (length whereTokens) 0 then
       panic (word +:+ " must have at least one token")
     else retB tt);;
    modify (fun b => SqlBuilder.set_insertOnConflictDoUpdateWhereTokens
                       (SqlBuilder.insertOnConflictDoUpdateWhereTokens b
                        ++ [TokAny (AString word)]) b);;
    modify (fun b => SqlBuilder.set_insertOnConflictDoUpdateWhereTokens
                       (SqlBuilder.insertOnConflictDoUpdateWhereTokens b ++ whereTokens) b)
  else panic ("WHERE is not supported for this type " +:+ SqlBuilder._type b).

Definition And (whereTokens : list token) : B unit := continueWhere "AND" whereTokens.
Definition Or (whereTokens : list token) : B unit := continueWhere "OR" whereTokens.

(** [Args] provides args for the WHERE clause. *)
Definition Args (whereArgs : list any) : B unit :=
  mustTypeSelect;;
  mustPreviousAction [previousIsSelectWhere];;
  modify (fun b => SqlBuilder.set_whereArgs (SqlBuilder.whereArgs b ++ whereArgs) b).

Definition AnyWhereTokens : B bool :=
  b ← get;
  if String.eqb (SqlBuilder._type b) sqlBuilderTypeSelect then
    retB (Nat.ltb 0 (length (SqlBuilder.whereTokens b)))
  else panic ("the operation does not support type " +:+ SqlBuilder._type b).

(** [OrderBy] adds the ORDER BY clause. *)
Definition OrderBy (column : GenericColumnToUse.t) (asc : OrderType) : B unit :=
  mustTypeSelect;;
  mustBasicSelect;;
  mustPreviousAction [previousIsSelectFrom; previousIsSelectJoin; previousIsSelectWhere;
                      previousIsSelectOrderBy];;
  defer (setPreviousAction previousIsSelectOrderBy)
    (modify (fun b => SqlBuilder.set_orders
       (SqlBuilder.orders b ++ [{| orderBy.column := column; orderBy.asc := asc |}]) b)).

(** [ThenBy] continues the ORDER BY clause with another column. *)
Definition ThenBy (column : GenericColumnToUse.t) (asc : OrderType) : B unit :=
  mustTypeSelect;;
  mustBasicSelect;;
  mustPreviousAction [previousIsSelectOrderBy];;
  modify (fun b => SqlBuilder.set_orders
     (SqlBuilder.orders b ++ [{| orderBy.column := column; orderBy.asc := asc |}]) b).

Definition Offset (offset : N) : B unit :=
  mustTypeSelect;;
  mustBasicSelect;;
  mustPreviousAction [previousIsSelectFrom; previousIsSelectJoin; previousIsSelectWhere;
                      previousIsSelectOrderBy; previousIsSelectLimit];;
  defer (setPreviousAction previousIsSelectOffset)
    (modify (SqlBuilder.set_offset offset)).

Definition Limit (limit : N) : B unit :=
  mustTypeSelect;;
  mustBasicSelect;;
  mustPreviousAction [previousIsSelectFrom; previousIsSelectJoin; previousIsSelectWhere;
                      previousIsSelectOrderBy; previousIsSelectOffset];;
  defer (setPreviousAction previousIsSelectLimit)
    (modify (SqlBuilder.set_limit limit)).

(** [Pagination] adds OFFSET and LIMIT when the pagination is not nil and the
    values are greater than 0. *)
Definition Pagination (pagination : option Pagination.t) : B unit :=
  match pagination with
  | None => retB tt
  | Some p =>
      (if N.ltb 0 (Pagination.offset p) then Offset (Pagination.offset p) else retB tt);;
      (if N.ltb 0 (Pagination.limit p) then Limit (Pagination.limit p) else retB tt)
  end.

(** [Values] puts the values to be inserted. *)
Definition Values (values : list any) : B unit :=
  mustTypeInsert;;
  mustPreviousAction [previousIsInsertInto];;
  defer (setPreviousAction previousIsInsertIntoValues)
    (forEach values (fun value =>
       b ← get;
       match SqlBuilder.insertIntoTable b with
       | None => panic nilDereference
       | Some insertIntoTable =>
           let typeName := TableMetadata.typeName (TableToUse.genericTableMeta insertIntoTable) in
           tn ← lift (getStructTypeName value);
           if negb (String.eqb tn typeName) then
             panic ("value " +:+ typeString value +:+ " is not of type " +:+ typeName)
           else retB tt
       end);;
     modify (SqlBuilder.set_insertValues values)).

(** [OnConflict] adds the ON CONFLICT clause with the columns to be checked. *)
Definition OnConflict (columns : list GenericColumnToUse.t) : B unit :=
  mustTypeInsert;;
  mustPreviousAction [previousIsInsertIntoValues];;
  defer (setPreviousAction previousIsInsertIntoOnConflict)
    (b ← get;
     (if Nat.ltb 0 (length (SqlBuilder.insertOnConflictKeys b)) then
        panic "ON CONFLICT keys already added"
      else retB tt);;
     forEach columns (fun column =>
       match SqlBuilder.insertIntoTable b with
       | None => panic nilDereference
       | Some insertIntoTable =>
           if negb (String.eqb (TableToUse.tableName (GenericColumnToUse.table column))
                               (TableToUse.tableName insertIntoTable)) then
             panic ("column " +:+ GenericColumnToUse.name column +:+ " is not from table "
                    +:+ TableToUse.tableName insertIntoTable)
           else retB tt
       end);;
     modify (SqlBuilder.set_insertOnConflictKeys columns)).

(** [DoUpdate] adds the ON CONFLICT UPDATE clause. *)
Definition DoUpdate (tokens : list token) : B unit :=
  mustTypeInsert;;
  mustPreviousAction [previousIsInsertIntoOnConflict; previousIsInsertIntoOnConflictDoUpdate];;
  defer (setPreviousAction previousIsInsertIntoOnConflictDoUpdate)
    (b ← get;
     (if Nat.ltb (length (SqlBuilder.insertOnConflictKeys b)) 1 then
        panic "ON CONFLICT keys not added"
      else retB tt);;
     (if Nat.ltb 0 (length (SqlBuilder.insertOnConflictDoUpdateTokens b)) then
        modify (fun b => SqlBuilder.set_insertOnConflictDoUpdateTokens
                  (SqlBuilder.insertOnConflictDoUpdateTokens b
                   ++ [TokAny (AString ("," +:+ LF))]) b)
      else retB tt);;
     modify (fun b => SqlBuilder.set_insertOnConflictDoUpdateTokens
               (SqlBuilder.insertOnConflictDoUpdateTokens b ++ tokens) b)).

(** The tokens [col = excluded.col] of the columns that are no primary key. *)
Definition exceptPrimaryKeysTokens (columns : list GenericColumnToUse.t) : list token :=
  List.fold_left (fun tokens column =>
      if GenericColumnToUse.isPk column then tokens
      else
        let tokens :=
          if Nat.ltb 0 (length tokens) then tokens ++ [TokAny (AString ("," +:+ LF))]
          else tokens in
        tokens ++ [TokAny (AString (GenericColumnToUse.FromExcluded column))])
    columns [].

(** [DoUpdateExceptPrimaryKeys] updates every column to excluded, except the
    primary keys. *)
Definition DoUpdateExceptPrimaryKeys : B unit :=
  mustTypeInsert;;
  b ← get;
  match SqlBuilder.insertIntoTable b with
  | None => panic nilDereference
  | Some insertIntoTable => DoUpdate (exceptPrimaryKeysTokens (allColumns insertIntoTable))
  end.

(** [DoNothing] adds the ON CONFLICT DO NOTHING clause. *)
Definition DoNothing : B unit :=
  mustTypeInsert;;
  mustPreviousAction [previousIsInsertIntoOnConflict];;
  defer (setPreviousAction previousIsInsertIntoOnConflictDoNoThing)
    (modify (SqlBuilder.set_insertOnConflictDoNothing true)).

End Builder.

(** *** The constructors of the package *)

Definition Select (selectColumns : list GenericColumnToUse.t) : result unit :=
  let b := newSqlBuilder in
  let b := SqlBuilder.set__type sqlBuilderTypeSelect b in
  let b := SqlBuilder.set_selectType selectTypeBasic b in
  let b := SqlBuilder.set_previousAction previousIsSelect b in
  Builder.Select selectColumns b.

Definition SelectExists : result unit :=
  match Select [] with
  | Ok _ b => Ok tt (SqlBuilder.set_selectType selectTypeExists b)
  | Panicked msg b => Panicked msg b
  end.

Definition SelectCount : result unit :=
  match Select [] with
  | Ok _ b => Ok tt (SqlBuilder.set_selectType selectTypeCount b)
  | Panicked msg b => Panicked msg b
  end.

Definition InsertInto (g : Registry.t) (use : TableToUse.t)
    (columns : list GenericColumnToUse.t) : result unit :=
  let b := newSqlBuilder in
  let b := SqlBuilder.set__type sqlBuilderTypeInsert b in
  defer (setPreviousAction previousIsInsertInto)
    (columns ← (if Nat.eqb (length columns) 0 then
                  metadata ← lift (GetTableMetadata g
                                     (TableMetadata.recordType (TableToUse.metadata use)));
                  lift (omapM (fun c => Col (Registry.sqlKeywords g) use (ColumnMetadata.name c))
                          (TableMetadata.Columns metadata))
                else retB columns);
     modify (SqlBuilder.set_insertColumns columns);;
     registerUsingTable use;;
     modify (SqlBuilder.set_insertIntoTable (Some use))) b.

(** *** Build *)

(** A loop that writes the elements of [l] to the string builder [sb],
    with [sep] before every element but the first. *)
Definition writeSeparated {A} (sep : string) (f : A -> string) (l : list A) (sb : string)
    : string :=
  fst (List.fold_left (fun '(sb, i) x =>
         let sb := if Nat.ltb 0 i then sb +:+ sep else sb in
         (sb +:+ f x, S i)) l (sb, 0)).

(** The loop over a token list: a space, then the token by its type. *)
Fixpoint writeTokens (what : string) (renderColumn : GenericColumnToUse.t -> string)
    (tokens : list token) (sb : string) : outcome string :=
  match tokens with
  | [] => Done sb
  | token :: rest =>
      let sb := sb +:+ " " in
      match token with
      | TokAny (AString t) =>
          writeTokens what renderColumn rest (sb +:+ strings.TrimSpace t)
      | TokColumn t =>
          writeTokens what renderColumn rest (sb +:+ renderColumn t)
      | TokAny (AInt _ t) =>
          writeTokens what renderColumn rest (sb +:+ fmt.intd t)
      | TokAny (ABool t) =>
          writeTokens what renderColumn rest (sb +:+ (if t then "TRUE" else "FALSE"))
      | TokAny t =>
          Panic ("unexpected " +:+ what +:+ " token type " +:+ typeString t)
      end
  end.

Definition writeWhereTokens : list token -> string -> outcome string :=
  writeTokens "WHERE" GenericColumnToUse.nameWithAlias.
Definition writeDoUpdateTokens : list token -> string -> outcome string :=
  writeTokens "ON CONFLICT UPDATE" GenericColumnToUse.name.
Definition writeDoUpdateWhereTokens : list token -> string -> outcome string :=
  writeTokens "ON CONFLICT UPDATE WHERE"
    (fun t => TableToUse.tableName (GenericColumnToUse.table t) +:+ "."
              +:+ GenericColumnToUse.name t).

(** The ON loop of a join, over the key pairs. *)
Fixpoint writeJoinOn (joinOnColumns : list GenericColumnToUse.t) (i : nat) (sb : string)
    : outcome string :=
  match joinOnColumns with
  | [] => Done sb
  | l :: r :: rest =>
      let sb := if Nat.ltb 0 i then sb +:+ " AND " else sb in
      writeJoinOn rest (i + 2)
        (sb +:+ GenericColumnToUse.nameWithAlias l +:+ " = "
            +:+ GenericColumnToUse.nameWithAlias r)
  | [_] => Panic "runtime error: index out of range"
  end.

Fixpoint writeJoins (joinsOn : list joinOn.t) (sb : string) : outcome string :=
  match joinsOn with
  | [] => Done sb
  | j :: rest =>
      let sb :=
        match joinOn.joinType j with
        | LeftJoin => sb +:+ "LEFT JOIN "
        | RightJoin => sb +:+ "RIGHT JOIN "
        | InnerJoin => sb +:+ "INNER JOIN "
        end in
      let sb := sb +:+ TableToUse.tableName (joinOn.joinOnTable j) +:+ " AS "
                   +:+ TableToUse.tableAlias (joinOn.joinOnTable j) +:+ " ON " in
      sb ← writeJoinOn (joinOn.joinOnColumns j) 0 sb;
      writeJoins rest (sb +:+ LF)
  end.

(** The OFFSET and LIMIT lines. *)
Definition writeOffsetLimit (offset limit : N) (sb : string) : string :=
  if andb (N.ltb 0 offset) (N.ltb 0 limit) then
    sb +:+ ("OFFSET " +:+ fmt.uintd offset +:+ " LIMIT " +:+ fmt.uintd limit +:+ LF)
  else if N.ltb 0 offset then
    sb +:+ "OFFSET " +:+ fmt.uintd offset +:+ LF
  else if N.ltb 0 limit then
    sb +:+ "LIMIT " +:+ fmt.uintd limit +:+ LF
  else sb.

(** The sections of [buildSelect], in the order of the source. *)
Definition writeSelectList (b : SqlBuilder.t) (sb : string) : string :=
  if String.eqb (SqlBuilder.selectType b) selectTypeExists then sb +:+ "1 "
  else if String.eqb (SqlBuilder.selectType b) selectTypeCount then sb +:+ "COUNT(1) "
  else writeSeparated ", " GenericColumnToUse.nameWithAlias
         (SqlBuilder.selectColumns b) sb +:+ LF.

Definition writeFrom (b : SqlBuilder.t) (sb : string) : string :=
  let sb := sb +:+ "FROM " in
  let sb :=
    writeSeparated ", "
      (fun table => TableToUse.tableName table +:+ " AS " +:+ TableToUse.tableAlias table)
      (SqlBuilder.selectFromTable b) sb in
  sb +:+ LF.

Definition writeWhere (b : SqlBuilder.t) (sb : string) : outcome string :=
  if Nat.ltb 0 (length (SqlBuilder.whereTokens b)) then
    sb ← writeWhereTokens (SqlBuilder.whereTokens b) (sb +:+ "WHERE");
    Done (sb +:+ LF)
  else Done sb.

Definition writeOrderBy (b : SqlBuilder.t) (sb : string) : string :=
  if Nat.ltb 0 (length (SqlBuilder.orders b)) then
    writeSeparated ", "
      (fun order => GenericColumnToUse.nameWithAlias (orderBy.column order)
                    +:+ (if orderBy.asc order then " ASC" else " DESC"))
      (SqlBuilder.orders b) (sb +:+ "ORDER BY ") +:+ LF
  else sb.

Definition buildSelect (b : SqlBuilder.t) : outcome (string * list any) :=
  _ ← (if Nat.eqb (length (SqlBuilder.selectColumns b)) 0 then
         if String.eqb (SqlBuilder.selectType b) selectTypeBasic then
           Panic "no columns selected"
         else if orb (String.eqb (SqlBuilder.selectType b) selectTypeExists)
                     (String.eqb (SqlBuilder.selectType b) selectTypeCount) then
           Done tt
         else Panic ("unexpected select type " +:+ SqlBuilder.selectType b)
       else Done tt);
  if Nat.eqb (length (SqlBuilder.selectFromTable b)) 0 then Panic "no tables selected"
  else
    let sb := "SELECT " in
    let sb := writeSelectList b sb in
    let sb := writeFrom b sb in
    sb ← writeJoins (SqlBuilder.joinsOn b) sb;
    sb ← writeWhere b sb;
    let sb := writeOrderBy b sb in
    let sb := writeOffsetLimit (SqlBuilder.offset b) (SqlBuilder.limit b) sb in
    let stmt := sb in
    let stmt :=
      if String.eqb (SqlBuilder.selectType b) selectTypeExists
      then "SELECT EXISTS(" +:+ stmt +:+ ")" else stmt in
    Done (stmt, SqlBuilder.whereArgs b).

(** The placeholders of one row: [$vi+1], ..., [$vi+columnsCount]. *)
Definition writePlaceholders (vi columnsCount : nat) (sb : string) : string :=
  List.fold_left (fun sb paramIdx =>
      let sb := if Nat.ltb 1 paramIdx then sb +:+ "," else sb in
      sb +:+ "$" +:+ fmt.intd (Z.of_nat (vi + paramIdx)))
    (seq 1 columnsCount) sb.

(** The values of one record, by the insert spec of every column in order. *)
Fixpoint extractValues (specs : list (any -> outcome any)) (record : any)
    (values : list any) : outcome (list any) :=
  match specs with
  | [] => Done values
  | isf :: rest =>
      v ← isf record;
      extractValues rest record (values ++ [v])
  end.

(** The loop of [buildInsert] over the records; [i] is the record's index. *)
Fixpoint writeInsertValues (sqlKeywords : gset string) (meta : TableMetadata.t)
    (columnsName : list string) (columnsCount : nat) (insertValues : list any)
    (i : nat) (sb : string) (values : list any) : outcome (string * list any) :=
  match insertValues with
  | [] => Done (sb, values)
  | record :: rest =>
      let vi := i * columnsCount in
      let sb := if Nat.ltb 0 i then sb +:+ "," else sb in
      let sb := sb +:+ "(" in
      let sb := writePlaceholders vi columnsCount sb in
      let sb := sb +:+ ")" in
      specs ← TableMetadata.insertSpecOfColumns sqlKeywords meta columnsName;
      values ← extractValues specs record values;
      writeInsertValues sqlKeywords meta columnsName columnsCount rest (S i) sb values
  end.

(** The ON CONFLICT part of [buildInsert]. *)
Definition writeOnConflict (b : SqlBuilder.t) (sb : string) : outcome string :=
  if SqlBuilder.insertOnConflictDoNothing b then
    Done (sb +:+ LF +:+ "ON CONFLICT DO NOTHING")
  else if Nat.ltb 0 (length (SqlBuilder.insertOnConflictKeys b)) then
    let sb := sb +:+ LF +:+ "ON CONFLICT (" in
    let sb := writeSeparated ", " GenericColumnToUse.name
                (SqlBuilder.insertOnConflictKeys b) sb in
    let sb := sb +:+ ") " in
    let sb := sb +:+ "DO UPDATE SET" +:+ LF in
    sb ← writeDoUpdateTokens (SqlBuilder.insertOnConflictDoUpdateTokens b) sb;
    if Nat.ltb 0 (length (SqlBuilder.insertOnConflictDoUpdateWhereTokens b)) then
      writeDoUpdateWhereTokens (SqlBuilder.insertOnConflictDoUpdateWhereTokens b)
        (sb +:+ LF +:+ "WHERE")
    else Done sb
  else Done sb.

Definition buildInsert (sqlKeywords : gset string) (b : SqlBuilder.t)
    : outcome (string * list any) :=
  if Nat.eqb (length (SqlBuilder.insertColumns b)) 0 then
    Panic "no columns selected for inserting"
  else
    match SqlBuilder.insertIntoTable b with
    | None => Panic "no tables selected for inserting"
    | Some insertIntoTable =>
        if Nat.eqb (length (SqlBuilder.insertValues b)) 0 then
          Panic "no values for inserting"
        else
          let sb := "INSERT INTO " in
          let sb := sb +:+ TableToUse.tableName insertIntoTable in
          let sb := sb +:+ " (" in
          let columnsName := List.map GenericColumnToUse.name (SqlBuilder.insertColumns b) in
          let sb := writeSeparated ", " GenericColumnToUse.name
                      (SqlBuilder.insertColumns b) sb in
          let sb := sb +:+ ")" +:+ LF +:+ "VALUES " in
          let columnsCount := length (SqlBuilder.insertColumns b) in
          '(sb, values) ← writeInsertValues sqlKeywords
                            (TableToUse.genericTableMeta insertIntoTable)
                            columnsName columnsCount (SqlBuilder.insertValues b) 0 sb [];
          sb ← writeOnConflict b sb;
          Done (sb, values)
    end.

Definition Build (sqlKeywords : gset string) (b : SqlBuilder.t)
    : outcome (string * list any) :=
  if String.eqb (SqlBuilder._type b) sqlBuilderTypeSelect then buildSelect b
  else if String.eqb (SqlBuilder._type b) sqlBuilderTypeInsert then buildInsert sqlKeywords b
  else Panic ("unknown builder type: " +:+ SqlBuilder._type b).

(** ** The scanned rows and the row correlator (scanner.go) *)

Module row.
Record t : Type := { valueFunc : unit -> any; read : bool }.
Definition markRead (r : t) : t := {| valueFunc := valueFunc r; read := true |}.
End row.

Module ScannedRows.
Record t : Type := {
  rowsOfAliasToRow : list (gmap string row.t);
  rowIdx : nat;
  anyNext : bool
}.

Definition Count (sr : t) : nat := length (rowsOfAliasToRow sr).

Definition indexOutOfRange : string := "runtime error: index out of range".

(** [Next]: every row of the current mapping must have been read. *)
Definition Next (sr : t) : outcome (bool * ScannedRows.t) :=
  _ ← (if anyNext sr then
         match rowsOfAliasToRow sr !! rowIdx sr with
         | None => Panic indexOutOfRange
         | Some currentRow =>
             if bool_decide (map_Forall (fun _ r => row.read r = true) currentRow)
             then Done tt
             else Panic "not all columns are read before moving to the next row"
         end
       else Done tt);
  let sr' :=
    if anyNext sr then
      {| rowsOfAliasToRow := rowsOfAliasToRow sr; rowIdx := S (rowIdx sr);
         anyNext := anyNext sr |}
    else
      {| rowsOfAliasToRow := rowsOfAliasToRow sr; rowIdx := 0; anyNext := true |} in
  Done (Nat.ltb (rowIdx sr') (length (rowsOfAliasToRow sr')), sr').

(** [GetTable]: the record of the alias in the current row, marked as read. *)
Definition GetTable (sr : t) (byAlias : string) : outcome (any * ScannedRows.t) :=
  if negb (anyNext sr) then Panic "require calls Next() first"
  else
    match rowsOfAliasToRow sr !! rowIdx sr with
    | None => Panic indexOutOfRange
    | Some currentRow =>
        match currentRow !! byAlias with
        | None => Panic nilDereference
        | Some r =>
            Done (row.valueFunc r tt,
                  {| rowsOfAliasToRow :=
                       <[rowIdx sr := <[byAlias := row.markRead r]> currentRow]>
                         (rowsOfAliasToRow sr);
                     rowIdx := rowIdx sr; anyNext := anyNext sr |})
        end
    end.
End ScannedRows.

(** [TableToUse.ReadFromRow]. *)
Definition ReadFromRow (t : TableToUse.t) (scanner : ScannedRows.t)
    : outcome (any * ScannedRows.t) :=
  '(v, scanner) ← ScannedRows.GetTable scanner (TableToUse.alias t);
  v ← assertRecord (TableMetadata.recordType (TableToUse.metadata t)) v;
  Done (v, scanner).

(** The driver's rows: [Next] holds [count] times, [Scan row dest] fills the
    destinations from the physical row [row] and may fail. *)
Module SqlRows.
Record t : Type := {
  count : nat;
  Scan : nat -> list any -> option string
}.
End SqlRows.

(** The three maps [scanRows] builds from the select columns, once, before
    the loop over the rows. *)
Module scanLayout.
Record t : Type := {
  tablesByAlias : gmap string TableToUse.t;
  columnsByTableAlias : gmap string (list string);
  tableAliasToColumnToIndex : gmap string (gmap string nat)
}.
Definition empty : t :=
  {| tablesByAlias := ∅; columnsByTableAlias := ∅; tableAliasToColumnToIndex := ∅ |}.
End scanLayout.

Definition layoutStep (acc : scanLayout.t * nat) (column : GenericColumnToUse.t)
    : scanLayout.t * nat :=
  let '(lay, i) := acc in
  let alias := TableToUse.tableAlias (GenericColumnToUse.table column) in
  ({| scanLayout.tablesByAlias :=
        <[alias := GenericColumnToUse.table column]> (scanLayout.tablesByAlias lay);
      scanLayout.columnsByTableAlias :=
        <[alias := default [] (scanLayout.columnsByTableAlias lay !! alias)
                   ++ [GenericColumnToUse.name column]]>
          (scanLayout.columnsByTableAlias lay);
      scanLayout.tableAliasToColumnToIndex :=
        <[alias := <[GenericColumnToUse.name column := i]>
                     (default ∅ (scanLayout.tableAliasToColumnToIndex lay !! alias))]>
          (scanLayout.tableAliasToColumnToIndex lay) |},
   S i).

Definition buildLayout (selectColumns : list GenericColumnToUse.t) : scanLayout.t :=
  fst (List.fold_left layoutStep selectColumns (scanLayout.empty, 0)).

(** What one pass of the row closure has built so far. *)
Module rowScan.
Record t : Type := {
  aliasToRow : gmap string row.t;
  columnsForScanning : list any;
  optionalTransformFunctions : list (option (unit -> option string));
  nextRow : nat
}.
End rowScan.

(** The inner loop that registers the columns for scanning of one table. *)
Fixpoint registerColumns (indexOf : gmap string nat) (columns : list string)
    (specs : list ResultColumnSelectSpec.t) (columnsForScanning : list any)
    : outcome (list any) :=
  match columns with
  | [] => Done columnsForScanning
  | column :: columns' =>
      match specs with
      | [] => Panic ScannedRows.indexOutOfRange
      | spec :: specs' =>
          let idx := default 0 (indexOf !! column) in
          if Nat.ltb idx (length columnsForScanning) then
            registerColumns indexOf columns' specs'
              (<[idx := ResultColumnSelectSpec.ToQueryArg spec tt]> columnsForScanning)
          else Panic ScannedRows.indexOutOfRange
      end
  end.

(** The body of the loop over [tablesByAlias] for one table. *)
Definition scanTable (sqlKeywords : gset string) (lay : scanLayout.t)
    (table : TableToUse.t) (st : rowScan.t) : outcome rowScan.t :=
  let tableAlias := TableToUse.tableAlias table in
  let columns := default [] (scanLayout.columnsByTableAlias lay !! tableAlias) in
  '(vf, specs) ← TableMetadata.selectSpecOfColumns sqlKeywords
                   (TableToUse.genericTableMeta table) (rowScan.nextRow st) columns;
  let aliasToRow :=
    <[tableAlias := {| row.valueFunc := vf; row.read := false |}]> (rowScan.aliasToRow st) in
  let transforms :=
    rowScan.optionalTransformFunctions st
    ++ List.map ResultColumnSelectSpec.OptionalTransform specs in
  columnsForScanning ←
    registerColumns (default ∅ (scanLayout.tableAliasToColumnToIndex lay !! tableAlias))
      columns specs (rowScan.columnsForScanning st);
  Done {| rowScan.aliasToRow := aliasToRow;
          rowScan.columnsForScanning := columnsForScanning;
          rowScan.optionalTransformFunctions := transforms;
          rowScan.nextRow := S (rowScan.nextRow st) |}.

Fixpoint scanTables (sqlKeywords : gset string) (lay : scanLayout.t)
    (tables : list (string * TableToUse.t)) (st : rowScan.t) : outcome rowScan.t :=
  match tables with
  | [] => Done st
  | (_, table) :: rest =>
      st ← scanTable sqlKeywords lay table st;
      scanTables sqlKeywords lay rest st
  end.

(** The columns for scanning and the output of one physical row; [range]
    is the order in which the Go runtime visits [tablesByAlias]. *)
Definition constructRow (sqlKeywords : gset string) (lay : scanLayout.t)
    (range : list (string * TableToUse.t)) (selectColumnsCount nextRow : nat)
    : outcome rowScan.t :=
  scanTables sqlKeywords lay range
    {| rowScan.aliasToRow := ∅;
       rowScan.columnsForScanning := replicate selectColumnsCount ANil;
       rowScan.optionalTransformFunctions := [];
       rowScan.nextRow := nextRow |}.

(** The deferred loop over the transform functions. *)
Fixpoint runTransforms (fs : list (option (unit -> option string))) : option string :=
  match fs with
  | [] => None
  | None :: rest => runTransforms rest
  | Some transformFunc :: rest =>
      match transformFunc tt with
      | Some transErr => Some ("failed to transform column: " +:+ transErr)
      | None => runTransforms rest
      end
  end.

(** The loop of [scanRows] over the physical rows [row, row+1, ...]. *)
Fixpoint scanLoop (sqlKeywords : gset string) (lay : scanLayout.t)
    (range : nat -> gmap string TableToUse.t -> list (string * TableToUse.t))
    (rows : SqlRows.t) (selectColumnsCount : nat) (remaining row nextRow : nat)
    (acc : list (gmap string row.t)) : outcome (list (gmap string row.t) + string) :=
  match remaining with
  | O => Done (inl acc)
  | S remaining' =>
      st ← constructRow sqlKeywords lay (range row (scanLayout.tablesByAlias lay))
             selectColumnsCount nextRow;
      let acc := acc ++ [rowScan.aliasToRow st] in
      match SqlRows.Scan rows row (rowScan.columnsForScanning st) with
      | Some err => Done (inr ("failed to scan row: " +:+ err))
      | None =>
          match runTransforms (rowScan.optionalTransformFunctions st) with
          | Some err => Done (inr err)
          | None =>
              scanLoop sqlKeywords lay range rows selectColumnsCount remaining'
                (S row) (rowScan.nextRow st) acc
          end
      end
  end.

(** [scanRows]: the rows of the driver, correlated per table alias. *)
Definition scanRows (sqlKeywords : gset string)
    (range : nat -> gmap string TableToUse.t -> list (string * TableToUse.t))
    (b : SqlBuilder.t) (rows : SqlRows.t) (err : option string)
    : outcome (ScannedRows.t + string) :=
  match err with
  | Some e => Done (inr e)
  | None =>
      if negb (String.eqb (SqlBuilder._type b) sqlBuilderTypeSelect) then
        Panic ("only " +:+ sqlBuilderTypeSelect +:+ " is supported, got " +:+ SqlBuilder._type b)
      else
        let lay := buildLayout (SqlBuilder.selectColumns b) in
        res ← scanLoop sqlKeywords lay range rows (length (SqlBuilder.selectColumns b))
                (SqlRows.count rows) 0 0 [];
        match res with
        | inl rowsOfAliasToRow =>
            Done (inl {| ScannedRows.rowsOfAliasToRow := rowsOfAliasToRow;
                         ScannedRows.rowIdx := 0; ScannedRows.anyNext := false |})
        | inr e => Done (inr e)
        end
  end.

(** A chain of fluent calls on the builder a constructor returned: the
    first panic ends it. *)
Definition chain (r : result unit) (calls : list (B unit)) : result unit :=
  List.fold_left (fun r call =>
      match r with
      | Ok _ b => call b
      | Panicked msg b => Panicked msg b
      end) calls r.

(** ** The tables of the package's tests *)

Module fixtures.

(** A case mapping for the examples: the capital letters U+00C0 to U+00DE
    of Latin-1 (the multiplication sign U+00D7 apart), which UTF-8 writes as
    the byte 195 and a byte from 128 to 158, go to their small letters, 32
    further, and the ASCII capitals to theirs; every other byte is kept. *)
Fixpoint lowerLatin1 (s : string) : string :=
  match s with
  | EmptyString => EmptyString
  | String c rest =>
      match rest with
      | String d s' =>
          let n := nat_of_ascii d in
          if andb (Nat.eqb (nat_of_ascii c) 195)
               (andb (andb (Nat.leb 128 n) (Nat.leb n 158)) (negb (Nat.eqb n 151)))
          then String c (String (ascii_of_nat (n + 32)) (lowerLatin1 s'))
          else String (strings.lowerByte c) (lowerLatin1 rest)
      | EmptyString => String (strings.lowerByte c) EmptyString
      end
  end.

Definition field (i : nat) (a : any) : any :=
  match a with
  | AStruct _ fields => nth i fields ANil
  | _ => ANil
  end.

(** [Money.String]: the amount, then the currency. *)
Definition moneyString (m : any) : any :=
  match field 1 m, field 0 m with
  | AInt _ amount, AString currency => AString (fmt.intd amount +:+ currency)
  | _, _ => ANil
  end.

Definition Money (currency : string) (amount : Z) : any :=
  AStruct "Money" [AString currency; AInt Kint64 amount].

Definition testStruct1 (pk1 : string) (pk2 amount : Z) (cost : any) : any :=
  AStruct "testStruct1" [AString pk1; AInt Kint pk2; AInt Kint amount; cost].

Definition testStruct2 (pk1 : string) (pk2 pk3 : Z) (amount : any) : any :=
  AStruct "testStruct2" [AString pk1; AInt Kint pk2; AInt Kint64 pk3; amount].

(** A column that scans straight into the field [slot], and one that scans
    into a raw string that a transform parses afterwards. *)
Definition plainColumn (name slot : string) (i : nat) : ColumnMetadataBuilder.t :=
  ColumnMetadataBuilder.SelectSpec
    (ColumnMetadataBuilder.InsertSpec (NewColumnMetadata name) (field i))
    (fun b => {| ResultColumnSelectSpec.ToQueryArg := fun _ => AFieldPtr b slot;
                 ResultColumnSelectSpec.OptionalTransform := None |}).

Definition moneyColumn (name raw : string) (i : nat) : ColumnMetadataBuilder.t :=
  ColumnMetadataBuilder.SelectSpec
    (ColumnMetadataBuilder.InsertSpec (NewColumnMetadata name)
       (fun b => moneyString (field i b)))
    (fun b => {| ResultColumnSelectSpec.ToQueryArg := fun _ => AFieldPtr b raw;
                 ResultColumnSelectSpec.OptionalTransform := Some (fun _ => None) |}).

Definition tableTest1Builder : TableMetadataBuilder.t :=
  TableMetadataBuilder.AddColumns (Registry.sqlKeywords Registry.init)
    (NewTableMetadata "testStruct1" "table1")
    [ ColumnMetadataBuilder.PrimaryKey (plainColumn "pk1" "Pk1" 0);
      ColumnMetadataBuilder.PrimaryKey (plainColumn "pk2" "Pk2" 1);
      plainColumn "amount" "Amount" 2;
      moneyColumn "cost" "rawCost" 3 ].

Definition tableTest2Builder : TableMetadataBuilder.t :=
  TableMetadataBuilder.AddColumns (Registry.sqlKeywords Registry.init)
    (NewTableMetadata "testStruct2" "table2")
    [ ColumnMetadataBuilder.PrimaryKey (plainColumn "pk1" "Pk1" 0);
      ColumnMetadataBuilder.PrimaryKey (plainColumn "pk2" "Pk2" 1);
      ColumnMetadataBuilder.PrimaryKey (plainColumn "pk3" "Pk3" 2);
      moneyColumn "amount" "rawAmount" 3 ].

(** The results of a computation that is known not to panic. *)
Definition expect {A} (d : A) (o : outcome A) : A :=
  match o with Done a => a | Panic _ => d end.

Definition emptyMetadata : TableMetadata.t :=
  {| TableMetadata.recordType := ""; TableMetadata.name := "";
     TableMetadata.columns := []; TableMetadata.columnsByName := ∅ |}.

Definition registered1 : TableMetadata.t * Registry.t :=
  expect (emptyMetadata, Registry.init)
    (TableMetadataBuilder.Build Registry.init tableTest1Builder
       {| TableMetadataBuildOption.ExpectedPkColumns := ["pk1"; "pk2"] |}).

Definition registered2 : TableMetadata.t * Registry.t :=
  expect (emptyMetadata, Registry.init)
    (TableMetadataBuilder.Build (snd registered1) tableTest2Builder
       {| TableMetadataBuildOption.ExpectedPkColumns := ["pk1"; "pk2"; "pk3"] |}).

Definition tableTest1 : TableMetadata.t := fst registered1.
Definition tableTest2 : TableMetadata.t := fst registered2.
Definition globals : Registry.t := snd registered2.
Definition keywords : gset string := Registry.sqlKeywords globals.

Definition emptyTable : TableToUse.t :=
  {| TableToUse.uid := 0; TableToUse.sealed := false;
     TableToUse.metadata := emptyMetadata; TableToUse.name := "";
     TableToUse.alias := "" |}.

(** [UseTable[T]().Alias(alias).Seal()] with the unique id [uid]. *)
Definition useAs (T : string) (uid : Z) (alias : string) : TableToUse.t :=
  expect emptyTable
    (t ← UseTable globals T uid; t ← TableToUse.Alias t alias; TableToUse.Seal t).

(** [UseTable[T]().Seal()]. *)
Definition use (T : string) (uid : Z) : TableToUse.t :=
  expect emptyTable (t ← UseTable globals T uid; TableToUse.Seal t).

Definition col (t : TableToUse.t) (name : string) : GenericColumnToUse.t :=
  expect {| GenericColumnToUse.name := ""; GenericColumnToUse.isPk := false;
            GenericColumnToUse.table := emptyTable |}
    (Col keywords t name).

Definition cols (t : TableToUse.t) (names : list string) : list GenericColumnToUse.t :=
  expect [] (Columns keywords t names).

Definition t1 : TableToUse.t := useAs "testStruct1" 11 "t1".
Definition t2 : TableToUse.t := useAs "testStruct2" 22 "t2".
Definition table1 : TableToUse.t := use "testStruct1" 1.

(** Two tables in use that carry one unique id under two aliases, as two
    copies of the value [UseTable] returned do when each is given its alias. *)
Definition sharedA : TableToUse.t := useAs "testStruct1" 7 "a".
Definition sharedB : TableToUse.t := useAs "testStruct1" 7 "b".

(** [Select(t1.Columns("cost", "amount")...).From(t1)] and its statement. *)
Definition selectFromT1 : SqlBuilder.t :=
  builderOf (chain (Select (cols t1 ["cost"; "amount"])) [Builder.From [t1]]).
Definition selectFromT1Sql : string :=
  "SELECT t1.cost, t1.amount" +:+ LF +:+ "FROM table1 AS t1" +:+ LF.


Definition rowA : any := testStruct1 "1" 2 3 (Money "testa" 4).
Definition rowB : any := testStruct1 "5" 6 7 (Money "testa" 8).

(** [InsertInto(table1).Values(rowA, rowB).OnConflict().DoNothing()] and the
    insert extractors of the four columns of [table1]. *)
Definition insertTwo : SqlBuilder.t :=
  builderOf (chain (InsertInto globals table1 [])
               [Builder.Values [rowA; rowB]; Builder.OnConflict []; Builder.DoNothing]).
(** [InsertInto(table1).Values(rowA).OnConflict()]: ON CONFLICT without a
    key. *)
Definition conflictWithoutKeys : SqlBuilder.t :=
  builderOf (chain (InsertInto globals table1 [])
               [Builder.Values [rowA]; Builder.OnConflict []]).
Definition extractors1 : list (any -> any) :=
  [field 0; field 1; field 2; fun b => moneyString (field 3 b)].

(** Three INSERT builders that the fluent calls accept and [Build] refuses:
    a column of another table, a pointer to a record as the value, and a token
    of an unsupported kind in DO UPDATE. *)
Definition insertForeignColumn : result unit :=
  chain (InsertInto globals table1 [col t2 "pk3"]) [Builder.Values [rowA]].
Definition insertPointer : result unit :=
  chain (InsertInto globals table1 []) [Builder.Values [APtr rowA]].
Definition insertFloatToken : result unit :=
  chain (InsertInto globals table1 [])
    [Builder.Values [rowA]; Builder.OnConflict [col table1 "pk1"];
     Builder.DoUpdate [TokColumn (col table1 "amount"); TokAny (AString "=");
                       TokAny (AOther "float64")]].

(** A table with a column declared as [ count ], registered after the
    keyword [Offset] has been added. *)
Definition keywordColumn : ColumnMetadataBuilder.t :=
  ColumnMetadataBuilder.PrimaryKey (plainColumn " count " "Count" 0).
Definition keywordRegistered : TableMetadata.t * Registry.t :=
  expect (emptyMetadata, Registry.init)
    (TableMetadataBuilder.Build Registry.init
       (TableMetadataBuilder.AddColumns
          (List.fold_left (AddSqlKeyword lowerLatin1) ["Offset"] initSqlKeywords)
          (NewTableMetadata "counter" "counters") [keywordColumn])
       {| TableMetadataBuildOption.ExpectedPkColumns := ["count"] |}).

(** The scanned rows of the package's test: three rows of two aliases. *)
Definition valueRow (v : Z) : row.t :=
  {| row.valueFunc := fun _ => AInt Kint v; row.read := false |}.
Definition testRows : ScannedRows.t :=
  {| ScannedRows.rowsOfAliasToRow :=
       [ {[ "alias1" := valueRow 1; "alias2" := valueRow 2 ]};
         {[ "alias1" := valueRow 3; "alias2" := valueRow 4 ]};
         {[ "alias1" := valueRow 5; "alias2" := valueRow 6 ]} ];
     ScannedRows.rowIdx := 0;
     ScannedRows.anyNext := false |}.
Definition onFirstRow : ScannedRows.t :=
  snd (expect (false, testRows) (ScannedRows.Next testRows)).

(** The select lists of the scanner test and of a column selected twice,
    the iteration order of the aliases taken from the map, and a driver of one
    row that refuses a nil destination, as [database/sql] does. *)
Definition fourColumns : list GenericColumnToUse.t :=
  [col t1 "amount"; col t2 "amount"; col t1 "cost"; col t2 "pk3"].
Definition amountTwice : list GenericColumnToUse.t :=
  [col t1 "amount"; col t1 "amount"].
Definition rangeOfMap (row : nat) (m : gmap string TableToUse.t)
    : list (string * TableToUse.t) :=
  map_to_list m.
Definition isNil (a : any) : bool := match a with ANil => true | _ => false end.
Definition oneRow : SqlRows.t :=
  {| SqlRows.count := 1;
     SqlRows.Scan := fun _ dest =>
       if List.existsb isNil dest then Some "destination not a pointer" else None |}.

End fixtures.


(** ** The fluent calls as data, to speak about every call and every
    sequence of calls *)

Inductive call : Type :=
  | CSelect (columns : list GenericColumnToUse.t)
  | CFrom (tables : list TableToUse.t)
  | CJoin (joinType : JoinType) (joinOnTable : TableToUse.t)
      (onKeyPairs : list GenericColumnToUse.t)
  | CWhere (whereTokens : list token)
  | CAnd (whereTokens : list token)
  | COr (whereTokens : list token)
  | CArgs (whereArgs : list any)
  | COrderBy (column : GenericColumnToUse.t) (asc : OrderType)
  | CThenBy (column : GenericColumnToUse.t) (asc : OrderType)
  | COffset (offset : N)
  | CLimit (limit : N)
  | CValues (values : list any)
  | COnConflict (columns : list GenericColumnToUse.t)
  | CDoUpdate (tokens : list token)
  | CDoNothing.

Definition perform (c : call) : B unit :=
  match c with
  | CSelect columns => Builder.Select columns
  | CFrom tables => Builder.From tables
  | CJoin joinType joinOnTable onKeyPairs => Builder.Join joinType joinOnTable onKeyPairs
  | CWhere whereTokens => Builder.Where whereTokens
  | CAnd whereTokens => Builder.And whereTokens
  | COr whereTokens => Builder.Or whereTokens
  | CArgs whereArgs => Builder.Args whereArgs
  | COrderBy column asc => Builder.OrderBy column asc
  | CThenBy column asc => Builder.ThenBy column asc
  | COffset offset => Builder.Offset offset
  | CLimit limit => Builder.Limit limit
  | CValues values => Builder.Values values
  | COnConflict columns => Builder.OnConflict columns
  | CDoUpdate tokens => Builder.DoUpdate tokens
  | CDoNothing => Builder.DoNothing
  end.

(** Every exported call that changes a builder: the fluent calls and the two
    that delegate to them. *)
Inductive anyCall : Type :=
  | Fluent (c : call)
  | CPagination (pagination : option Pagination.t)
  | CDoUpdateExceptPrimaryKeys.

Definition performAny (c : anyCall) : B unit :=
  match c with
  | Fluent c => perform c
  | CPagination pagination => Builder.Pagination pagination
  | CDoUpdateExceptPrimaryKeys => Builder.DoUpdateExceptPrimaryKeys
  end.

(** The builder after a sequence of calls; a call that panics leaves the
    builder as it is at the panic, and the sequence goes on from there (the
    caller may recover). *)
Definition afterCalls (calls : list anyCall) (b : SqlBuilder.t) : SqlBuilder.t :=
  List.fold_left (fun b c => builderOf (performAny c b)) calls b.

(** The constructors of the package. *)
Inductive constructor : Type :=
  | NewSelect (selectColumns : list GenericColumnToUse.t)
  | NewSelectExists
  | NewSelectCount
  | NewInsertInto (g : Registry.t) (use : TableToUse.t) (columns : list GenericColumnToUse.t).

Definition construct (c : constructor) : result unit :=
  match c with
  | NewSelect selectColumns => Select selectColumns
  | NewSelectExists => SelectExists
  | NewSelectCount => SelectCount
  | NewInsertInto g use columns => InsertInto g use columns
  end.

(** The tables a call hands to [registerUsingTable]. *)
Definition tablesOfCall (c : anyCall) : list TableToUse.t :=
  match c with
  | Fluent (CSelect columns) => List.map GenericColumnToUse.table columns
  | Fluent (CFrom tables) => tables
  | Fluent (CJoin _ _ onKeyPairs) => List.map GenericColumnToUse.table onKeyPairs
  | _ => []
  end.

Definition tablesOfConstructor (c : constructor) : list TableToUse.t :=
  match c with
  | NewSelect selectColumns => List.map GenericColumnToUse.table selectColumns
  | NewInsertInto _ use _ => [use]
  | _ => []
  end.

(** The allowed predecessors of a call, as the tables of the state machine
    give them: the SELECT table for a SELECT builder, the INSERT table for
    an INSERT builder. *)
Definition selectPredecessors (c : call) : list previousAddedBuilderAction :=
  match c with
  | CSelect _ => [nonePrevious; previousIsSelect]
  | CFrom _ => [previousIsSelect; previousIsSelectFrom]
  | CJoin _ _ _ => [previousIsSelectFrom; previousIsSelectJoin]
  | CWhere _ => [previousIsSelectFrom; previousIsSelectJoin; previousIsSelectWhere]
  | CAnd _ | COr _ | CArgs _ => [previousIsSelectWhere]
  | COrderBy _ _ =>
      [previousIsSelectFrom; previousIsSelectJoin; previousIsSelectWhere;
       previousIsSelectOrderBy]
  | CThenBy _ _ => [previousIsSelectOrderBy]
  | COffset _ =>
      [previousIsSelectFrom; previousIsSelectJoin; previousIsSelectWhere;
       previousIsSelectOrderBy; previousIsSelectLimit]
  | CLimit _ =>
      [previousIsSelectFrom; previousIsSelectJoin; previousIsSelectWhere;
       previousIsSelectOrderBy; previousIsSelectOffset]
  | CValues _ | COnConflict _ | CDoUpdate _ | CDoNothing => []
  end.

Definition insertPredecessors (c : call) : list previousAddedBuilderAction :=
  match c with
  | CValues _ => [previousIsInsertInto]
  | COnConflict _ => [previousIsInsertIntoValues]
  | CDoUpdate _ => [previousIsInsertIntoOnConflict; previousIsInsertIntoOnConflictDoUpdate]
  | CDoNothing => [previousIsInsertIntoOnConflict]
  | CWhere _ => [previousIsInsertIntoOnConflictDoUpdate]
  | CAnd _ | COr _ => [previousIsInsertIntoOnConflictDoUpdateWhere]
  | _ => []
  end.

Definition allowedPredecessors (kind : sqlBuilderType) (c : call)
    : list previousAddedBuilderAction :=
  if String.eqb kind sqlBuilderTypeSelect then selectPredecessors c
  else if String.eqb kind sqlBuilderTypeInsert then insertPredecessors c
  else [].

(** ** Vocabulary of the properties *)

(** A guard either lets the builder through untouched or panics on it,
    untouched. *)
Definition guard (m : B unit) : Prop :=
  forall b, m b = Ok tt b \/ exists msg, m b = Panicked msg b.

(** [m] keeps the invariant [I] of the builder, whether it returns or panics. *)
Definition preserves (I : SqlBuilder.t -> Prop) {A} (m : B A) : Prop :=
  forall b, I b -> I (builderOf (m b)).

(** The calls that only a basic SELECT builder accepts. *)
Definition basicOnly (c : call) : bool :=
  match c with
  | CSelect _ | COrderBy _ _ | CThenBy _ _ | COffset _ | CLimit _ => true
  | _ => false
  end.

(** A builder that carries no column list, no ORDER BY, no OFFSET and no
    LIMIT. *)
Definition carriesNothing (b : SqlBuilder.t) : Prop :=
  SqlBuilder.selectColumns b = [] /\ SqlBuilder.orders b = [] /\
  SqlBuilder.offset b = 0%N /\ SqlBuilder.limit b = 0%N.

(** What an EXISTS or COUNT builder keeps for its whole lifetime. *)
Definition bare (ty : selectType) (b : SqlBuilder.t) : Prop :=
  SqlBuilder.selectType b = ty /\ carriesNothing b.

(** The two maps of tables in use are mutually inverse. *)
Definition mapsInverse (b : SqlBuilder.t) : Prop :=
  forall (alias : string) (uid : Z),
    SqlBuilder.aliasToTableUniqueId b !! alias = Some uid <->
    SqlBuilder.tableUniqueIdToAlias b !! uid = Some alias.

(** The unique id of a table in use tells its alias: [aliasOf] gives the
    alias of the one table instance that carries a unique id. *)
Definition uidTellsAlias (aliasOf : Z -> string) (t : TableToUse.t) : Prop :=
  TableToUse.alias t = aliasOf (TableToUse.uid t).

Definition registryInvariant (aliasOf : Z -> string) (b : SqlBuilder.t) : Prop :=
  mapsInverse b /\
  forall (uid : Z) (alias : string),
    SqlBuilder.tableUniqueIdToAlias b !! uid = Some alias -> alias = aliasOf uid.

(** The paging line as the specification words it: a clause for every value
    that is present. *)
Definition claimedPaging (offsetCall limitCall : option N) : string :=
  match offsetCall, limitCall with
  | Some n, Some m => "OFFSET " +:+ fmt.uintd n +:+ " LIMIT " +:+ fmt.uintd m +:+ LF
  | Some n, None => "OFFSET " +:+ fmt.uintd n +:+ LF
  | None, Some m => "LIMIT " +:+ fmt.uintd m +:+ LF
  | None, None => ""
  end.

(** A call counts for the rendering only when its value is above 0. *)
Definition positiveCall (call : option N) : option N :=
  match call with
  | Some n => if N.ltb 0 n then Some n else None
  | None => None
  end.

(** The rendering of one token as the token streams are described: a string
    trimmed, a column by [renderColumn], an integer in decimal, a boolean as
    TRUE or FALSE, and no rendering for any other kind. *)
Definition renderToken (renderColumn : GenericColumnToUse.t -> string) (t : token)
    : option string :=
  match t with
  | TokColumn c => Some (renderColumn c)
  | TokAny (AString s) => Some (strings.TrimSpace s)
  | TokAny (AInt _ z) => Some (fmt.intd z)
  | TokAny (ABool b) => Some (if b then "TRUE" else "FALSE")
  | TokAny _ => None
  end.

(** A token stream: every token after a single space. *)
Fixpoint renderStream (renderColumn : GenericColumnToUse.t -> string) (tokens : list token)
    : option string :=
  match tokens with
  | [] => Some ""
  | t :: rest =>
      match renderToken renderColumn t, renderStream renderColumn rest with
      | Some s, Some r => Some (" " +:+ s +:+ r)
      | _, _ => None
      end
  end.

(** The three renderings of a column token. *)
Definition aliasQualified (c : GenericColumnToUse.t) : string :=
  TableToUse.alias (GenericColumnToUse.table c) +:+ "." +:+ GenericColumnToUse.name c.
Definition bareName (c : GenericColumnToUse.t) : string := GenericColumnToUse.name c.
Definition tableQualified (c : GenericColumnToUse.t) : string :=
  TableToUse.name (GenericColumnToUse.table c) +:+ "." +:+ GenericColumnToUse.name c.

(** The placeholders of row [r] (from 0) of [c] columns: [$(r*c+1)] up to
    [$(r*c+c)], in this order. *)
Definition placeholderRow (r c : nat) : string :=
  "(" +:+ strings.Join
            (List.map (fun i => "$" +:+ fmt.intd (Z.of_nat (r * c + i))) (seq 1 c)) ","
      +:+ ")".

(** The column of an INSERT resolves in the metadata of the target table to
    a column with the insert extractor [f]. *)
Definition resolvesTo (sqlKeywords : gset string) (meta : TableMetadata.t)
    (column : GenericColumnToUse.t) (f : any -> any) : Prop :=
  exists col,
    TableMetadata.MustGetColumnByName sqlKeywords meta
      (wrapWithDoubleQuoteIfSqlKeyword sqlKeywords (GenericColumnToUse.name column))
    = Done col /\
    ColumnMetadata.insertSpec col = Some f.

(** The value is a record of the type [T]: the assertion [a.(T)] holds. *)
Definition isRecordOf (T : string) (a : any) : Prop := assertRecord T a = Done a.

(** The text of the ON CONFLICT part, when its token streams render. *)
Definition conflictText (b : SqlBuilder.t) : option string :=
  if SqlBuilder.insertOnConflictDoNothing b then Some (LF +:+ "ON CONFLICT DO NOTHING")
  else if Nat.ltb 0 (length (SqlBuilder.insertOnConflictKeys b)) then
    match renderStream bareName (SqlBuilder.insertOnConflictDoUpdateTokens b),
          renderStream tableQualified (SqlBuilder.insertOnConflictDoUpdateWhereTokens b) with
    | Some s, Some w =>
        Some (LF +:+ "ON CONFLICT ("
              +:+ strings.Join (List.map GenericColumnToUse.name
                                  (SqlBuilder.insertOnConflictKeys b)) ", " +:+ ") "
              +:+ "DO UPDATE SET" +:+ LF +:+ s
              +:+ (if Nat.ltb 0 (length (SqlBuilder.insertOnConflictDoUpdateWhereTokens b))
                   then LF +:+ "WHERE" +:+ w else ""))
    | _, _ => None
    end
  else Some "".

(** The names of the added columns of a table builder, and of those flagged
    as primary key, in the order of the columns. *)
Definition columnNames (b : TableMetadataBuilder.t) : list string :=
  List.map (fun cb => ColumnMetadata.name (ColumnMetadataBuilder.column cb))
    (TableMetadataBuilder.columns b).

Definition pkNamesOf (cols : list ColumnMetadataBuilder.t) : list string :=
  List.map (fun cb => ColumnMetadata.name (ColumnMetadataBuilder.column cb))
    (List.filter (fun cb => ColumnMetadata.isPk (ColumnMetadataBuilder.column cb)) cols).

(** [Build] fails. *)
Definition fails {A} (o : outcome A) : Prop := exists msg, o = Panic msg.

(** The keyword set after the calls [AddSqlKeyword(k)] for [k] in [added]. *)
Definition keywordsAfter (mapRunes : string -> string) (added : list string) : gset string :=
  List.fold_left (AddSqlKeyword mapRunes) added initSqlKeywords.

(** The keyword set as the specification words it: the predefined list plus the
    keywords as they were added. *)
Definition claimedKeywords (added : list string) : list string :=
  predefinedList ++ added.

Definition quoted (name : string) : string := dquote +:+ name +:+ dquote.

(** No record of the row has been read. *)
Definition unread (m : gmap string row.t) : Prop :=
  map_Forall (fun _ r => row.read r = false) m.

(** The rows that [Next] has not reached yet are unread, as [scanRows]
    hands them over. *)
Definition pristine (sr : ScannedRows.t) : Prop :=
  forall i m, ScannedRows.rowsOfAliasToRow sr !! i = Some m ->
    ScannedRows.anyNext sr = false \/ ScannedRows.rowIdx sr < i -> unread m.

(** [GetTable] for each alias of [aliases] in turn. *)
Fixpoint readAll (sr : ScannedRows.t) (aliases : list string) : outcome ScannedRows.t :=
  match aliases with
  | [] => Done sr
  | byAlias :: rest =>
      match ScannedRows.GetTable sr byAlias with
      | Done (_, sr') => readAll sr' rest
      | Panic msg => Panic msg
      end
  end.

(** The (alias, column) pair of a select column, and the index the index
    map of a layout holds for a pair. *)
Definition pairOf (column : GenericColumnToUse.t) : string * string :=
  (TableToUse.tableAlias (GenericColumnToUse.table column), GenericColumnToUse.name column).

Definition indexOfPair (lay : scanLayout.t) (p : string * string) : option nat :=
  scanLayout.tableAliasToColumnToIndex lay !! p.1 ≫= (fun m => m !! p.2).

(** The alias of a select column, and the names of the select columns of
    an alias, in the order of the select list. *)
Definition aliasOf (column : GenericColumnToUse.t) : string :=
  TableToUse.tableAlias (GenericColumnToUse.table column).

Definition namesOf (alias : string) (columns : list GenericColumnToUse.t) : list string :=
  GenericColumnToUse.name <$> filter (fun column => aliasOf column = alias) columns.

(** The scan target at position [i] of [dest] is the one the table of the
    column's alias produces for the column. *)
Definition targetOf (sqlKeywords : gset string) (columns : list GenericColumnToUse.t)
    (dest : list any) (i : nat) (column : GenericColumnToUse.t) : Prop :=
  exists table row vf specs k spec,
    scanLayout.tablesByAlias (buildLayout columns) !! aliasOf column = Some table /\
    TableMetadata.selectSpecOfColumns sqlKeywords (TableToUse.genericTableMeta table) row
      (namesOf (aliasOf column) columns) = Done (vf, specs) /\
    namesOf (aliasOf column) columns !! k = Some (GenericColumnToUse.name column) /\
    specs !! k = Some spec /\
    dest !! i = Some (ResultColumnSelectSpec.ToQueryArg spec tt).

(** ** The tables of allowed predecessors, with their side conditions *)

(** The side condition of a call in the tables: [And] and [Or] continue a
    WHERE that has a token already, [DoUpdate] needs a conflict key. *)
Definition sideCondition (b : SqlBuilder.t) (c : call) : bool :=
  match c with
  | CAnd _ | COr _ =>
      if String.eqb (SqlBuilder._type b) sqlBuilderTypeSelect
      then Nat.ltb 0 (length (SqlBuilder.whereTokens b))
      else Nat.ltb 0 (length (SqlBuilder.insertOnConflictDoUpdateWhereTokens b))
  | CDoUpdate _ => Nat.ltb 0 (length (SqlBuilder.insertOnConflictKeys b))
  | _ => true
  end.

(** A call is legal on a builder when the previous action is among the
    allowed predecessors of the call and its side condition holds. *)
Definition legal (b : SqlBuilder.t) (c : call) : bool :=
  bool_decide (SqlBuilder.previousAction b ∈ allowedPredecessors (SqlBuilder._type b) c)
  && sideCondition b c.

(** The builder an illegal call leaves: the builder as it was, but for
    [DoUpdate] after an allowed predecessor, which has advanced the previous
    action when it finds no conflict key. *)
Definition afterAbort (b : SqlBuilder.t) (c : call) : SqlBuilder.t :=
  match c with
  | CDoUpdate _ =>
      if bool_decide
           (SqlBuilder.previousAction b ∈ allowedPredecessors (SqlBuilder._type b) c)
      then setPreviousAction previousIsInsertIntoOnConflictDoUpdate b
      else b
  | _ => b
  end.

(** ** The renderings of a string and of an integer token *)















(** ** Paging calls *)

Inductive pagingCall : Type :=
  | POffset (offset : N)
  | PLimit (limit : N).

Definition callOf (p : pagingCall) : call :=
  match p with
  | POffset n => COffset n
  | PLimit m => CLimit m
  end.

(** The offset and the limit in effect after the calls: the value of the
    last call of the kind, or the value held before. *)
Fixpoint offsetInEffect (calls : list pagingCall) (held : N) : N :=
  match calls with
  | [] => held
  | POffset n :: rest => offsetInEffect rest n
  | PLimit _ :: rest => offsetInEffect rest held
  end.

Fixpoint limitInEffect (calls : list pagingCall) (held : N) : N :=
  match calls with
  | [] => held
  | POffset _ :: rest => limitInEffect rest held
  | PLimit m :: rest => limitInEffect rest m
  end.

(** The action a paging call leaves as the previous action. *)
Definition actionOf (p : pagingCall) : previousAddedBuilderAction :=
  match p with
  | POffset _ => previousIsSelectOffset
  | PLimit _ => previousIsSelectLimit
  end.

(** The calls are accepted one after the other: each finds the previous
    action among its allowed predecessors. *)
Fixpoint pagingAccepted (previousAction : previousAddedBuilderAction)
    (calls : list pagingCall) : bool :=
  match calls with
  | [] => true
  | p :: rest =>
      bool_decide (previousAction ∈ allowedPredecessors sqlBuilderTypeSelect (callOf p))
      && pagingAccepted (actionOf p) rest
  end.

(** The builder without its paging. *)
Definition withoutPaging (b : SqlBuilder.t) : SqlBuilder.t :=
  SqlBuilder.set_offset 0 (SqlBuilder.set_limit 0 b).

(** Two builders that hold the same statement but for the paging. *)
Definition sameButPaging (b b' : SqlBuilder.t) : Prop :=
  SqlBuilder._type b' = SqlBuilder._type b /\
  SqlBuilder.selectType b' = SqlBuilder.selectType b /\
  SqlBuilder.selectColumns b' = SqlBuilder.selectColumns b /\
  SqlBuilder.selectFromTable b' = SqlBuilder.selectFromTable b /\
  SqlBuilder.joinsOn b' = SqlBuilder.joinsOn b /\
  SqlBuilder.whereTokens b' = SqlBuilder.whereTokens b /\
  SqlBuilder.whereArgs b' = SqlBuilder.whereArgs b /\
  SqlBuilder.orders b' = SqlBuilder.orders b.

(** ** Further functions of the package *)

(** [TableToUse.ReadAllFromRows] (use_table.go): the loop
    [for scanner.Next() { result = append(result, t.ReadFromRow(scanner)) }].
    [Next] moves the row index on at every turn, so the loop ends within
    one turn more than there are rows; [fuel] counts the turns. *)
Definition loopNotEnded : string := "ReadAllFromRows: the loop has not ended".

Fixpoint readAllLoop (fuel : nat) (t : TableToUse.t) (scanner : ScannedRows.t)
    (result : list any) : outcome (list any * ScannedRows.t) :=
  match fuel with
  | O => Panic loopNotEnded
  | S fuel =>
      '(more, scanner) ← ScannedRows.Next scanner;
      if more : bool then
        '(v, scanner) ← ReadFromRow t scanner;
        readAllLoop fuel t scanner (result ++ [v])
      else Done (result, scanner)
  end.

Definition ReadAllFromRows (t : TableToUse.t) (scanner : ScannedRows.t)
    : outcome (list any * ScannedRows.t) :=
  readAllLoop (S (length (ScannedRows.rowsOfAliasToRow scanner))) t scanner [].

(** Go's [int] and [uint], of 64 bits: the value an arithmetic result and a
    conversion leave. *)
Definition wrapInt (z : Z) : Z := (z + 2 ^ 63) mod 2 ^ 64 - 2 ^ 63.
Definition wrapUint (z : Z) : N := Z.to_N (z mod 2 ^ 64).

(** [NewPaginationFromPagingConfig] (types.go); [page] and [size] are ints. *)
Definition NewPaginationFromPagingConfig (page size : Z) : outcome Pagination.t :=
  if Z.ltb page 1 then Panic "page must be greater than 0"
  else if Z.ltb size 1 then Panic "size must be greater than 0"
  else Done {| Pagination.offset := wrapUint (wrapInt (wrapInt (page - 1) * size));
               Pagination.limit := wrapUint size |}.

(** The methods of [*Pagination]; the receiver may be nil. *)
Definition Pagination_Set (p : option Pagination.t) (offset limit : N)
    : outcome Pagination.t :=
  match p with
  | Some _ => Done {| Pagination.offset := offset; Pagination.limit := limit |}
  | None => Panic nilDereference
  end.

Definition Pagination_Offset (p : option Pagination.t) : N :=
  match p with
  | Some p => Pagination.offset p
  | None => 0%N
  end.

Definition Pagination_Limit (p : option Pagination.t) : N :=
  match p with
  | Some p => Pagination.limit p
  | None => 0%N
  end.

(** Rows of records, for the examples: two rows of the table [t1] alone, and
    two rows of [t1] and [t2]. *)
Module samples.

Definition recordRow (a : any) : row.t :=
  {| row.valueFunc := fun _ => a; row.read := false |}.

Definition rowsOfT1 : list row.t :=
  [recordRow fixtures.rowA; recordRow fixtures.rowB].

Definition scannedT1 : ScannedRows.t :=
  {| ScannedRows.rowsOfAliasToRow :=
       List.map (fun r => {[ TableToUse.alias fixtures.t1 := r ]}) rowsOfT1;
     ScannedRows.rowIdx := 0; ScannedRows.anyNext := false |}.

Definition scannedT1T2 : ScannedRows.t :=
  {| ScannedRows.rowsOfAliasToRow :=
       [ {[ "t1" := recordRow fixtures.rowA; "t2" := fixtures.valueRow 1 ]};
         {[ "t1" := recordRow fixtures.rowB; "t2" := fixtures.valueRow 2 ]} ];
     ScannedRows.rowIdx := 0; ScannedRows.anyNext := false |}.

(** The builder of the package's test with every section, and its
    statement. *)
Definition multiOperations : SqlBuilder.t :=
  builderOf
    (chain (Select (fixtures.cols fixtures.t1 ["pk1"; "pk2"; "cost"]))
       [ Builder.Select (fixtures.cols fixtures.t2 ["pk1"; "pk2"; "pk3"; "amount"]);
         Builder.From [fixtures.t1];
         Builder.Join LeftJoin fixtures.t2
           [ fixtures.col fixtures.t1 "pk1"; fixtures.col fixtures.t2 "pk1";
             fixtures.col fixtures.t1 "pk2"; fixtures.col fixtures.t2 "pk2" ];
         Builder.Where [TokColumn (fixtures.col fixtures.t1 "pk1"); TokAny (AString "= $1")];
         Builder.Or [TokColumn (fixtures.col fixtures.t1 "pk2"); TokAny (AString "= $2")];
         Builder.And [TokColumn (fixtures.col fixtures.t1 "pk2"); TokAny (AString "= 3")];
         Builder.Args [AInt Kint 1; AInt Kint 2];
         Builder.OrderBy (fixtures.col fixtures.t1 "cost") DESC;
         Builder.ThenBy (fixtures.col fixtures.t2 "pk3") ASC;
         Builder.Offset 10; Builder.Limit 20 ]).

Definition multiOperationsSql : string :=
  "SELECT t1.pk1, t1.pk2, t1.cost, t2.pk1, t2.pk2, t2.pk3, t2.amount" +:+ LF
  +:+ "FROM table1 AS t1" +:+ LF
  +:+ "LEFT JOIN table2 AS t2 ON t1.pk1 = t2.pk1 AND t1.pk2 = t2.pk2" +:+ LF
  +:+ "WHERE t1.pk1 = $1 OR t1.pk2 = $2 AND t1.pk2 = 3" +:+ LF
  +:+ "ORDER BY t1.cost DESC, t2.pk3 ASC" +:+ LF
  +:+ "OFFSET 10 LIMIT 20" +:+ LF.

(** The select list of the scanner test, a driver of two rows that scan,
    and what [scanRows] returns for them. *)
Definition selectFour : SqlBuilder.t :=
  builderOf (chain (Select fixtures.fourColumns) [Builder.From [fixtures.t1; fixtures.t2]]).

Definition driverOfTwo : SqlRows.t :=
  {| SqlRows.count := 2; SqlRows.Scan := fun _ _ => None |}.

(** A second record type registered under the name of [table1]. *)
Definition shadowBuilder : TableMetadataBuilder.t :=
  TableMetadataBuilder.AddColumns (Registry.sqlKeywords Registry.init)
    (NewTableMetadata "shadow" "table1") [fixtures.plainColumn "id" "Id" 0].

Definition shadowed : TableMetadata.t * Registry.t :=
  fixtures.expect (fixtures.emptyMetadata, Registry.init)
    (TableMetadataBuilder.Build fixtures.globals shadowBuilder
       {| TableMetadataBuildOption.ExpectedPkColumns := [] |}).

(** [UseTable[testStruct1]()] before and after [Alias("t1")]. *)
Definition usedT1 : TableToUse.t :=
  fixtures.expect fixtures.emptyTable (UseTable fixtures.globals "testStruct1" 11).
Definition aliasedT1 : TableToUse.t :=
  fixtures.expect fixtures.emptyTable (TableToUse.Alias usedT1 "t1").

(** [InsertInto(table1)], then [Values(rowA)], then [OnConflict(t1.pk1)]. *)
Definition insertInto1 : SqlBuilder.t :=
  builderOf (InsertInto fixtures.globals fixtures.table1 []).
Definition insertValues1 : SqlBuilder.t :=
  builderOf (Builder.Values [fixtures.rowA] insertInto1).
Definition insertConflict1 : SqlBuilder.t :=
  builderOf (Builder.OnConflict [fixtures.col fixtures.t1 "pk1"] insertValues1).

(** [Select(...).From(t1).OrderBy(t1.Col("amount"), DESC)]. *)
Definition ordered : SqlBuilder.t :=
  builderOf (Builder.OrderBy (fixtures.col fixtures.t1 "amount") DESC fixtures.selectFromT1).

(** A result of no rows. *)
Definition noRows : ScannedRows.t :=
  {| ScannedRows.rowsOfAliasToRow := []; ScannedRows.rowIdx := 0;
     ScannedRows.anyNext := false |}.

Definition scannedFour : ScannedRows.t :=
  match scanRows fixtures.keywords fixtures.rangeOfMap selectFour driverOfTwo None with
  | Done (inl sr) => sr
  | _ => noRows
  end.

End samples.


(** * Further vocabulary *)

(** A logical row that holds the record of one alias only. *)
Definition singleRow (alias : string) (r : row.t) : gmap string row.t := {[ alias := r ]}.

(** The record a row hands out. *)
Definition recordOf (r : row.t) : any := row.valueFunc r tt.

(** The text of a SELECT statement, section by section; [None] where
    [Build] has nothing to write. *)
Definition selectHead (b : SqlBuilder.t) : string :=
  if String.eqb (SqlBuilder.selectType b) selectTypeExists then "1 "
  else if String.eqb (SqlBuilder.selectType b) selectTypeCount then "COUNT(1) "
  else strings.Join (List.map aliasQualified (SqlBuilder.selectColumns b)) ", " +:+ LF.

Definition fromText (b : SqlBuilder.t) : string :=
  "FROM "
  +:+ strings.Join
        (List.map (fun t => TableToUse.name t +:+ " AS " +:+ TableToUse.alias t)
           (SqlBuilder.selectFromTable b)) ", "
  +:+ LF.

(** The equalities [left = right] of the key pairs of a join; none when a
    column is left without its partner. *)
Fixpoint onPairs (columns : list GenericColumnToUse.t) : option (list string) :=
  match columns with
  | [] => Some []
  | l :: r :: rest =>
      match onPairs rest with
      | Some ps => Some ((aliasQualified l +:+ " = " +:+ aliasQualified r) :: ps)
      | None => None
      end
  | [_] => None
  end.

Definition joinWord (joinType : JoinType) : string :=
  match joinType with
  | LeftJoin => "LEFT JOIN "
  | RightJoin => "RIGHT JOIN "
  | InnerJoin => "INNER JOIN "
  end.

Definition joinText (j : joinOn.t) : option string :=
  match onPairs (joinOn.joinOnColumns j) with
  | Some ps =>
      Some (joinWord (joinOn.joinType j)
            +:+ TableToUse.name (joinOn.joinOnTable j) +:+ " AS "
            +:+ TableToUse.alias (joinOn.joinOnTable j) +:+ " ON "
            +:+ strings.Join ps " AND " +:+ LF)
  | None => None
  end.

Fixpoint joinsText (joinsOn : list joinOn.t) : option string :=
  match joinsOn with
  | [] => Some ""
  | j :: rest =>
      match joinText j, joinsText rest with
      | Some s, Some r => Some (s +:+ r)
      | _, _ => None
      end
  end.

Definition whereText (b : SqlBuilder.t) : option string :=
  match SqlBuilder.whereTokens b with
  | [] => Some ""
  | tokens =>
      match renderStream aliasQualified tokens with
      | Some s => Some ("WHERE" +:+ s +:+ LF)
      | None => None
      end
  end.

Definition orderText (b : SqlBuilder.t) : string :=
  match SqlBuilder.orders b with
  | [] => ""
  | orders =>
      "ORDER BY "
      +:+ strings.Join
            (List.map (fun o => aliasQualified (orderBy.column o)
                                +:+ (if orderBy.asc o then " ASC" else " DESC")) orders) ", "
      +:+ LF
  end.

Definition pagingText (b : SqlBuilder.t) : string :=
  let offset := SqlBuilder.offset b in
  let limit := SqlBuilder.limit b in
  match N.ltb 0 offset, N.ltb 0 limit with
  | true, true => "OFFSET " +:+ fmt.uintd offset +:+ " LIMIT " +:+ fmt.uintd limit +:+ LF
  | true, false => "OFFSET " +:+ fmt.uintd offset +:+ LF
  | false, true => "LIMIT " +:+ fmt.uintd limit +:+ LF
  | false, false => ""
  end.

Definition selectText (b : SqlBuilder.t) : option string :=
  let exists_ := String.eqb (SqlBuilder.selectType b) selectTypeExists in
  let count := String.eqb (SqlBuilder.selectType b) selectTypeCount in
  if andb (Nat.eqb (length (SqlBuilder.selectColumns b)) 0) (negb (orb exists_ count))
  then None
  else if Nat.eqb (length (SqlBuilder.selectFromTable b)) 0 then None
  else
    match joinsText (SqlBuilder.joinsOn b), whereText b with
    | Some js, Some w =>
        let body := "SELECT " +:+ selectHead b +:+ fromText b +:+ js +:+ w
                    +:+ orderText b +:+ pagingText b in
        Some (if exists_ then "SELECT EXISTS(" +:+ body +:+ ")" else body)
    | _, _ => None
    end.

(** The tables a statement names by their alias: the tables of the select
    columns, of FROM and of the key columns of the joins, and the table of an
    INSERT. *)
Definition heldTables (b : SqlBuilder.t) : list TableToUse.t :=
  List.map GenericColumnToUse.table (SqlBuilder.selectColumns b)
  ++ SqlBuilder.selectFromTable b
  ++ List.flat_map (fun j => List.map GenericColumnToUse.table (joinOn.joinOnColumns j))
       (SqlBuilder.joinsOn b)
  ++ match SqlBuilder.insertIntoTable b with Some t => [t] | None => [] end.

(** The table is sealed and the builder has its alias bound to its unique id. *)
Definition registeredIn (b : SqlBuilder.t) (t : TableToUse.t) : Prop :=
  TableToUse.sealed t = true /\
  SqlBuilder.aliasToTableUniqueId b !! TableToUse.alias t = Some (TableToUse.uid t).

Definition held (b : SqlBuilder.t) : Prop := Forall (registeredIn b) (heldTables b).

(** The key columns of a join come in pairs of two tables of different
    names, one of which has the name of the joined table. *)
Fixpoint pairedWith (joinOnTableName : string) (columns : list GenericColumnToUse.t) : Prop :=
  match columns with
  | [] => True
  | l :: r :: rest =>
      TableToUse.name (GenericColumnToUse.table l)
      <> TableToUse.name (GenericColumnToUse.table r) /\
      (TableToUse.name (GenericColumnToUse.table l) = joinOnTableName \/
       TableToUse.name (GenericColumnToUse.table r) = joinOnTableName) /\
      pairedWith joinOnTableName rest
  | [_] => False
  end.

Definition paired (b : SqlBuilder.t) : Prop :=
  Forall (fun j => pairedWith (TableToUse.name (joinOn.joinOnTable j))
                     (joinOn.joinOnColumns j))
    (SqlBuilder.joinsOn b).

Definition wellHeld (b : SqlBuilder.t) : Prop := held b /\ paired b.

(** What a run of registrations leaves: the accumulators as they were and
    every registered table still registered. *)
Definition grows (b b' : SqlBuilder.t) : Prop :=
  (exists m1 m2,
     b' = SqlBuilder.set_tableUniqueIdToAlias m2 (SqlBuilder.set_aliasToTableUniqueId m1 b)) /\
  forall t, registeredIn b t -> registeredIn b' t.

(** The action a fluent call leaves as the previous action when it
    returns; [And], [Or], [Args] and [ThenBy] leave the one they found. *)
Definition recordedAction (kind : sqlBuilderType) (c : call)
    : option previousAddedBuilderAction :=
  match c with
  | CSelect _ => Some previousIsSelect
  | CFrom _ => Some previousIsSelectFrom
  | CJoin _ _ _ => Some previousIsSelectJoin
  | CWhere _ =>
      Some (if String.eqb kind sqlBuilderTypeSelect then previousIsSelectWhere
            else previousIsInsertIntoOnConflictDoUpdateWhere)
  | CAnd _ | COr _ | CArgs _ | CThenBy _ _ => None
  | COrderBy _ _ => Some previousIsSelectOrderBy
  | COffset _ => Some previousIsSelectOffset
  | CLimit _ => Some previousIsSelectLimit
  | CValues _ => Some previousIsInsertIntoValues
  | COnConflict _ => Some previousIsInsertIntoOnConflict
  | CDoUpdate _ => Some previousIsInsertIntoOnConflictDoUpdate
  | CDoNothing => Some previousIsInsertIntoOnConflictDoNoThing
  end.

(** The kind of a builder: its type and its select type. *)
Definition kindIs (ty : sqlBuilderType) (st : selectType) (b : SqlBuilder.t) : Prop :=
  SqlBuilder._type b = ty /\ SqlBuilder.selectType b = st.

(** What [Values] checks of a value: the name of its type, behind a pointer
    if it is one, is the name of the record type of the table. *)
Definition valueOfTable (t : TableToUse.t) (v : any) : Prop :=
  getStructTypeName v = Done (TableMetadata.recordType (TableToUse.metadata t)).

(** What [OnConflict] checks of a column: its table has the name of the
    table of the INSERT. *)
Definition columnOfTable (t : TableToUse.t) (column : GenericColumnToUse.t) : Prop :=
  TableToUse.name (GenericColumnToUse.table column) = TableToUse.name t.

(** The tokens of [DoUpdateExceptPrimaryKeys] as a list with separators:
    [col = excluded.col] for the columns given, a comma and a line feed between
    two of them. *)
Fixpoint separatedTokens (columns : list GenericColumnToUse.t) : list token :=
  match columns with
  | [] => []
  | [column] => [TokAny (AString (GenericColumnToUse.FromExcluded column))]
  | column :: rest =>
      TokAny (AString (GenericColumnToUse.FromExcluded column))
      :: TokAny (AString ("," +:+ LF)) :: separatedTokens rest
  end.

(** * Properties *)

(** ** The guards of the state machine *)

Ltac unfoldB :=
  unfold mbind, B_bind, bindB, mret, B_ret, retB, get, panic, modify, lift, defer in *.

Lemma existsb_eqb_false (prev : string) (l : list string) :
  prev ∉ l -> List.existsb (String.eqb prev) l = false.
Proof.
  induction l as [|e l IH]; intros Hnot; simpl; [reflexivity|].
  destruct (String.eqb_spec prev e) as [->|Hne].
  - exfalso. apply Hnot. left.
  - simpl. apply IH. intros Hin. apply Hnot. right. exact Hin.
Qed.

Lemma existsb_eqb_true (prev : string) (l : list string) :
  prev ∈ l -> List.existsb (String.eqb prev) l = true.
Proof.
  induction l as [|e l IH]; intros Hin; simpl.
  - inversion Hin.
  - destruct (String.eqb_spec prev e) as [->|Hne]; [reflexivity|].
    apply elem_of_cons in Hin as [Heq|Hin]; [contradiction|]. simpl. auto.
Qed.

Lemma mustPreviousAction_rejects (expected : list string) (b : SqlBuilder.t) :
  SqlBuilder.previousAction b ∉ expected ->
  exists msg, mustPreviousAction expected b = Panicked msg b.
Proof.
  intros Hnot. unfold mustPreviousAction. unfoldB.
  rewrite (existsb_eqb_false _ _ Hnot). simpl.
  destruct expected as [|e [|e' l]]; eauto.
Qed.

Lemma mustPreviousAction_accepts (expected : list string) (b : SqlBuilder.t) :
  SqlBuilder.previousAction b ∈ expected ->
  mustPreviousAction expected b = Ok tt b.
Proof.
  intros Hin. unfold mustPreviousAction. unfoldB.
  rewrite (existsb_eqb_true _ _ Hin). reflexivity.
Qed.

Lemma mustPreviousAction_guard (expected : list string) : guard (mustPreviousAction expected).
Proof.
  intros b. destruct (decide (SqlBuilder.previousAction b ∈ expected)) as [Hin|Hnot].
  - left. apply mustPreviousAction_accepts, Hin.
  - right. apply mustPreviousAction_rejects, Hnot.
Qed.

Lemma mustTypeSelect_spec (b : SqlBuilder.t) :
  (SqlBuilder._type b = sqlBuilderTypeSelect /\ mustTypeSelect b = Ok tt b) \/
  (SqlBuilder._type b <> sqlBuilderTypeSelect /\ exists msg, mustTypeSelect b = Panicked msg b).
Proof.
  unfold mustTypeSelect. unfoldB.
  destruct (String.eqb_spec (SqlBuilder._type b) sqlBuilderTypeSelect); simpl; eauto.
Qed.

Lemma mustTypeInsert_spec (b : SqlBuilder.t) :
  (SqlBuilder._type b = sqlBuilderTypeInsert /\ mustTypeInsert b = Ok tt b) \/
  (SqlBuilder._type b <> sqlBuilderTypeInsert /\ exists msg, mustTypeInsert b = Panicked msg b).
Proof.
  unfold mustTypeInsert. unfoldB.
  destruct (String.eqb_spec (SqlBuilder._type b) sqlBuilderTypeInsert); simpl; eauto.
Qed.

Lemma mustSelectType_spec (ty : string) (b : SqlBuilder.t) :
  (SqlBuilder._type b = sqlBuilderTypeSelect /\ SqlBuilder.selectType b = ty /\
   mustSelectType ty b = Ok tt b) \/
  ((SqlBuilder._type b <> sqlBuilderTypeSelect \/ SqlBuilder.selectType b <> ty) /\
   exists msg, mustSelectType ty b = Panicked msg b).
Proof.
  unfold mustSelectType. unfoldB.
  destruct (mustTypeSelect_spec b) as [[Ht ->]|[Ht [msg ->]]]; [|eauto].
  destruct (String.eqb_spec (SqlBuilder.selectType b) ty); simpl; eauto 6.
Qed.

Lemma mustTypeSelect_guard : guard mustTypeSelect.
Proof. intros b. destruct (mustTypeSelect_spec b) as [[_ H]|[_ H]]; eauto. Qed.

Lemma mustTypeInsert_guard : guard mustTypeInsert.
Proof. intros b. destruct (mustTypeInsert_spec b) as [[_ H]|[_ H]]; eauto. Qed.

Lemma mustBasicSelect_guard : guard mustBasicSelect.
Proof.
  intros b. destruct (mustSelectType_spec selectTypeBasic b) as [(_ & _ & H)|[_ H]]; eauto.
Qed.

(** A call that starts with guards and then checks the previous action
    panics on the untouched builder when the check fails. *)
Lemma guarded_rejects {A} (g : B unit) (k : B A) (b : SqlBuilder.t) :
  guard g -> (exists msg, k b = Panicked msg b) ->
  exists msg, (g;; k) b = Panicked msg b.
Proof.
  intros Hg [msg Hk]. unfoldB. destruct (Hg b) as [->|[msg' ->]]; eauto.
Qed.

Lemma rejects_first {A} (m : B unit) (k : B A) (b : SqlBuilder.t) :
  (exists msg, m b = Panicked msg b) ->
  exists msg, (m;; k) b = Panicked msg b.
Proof. intros [msg Hm]. unfoldB. rewrite Hm. eauto. Qed.

Ltac solve_notin Hnot :=
  let Hin := fresh "Hin" in
  intros Hin; apply Hnot; simpl; revert Hin;
  rewrite ?elem_of_cons, ?elem_of_nil; tauto.

Ltac reject_prev Hnot :=
  match goal with
  | |- context [mustPreviousAction ?L ?b] =>
      let msg := fresh "msg" in
      let Hm := fresh "Hm" in
      destruct (mustPreviousAction_rejects L b ltac:(solve_notin Hnot)) as [msg Hm];
      unfoldB; rewrite ?Hm; eauto
  end.

Ltac select_only Hnot :=
  apply guarded_rejects; [apply mustTypeSelect_guard|];
  try (apply guarded_rejects; [apply mustBasicSelect_guard|]);
  apply rejects_first; apply mustPreviousAction_rejects; solve_notin Hnot.

Ltac unfold_select_calls :=
  unfold Builder.Select, Builder.From, Builder.Join, Builder.Args, Builder.OrderBy,
    Builder.ThenBy, Builder.Offset, Builder.Limit.

Ltac unfold_insert_calls :=
  unfold Builder.Values, Builder.OnConflict, Builder.DoUpdate, Builder.DoNothing.

Ltac unfold_where_calls :=
  unfold Builder.Where, Builder.And, Builder.Or, Builder.continueWhere.

(** Whatever the builder, a fluent call whose previous action is not among
    the call's allowed predecessors (the SELECT table for a SELECT builder,
    the INSERT table for an INSERT builder) panics, and the builder is left
    exactly as it was. *)
Lemma predecessor_rejected (b : SqlBuilder.t) (c : call) :
  SqlBuilder.previousAction b ∉ allowedPredecessors (SqlBuilder._type b) c ->
  exists msg, perform c b = Panicked msg b.
Proof.
  intros Hnot. unfold allowedPredecessors in Hnot.
  destruct (String.eqb_spec (SqlBuilder._type b) sqlBuilderTypeSelect) as [Hs|Hns].
  - assert (Hni : exists msg, mustTypeInsert b = Panicked msg b).
    { destruct (mustTypeInsert_spec b) as [[Hi _]|[_ H]]; [|exact H].
      rewrite Hs in Hi. discriminate. }
    destruct c; simpl in Hnot |- *;
      try (unfold_select_calls; select_only Hnot);
      try (unfold_insert_calls; apply rejects_first; exact Hni).
    all: unfold_where_calls.
    all: unfoldB; rewrite Hs; simpl.
    all: reject_prev Hnot.
  - assert (Hnsel : exists msg, mustTypeSelect b = Panicked msg b).
    { destruct (mustTypeSelect_spec b) as [[Hi _]|[_ H]]; [contradiction|exact H]. }
    destruct (String.eqb_spec (SqlBuilder._type b) sqlBuilderTypeInsert) as [Hi|Hni].
    + destruct c; simpl in Hnot |- *;
        try (unfold_select_calls; apply rejects_first; exact Hnsel);
        try (unfold_insert_calls;
             apply guarded_rejects; [apply mustTypeInsert_guard|];
             apply rejects_first; apply mustPreviousAction_rejects; solve_notin Hnot).
      all: unfold_where_calls.
      all: unfoldB; rewrite Hi; simpl.
      all: reject_prev Hnot.
    + assert (Hnins : exists msg, mustTypeInsert b = Panicked msg b).
      { destruct (mustTypeInsert_spec b) as [[Hi _]|[_ H]]; [contradiction|exact H]. }
      destruct c; simpl;
        try (unfold_select_calls; apply rejects_first; exact Hnsel);
        try (unfold_insert_calls; apply rejects_first; exact Hnins).
      all: unfold_where_calls.
      all: unfoldB.
      all: destruct (String.eqb_spec (SqlBuilder._type b) sqlBuilderTypeSelect);
             [contradiction|].
      all: destruct (String.eqb_spec (SqlBuilder._type b) sqlBuilderTypeInsert);
             [contradiction|].
      all: eauto.
Qed.

Ltac notin_list :=
  let H := fresh "H" in
  intros H; repeat (apply elem_of_cons in H as [H|H]; [discriminate H|]); inversion H.

(** The two side conditions of the tables are guards of their own. [And]
    and [Or] on a WHERE without tokens panic on the untouched builder. *)
Lemma continueWhere_needs_tokens (word : string) (whereTokens : list token)
    (b : SqlBuilder.t) :
  SqlBuilder._type b = sqlBuilderTypeSelect ->
  SqlBuilder.whereTokens b = [] ->
  exists msg, Builder.continueWhere word whereTokens b = Panicked msg b.
Proof.
  intros Hs Hw. unfold Builder.continueWhere. unfoldB. rewrite Hs. simpl.
  destruct (mustPreviousAction_guard [previousIsSelectWhere] b) as [->|[msg ->]]; [|eauto].
  rewrite Hw. simpl. eauto.
Qed.

(** [DoUpdate] without conflict keys panics after its [defer] is in place:
    the previous action advances all the same. *)
Lemma DoUpdate_without_keys (tokens : list token) (b : SqlBuilder.t) :
  SqlBuilder._type b = sqlBuilderTypeInsert ->
  SqlBuilder.previousAction b ∈
    [previousIsInsertIntoOnConflict; previousIsInsertIntoOnConflictDoUpdate] ->
  SqlBuilder.insertOnConflictKeys b = [] ->
  Builder.DoUpdate tokens b =
    Panicked "ON CONFLICT keys not added"
      (setPreviousAction previousIsInsertIntoOnConflictDoUpdate b).
Proof.
  intros Hi Hp Hk. unfold Builder.DoUpdate. unfoldB.
  destruct (mustTypeInsert_spec b) as [[_ ->]|[Hn _]]; [|contradiction].
  rewrite (mustPreviousAction_accepts _ _ Hp). rewrite Hk. reflexivity.
Qed.

Lemma continueWhere_needs_update_tokens (word : string) (whereTokens : list token)
    (b : SqlBuilder.t) :
  SqlBuilder._type b = sqlBuilderTypeInsert ->
  SqlBuilder.insertOnConflictDoUpdateWhereTokens b = [] ->
  exists msg, Builder.continueWhere word whereTokens b = Panicked msg b.
Proof.
  intros Hs Hw. unfold Builder.continueWhere. unfoldB. rewrite Hs. simpl.
  destruct (mustPreviousAction_guard [previousIsInsertIntoOnConflictDoUpdateWhere] b)
    as [->|[msg ->]]; [|eauto].
  rewrite Hw. simpl. eauto.
Qed.

Lemma length_not_positive {A} (l : list A) : Nat.ltb 0 (length l) = false -> l = [].
Proof. destruct l; [reflexivity|discriminate]. Qed.

(** C1. Whatever the builder, a fluent call that is not legal on it (the
    previous action is not among the call's allowed predecessors, or the
    side condition of the call fails: no token yet for [And] and [Or], no
    conflict key for [DoUpdate]) panics. The builder is left exactly as it
    was, with one exception: [DoUpdate] after an allowed predecessor and
    without a conflict key panics after its [defer] is in place, and leaves the
    previous action advanced to DO UPDATE. *)
Theorem illegal_call_aborts (b : SqlBuilder.t) (c : call) :
  legal b c = false ->
  exists msg, perform c b = Panicked msg (afterAbort b c).
Proof.
  unfold legal. intros Hillegal. apply andb_false_iff in Hillegal.
  case_bool_decide as Hin.
  - destruct Hillegal as [Hillegal|Hside]; [discriminate|].
    unfold allowedPredecessors in Hin.
    destruct c; simpl in Hside; try discriminate.
    + (* And *)
      destruct (String.eqb_spec (SqlBuilder._type b) sqlBuilderTypeSelect) as [Hs|Hns].
      * apply continueWhere_needs_tokens; [exact Hs|apply length_not_positive, Hside].
      * destruct (String.eqb_spec (SqlBuilder._type b) sqlBuilderTypeInsert) as [Hi|Hni];
          [|inversion Hin].
        apply continueWhere_needs_update_tokens;
          [exact Hi|apply length_not_positive, Hside].
    + (* Or *)
      destruct (String.eqb_spec (SqlBuilder._type b) sqlBuilderTypeSelect) as [Hs|Hns].
      * apply continueWhere_needs_tokens; [exact Hs|apply length_not_positive, Hside].
      * destruct (String.eqb_spec (SqlBuilder._type b) sqlBuilderTypeInsert) as [Hi|Hni];
          [|inversion Hin].
        apply continueWhere_needs_update_tokens;
          [exact Hi|apply length_not_positive, Hside].
    + (* DoUpdate *)
      destruct (String.eqb_spec (SqlBuilder._type b) sqlBuilderTypeSelect) as [Hs|Hns];
        [inversion Hin|].
      destruct (String.eqb_spec (SqlBuilder._type b) sqlBuilderTypeInsert) as [Hi|Hni];
        [|inversion Hin].
      exists "ON CONFLICT keys not added". cbn [perform afterAbort].
      rewrite bool_decide_eq_true_2.
      * apply DoUpdate_without_keys;
          [exact Hi|exact Hin|apply length_not_positive, Hside].
      * unfold allowedPredecessors.
        destruct (String.eqb_spec (SqlBuilder._type b) sqlBuilderTypeSelect);
          [contradiction|].
        destruct (String.eqb_spec (SqlBuilder._type b) sqlBuilderTypeInsert);
          [exact Hin|contradiction].
  - destruct (predecessor_rejected b c Hin) as [msg Hmsg]. exists msg.
    destruct c; cbn [afterAbort]; try exact Hmsg.
    rewrite bool_decide_eq_false_2 by exact Hin. exact Hmsg.
Qed.

Lemma illegal_call_aborts_witness :
  exists msg,
    perform (CWhere [TokAny (AString "= $1")]) (builderOf (Select (fixtures.cols fixtures.t1 [])))
    = Panicked msg
        (afterAbort (builderOf (Select (fixtures.cols fixtures.t1 [])))
           (CWhere [TokAny (AString "= $1")])).
Proof.
  apply illegal_call_aborts. vm_compute. reflexivity.
Defined.

(** [DoUpdate] after [OnConflict()] without a conflict key is not legal, and
    it does not leave the builder as it was: the call panics with the
    previous action advanced from ON CONFLICT to DO UPDATE. *)
Lemma DoUpdate_without_keys_advances :
  legal fixtures.conflictWithoutKeys (CDoUpdate [TokAny (AString "x = 1")]) = false /\
  exists msg b',
    perform (CDoUpdate [TokAny (AString "x = 1")]) fixtures.conflictWithoutKeys
    = Panicked msg b' /\
    SqlBuilder.previousAction fixtures.conflictWithoutKeys = previousIsInsertIntoOnConflict /\
    SqlBuilder.previousAction b' = previousIsInsertIntoOnConflictDoUpdate /\
    b' <> fixtures.conflictWithoutKeys.
Proof.
  split; [vm_compute; reflexivity|].
  eexists _, _. split; [vm_compute; reflexivity|].
  split; [vm_compute; reflexivity|]. split; [vm_compute; reflexivity|].
  intros E. apply (f_equal SqlBuilder.previousAction) in E. vm_compute in E. discriminate E.
Qed.

(** ** Invariants of a builder over its lifetime *)

Section Preservation.
Variable I : SqlBuilder.t -> Prop.

Lemma preserves_bind {A C} (m : B A) (k : A -> B C) :
  preserves I m -> (forall a, preserves I (k a)) -> preserves I (m ≫= k).
Proof.
  intros Hm Hk b Hb. unfoldB. specialize (Hm b Hb).
  destruct (m b) as [a b'|msg b']; simpl in *; [apply Hk, Hm|exact Hm].
Qed.

Lemma preserves_ret {A} (a : A) : preserves I (retB a).
Proof. intros b Hb. exact Hb. Qed.

Lemma preserves_panic {A} (msg : string) : preserves I (@panic A msg).
Proof. intros b Hb. exact Hb. Qed.

Lemma preserves_get : preserves I get.
Proof. intros b Hb. exact Hb. Qed.

Lemma preserves_lift {A} (o : outcome A) : preserves I (lift o).
Proof. intros b Hb. unfold lift. destruct o; exact Hb. Qed.

Lemma preserves_modify (f : SqlBuilder.t -> SqlBuilder.t) :
  (forall b, I b -> I (f b)) -> preserves I (modify f).
Proof. intros Hf b Hb. apply Hf, Hb. Qed.

Lemma preserves_defer {A} (d : SqlBuilder.t -> SqlBuilder.t) (body : B A) :
  (forall b, I b -> I (d b)) -> preserves I body -> preserves I (defer d body).
Proof.
  intros Hd Hbody b Hb. unfold defer. specialize (Hbody b Hb).
  destruct (body b); simpl in *; apply Hd, Hbody.
Qed.

Lemma preserves_forEach {A} (l : list A) (f : A -> B unit) :
  (forall x, x ∈ l -> preserves I (f x)) -> preserves I (forEach l f).
Proof.
  induction l as [|x l IH]; intros Hf; simpl.
  - apply preserves_ret.
  - apply (preserves_bind (f x) (fun _ => forEach l f)).
    + apply Hf. left.
    + intros _. apply IH. intros y Hy. apply Hf. right. exact Hy.
Qed.

Lemma preserves_guard (m : B unit) : guard m -> preserves I m.
Proof. intros Hg b Hb. destruct (Hg b) as [->|[msg ->]]; exact Hb. Qed.

(** The loop of [Join] keeps what registering each of its tables keeps. *)
Lemma preserves_joinPairs (joinOnTableName : string) (l : list GenericColumnToUse.t) :
  (forall c, c ∈ l -> preserves I (registerUsingTable (GenericColumnToUse.table c))) ->
  forall i, preserves I (Builder.joinPairs joinOnTableName l i).
Proof.
  enough (Hboth :
    (forall c, c ∈ l -> preserves I (registerUsingTable (GenericColumnToUse.table c))) ->
    (forall i, preserves I (Builder.joinPairs joinOnTableName l i)) /\
    (forall x i, preserves I (registerUsingTable (GenericColumnToUse.table x)) ->
                 preserves I (Builder.joinPairs joinOnTableName (x :: l) i))).
  { intros H. apply Hboth, H. }
  induction l as [|y l IH]; intros Hreg.
  - split; intros; simpl; apply preserves_ret.
  - assert (Hl : forall c, c ∈ l ->
                 preserves I (registerUsingTable (GenericColumnToUse.table c))).
    { intros c Hc. apply Hreg. right. exact Hc. }
    destruct (IH Hl) as [IH1 IH2]. split.
    + intros i. apply IH2. apply Hreg. left.
    + intros x i Hx. cbn [Builder.joinPairs].
      apply preserves_bind; [|intros _].
      { repeat match goal with
               | |- preserves _ (if ?c then _ else _) => destruct c
               end; first [apply preserves_panic | apply preserves_ret]. }
      apply preserves_bind; [exact Hx|intros _].
      apply preserves_bind; [apply Hreg; left|intros _].
      apply IH1.
Qed.

End Preservation.

Ltac pres_step :=
  match goal with
  | |- preserves _ (_ ≫= _) => apply preserves_bind; [|intros ?]
  | |- preserves _ (retB _) => apply preserves_ret
  | |- preserves _ (panic _) => apply preserves_panic
  | |- preserves _ get => apply preserves_get
  | |- preserves _ (lift _) => apply preserves_lift
  | |- preserves _ (defer _ _) => apply preserves_defer; [intros ? ?|]
  | |- preserves _ (modify _) => apply preserves_modify; intros ? ?
  | |- preserves _ (mustPreviousAction _) =>
      apply preserves_guard, mustPreviousAction_guard
  | |- preserves _ mustTypeSelect => apply preserves_guard, mustTypeSelect_guard
  | |- preserves _ mustTypeInsert => apply preserves_guard, mustTypeInsert_guard
  | |- preserves _ mustBasicSelect => apply preserves_guard, mustBasicSelect_guard
  | |- preserves _ (if ?c then _ else _) => destruct c
  | |- preserves _ (match ?x with _ => _ end) => destruct x
  end.

Ltac pres := repeat pres_step.

(** ** C10: SELECT EXISTS and SELECT COUNT builders *)

Lemma basicOnly_rejects (b : SqlBuilder.t) (c : call) :
  basicOnly c = true ->
  SqlBuilder.selectType b = selectTypeExists \/ SqlBuilder.selectType b = selectTypeCount ->
  exists msg, perform c b = Panicked msg b.
Proof.
  intros Hc Hty.
  assert (Hnb : exists msg, mustBasicSelect b = Panicked msg b).
  { destruct (mustSelectType_spec selectTypeBasic b) as [(_ & Hb & _)|[_ H]]; [|exact H].
    destruct Hty as [He|He]; rewrite He in Hb; discriminate. }
  destruct c; try discriminate Hc; simpl; unfold_select_calls;
    (apply guarded_rejects; [apply mustTypeSelect_guard|]);
    apply rejects_first; exact Hnb.
Qed.

Lemma basicOnly_accepts (b b' : SqlBuilder.t) (c : call) :
  basicOnly c = true -> perform c b = Ok tt b' ->
  SqlBuilder._type b = sqlBuilderTypeSelect /\ SqlBuilder.selectType b = selectTypeBasic.
Proof.
  intros Hc Hok.
  destruct (mustSelectType_spec selectTypeBasic b) as [(Ht & Hb & _)|[_ [msg Hp]]];
    [split; assumption|].
  exfalso.
  destruct c; try discriminate Hc; simpl in Hok; revert Hok; unfold_select_calls; unfoldB;
    (destruct (mustTypeSelect_guard b) as [->|[msg' ->]]; [|discriminate]);
    fold mustBasicSelect; unfold mustBasicSelect; rewrite Hp; discriminate.
Qed.

Ltac solve_bare :=
  match goal with
  | H : bare _ _ |- bare _ _ =>
      unfold bare, carriesNothing in *; simpl; exact H
  end.

Lemma bare_registerUsingTable (ty : selectType) (use : TableToUse.t) :
  preserves (bare ty) (registerUsingTable use).
Proof. unfold registerUsingTable. pres; solve_bare. Qed.

Lemma bare_performAny (ty : selectType) (c : anyCall) :
  ty = selectTypeExists \/ ty = selectTypeCount ->
  preserves (bare ty) (performAny c).
Proof.
  intros Hty.
  assert (Hbasic : forall c, basicOnly c = true -> preserves (bare ty) (perform c)).
  { intros c' Hc b Hb.
    destruct (basicOnly_rejects b c' Hc) as [msg ->]; [|exact Hb].
    destruct Hb as [-> _]. exact Hty. }
  destruct c as [c|p|]; simpl.
  - destruct c; try (apply Hbasic; reflexivity); simpl.
    + unfold Builder.From. pres; try solve_bare.
      apply preserves_forEach. intros. apply bare_registerUsingTable.
    + unfold Builder.Join. pres; try solve_bare.
      apply preserves_joinPairs. intros. apply bare_registerUsingTable.
    + unfold Builder.Where. pres; solve_bare.
    + unfold Builder.And, Builder.continueWhere. pres; solve_bare.
    + unfold Builder.Or, Builder.continueWhere. pres; solve_bare.
    + unfold Builder.Args. pres; solve_bare.
    + unfold Builder.Values. pres; try solve_bare.
      apply preserves_forEach. intros. pres.
    + unfold Builder.OnConflict. pres; try solve_bare.
      apply preserves_forEach. intros. pres.
    + unfold Builder.DoUpdate. pres; solve_bare.
    + unfold Builder.DoNothing. pres; solve_bare.
  - unfold Builder.Pagination. destruct p as [p|]; [|apply preserves_ret].
    apply preserves_bind; [|intros _].
    + destruct (N.ltb 0 (Pagination.offset p)); [|apply preserves_ret].
      apply (Hbasic (COffset (Pagination.offset p))). reflexivity.
    + destruct (N.ltb 0 (Pagination.limit p)); [|apply preserves_ret].
      apply (Hbasic (CLimit (Pagination.limit p))). reflexivity.
  - unfold Builder.DoUpdateExceptPrimaryKeys, Builder.DoUpdate. pres; solve_bare.
Qed.

Lemma preserves_afterCalls (I : SqlBuilder.t -> Prop) (calls : list anyCall) :
  (forall c, c ∈ calls -> preserves I (performAny c)) ->
  forall b, I b -> I (afterCalls calls b).
Proof.
  unfold afterCalls. induction calls as [|c calls IH]; intros Hc b Hb; simpl; [exact Hb|].
  apply IH.
  - intros c' Hc'. apply Hc. right. exact Hc'.
  - apply (Hc c); [left|exact Hb].
Qed.

Lemma bare_renders_nothing (ty : selectType) (b : SqlBuilder.t) (sb : string) :
  bare ty b ->
  writeOrderBy b sb = sb /\
  writeOffsetLimit (SqlBuilder.offset b) (SqlBuilder.limit b) sb = sb.
Proof.
  intros (_ & _ & Ho & Hoff & Hlim). unfold writeOrderBy, writeOffsetLimit.
  rewrite Ho, Hoff, Hlim. split; reflexivity.
Qed.

(** C10. On a builder of select type EXISTS or COUNT each of Select,
    OrderBy, ThenBy, Offset and Limit panics, wherever the state machine
    stands, and leaves the builder untouched; such a call returns only on a
    basic SELECT builder; and whatever calls follow [SelectExists] or
    [SelectCount], the builder never carries a column list, an ORDER BY, an
    OFFSET or a LIMIT, and renders none. *)
Theorem exists_count_reject_basic_calls (b : SqlBuilder.t) (c : call)
    (calls : list anyCall) :
  basicOnly c = true ->
  (SqlBuilder.selectType b = selectTypeExists \/ SqlBuilder.selectType b = selectTypeCount ->
   exists msg, perform c b = Panicked msg b) /\
  (forall b', perform c b = Ok tt b' ->
     SqlBuilder._type b = sqlBuilderTypeSelect /\
     SqlBuilder.selectType b = selectTypeBasic) /\
  (forall start ty,
     (start = SelectExists /\ ty = selectTypeExists) \/
     (start = SelectCount /\ ty = selectTypeCount) ->
     let b' := afterCalls calls (builderOf start) in
     SqlBuilder.selectType b' = ty /\ carriesNothing b' /\
     forall sb, writeOrderBy b' sb = sb /\
                writeOffsetLimit (SqlBuilder.offset b') (SqlBuilder.limit b') sb = sb).
Proof.
  intros Hc. split; [|split].
  - intros Hty. apply basicOnly_rejects; assumption.
  - intros b' Hok. eapply basicOnly_accepts; eassumption.
  - intros start ty Hstart b'.
    assert (Hbare : bare ty b').
    { apply preserves_afterCalls.
      - intros c' _. apply bare_performAny.
        destruct Hstart as [[_ ->]|[_ ->]]; [left|right]; reflexivity.
      - destruct Hstart as [[-> ->]|[-> ->]]; vm_compute; repeat split. }
    split; [apply Hbare|]. split; [apply Hbare|].
    intros sb. eapply bare_renders_nothing, Hbare.
Qed.

Lemma exists_count_reject_basic_calls_witness :
  exists msg,
    perform (COrderBy (fixtures.col fixtures.t1 "pk1") ASC)
      (builderOf (chain SelectExists [Builder.From [fixtures.t1]]))
    = Panicked msg (builderOf (chain SelectExists [Builder.From [fixtures.t1]])).
Proof.
  refine (proj1 (exists_count_reject_basic_calls _ _ [] _) _).
  - reflexivity.
  - left. vm_compute. reflexivity.
Defined.

(** ** C3: the tables in use of a builder *)

Lemma registerUsingTable_taken (b : SqlBuilder.t) (use : TableToUse.t) (uid' : Z) :
  SqlBuilder.aliasToTableUniqueId b !! TableToUse.alias use = Some uid' ->
  uid' <> TableToUse.uid use ->
  exists msg, registerUsingTable use b = Panicked msg b.
Proof.
  intros Hfound Hne. unfold registerUsingTable. unfoldB.
  destruct (TableToUse.mustSealed use); [|eauto].
  unfold TableToUse.tableAlias, TableToUse.uniqueIdentity. rewrite Hfound.
  destruct (Z.eqb_spec uid' (TableToUse.uid use)); [contradiction|]. simpl. eauto.
Qed.

Lemma set_maps_id (b : SqlBuilder.t) :
  SqlBuilder.set_tableUniqueIdToAlias (SqlBuilder.tableUniqueIdToAlias b)
    (SqlBuilder.set_aliasToTableUniqueId (SqlBuilder.aliasToTableUniqueId b) b) = b.
Proof. destruct b. reflexivity. Qed.

Lemma registerUsingTable_again (b : SqlBuilder.t) (use : TableToUse.t) :
  TableToUse.sealed use = true ->
  SqlBuilder.aliasToTableUniqueId b !! TableToUse.alias use = Some (TableToUse.uid use) ->
  SqlBuilder.tableUniqueIdToAlias b !! TableToUse.uid use = Some (TableToUse.alias use) ->
  registerUsingTable use b = Ok tt b.
Proof.
  intros Hsealed Ha Hu. unfold registerUsingTable. unfoldB.
  unfold TableToUse.mustSealed. rewrite Hsealed. simpl.
  unfold TableToUse.tableAlias, TableToUse.uniqueIdentity. rewrite Ha.
  rewrite Z.eqb_refl. simpl.
  rewrite (insert_id _ _ _ Ha), (insert_id _ _ _ Hu), set_maps_id. reflexivity.
Qed.

Lemma registerUsingTable_binds (b b' : SqlBuilder.t) (use : TableToUse.t) :
  registerUsingTable use b = Ok tt b' ->
  TableToUse.sealed use = true /\
  SqlBuilder.aliasToTableUniqueId b' !! TableToUse.alias use = Some (TableToUse.uid use) /\
  SqlBuilder.tableUniqueIdToAlias b' !! TableToUse.uid use = Some (TableToUse.alias use).
Proof.
  unfold registerUsingTable. unfoldB. unfold TableToUse.mustSealed.
  destruct (TableToUse.sealed use); simpl; [|discriminate].
  unfold TableToUse.tableAlias, TableToUse.uniqueIdentity.
  destruct (SqlBuilder.aliasToTableUniqueId b !! TableToUse.alias use) as [u|];
    [destruct (Z.eqb u (TableToUse.uid use)); simpl; [|discriminate]|];
    intros [= <-]; simpl; rewrite !lookup_insert_eq; auto.
Qed.

Lemma registerUsingTable_keeps (aliasOf : Z -> string) (use : TableToUse.t) :
  uidTellsAlias aliasOf use ->
  preserves (registryInvariant aliasOf) (registerUsingTable use).
Proof.
  intros Huse b [Hinv Hcons]. unfold registerUsingTable. unfoldB.
  destruct (TableToUse.mustSealed use); simpl; [|split; assumption].
  unfold TableToUse.tableAlias, TableToUse.uniqueIdentity.
  set (alias := TableToUse.alias use). set (uid := TableToUse.uid use).
  destruct (SqlBuilder.aliasToTableUniqueId b !! alias) as [u|] eqn:Ealias.
  - destruct (Z.eqb_spec u uid) as [->|Hne]; simpl; [|split; assumption].
    split.
    + intros a' u'. simpl. rewrite !lookup_insert_Some. split.
      * intros [[<- <-]|[Hna Ha']]; [left; auto|].
        right. split; [|apply Hinv, Ha'].
        intros <-. apply Hna. apply Hinv in Ha'. apply Hcons in Ha'. rewrite Ha'. exact Huse.
      * intros [[<- <-]|[Hnu Hu']]; [left; auto|].
        right. split; [|apply Hinv, Hu'].
        intros <-. apply Hnu. apply Hinv in Hu'. rewrite Ealias in Hu'. congruence.
    + intros u' a'. simpl. rewrite lookup_insert_Some.
      intros [[<- <-]|[_ Hu']]; [exact Huse|apply Hcons, Hu'].
  - simpl. split.
    + intros a' u'. simpl. rewrite !lookup_insert_Some. split.
      * intros [[<- <-]|[Hna Ha']]; [left; auto|].
        right. split; [|apply Hinv, Ha'].
        intros <-. apply Hna. apply Hinv in Ha'. apply Hcons in Ha'. rewrite Ha'. exact Huse.
      * intros [[<- <-]|[Hnu Hu']]; [left; auto|].
        right. split; [|apply Hinv, Hu'].
        intros <-. apply Hinv in Hu'. rewrite Ealias in Hu'. discriminate.
    + intros u' a'. simpl. rewrite lookup_insert_Some.
      intros [[<- <-]|[_ Hu']]; [exact Huse|apply Hcons, Hu'].
Qed.

Ltac solve_registry :=
  match goal with
  | H : registryInvariant _ _ |- registryInvariant _ _ =>
      unfold registryInvariant, mapsInverse in *; simpl; exact H
  end.

Lemma registry_performAny (aliasOf : Z -> string) (c : anyCall) :
  (forall t, t ∈ tablesOfCall c -> uidTellsAlias aliasOf t) ->
  preserves (registryInvariant aliasOf) (performAny c).
Proof.
  intros Htables.
  destruct c as [c|p|]; simpl.
  - destruct c; simpl in *.
    + unfold Builder.Select. pres; try solve_registry.
      apply preserves_forEach. intros column Hin.
      apply registerUsingTable_keeps, Htables. apply list_elem_of_fmap. eauto.
    + unfold Builder.From. pres; try solve_registry.
      apply preserves_forEach. intros table Hin.
      apply registerUsingTable_keeps, Htables, Hin.
    + unfold Builder.Join. pres; try solve_registry.
      apply preserves_joinPairs. intros column Hin.
      apply registerUsingTable_keeps, Htables. apply list_elem_of_fmap. eauto.
    + unfold Builder.Where. pres; solve_registry.
    + unfold Builder.And, Builder.continueWhere. pres; solve_registry.
    + unfold Builder.Or, Builder.continueWhere. pres; solve_registry.
    + unfold Builder.Args. pres; solve_registry.
    + unfold Builder.OrderBy. pres; solve_registry.
    + unfold Builder.ThenBy. pres; solve_registry.
    + unfold Builder.Offset. pres; solve_registry.
    + unfold Builder.Limit. pres; solve_registry.
    + unfold Builder.Values. pres; try solve_registry.
      apply preserves_forEach. intros. pres.
    + unfold Builder.OnConflict. pres; try solve_registry.
      apply preserves_forEach. intros. pres.
    + unfold Builder.DoUpdate. pres; solve_registry.
    + unfold Builder.DoNothing. pres; solve_registry.
  - unfold Builder.Pagination, Builder.Offset, Builder.Limit. pres; solve_registry.
  - unfold Builder.DoUpdateExceptPrimaryKeys, Builder.DoUpdate. pres; solve_registry.
Qed.

Lemma registry_newSqlBuilder (aliasOf : Z -> string) :
  registryInvariant aliasOf newSqlBuilder.
Proof.
  split.
  - intros alias uid. simpl. rewrite !lookup_empty. split; discriminate.
  - intros uid alias. simpl. rewrite lookup_empty. discriminate.
Qed.

Lemma registry_construct (aliasOf : Z -> string) (c : constructor) :
  (forall t, t ∈ tablesOfConstructor c -> uidTellsAlias aliasOf t) ->
  registryInvariant aliasOf (builderOf (construct c)).
Proof.
  intros Htables.
  assert (Hselect : forall columns,
            (forall t, t ∈ List.map GenericColumnToUse.table columns ->
                       uidTellsAlias aliasOf t) ->
            registryInvariant aliasOf (builderOf (Select columns))).
  { intros columns Hcols. unfold Select.
    apply (registry_performAny aliasOf (Fluent (CSelect columns)) Hcols).
    pose proof (registry_newSqlBuilder aliasOf) as H. solve_registry. }
  assert (Hempty : registryInvariant aliasOf (builderOf (Select []))).
  { apply Hselect. intros t Ht. inversion Ht. }
  destruct c as [columns| | |g use columns]; simpl in *.
  - apply Hselect, Htables.
  - unfold SelectExists. destruct (Select []); simpl in *; solve_registry.
  - unfold SelectCount. destruct (Select []); simpl in *; solve_registry.
  - unfold InsertInto.
    assert (Hbody : forall m : B unit, preserves (registryInvariant aliasOf) m ->
              registryInvariant aliasOf
                (builderOf (m (SqlBuilder.set__type sqlBuilderTypeInsert newSqlBuilder)))).
    { intros m Hm. apply Hm.
      pose proof (registry_newSqlBuilder aliasOf) as H. solve_registry. }
    apply Hbody. pres; try solve_registry.
    apply registerUsingTable_keeps, Htables. left.
Qed.

(** A sealed table whose alias is bound to its unique id registers again,
    and all that changes is the alias kept for the unique id. *)
Lemma registerUsingTable_bound (b : SqlBuilder.t) (use : TableToUse.t) :
  TableToUse.sealed use = true ->
  SqlBuilder.aliasToTableUniqueId b !! TableToUse.alias use = Some (TableToUse.uid use) ->
  registerUsingTable use b
  = Ok tt (SqlBuilder.set_tableUniqueIdToAlias
             (<[TableToUse.uid use := TableToUse.alias use]>
                (SqlBuilder.tableUniqueIdToAlias b)) b).
Proof.
  intros Hsealed Ha. unfold registerUsingTable. unfoldB.
  unfold TableToUse.mustSealed. rewrite Hsealed. simpl.
  unfold TableToUse.tableAlias, TableToUse.uniqueIdentity. rewrite Ha.
  rewrite Z.eqb_refl. simpl.
  rewrite (insert_id _ _ _ Ha). destruct b. reflexivity.
Qed.

(** C3. Registering a table whose alias is bound to another unique id
    panics and changes nothing. Registering a sealed table whose alias is
    bound to its unique id returns; it resets the alias kept for the unique
    id and changes nothing else, so it changes nothing at all when the two
    maps are mutually inverse. As long as a unique id tells the alias (no two
    tables in use share a unique id under different aliases), the two maps
    are mutually inverse after the constructor and after every call,
    returned or panicked, and registering a registered table again changes
    nothing then. *)
Theorem table_registration (aliasOf : Z -> string) (start : constructor)
    (calls : list anyCall) :
  (forall t, t ∈ tablesOfConstructor start ++ flat_map tablesOfCall calls ->
             uidTellsAlias aliasOf t) ->
  (forall b use uid',
     SqlBuilder.aliasToTableUniqueId b !! TableToUse.alias use = Some uid' ->
     uid' <> TableToUse.uid use ->
     exists msg, registerUsingTable use b = Panicked msg b) /\
  (forall b use,
     TableToUse.sealed use = true ->
     SqlBuilder.aliasToTableUniqueId b !! TableToUse.alias use = Some (TableToUse.uid use) ->
     registerUsingTable use b
     = Ok tt (SqlBuilder.set_tableUniqueIdToAlias
                (<[TableToUse.uid use := TableToUse.alias use]>
                   (SqlBuilder.tableUniqueIdToAlias b)) b) /\
     (mapsInverse b -> registerUsingTable use b = Ok tt b)) /\
  mapsInverse (afterCalls calls (builderOf (construct start))) /\
  (forall use,
     TableToUse.sealed use = true ->
     SqlBuilder.aliasToTableUniqueId (afterCalls calls (builderOf (construct start)))
       !! TableToUse.alias use = Some (TableToUse.uid use) ->
     registerUsingTable use (afterCalls calls (builderOf (construct start)))
     = Ok tt (afterCalls calls (builderOf (construct start)))).
Proof.
  intros Htables.
  assert (Hinv : mapsInverse (afterCalls calls (builderOf (construct start)))).
  { apply (preserves_afterCalls (registryInvariant aliasOf)).
    - intros c Hc. apply registry_performAny. intros t Ht. apply Htables.
      apply elem_of_app. right. apply list_elem_of_In, in_flat_map.
      exists c. split; apply list_elem_of_In; assumption.
    - apply registry_construct. intros t Ht. apply Htables.
      apply elem_of_app. left. exact Ht. }
  split; [|split; [|split]].
  - intros b use uid'. apply registerUsingTable_taken.
  - intros b use Hsealed Ha. split; [apply registerUsingTable_bound; assumption|].
    intros Hb. apply registerUsingTable_again; [exact Hsealed|exact Ha|].
    apply Hb, Ha.
  - exact Hinv.
  - intros use Hsealed Ha. apply registerUsingTable_again; [exact Hsealed|exact Ha|].
    apply Hinv, Ha.
Qed.

Lemma table_registration_witness :
  mapsInverse
    (afterCalls [Fluent (CSelect (fixtures.cols fixtures.t2 ["pk3"]));
                 Fluent (CFrom [fixtures.t1; fixtures.t2])]
       (builderOf (construct (NewSelect (fixtures.cols fixtures.t1 ["pk1"]))))) /\
  registerUsingTable fixtures.t1
    (afterCalls [Fluent (CSelect (fixtures.cols fixtures.t2 ["pk3"]));
                 Fluent (CFrom [fixtures.t1; fixtures.t2])]
       (builderOf (construct (NewSelect (fixtures.cols fixtures.t1 ["pk1"])))))
  = Ok tt
      (afterCalls [Fluent (CSelect (fixtures.cols fixtures.t2 ["pk3"]));
                   Fluent (CFrom [fixtures.t1; fixtures.t2])]
         (builderOf (construct (NewSelect (fixtures.cols fixtures.t1 ["pk1"]))))).
Proof.
  destruct (table_registration
              (fun uid => if Z.eqb uid 11 then "t1" else "t2")
              (NewSelect (fixtures.cols fixtures.t1 ["pk1"]))
              [Fluent (CSelect (fixtures.cols fixtures.t2 ["pk3"]));
               Fluent (CFrom [fixtures.t1; fixtures.t2])]) as (_ & _ & Hinv & Hagain).
  - intros t Ht. vm_compute in Ht.
    repeat (apply elem_of_cons in Ht as [->|Ht]; [reflexivity|]).
    inversion Ht.
  - split; [exact Hinv|]. apply Hagain; vm_compute; reflexivity.
Defined.

(** Without the proviso on unique ids the invariant is lost: two sealed
    tables that share a unique id under two aliases are both registered, and the maps are no longer
    inverse of each other. *)
Lemma shared_unique_id_breaks_inverse :
  TableToUse.sealed fixtures.sharedA = true /\
  TableToUse.sealed fixtures.sharedB = true /\
  exists b',
    perform (CFrom [fixtures.sharedA; fixtures.sharedB]) (builderOf (Select [])) = Ok tt b' /\
    ~ mapsInverse b'.
Proof.
  split; [reflexivity|]. split; [reflexivity|].
  exists (builderOf (perform (CFrom [fixtures.sharedA; fixtures.sharedB])
                       (builderOf (Select [])))).
  split; [vm_compute; reflexivity|].
  intros H. specialize (H "a" 7%Z). vm_compute in H.
  destruct H as [H _]. specialize (H eq_refl). discriminate H.
Qed.

(** Without the proviso a registration repeated after other tables is no
    longer without effect: with the two tables that share the unique id 7,
    after [From(a)] and [From(b)] the unique id has the alias [b], and
    registering the first table again gives it the alias [a]. *)
Example repeated_registration_resets_alias :
  exists b1 b2,
    chain (Select []) [Builder.From [fixtures.sharedA]; Builder.From [fixtures.sharedB]]
    = Ok tt b1 /\
    SqlBuilder.tableUniqueIdToAlias b1 !! 7%Z = Some "b" /\
    registerUsingTable fixtures.sharedA b1 = Ok tt b2 /\
    SqlBuilder.tableUniqueIdToAlias b2 !! 7%Z = Some "a".
Proof.
  eexists _, _. split; [vm_compute; reflexivity|].
  split; [vm_compute; reflexivity|]. split; [vm_compute; reflexivity|].
  vm_compute. reflexivity.
Qed.

(** ** C9: OFFSET and LIMIT *)

Lemma Offset_returns (n : N) (b : SqlBuilder.t) :
  SqlBuilder._type b = sqlBuilderTypeSelect ->
  SqlBuilder.selectType b = selectTypeBasic ->
  SqlBuilder.previousAction b ∈
    [previousIsSelectFrom; previousIsSelectJoin; previousIsSelectWhere;
     previousIsSelectOrderBy; previousIsSelectLimit] ->
  Builder.Offset n b =
    Ok tt (setPreviousAction previousIsSelectOffset (SqlBuilder.set_offset n b)).
Proof.
  intros Ht Hs Hp. unfold Builder.Offset, mustBasicSelect. unfoldB.
  destruct (mustTypeSelect_spec b) as [[_ ->]|[Hn _]]; [|contradiction].
  destruct (mustSelectType_spec selectTypeBasic b) as [(_ & _ & ->)|[[Hn|Hn] _]];
    [|contradiction|contradiction].
  rewrite (mustPreviousAction_accepts _ _ Hp). reflexivity.
Qed.

Lemma Limit_returns (m : N) (b : SqlBuilder.t) :
  SqlBuilder._type b = sqlBuilderTypeSelect ->
  SqlBuilder.selectType b = selectTypeBasic ->
  SqlBuilder.previousAction b ∈
    [previousIsSelectFrom; previousIsSelectJoin; previousIsSelectWhere;
     previousIsSelectOrderBy; previousIsSelectOffset] ->
  Builder.Limit m b =
    Ok tt (setPreviousAction previousIsSelectLimit (SqlBuilder.set_limit m b)).
Proof.
  intros Ht Hs Hp. unfold Builder.Limit, mustBasicSelect. unfoldB.
  destruct (mustTypeSelect_spec b) as [[_ ->]|[Hn _]]; [|contradiction].
  destruct (mustSelectType_spec selectTypeBasic b) as [(_ & _ & ->)|[[Hn|Hn] _]];
    [|contradiction|contradiction].
  rewrite (mustPreviousAction_accepts _ _ Hp). reflexivity.
Qed.

Lemma append_cons (x : ascii) (a b : string) :
  String x a +:+ b = String x (a +:+ b).
Proof. reflexivity. Qed.

Lemma append_assoc (a b c : string) : (a +:+ b) +:+ c = a +:+ (b +:+ c).
Proof.
  induction a as [|x a IH]; [reflexivity|].
  rewrite !append_cons, IH. reflexivity.
Qed.

Lemma append_nil_r (a : string) : a +:+ "" = a.
Proof.
  induction a as [|x a IH]; [reflexivity|]. rewrite append_cons, IH. reflexivity.
Qed.

Lemma length_append (a b : string) :
  String.length (a +:+ b) = String.length a + String.length b.
Proof.
  induction a as [|x a IH]; [reflexivity|]. rewrite append_cons. simpl. rewrite IH. reflexivity.
Qed.

Lemma writeOffsetLimit_positive (n m : N) (sb : string) :
  writeOffsetLimit n m sb =
    sb +:+ claimedPaging (if N.ltb 0 n then Some n else None)
             (if N.ltb 0 m then Some m else None).
Proof.
  unfold writeOffsetLimit, claimedPaging.
  destruct (N.ltb 0 n), (N.ltb 0 m); simpl; try reflexivity.
  symmetry. apply append_nil_r.
Qed.

(** The statement of a basic SELECT builder that differs from [b], which
    has no paging, in its paging only, is the statement of [b] followed by
    the paging line. *)
Lemma buildSelect_paging (b b' : SqlBuilder.t) (sql : string) (args : list any) :
  SqlBuilder.selectType b = selectTypeBasic ->
  SqlBuilder.offset b = 0%N -> SqlBuilder.limit b = 0%N ->
  buildSelect b = Done (sql, args) ->
  SqlBuilder.selectType b' = SqlBuilder.selectType b ->
  SqlBuilder.selectColumns b' = SqlBuilder.selectColumns b ->
  SqlBuilder.selectFromTable b' = SqlBuilder.selectFromTable b ->
  SqlBuilder.joinsOn b' = SqlBuilder.joinsOn b ->
  SqlBuilder.whereTokens b' = SqlBuilder.whereTokens b ->
  SqlBuilder.whereArgs b' = SqlBuilder.whereArgs b ->
  SqlBuilder.orders b' = SqlBuilder.orders b ->
  buildSelect b'
  = Done (sql +:+ claimedPaging
                    (if N.ltb 0 (SqlBuilder.offset b') then Some (SqlBuilder.offset b') else None)
                    (if N.ltb 0 (SqlBuilder.limit b') then Some (SqlBuilder.limit b') else None),
          args).
Proof.
  intros Hs Ho Hl Hb E1 E2 E3 E4 E5 E6 E7. revert Hb.
  unfold buildSelect, writeSelectList, writeFrom, writeWhere, writeOrderBy.
  rewrite E1, E2, E3, E4, E5, E6, E7, Ho, Hl, Hs. simpl.
  destruct (Nat.eqb (length (SqlBuilder.selectColumns b)) 0); simpl; [discriminate|].
  destruct (Nat.eqb (length (SqlBuilder.selectFromTable b)) 0); simpl; [discriminate|].
  destruct (writeJoins _ _) as [sb1|]; simpl; [|discriminate].
  match goal with
  | |- context [mbind ?k ?o] => destruct o as [sb2|]; simpl; [|discriminate]
  end.
  intros [= <- <-]. rewrite writeOffsetLimit_positive. reflexivity.
Qed.

Lemma chain_panicked (msg : string) (b : SqlBuilder.t) (calls : list (B unit)) :
  chain (Panicked msg b) calls = Panicked msg b.
Proof. induction calls as [|call calls IH]; [reflexivity|exact IH]. Qed.

Lemma sameButPaging_refl (b : SqlBuilder.t) : sameButPaging b b.
Proof. repeat split. Qed.

(** A paging call on a basic SELECT builder: it returns with its value set
    when the previous action is among its allowed predecessors and panics
    otherwise. *)
Lemma paging_step (p : pagingCall) (b : SqlBuilder.t) :
  SqlBuilder._type b = sqlBuilderTypeSelect ->
  SqlBuilder.selectType b = selectTypeBasic ->
  (SqlBuilder.previousAction b ∈ allowedPredecessors sqlBuilderTypeSelect (callOf p) ->
   perform (callOf p) b
   = Ok tt (setPreviousAction (actionOf p)
              match p with
              | POffset n => SqlBuilder.set_offset n b
              | PLimit m => SqlBuilder.set_limit m b
              end)) /\
  (SqlBuilder.previousAction b ∉ allowedPredecessors sqlBuilderTypeSelect (callOf p) ->
   exists msg, perform (callOf p) b = Panicked msg b).
Proof.
  intros Ht Hs. split.
  - intros Hin. destruct p as [n|m]; cbn [callOf perform actionOf].
    + apply Offset_returns; assumption.
    + apply Limit_returns; assumption.
  - intros Hnot. apply predecessor_rejected. rewrite Ht. exact Hnot.
Qed.

(** A run of paging calls returns exactly when every call is accepted, and
    then the builder holds the value of the last call of each kind and the
    same statement otherwise. *)
Lemma paging_chain (calls : list pagingCall) (b : SqlBuilder.t) :
  SqlBuilder._type b = sqlBuilderTypeSelect ->
  SqlBuilder.selectType b = selectTypeBasic ->
  (pagingAccepted (SqlBuilder.previousAction b) calls = true ->
   exists b', chain (Ok tt b) (List.map (fun p => perform (callOf p)) calls) = Ok tt b') /\
  (forall b',
     chain (Ok tt b) (List.map (fun p => perform (callOf p)) calls) = Ok tt b' ->
     pagingAccepted (SqlBuilder.previousAction b) calls = true /\
     SqlBuilder.offset b' = offsetInEffect calls (SqlBuilder.offset b) /\
     SqlBuilder.limit b' = limitInEffect calls (SqlBuilder.limit b) /\
     sameButPaging b b').
Proof.
  revert b. induction calls as [|p calls IH]; intros b Ht Hs.
  - split; [intros _; exists b; reflexivity|].
    intros b' [= <-]. repeat split.
  - destruct (paging_step p b Ht Hs) as [Hyes Hno].
    cbn [List.map pagingAccepted]. unfold chain. cbn [List.fold_left]. fold (chain).
    case_bool_decide as Hin.
    + rewrite (Hyes Hin). cbn [andb].
      set (b1 := setPreviousAction (actionOf p)
                   match p with
                   | POffset n => SqlBuilder.set_offset n b
                   | PLimit m => SqlBuilder.set_limit m b
                   end).
      assert (Ht1 : SqlBuilder._type b1 = sqlBuilderTypeSelect)
        by (subst b1; destruct p; exact Ht).
      assert (Hs1 : SqlBuilder.selectType b1 = selectTypeBasic)
        by (subst b1; destruct p; exact Hs).
      assert (Hp1 : SqlBuilder.previousAction b1 = actionOf p)
        by (subst b1; destruct p; reflexivity).
      destruct (IH b1 Ht1 Hs1) as [IHyes IHall]. rewrite Hp1 in IHyes, IHall.
      split; [exact IHyes|].
      intros b' Hb'. destruct (IHall b' Hb') as (Hacc & Ho & Hl & Hsame).
      split; [exact Hacc|].
      destruct p as [n|m]; cbn [offsetInEffect limitInEffect];
        (split; [exact Ho|]); (split; [exact Hl|]); exact Hsame.
    + destruct (Hno Hin) as [msg ->]. cbn [andb].
      change (List.fold_left _ ?l (Panicked msg b)) with (chain (Panicked msg b) l).
      rewrite chain_panicked. split; [discriminate|]. discriminate.
Qed.

(** The statement of a basic SELECT builder is its statement without
    paging, followed by the paging line of the offset and the limit it
    holds, each present when it is above 0. *)
Lemma buildSelect_with_paging (b b' : SqlBuilder.t) (sql : string) (args : list any) :
  SqlBuilder.selectType b = selectTypeBasic ->
  sameButPaging b b' ->
  buildSelect (withoutPaging b) = Done (sql, args) ->
  buildSelect b'
  = Done (sql +:+ claimedPaging (positiveCall (Some (SqlBuilder.offset b')))
                    (positiveCall (Some (SqlBuilder.limit b'))), args).
Proof.
  intros Hs (E0 & E1 & E2 & E3 & E4 & E5 & E6 & E7) Hb.
  unfold positiveCall.
  eapply (buildSelect_paging (withoutPaging b) b'); try exact Hb;
    destruct b; simpl in *; first [reflexivity|assumption].
Qed.

(** C9. For a basic SELECT builder whose statement without paging [Build]
    returns: [Build] returns this statement followed by the paging line of
    the offset and the limit the builder holds, each present when it is
    above 0 ([OFFSET n LIMIT m] for both, the one clause for one, nothing
    for none). [Offset] and [Limit] may follow each other in any number; a
    run of them returns exactly when each call finds the previous action among
    its allowed predecessors, and the values the builder holds then are
    those of the last [Offset] and of the last [Limit] (the values held
    before where there is none), so that a later call with the value 0 takes
    the clause of an earlier call away. *)
Theorem paging_clauses (sqlKeywords : gset string) (b : SqlBuilder.t) (sql : string)
    (args : list any) (calls : list pagingCall) :
  SqlBuilder._type b = sqlBuilderTypeSelect ->
  SqlBuilder.selectType b = selectTypeBasic ->
  Build sqlKeywords (withoutPaging b) = Done (sql, args) ->
  Build sqlKeywords b
  = Done (sql +:+ claimedPaging (positiveCall (Some (SqlBuilder.offset b)))
                    (positiveCall (Some (SqlBuilder.limit b))), args) /\
  ((exists b', chain (Ok tt b) (List.map (fun p => perform (callOf p)) calls) = Ok tt b') <->
   pagingAccepted (SqlBuilder.previousAction b) calls = true) /\
  (forall b',
     chain (Ok tt b) (List.map (fun p => perform (callOf p)) calls) = Ok tt b' ->
     SqlBuilder.offset b' = offsetInEffect calls (SqlBuilder.offset b) /\
     SqlBuilder.limit b' = limitInEffect calls (SqlBuilder.limit b) /\
     Build sqlKeywords b'
     = Done (sql +:+ claimedPaging
                       (positiveCall (Some (offsetInEffect calls (SqlBuilder.offset b))))
                       (positiveCall (Some (limitInEffect calls (SqlBuilder.limit b)))),
             args)).
Proof.
  intros Ht Hs Hb.
  assert (Hbase : buildSelect (withoutPaging b) = Done (sql, args)).
  { revert Hb. unfold Build.
    replace (SqlBuilder._type (withoutPaging b)) with (SqlBuilder._type b)
      by (destruct b; reflexivity).
    rewrite Ht. simpl. auto. }
  destruct (paging_chain calls b Ht Hs) as [Hyes Hall].
  split; [|split].
  - unfold Build. rewrite Ht. simpl.
    apply (buildSelect_with_paging b b sql args Hs (sameButPaging_refl b) Hbase).
  - split; [|exact Hyes]. intros [b' Hb']. apply (Hall b' Hb').
  - intros b' Hb'. destruct (Hall b' Hb') as (_ & Ho & Hl & Hsame).
    split; [exact Ho|]. split; [exact Hl|].
    rewrite <- Ho, <- Hl. unfold Build.
    destruct Hsame as (E0 & Hrest). rewrite E0, Ht. simpl.
    apply (buildSelect_with_paging b b' sql args Hs); [|exact Hbase].
    split; [exact E0|exact Hrest].
Qed.

Lemma paging_clauses_witness :
  exists b',
    chain (Ok tt fixtures.selectFromT1)
      (List.map (fun p => perform (callOf p)) [POffset 5; PLimit 3; POffset 0]) = Ok tt b' /\
    SqlBuilder.offset b' = 0%N /\ SqlBuilder.limit b' = 3%N /\
    Build fixtures.keywords b' = Done (fixtures.selectFromT1Sql +:+ "LIMIT 3" +:+ LF, []).
Proof.
  destruct (paging_clauses fixtures.keywords fixtures.selectFromT1 fixtures.selectFromT1Sql []
              [POffset 5; PLimit 3; POffset 0]) as (_ & Hreturns & Hall).
  - vm_compute. reflexivity.
  - vm_compute. reflexivity.
  - vm_compute. reflexivity.
  - destruct (proj2 Hreturns) as [b' Hb']; [vm_compute; reflexivity|].
    exists b'. split; [exact Hb'|].
    destruct (Hall b' Hb') as (Ho & Hl & Hbuild).
    split; [exact Ho|]. split; [exact Hl|]. exact Hbuild.
Defined.

(** The value 0 is not rendered: after [Offset(0)] and [Limit(5)] the
    statement has the LIMIT clause alone, not the line
    [OFFSET 0 LIMIT 5]. *)
Lemma offset_zero_is_not_rendered :
  exists b',
    chain (Ok tt fixtures.selectFromT1) [Builder.Offset 0; Builder.Limit 5] = Ok tt b' /\
    Build fixtures.keywords b'
    = Done (fixtures.selectFromT1Sql +:+ "LIMIT 5" +:+ LF, []) /\
    Build fixtures.keywords b'
    <> Done (fixtures.selectFromT1Sql +:+ claimedPaging (Some 0%N) (Some 5%N), []).
Proof.
  eexists. split; [vm_compute; reflexivity|]. split; [vm_compute; reflexivity|].
  vm_compute. discriminate.
Qed.

(** ** Strings written by the loops *)

Lemma writeSeparated_from {A} (sep : string) (f : A -> string) (l : list A)
    (sb : string) (i : nat) :
  fst (List.fold_left (fun '(sb, i) x =>
         let sb := if Nat.ltb 0 i then sb +:+ sep else sb in
         (sb +:+ f x, S i)) l (sb, S i))
  = sb +:+ List.fold_right (fun x r => sep +:+ f x +:+ r) "" l.
Proof.
  revert sb i. induction l as [|x l IH]; intros sb i; simpl.
  - symmetry. apply append_nil_r.
  - rewrite IH. rewrite !append_assoc. reflexivity.
Qed.

Lemma concat_cons (sep : string) (x : string) (l : list string) :
  String.concat sep (x :: l) = x +:+ List.fold_right (fun y r => sep +:+ y +:+ r) "" l.
Proof.
  revert x. induction l as [|y l IH]; intros x.
  - simpl. symmetry. apply append_nil_r.
  - change (String.concat sep (x :: y :: l)) with (x +:+ sep +:+ String.concat sep (y :: l)).
    rewrite IH. reflexivity.
Qed.

(** A separated loop appends the elements joined by the separator. *)
Lemma writeSeparated_join {A} (sep : string) (f : A -> string) (l : list A) (sb : string) :
  writeSeparated sep f l sb = sb +:+ strings.Join (List.map f l) sep.
Proof.
  unfold writeSeparated, strings.Join. destruct l as [|x l].
  - simpl. symmetry. apply append_nil_r.
  - cbn [List.fold_left List.map Nat.ltb Nat.leb]. rewrite writeSeparated_from.
    rewrite concat_cons. rewrite append_assoc. f_equal. f_equal.
    induction l as [|y l IH]; simpl; [reflexivity|]. rewrite IH. reflexivity.
Qed.

(** ** C5: token streams *)

Ltac obind_simpl := unfold mbind, outcome_bind, obind.

Lemma writeTokens_stream (what : string) (renderColumn : GenericColumnToUse.t -> string)
    (tokens : list token) (sb : string) :
  match renderStream renderColumn tokens with
  | Some s => writeTokens what renderColumn tokens sb = Done (sb +:+ s)
  | None => exists msg, writeTokens what renderColumn tokens sb = Panic msg
  end.
Proof.
  revert sb. induction tokens as [|t tokens IH]; intros sb.
  - simpl. rewrite append_nil_r. reflexivity.
  - assert (Hstep : forall s,
              renderToken renderColumn t = Some s ->
              writeTokens what renderColumn (t :: tokens) sb
              = writeTokens what renderColumn tokens ((sb +:+ " ") +:+ s)).
    { intros s Hs. destruct t as [c|v]; [|destruct v]; simpl in Hs |- *;
        try discriminate Hs; injection Hs as <-; reflexivity. }
    assert (Hfail : renderToken renderColumn t = None ->
              exists msg, writeTokens what renderColumn (t :: tokens) sb = Panic msg).
    { intros Hs. destruct t as [c|v]; [|destruct v]; simpl in Hs |- *;
        try discriminate Hs; eauto. }
    cbn [renderStream]. destruct (renderToken renderColumn t) as [s|].
    + rewrite (Hstep s eq_refl). specialize (IH ((sb +:+ " ") +:+ s)).
      destruct (renderStream renderColumn tokens) as [r|]; [|exact IH].
      rewrite IH, !append_assoc. reflexivity.
    + apply Hfail. reflexivity.
Qed.

Lemma nonempty_length {A} (l : list A) : l <> [] -> Nat.ltb 0 (length l) = true.
Proof. destruct l; [contradiction|reflexivity]. Qed.

Lemma writeWhere_stream (b : SqlBuilder.t) (sb : string) :
  SqlBuilder.whereTokens b <> [] ->
  match renderStream aliasQualified (SqlBuilder.whereTokens b) with
  | Some s => writeWhere b sb = Done (sb +:+ "WHERE" +:+ s +:+ LF)
  | None => exists msg, writeWhere b sb = Panic msg
  end.
Proof.
  intros Hne. unfold writeWhere. rewrite (nonempty_length _ Hne).
  pose proof (writeTokens_stream "WHERE" aliasQualified
                (SqlBuilder.whereTokens b) (sb +:+ "WHERE")) as H.
  unfold writeWhereTokens.
  change GenericColumnToUse.nameWithAlias with aliasQualified.
  destruct (renderStream aliasQualified (SqlBuilder.whereTokens b)) as [s|].
  - rewrite H. unfold mbind, outcome_bind, obind. rewrite !append_assoc. reflexivity.
  - destruct H as [msg ->]. unfold mbind, outcome_bind, obind. eauto.
Qed.

(** The text the ON CONFLICT ... DO UPDATE part adds for two rendered streams. *)
Lemma writeOnConflict_streams (b : SqlBuilder.t) (sb : string) :
  SqlBuilder.insertOnConflictDoNothing b = false ->
  SqlBuilder.insertOnConflictKeys b <> [] ->
  match renderStream bareName (SqlBuilder.insertOnConflictDoUpdateTokens b),
        renderStream tableQualified (SqlBuilder.insertOnConflictDoUpdateWhereTokens b) with
  | Some s, Some w =>
      writeOnConflict b sb
      = Done ((sb +:+ LF +:+ "ON CONFLICT ("
               +:+ strings.Join (List.map GenericColumnToUse.name
                                   (SqlBuilder.insertOnConflictKeys b)) ", " +:+ ") ")
              +:+ "DO UPDATE SET" +:+ LF +:+ s
              +:+ (if Nat.ltb 0 (length (SqlBuilder.insertOnConflictDoUpdateWhereTokens b))
                   then LF +:+ "WHERE" +:+ w else ""))
  | _, _ => exists msg, writeOnConflict b sb = Panic msg
  end.
Proof.
  intros Hdn Hkeys. unfold writeOnConflict. rewrite Hdn, (nonempty_length _ Hkeys).
  rewrite writeSeparated_join.
  unfold writeDoUpdateTokens, writeDoUpdateWhereTokens.
  change (writeTokens "ON CONFLICT UPDATE" GenericColumnToUse.name)
    with (writeTokens "ON CONFLICT UPDATE" bareName).
  change (writeTokens "ON CONFLICT UPDATE WHERE" _)
    with (writeTokens "ON CONFLICT UPDATE WHERE" tableQualified).
  match goal with
  | |- context [writeTokens _ bareName _ ?sb0] => set (sb1 := sb0)
  end.
  pose proof (writeTokens_stream "ON CONFLICT UPDATE" bareName
                (SqlBuilder.insertOnConflictDoUpdateTokens b) sb1) as Hs.
  destruct (renderStream bareName (SqlBuilder.insertOnConflictDoUpdateTokens b)) as [s|].
  2:{ destruct Hs as [msg ->]. obind_simpl. eauto. }
  rewrite Hs. obind_simpl.
  pose proof (writeTokens_stream "ON CONFLICT UPDATE WHERE" tableQualified
                (SqlBuilder.insertOnConflictDoUpdateWhereTokens b)
                ((sb1 +:+ s) +:+ LF +:+ "WHERE")) as Hw.
  destruct (SqlBuilder.insertOnConflictDoUpdateWhereTokens b) as [|t ts] eqn:Ew.
  - simpl. subst sb1. rewrite !append_assoc, ?append_nil_r. reflexivity.
  - cbn [length Nat.ltb Nat.leb].
    destruct (renderStream tableQualified (t :: ts)) as [w|].
    + rewrite Hw. subst sb1. rewrite !append_assoc. reflexivity.
    + exact Hw.
Qed.




(** ** C5: the token streams *)

























(** A token of another kind, here a float64, makes Build panic. *)
Example unsupported_token_panics :
  Build fixtures.keywords
    (builderOf (chain (Ok tt fixtures.selectFromT1)
                  [Builder.Where [TokColumn (fixtures.col fixtures.t1 "amount");
                                  TokAny (AString "<"); TokAny (AOther "float64")]]))
  = Panic "unexpected WHERE token type float64".
Proof. vm_compute. reflexivity. Qed.

(** ** C2: the rows and the arguments of an INSERT *)

Lemma writePlaceholders_from (vi : nat) (sb : string) (k m : nat) :
  List.fold_left (fun sb paramIdx =>
      let sb := if Nat.ltb 1 paramIdx then sb +:+ "," else sb in
      sb +:+ "$" +:+ fmt.intd (Z.of_nat (vi + paramIdx)))
    (seq (S (S k)) m) sb
  = sb +:+ List.fold_right (fun y r => "," +:+ y +:+ r) ""
             (List.map (fun i => "$" +:+ fmt.intd (Z.of_nat (vi + i))) (seq (S (S k)) m)).
Proof.
  revert sb k. induction m as [|m IH]; intros sb k.
  - simpl. symmetry. apply append_nil_r.
  - cbn [seq List.fold_left List.map List.fold_right].
    rewrite IH. cbn [Nat.ltb Nat.leb]. rewrite !append_assoc. reflexivity.
Qed.

Lemma writePlaceholders_join (vi columnsCount : nat) (sb : string) :
  writePlaceholders vi columnsCount sb
  = sb +:+ strings.Join
             (List.map (fun i => "$" +:+ fmt.intd (Z.of_nat (vi + i))) (seq 1 columnsCount)) ",".
Proof.
  unfold writePlaceholders, strings.Join. destruct columnsCount as [|m].
  - simpl. symmetry. apply append_nil_r.
  - cbn [seq List.fold_left List.map]. rewrite writePlaceholders_from.
    rewrite concat_cons. cbn [Nat.ltb Nat.leb]. rewrite !append_assoc. reflexivity.
Qed.

Lemma omapM_Forall2 {A C} (f : A -> outcome C) (R : A -> C -> Prop) (l : list A) :
  Forall (fun x => exists y, f x = Done y /\ R x y) l ->
  exists ys, omapM f l = Done ys /\ Forall2 R l ys.
Proof.
  induction 1 as [|x l [y [Hy HR]] _ [ys [Hys HF]]]; simpl.
  - exists []. split; [reflexivity|constructor].
  - rewrite Hy, Hys. exists (y :: ys). split; [reflexivity|constructor; assumption].
Qed.

(** The insert specs of resolved columns extract by the columns' extractors. *)
Lemma insertSpecOfColumns_resolved (sqlKeywords : gset string) (meta : TableMetadata.t)
    (columns : list GenericColumnToUse.t) (extractors : list (any -> any)) :
  columns <> [] ->
  Forall2 (resolvesTo sqlKeywords meta) columns extractors ->
  exists specs,
    TableMetadata.insertSpecOfColumns sqlKeywords meta
      (List.map GenericColumnToUse.name columns) = Done specs /\
    Forall2 (fun (spec : any -> outcome any) f =>
               forall a, isRecordOf (TableMetadata.recordType meta) a -> spec a = Done (f a))
      specs extractors.
Proof.
  intros Hne Hres. unfold TableMetadata.insertSpecOfColumns.
  assert (Hlen : Nat.eqb (length (List.map GenericColumnToUse.name columns)) 0 = false).
  { destruct columns; [contradiction|reflexivity]. }
  rewrite Hlen. clear Hne Hlen. cbv zeta.
  match goal with
  | |- context [omapM ?g0 _] => set (g := g0)
  end.
  induction Hres as [|column f columns extractors (col & Hcol & Hf) _ (specs & Hspecs & HF)].
  - exists []. split; [reflexivity|constructor].
  - cbn [List.map omapM].
    assert (Hg : exists spec : any -> outcome any,
               g (GenericColumnToUse.name column) = Done spec /\
               forall a, isRecordOf (TableMetadata.recordType meta) a -> spec a = Done (f a)).
    { subst g. cbv beta. rewrite Hcol. unfold mbind at 1, outcome_bind, obind.
      eexists. split; [reflexivity|].
      intros a Ha. unfold isRecordOf in Ha. cbv beta. rewrite Ha.
      unfold mbind, outcome_bind, obind.
      unfold ColumnMetadata.InsertSpec. cbn [snd]. rewrite Hf. reflexivity. }
    destruct Hg as (spec & -> & Hspec). rewrite Hspecs.
    eexists. split; [reflexivity|]. constructor; assumption.
Qed.

Lemma extractValues_resolved (specs : list (any -> outcome any))
    (extractors : list (any -> any)) (T : string) (record : any) (values : list any) :
  Forall2 (fun (spec : any -> outcome any) f =>
             forall a, isRecordOf T a -> spec a = Done (f a)) specs extractors ->
  isRecordOf T record ->
  extractValues specs record values
  = Done (values ++ List.map (fun f => f record) extractors).
Proof.
  intros HF Hrec. revert values.
  induction HF as [|spec f specs extractors Hspec _ IH]; intros values.
  - simpl. rewrite app_nil_r. reflexivity.
  - cbn [extractValues List.map]. rewrite (Hspec record Hrec).
    unfold mbind, outcome_bind, obind. rewrite IH, <- app_assoc. reflexivity.
Qed.

(** The rows written for the records from index [i] on. *)
Lemma writeInsertValues_rows (sqlKeywords : gset string) (meta : TableMetadata.t)
    (columns : list GenericColumnToUse.t) (extractors : list (any -> any))
    (insertValues : list any) (i : nat) (sb : string) (values : list any) :
  columns <> [] ->
  Forall2 (resolvesTo sqlKeywords meta) columns extractors ->
  Forall (isRecordOf (TableMetadata.recordType meta)) insertValues ->
  writeInsertValues sqlKeywords meta (List.map GenericColumnToUse.name columns)
    (length columns) insertValues i sb values
  = Done (sb +:+ List.fold_right
                   (fun r text => (if Nat.ltb 0 r then "," else "")
                                  +:+ placeholderRow r (length columns) +:+ text)
                   "" (seq i (length insertValues)),
          values ++ List.flat_map (fun v => List.map (fun f => f v) extractors) insertValues).
Proof.
  intros Hne Hres Hrec. revert i sb values.
  destruct (insertSpecOfColumns_resolved _ _ _ _ Hne Hres) as (specs & Hspecs & HF).
  induction Hrec as [|record insertValues Hr _ IH]; intros i sb values.
  - simpl. rewrite append_nil_r, app_nil_r. reflexivity.
  - cbn [writeInsertValues]. rewrite Hspecs. unfold mbind at 1, outcome_bind, obind.
    rewrite (extractValues_resolved _ _ _ _ _ HF Hr).
    unfold mbind, outcome_bind, obind. rewrite IH.
    cbn [length seq List.fold_right List.flat_map]. rewrite <- app_assoc.
    f_equal. f_equal. rewrite writePlaceholders_join. unfold placeholderRow.
    destruct (Nat.ltb 0 i); rewrite !append_assoc; reflexivity.
Qed.

Lemma rows_from (c : nat) (k m : nat) :
  List.fold_right
    (fun r text => (if Nat.ltb 0 r then "," else "") +:+ placeholderRow r c +:+ text)
    "" (seq (S k) m)
  = List.fold_right (fun y r => "," +:+ y +:+ r) ""
      (List.map (fun r => placeholderRow r c) (seq (S k) m)).
Proof.
  revert k. induction m as [|m IH]; intros k; [reflexivity|].
  cbn [seq List.map List.fold_right]. rewrite IH. reflexivity.
Qed.

Lemma rows_join (c n : nat) :
  List.fold_right
    (fun r text => (if Nat.ltb 0 r then "," else "") +:+ placeholderRow r c +:+ text)
    "" (seq 0 n)
  = strings.Join (List.map (fun r => placeholderRow r c) (seq 0 n)) ",".
Proof.
  unfold strings.Join. destruct n as [|n]; [reflexivity|].
  cbn [seq List.map List.fold_right]. rewrite concat_cons, rows_from. reflexivity.
Qed.

Lemma writeOnConflict_text (b : SqlBuilder.t) (sb : string) :
  match conflictText b with
  | Some text => writeOnConflict b sb = Done (sb +:+ text)
  | None => exists msg, writeOnConflict b sb = Panic msg
  end.
Proof.
  unfold conflictText.
  destruct (SqlBuilder.insertOnConflictDoNothing b) eqn:Hdn.
  { unfold writeOnConflict. rewrite Hdn. reflexivity. }
  destruct (SqlBuilder.insertOnConflictKeys b) as [|k ks] eqn:Hk.
  { unfold writeOnConflict. rewrite Hdn, Hk. simpl. rewrite append_nil_r. reflexivity. }
  assert (Hne : SqlBuilder.insertOnConflictKeys b <> []) by (rewrite Hk; discriminate).
  pose proof (writeOnConflict_streams b sb Hdn Hne) as H. rewrite Hk in H.
  cbn [length Nat.ltb Nat.leb].
  destruct (renderStream bareName _) as [s|];
    [destruct (renderStream tableQualified _) as [w|]|]; try exact H.
  rewrite H, !append_assoc. reflexivity.
Qed.

Lemma flat_map_rows_lookup {A C} (g : A -> list C) (c : nat) (l : list A)
    (r j : nat) (v : A) :
  (forall x, length (g x) = c) -> l !! r = Some v -> j < c ->
  List.flat_map g l !! (r * c + j) = g v !! j.
Proof.
  intros Hlen. revert r. induction l as [|x l IH]; intros r Hr Hj; [discriminate|].
  destruct r as [|r]; simpl in Hr |- *.
  - injection Hr as ->. apply lookup_app_l. rewrite Hlen. exact Hj.
  - rewrite lookup_app_r; rewrite Hlen; [|lia].
    replace (c + r * c + j - c) with (r * c + j) by lia. apply IH; assumption.
Qed.

Lemma flat_map_rows_length {A C} (g : A -> list C) (c : nat) (l : list A) :
  (forall x, length (g x) = c) -> length (List.flat_map g l) = length l * c.
Proof.
  intros Hlen. induction l as [|x l IH]; [reflexivity|].
  simpl. rewrite length_app, Hlen, IH. reflexivity.
Qed.

(** [Build] returns only when every column resolves and every value is a
    record: the inversions of the loops of [buildInsert]. *)
Lemma assertRecord_Done (T : string) (a x : any) :
  assertRecord T a = Done x -> isRecordOf T a.
Proof.
  unfold isRecordOf, assertRecord.
  destruct a; try discriminate; destruct (String.eqb _ T); try discriminate; reflexivity.
Qed.

Lemma omapM_Done_inv {A C} (f : A -> outcome C) (l : list A) (ys : list C) :
  omapM f l = Done ys -> Forall2 (fun x y => f x = Done y) l ys.
Proof.
  revert ys. induction l as [|x l IH]; intros ys; simpl.
  - intros [= <-]. constructor.
  - destruct (f x) as [y|] eqn:Hy; [|discriminate].
    destruct (omapM f l) as [ys'|]; [|discriminate].
    intros [= <-]. constructor; [exact Hy|apply IH; reflexivity].
Qed.

Lemma insertSpecOfColumns_inv (sqlKeywords : gset string) (meta : TableMetadata.t)
    (columns : list GenericColumnToUse.t) (specs : list (any -> outcome any)) :
  columns <> [] ->
  TableMetadata.insertSpecOfColumns sqlKeywords meta
    (List.map GenericColumnToUse.name columns) = Done specs ->
  Forall2 (fun column (spec : any -> outcome any) =>
             exists col,
               TableMetadata.MustGetColumnByName sqlKeywords meta
                 (wrapWithDoubleQuoteIfSqlKeyword sqlKeywords (GenericColumnToUse.name column))
               = Done col /\
               forall record v, spec record = Done v ->
                 isRecordOf (TableMetadata.recordType meta) record /\
                 exists f, ColumnMetadata.insertSpec col = Some f /\ v = f record)
    columns specs.
Proof.
  intros Hne. unfold TableMetadata.insertSpecOfColumns.
  assert (Hlen : Nat.eqb (length (List.map GenericColumnToUse.name columns)) 0 = false).
  { destruct columns; [contradiction|reflexivity]. }
  rewrite Hlen. cbv zeta. intros H. apply omapM_Done_inv in H.
  clear Hne Hlen. revert specs H.
  induction columns as [|column columns IH]; intros specs H.
  - inversion H. constructor.
  - cbn [List.map] in H. inversion H as [|? spec ? specs' Hspec Hrest]; subst.
    constructor; [|apply IH, Hrest].
    destruct (TableMetadata.MustGetColumnByName _ _ _) as [col|] eqn:Hcol;
      unfold mbind, outcome_bind, obind in Hspec; [|discriminate].
    injection Hspec as <-. exists col. split; [reflexivity|].
    intros record v. cbv beta.
    destruct (assertRecord _ record) as [x|] eqn:Hx;
      unfold mbind, outcome_bind, obind; [|discriminate].
    pose proof (assertRecord_Done _ _ _ Hx) as Hrec.
    unfold isRecordOf in Hrec. rewrite Hrec in Hx. injection Hx as <-.
    unfold ColumnMetadata.InsertSpec. cbn [snd].
    destruct (ColumnMetadata.insertSpec col) as [f|]; [|discriminate].
    intros [= <-]. split; [exact Hrec|]. exists f. split; reflexivity.
Qed.

Lemma extractValues_Done_inv (specs : list (any -> outcome any)) (record : any)
    (values out : list any) :
  extractValues specs record values = Done out ->
  exists vs, out = values ++ vs /\ Forall2 (fun (spec : any -> outcome any) v => spec record = Done v) specs vs.
Proof.
  revert values. induction specs as [|spec specs IH]; intros values; cbn [extractValues].
  - intros [= <-]. exists []. split; [rewrite app_nil_r; reflexivity|constructor].
  - destruct (spec record) as [v|] eqn:Hv; unfold mbind, outcome_bind, obind; [|discriminate].
    intros H. apply IH in H as (vs & -> & HF). exists (v :: vs).
    split; [rewrite <- app_assoc; reflexivity|constructor; assumption].
Qed.

Lemma writeInsertValues_Done_inv (sqlKeywords : gset string) (meta : TableMetadata.t)
    (columns : list GenericColumnToUse.t) (insertValues : list any) (i : nat) (sb : string)
    (values : list any) (r : string * list any) :
  columns <> [] -> insertValues <> [] ->
  writeInsertValues sqlKeywords meta (List.map GenericColumnToUse.name columns)
    (length columns) insertValues i sb values = Done r ->
  (exists extractors, Forall2 (resolvesTo sqlKeywords meta) columns extractors) /\
  Forall (isRecordOf (TableMetadata.recordType meta)) insertValues.
Proof.
  intros Hc Hv Hrun.
  assert (Heach : forall record,
            (exists specs vs,
               TableMetadata.insertSpecOfColumns sqlKeywords meta
                 (List.map GenericColumnToUse.name columns) = Done specs /\
               Forall2 (fun (spec : any -> outcome any) v => spec record = Done v) specs vs) ->
            (exists extractors, Forall2 (resolvesTo sqlKeywords meta) columns extractors) /\
            isRecordOf (TableMetadata.recordType meta) record).
  { intros record (specs & vs & Hspecs & Hvs).
    apply insertSpecOfColumns_inv in Hspecs; [|exact Hc].
    clear Hrun Hv. split.
    - clear Hc. revert vs Hvs.
      induction Hspecs as [|column spec columns specs (col & Hcol & Hsp) _ IH];
        intros vs Hvs.
      + exists []. constructor.
      + inversion Hvs as [|? v ? vs' Hv Hrest]; subst.
        destruct (Hsp record v Hv) as (_ & f & Hf & _).
        destruct (IH vs' Hrest) as [extractors Hext].
        exists (f :: extractors). constructor; [|exact Hext].
        exists col. split; assumption.
    - destruct Hspecs as [|column spec columns specs (col & Hcol & Hsp) _]; [contradiction|].
      inversion Hvs as [|? v ? vs' Hv Hrest]; subst.
      apply (Hsp record v Hv). }
  revert i sb values Hrun Hv.
  induction insertValues as [|record rest IH]; intros i sb values Hrun Hv; [contradiction|].
  cbn [writeInsertValues] in Hrun.
  destruct (TableMetadata.insertSpecOfColumns _ _ _) as [specs|] eqn:Hspecs;
    unfold mbind at 1, outcome_bind, obind in Hrun; [|discriminate].
  destruct (extractValues specs record values) as [out|] eqn:Hout;
    unfold mbind at 1, outcome_bind, obind in Hrun; [|discriminate].
  apply extractValues_Done_inv in Hout as (vs & _ & Hvs).
  destruct (Heach record) as [Hext Hrec]; [eauto|].
  split; [exact Hext|]. constructor; [exact Hrec|].
  destruct rest as [|record' rest']; [constructor|].
  eapply IH; [exact Hrun|discriminate].
Qed.

(** [Build] of an INSERT builder returns only when the insert columns
    resolve in the metadata of the target table, the values are records of
    the table's type and the ON CONFLICT part renders. *)
Lemma Build_insert_returns_only_if (sqlKeywords : gset string) (b : SqlBuilder.t)
    (r : string * list any) :
  SqlBuilder._type b = sqlBuilderTypeInsert ->
  Build sqlKeywords b = Done r ->
  exists insertIntoTable extractors conflict,
    SqlBuilder.insertIntoTable b = Some insertIntoTable /\
    1 <= length (SqlBuilder.insertValues b) /\
    1 <= length (SqlBuilder.insertColumns b) /\
    Forall2 (resolvesTo sqlKeywords (TableToUse.metadata insertIntoTable))
      (SqlBuilder.insertColumns b) extractors /\
    Forall (isRecordOf (TableMetadata.recordType (TableToUse.metadata insertIntoTable)))
      (SqlBuilder.insertValues b) /\
    conflictText b = Some conflict.
Proof.
  intros Ht. unfold Build. rewrite Ht. simpl. unfold buildInsert.
  destruct (Nat.eqb_spec (length (SqlBuilder.insertColumns b)) 0) as [|Hc]; [discriminate|].
  destruct (SqlBuilder.insertIntoTable b) as [insertIntoTable|]; [|discriminate].
  destruct (Nat.eqb_spec (length (SqlBuilder.insertValues b)) 0) as [|Hn]; [discriminate|].
  cbv zeta.
  destruct (writeInsertValues _ _ _ _ _ _ _ _) as [[sb values]|] eqn:Hrows;
    unfold mbind at 1, outcome_bind, obind; [|discriminate].
  apply writeInsertValues_Done_inv in Hrows as [[extractors Hext] Hrec];
    [| intros E; rewrite E in Hc; apply Hc; reflexivity
     | intros E; rewrite E in Hn; apply Hn; reflexivity].
  pose proof (writeOnConflict_text b sb) as Htext.
  destruct (conflictText b) as [conflict|].
  - intros _. exists insertIntoTable, extractors, conflict.
    repeat split; try assumption; lia.
  - destruct Htext as [msg ->]. discriminate.
Qed.

(** C2. An INSERT builder with [n >= 1] values and [c >= 1] columns, whose
    columns resolve in the metadata of the target table, whose values are
    records of the table's type and whose ON CONFLICT part renders, builds
    the rows [($(r*c+1),...,$(r*c+c))] for [r = 0 .. n-1] and [n*c]
    arguments; the argument at [r*c+i-1] is the insert extractor of the
    [i]-th column applied to the [r]-th value. *)
Theorem insert_rows_and_arguments (sqlKeywords : gset string) (b : SqlBuilder.t)
    (insertIntoTable : TableToUse.t) (extractors : list (any -> any)) (conflict : string) :
  SqlBuilder._type b = sqlBuilderTypeInsert ->
  SqlBuilder.insertIntoTable b = Some insertIntoTable ->
  1 <= length (SqlBuilder.insertValues b) ->
  1 <= length (SqlBuilder.insertColumns b) ->
  Forall2 (resolvesTo sqlKeywords (TableToUse.metadata insertIntoTable))
    (SqlBuilder.insertColumns b) extractors ->
  Forall (isRecordOf (TableMetadata.recordType (TableToUse.metadata insertIntoTable)))
    (SqlBuilder.insertValues b) ->
  conflictText b = Some conflict ->
  let n := length (SqlBuilder.insertValues b) in
  let c := length (SqlBuilder.insertColumns b) in
  exists args,
    Build sqlKeywords b
    = Done ("INSERT INTO " +:+ TableToUse.name insertIntoTable +:+ " ("
            +:+ strings.Join (List.map GenericColumnToUse.name (SqlBuilder.insertColumns b)) ", "
            +:+ ")" +:+ LF +:+ "VALUES "
            +:+ strings.Join (List.map (fun r => placeholderRow r c) (seq 0 n)) ","
            +:+ conflict, args) /\
    length args = n * c /\
    forall (r i : nat) (v : any) (f : any -> any),
      SqlBuilder.insertValues b !! r = Some v ->
      1 <= i -> extractors !! (i - 1) = Some f ->
      args !! (r * c + i - 1) = Some (f v).
Proof.
  intros Ht Htable Hn Hc Hres Hrec Hconflict n c.
  assert (Hne : SqlBuilder.insertColumns b <> []).
  { destruct (SqlBuilder.insertColumns b); [simpl in Hc; lia|discriminate]. }
  assert (Hlen : forall v : any,
            length (List.map (fun f : any -> any => f v) extractors) = c).
  { intros v. rewrite length_map. symmetry. eapply Forall2_length, Hres. }
  exists (List.flat_map (fun v => List.map (fun f => f v) extractors)
            (SqlBuilder.insertValues b)).
  split; [|split].
  - unfold Build. rewrite Ht. simpl. unfold buildInsert. rewrite Htable.
    destruct (Nat.eqb_spec (length (SqlBuilder.insertColumns b)) 0) as [E|_]; [lia|].
    destruct (Nat.eqb_spec (length (SqlBuilder.insertValues b)) 0) as [E|_]; [lia|].
    unfold TableToUse.genericTableMeta, TableToUse.tableName.
    rewrite (writeInsertValues_rows _ _ _ extractors _ _ _ _ Hne Hres Hrec).
    unfold mbind, outcome_bind, obind.
    pose proof (writeOnConflict_text b) as Htext. rewrite Hconflict in Htext.
    rewrite Htext. rewrite writeSeparated_join, rows_join. simpl.
    rewrite !append_assoc. reflexivity.
  - apply flat_map_rows_length, Hlen.
  - intros r i v f Hv Hi Hf.
    assert (Hj : i - 1 < c).
    { apply lookup_lt_Some in Hf. erewrite <- Forall2_length in Hf by exact Hres. exact Hf. }
    replace (r * c + i - 1) with (r * c + (i - 1)) by lia.
    rewrite (flat_map_rows_lookup _ c _ r (i - 1) v Hlen Hv Hj).
    change (List.map (fun f0 : any -> any => f0 v) extractors)
      with ((fun f0 : any -> any => f0 v) <$> extractors).
    rewrite list_lookup_fmap, Hf. reflexivity.
Qed.

Lemma insert_rows_and_arguments_witness :
  let n := length (SqlBuilder.insertValues fixtures.insertTwo) in
  let c := length (SqlBuilder.insertColumns fixtures.insertTwo) in
  exists args,
    Build fixtures.keywords fixtures.insertTwo
    = Done ("INSERT INTO " +:+ TableToUse.name fixtures.table1 +:+ " ("
            +:+ strings.Join (List.map GenericColumnToUse.name
                                (SqlBuilder.insertColumns fixtures.insertTwo)) ", "
            +:+ ")" +:+ LF +:+ "VALUES "
            +:+ strings.Join (List.map (fun r => placeholderRow r c) (seq 0 n)) ","
            +:+ (LF +:+ "ON CONFLICT DO NOTHING"), args) /\
    length args = n * c /\
    forall (r i : nat) (v : any) (f : any -> any),
      SqlBuilder.insertValues fixtures.insertTwo !! r = Some v ->
      1 <= i -> fixtures.extractors1 !! (i - 1) = Some f ->
      args !! (r * c + i - 1) = Some (f v).
Proof.
  apply (insert_rows_and_arguments fixtures.keywords fixtures.insertTwo fixtures.table1
           fixtures.extractors1 (LF +:+ "ON CONFLICT DO NOTHING")).
  - vm_compute. reflexivity.
  - vm_compute. reflexivity.
  - vm_compute. lia.
  - vm_compute. lia.
  - vm_compute. repeat constructor; eexists; (split; reflexivity).
  - vm_compute. repeat constructor.
  - vm_compute. reflexivity.
Defined.

Lemma fails_of_panicked {A} (o : outcome A) :
  (match o with Panic _ => true | Done _ => false end) = true -> fails o.
Proof. destruct o as [a|msg]; [discriminate|]. intros _. exists msg. reflexivity. Qed.

(** Values and columns alone do not make [Build] return: each of the three
    builders is accepted call by call, has one value and at least one
    column, and [Build] panics on it (a column of another table, a pointer
    to a record, a token of an unsupported kind). *)
Lemma build_insert_panics :
  (exists b, fixtures.insertForeignColumn = Ok tt b /\
     length (SqlBuilder.insertValues b) = 1 /\ length (SqlBuilder.insertColumns b) = 1 /\
     Build fixtures.keywords b = Panic "column with name pk3 not found") /\
  (exists b, fixtures.insertPointer = Ok tt b /\
     length (SqlBuilder.insertValues b) = 1 /\ length (SqlBuilder.insertColumns b) = 4 /\
     fails (Build fixtures.keywords b)) /\
  (exists b, fixtures.insertFloatToken = Ok tt b /\
     length (SqlBuilder.insertValues b) = 1 /\ length (SqlBuilder.insertColumns b) = 4 /\
     Build fixtures.keywords b = Panic "unexpected ON CONFLICT UPDATE token type float64").
Proof.
  split; [|split];
    (eexists; split; [vm_compute; reflexivity|];
     split; [vm_compute; reflexivity|split; [vm_compute; reflexivity|]]).
  - vm_compute. reflexivity.
  - apply fails_of_panicked. vm_compute. reflexivity.
  - vm_compute. reflexivity.
Qed.

(** The statement and the arguments of the package's test with two records. *)
Example insert_two_records :
  Build fixtures.keywords fixtures.insertTwo
  = Done ("INSERT INTO table1 (pk1, pk2, amount, cost)" +:+ LF
          +:+ "VALUES ($1,$2,$3,$4),($5,$6,$7,$8)" +:+ LF +:+ "ON CONFLICT DO NOTHING",
          [AString "1"; AInt Kint 2; AInt Kint 3; AString "4testa";
           AString "5"; AInt Kint 6; AInt Kint 7; AString "8testa"]).
Proof. vm_compute. reflexivity. Qed.

(** ** C6: the primary keys at registration *)

Lemma sortStrings_eq_iff (l1 l2 : list string) :
  sortStrings l1 = sortStrings l2 <-> l1 ≡ₚ l2.
Proof.
  unfold sortStrings. split.
  - intros E. rewrite <- (merge_sort_Permutation String.le l1), E.
    apply merge_sort_Permutation.
  - intros P. apply (Sorted_unique String.le).
    + apply Sorted_merge_sort. apply _.
    + apply Sorted_merge_sort. apply _.
    + rewrite !merge_sort_Permutation. exact P.
Qed.

Lemma collectColumns_unique (cols : list ColumnMetadataBuilder.t)
    (columns : list ColumnMetadata.t) (columnsByName : gmap string ColumnMetadata.t)
    (pkColumnsName : list string) :
  NoDup (List.map (fun cb => ColumnMetadata.name (ColumnMetadataBuilder.column cb)) cols) ->
  (forall cb, cb ∈ cols ->
     columnsByName !! ColumnMetadata.name (ColumnMetadataBuilder.column cb) = None) ->
  exists columns' columnsByName',
    TableMetadataBuilder.collectColumns cols columns columnsByName pkColumnsName
    = Done (columns', columnsByName', pkColumnsName ++ pkNamesOf cols) /\
    (forall cb, cb ∈ cols ->
       columnsByName' !! ColumnMetadata.name (ColumnMetadataBuilder.column cb)
       = Some (ColumnMetadataBuilder.column cb)) /\
    (forall n c, columnsByName !! n = Some c -> columnsByName' !! n = Some c).
Proof.
  revert columns columnsByName pkColumnsName.
  induction cols as [|cb cols IH]; intros columns columnsByName pkColumnsName Hnd Hfree.
  - simpl. eexists _, _. split; [rewrite app_nil_r; reflexivity|].
    split; [intros cb Hcb; inversion Hcb|auto].
  - cbn [TableMetadataBuilder.collectColumns].
    rewrite (Hfree cb) by left.
    cbn [List.map] in Hnd. apply NoDup_cons in Hnd as [Hnotin Hnd].
    set (c := ColumnMetadataBuilder.column cb) in *.
    destruct (IH (columns ++ [c]) (<[ColumnMetadata.name c := c]> columnsByName)
                (if ColumnMetadata.isPk c then pkColumnsName ++ [ColumnMetadata.name c]
                 else pkColumnsName) Hnd) as (C & M & HC & HM & Hmono).
    { intros cb' Hcb'. rewrite lookup_insert_ne; [apply Hfree; right; exact Hcb'|].
      intros E. apply Hnotin. rewrite E. apply list_elem_of_fmap. eauto. }
    exists C, M. split; [|split].
    + rewrite HC. f_equal. f_equal. unfold pkNamesOf. cbn [List.filter].
      fold c. destruct (ColumnMetadata.isPk c); [|reflexivity].
      cbn [List.map]. rewrite <- app_assoc. reflexivity.
    + intros cb' Hcb'. apply elem_of_cons in Hcb' as [->|Hcb']; [|apply HM, Hcb'].
      apply Hmono. fold c. apply lookup_insert_eq.
    + intros n c' Hn. apply Hmono. rewrite lookup_insert_ne; [exact Hn|].
      intros E. rewrite <- E in Hn. subst c. rewrite (Hfree cb) in Hn by left. discriminate.
Qed.

Lemma fails_Panic {A} (msg : string) : fails (@Panic A msg).
Proof. exists msg. reflexivity. Qed.

Lemma not_fails_Done {A} (a : A) : ~ fails (Done a).
Proof. intros [msg H]. discriminate H. Qed.

(** Under its two assumptions [Build] fails exactly when the sorted names
    of the primary-key columns differ from the sorted expected names. *)
Lemma Build_fails_iff_sorted (g : Registry.t) (b : TableMetadataBuilder.t)
    (opt : TableMetadataBuildOption.t) :
  Registry.registeredTableTypeToName g !! TableMetadataBuilder.recordType b = None ->
  NoDup (columnNames b) ->
  fails (TableMetadataBuilder.Build g b opt) <->
  sortStrings (pkNamesOf (TableMetadataBuilder.columns b))
  <> sortStrings (wrapManyWithDoubleQuoteIfSqlKeyword (Registry.sqlKeywords g)
                    (TableMetadataBuildOption.ExpectedPkColumns opt)).
Proof.
  intros Hfree Hnd. unfold TableMetadataBuilder.Build.
  destruct (collectColumns_unique (TableMetadataBuilder.columns b) [] ∅ [] Hnd)
    as (C & M & -> & _ & _).
  { intros cb _. apply lookup_empty. }
  unfold mbind, outcome_bind, obind. cbn [app]. unfold deepEqualStrings.
  case_bool_decide as E; cbn [negb].
  - rewrite Hfree. split; [intros H; exfalso; eapply not_fails_Done, H|].
    intros H. contradiction.
  - split; [intros _; exact E|intros _; apply fails_Panic].
Qed.

Lemma NoDup_filter_names {A} (f : A -> string) (p : A -> bool) (l : list A) :
  NoDup (List.map f l) -> NoDup (List.map f (List.filter p l)).
Proof.
  induction l as [|x l IH]; intros Hnd; [constructor|].
  cbn [List.map] in Hnd. apply NoDup_cons in Hnd as [Hx Hnd].
  cbn [List.filter]. destruct (p x); [|apply IH, Hnd].
  cbn [List.map]. apply NoDup_cons. split; [|apply IH, Hnd].
  intros Hin. apply Hx. apply list_elem_of_In, in_map_iff.
  apply list_elem_of_In, in_map_iff in Hin as (y & Hy & Hin).
  exists y. split; [exact Hy|]. apply filter_In in Hin. apply Hin.
Qed.

Lemma NoDup_sets_iff_Permutation (l1 l2 : list string) :
  NoDup l1 -> NoDup l2 ->
  (list_to_set l1 : gset string) = list_to_set l2 <-> l1 ≡ₚ l2.
Proof.
  intros H1 H2. split.
  - intros E. apply NoDup_Permutation; [assumption..|].
    intros x. rewrite <- !(elem_of_list_to_set (C := gset string)), E. reflexivity.
  - intros P. apply set_eq. intros x. rewrite !elem_of_list_to_set, P. reflexivity.
Qed.

(** C6. With the type not yet registered and the column names unique,
    [Build] fails exactly when the names of the primary-key columns and the
    expected names, quoted as keywords are, differ as sorted lists, that
    is when one list is no permutation of the other; when no expected name
    is repeated this is the inequality of the two sets. *)
Theorem primary_keys_checked_as_sorted_lists (g : Registry.t)
    (b : TableMetadataBuilder.t) (opt : TableMetadataBuildOption.t) :
  Registry.registeredTableTypeToName g !! TableMetadataBuilder.recordType b = None ->
  NoDup (columnNames b) ->
  let pk := pkNamesOf (TableMetadataBuilder.columns b) in
  let expected :=
    wrapManyWithDoubleQuoteIfSqlKeyword (Registry.sqlKeywords g)
      (TableMetadataBuildOption.ExpectedPkColumns opt) in
  (fails (TableMetadataBuilder.Build g b opt) <-> ~ pk ≡ₚ expected) /\
  (NoDup expected ->
   (fails (TableMetadataBuilder.Build g b opt) <->
    (list_to_set pk : gset string) <> list_to_set expected)).
Proof.
  intros Hfree Hnd pk expected.
  pose proof (Build_fails_iff_sorted g b opt Hfree Hnd) as Hs.
  fold pk expected in Hs. rewrite sortStrings_eq_iff in Hs.
  split; [exact Hs|].
  intros Hexp. rewrite Hs, NoDup_sets_iff_Permutation; [reflexivity| |exact Hexp].
  apply NoDup_filter_names, Hnd.
Qed.

Lemma primary_keys_checked_as_sorted_lists_witness :
  ~ fails (TableMetadataBuilder.Build Registry.init fixtures.tableTest1Builder
             {| TableMetadataBuildOption.ExpectedPkColumns := ["pk2"; "pk1"] |}).
Proof.
  intros Hfails.
  refine (proj1 (proj1 (primary_keys_checked_as_sorted_lists Registry.init
                          fixtures.tableTest1Builder
                          {| TableMetadataBuildOption.ExpectedPkColumns := ["pk2"; "pk1"] |}
                          _ _)) Hfails _).
  - vm_compute. reflexivity.
  - vm_compute. repeat constructor; notin_list.
  - vm_compute. apply perm_swap.
Defined.

(** Equal sets are not enough when an expected name is repeated: the two
    sets are equal and [Build] fails. *)
Lemma repeated_expected_name_fails :
  Registry.registeredTableTypeToName Registry.init
    !! TableMetadataBuilder.recordType fixtures.tableTest1Builder = None /\
  NoDup (columnNames fixtures.tableTest1Builder) /\
  (list_to_set (pkNamesOf (TableMetadataBuilder.columns fixtures.tableTest1Builder))
     : gset string)
  = list_to_set (wrapManyWithDoubleQuoteIfSqlKeyword (Registry.sqlKeywords Registry.init)
                   ["pk1"; "pk2"; "pk1"]) /\
  fails (TableMetadataBuilder.Build Registry.init fixtures.tableTest1Builder
           {| TableMetadataBuildOption.ExpectedPkColumns := ["pk1"; "pk2"; "pk1"] |}).
Proof.
  split; [vm_compute; reflexivity|].
  split; [vm_compute; repeat constructor; notin_list|].
  split; [vm_compute; reflexivity|].
  eexists. vm_compute. reflexivity.
Qed.

(** ** C8: keywords and quoted column names *)

Lemma keywords_fold (mapRunes : string -> string) (added : list string)
    (kw : gset string) (name : string) :
  name ∈ List.fold_left (AddSqlKeyword mapRunes) added kw <->
  name ∈ kw \/ name ∈ List.map (strings.ToLower mapRunes) added.
Proof.
  revert kw. induction added as [|k added IH]; intros kw; cbn [List.fold_left List.map].
  - rewrite elem_of_nil. tauto.
  - rewrite IH. unfold AddSqlKeyword. rewrite elem_of_union, elem_of_singleton, elem_of_cons.
    tauto.
Qed.

Lemma keywordsAfter_elem (mapRunes : string -> string) (added : list string)
    (name : string) :
  name ∈ keywordsAfter mapRunes added <->
  name ∈ predefinedList \/ name ∈ List.map (strings.ToLower mapRunes) added.
Proof.
  unfold keywordsAfter. rewrite keywords_fold. unfold initSqlKeywords.
  rewrite elem_of_list_to_set. reflexivity.
Qed.

Lemma quoted_differs (name : string) : quoted name <> name.
Proof.
  intros E. apply (f_equal String.length) in E. unfold quoted in E.
  rewrite !length_append in E. simpl in E. lia.
Qed.

Lemma wrap_quoted_iff (sqlKeywords : gset string) (name : string) :
  wrapWithDoubleQuoteIfSqlKeyword sqlKeywords name = quoted name <-> name ∈ sqlKeywords.
Proof.
  unfold wrapWithDoubleQuoteIfSqlKeyword. destruct (decide (name ∈ sqlKeywords)) as [Hin|Hnot].
  - split; [intros _; exact Hin|reflexivity].
  - split; [|contradiction]. intros E. symmetry in E. exfalso. eapply quoted_differs, E.
Qed.

Lemma AddColumns_columns (sqlKeywords : gset string) (b : TableMetadataBuilder.t)
    (cbs : list ColumnMetadataBuilder.t) :
  TableMetadataBuilder.columns (TableMetadataBuilder.AddColumns sqlKeywords b cbs)
  = TableMetadataBuilder.columns b
    ++ List.map (fun cb =>
         ColumnMetadataBuilder.setName cb
           (wrapWithDoubleQuoteIfSqlKeyword sqlKeywords
              (strings.TrimSpace
                 (ColumnMetadata.name (ColumnMetadataBuilder.column cb))))) cbs.
Proof.
  unfold TableMetadataBuilder.AddColumns. revert b.
  induction cbs as [|cb cbs IH]; intros b; cbn [List.fold_left List.map].
  - rewrite app_nil_r. reflexivity.
  - rewrite IH. cbn [TableMetadataBuilder.columns]. rewrite <- app_assoc. reflexivity.
Qed.

Lemma collectColumns_by_name (cols : list ColumnMetadataBuilder.t)
    (columns columns' : list ColumnMetadata.t)
    (columnsByName columnsByName' : gmap string ColumnMetadata.t)
    (pkColumnsName pkColumnsName' : list string) :
  TableMetadataBuilder.collectColumns cols columns columnsByName pkColumnsName
  = Done (columns', columnsByName', pkColumnsName') ->
  (forall cb, cb ∈ cols ->
     columnsByName' !! ColumnMetadata.name (ColumnMetadataBuilder.column cb)
     = Some (ColumnMetadataBuilder.column cb)) /\
  (forall n c, columnsByName !! n = Some c -> columnsByName' !! n = Some c).
Proof.
  revert columns columnsByName pkColumnsName.
  induction cols as [|cb cols IH]; intros columns columnsByName pkColumnsName.
  - simpl. intros [= <- <- <-]. split; [intros cb Hcb; inversion Hcb|auto].
  - cbn [TableMetadataBuilder.collectColumns].
    destruct (columnsByName !! ColumnMetadata.name (ColumnMetadataBuilder.column cb))
      eqn:Hfree; [discriminate|].
    intros Hrest. apply IH in Hrest as [Hin Hmono]. split.
    + intros cb' Hcb'. apply elem_of_cons in Hcb' as [->|Hcb']; [|apply Hin, Hcb'].
      apply Hmono, lookup_insert_eq.
    + intros n c Hn. apply Hmono. rewrite lookup_insert_ne; [exact Hn|].
      intros E. rewrite E in Hfree. rewrite Hfree in Hn. discriminate.
Qed.

Lemma Build_columnsByName (g g' : Registry.t) (b : TableMetadataBuilder.t)
    (opt : TableMetadataBuildOption.t) (tm : TableMetadata.t) (cb : ColumnMetadataBuilder.t) :
  TableMetadataBuilder.Build g b opt = Done (tm, g') ->
  cb ∈ TableMetadataBuilder.columns b ->
  TableMetadata.columnsByName tm !! ColumnMetadata.name (ColumnMetadataBuilder.column cb)
  = Some (ColumnMetadataBuilder.column cb).
Proof.
  unfold TableMetadataBuilder.Build.
  destruct (TableMetadataBuilder.collectColumns _ _ _ _) as [[[C M] P]|] eqn:Hc;
    unfold mbind, outcome_bind, obind; [|discriminate].
  destruct (negb _); [discriminate|].
  destruct (Registry.registeredTableTypeToName g !! _); [discriminate|].
  intros [= <- _] Hin. cbn [TableMetadata.columnsByName].
  apply collectColumns_by_name in Hc as [Hc _]. apply Hc, Hin.
Qed.

Lemma collectColumns_Done_inv (cols : list ColumnMetadataBuilder.t)
    (columns columns' : list ColumnMetadata.t)
    (columnsByName columnsByName' : gmap string ColumnMetadata.t)
    (pkColumnsName pkColumnsName' : list string) :
  TableMetadataBuilder.collectColumns cols columns columnsByName pkColumnsName
  = Done (columns', columnsByName', pkColumnsName') ->
  NoDup (List.map (fun cb => ColumnMetadata.name (ColumnMetadataBuilder.column cb)) cols) /\
  (forall cb, cb ∈ cols ->
     columnsByName !! ColumnMetadata.name (ColumnMetadataBuilder.column cb) = None) /\
  columns' = columns ++ List.map ColumnMetadataBuilder.column cols /\
  pkColumnsName' = pkColumnsName ++ pkNamesOf cols /\
  (forall n c, columnsByName' !! n = Some c ->
     columnsByName !! n = Some c \/
     n ∈ List.map (fun cb => ColumnMetadata.name (ColumnMetadataBuilder.column cb)) cols).
Proof.
  revert columns columnsByName pkColumnsName.
  induction cols as [|cb cols IH]; intros columns columnsByName pkColumnsName.
  - simpl. intros [= <- <- <-]. rewrite !app_nil_r.
    split; [constructor|]. split; [intros cb H; inversion H|].
    split; [reflexivity|]. split; [reflexivity|]. intros n c H. left. exact H.
  - cbn [TableMetadataBuilder.collectColumns].
    destruct (columnsByName !! ColumnMetadata.name (ColumnMetadataBuilder.column cb))
      eqn:Hfree; [discriminate|].
    intros Hrest. apply IH in Hrest as (Hnd & Hnone & Hcols & Hpk & Hdom).
    cbn [List.map]. split; [|split; [|split; [|split]]].
    + apply NoDup_cons. split; [|exact Hnd]. intros Hin.
      apply list_elem_of_In, in_map_iff in Hin as (cb' & Hname & Hin).
      apply list_elem_of_In in Hin. specialize (Hnone cb' Hin).
      rewrite Hname, lookup_insert_eq in Hnone. discriminate.
    + intros cb' Hin. apply elem_of_cons in Hin as [->|Hin]; [exact Hfree|].
      specialize (Hnone cb' Hin).
      destruct (decide (ColumnMetadata.name (ColumnMetadataBuilder.column cb)
                        = ColumnMetadata.name (ColumnMetadataBuilder.column cb'))) as [E|E].
      * rewrite E, lookup_insert_eq in Hnone. discriminate.
      * rewrite lookup_insert_ne in Hnone by exact E. exact Hnone.
    + rewrite Hcols, <- app_assoc. reflexivity.
    + rewrite Hpk. unfold pkNamesOf. cbn [List.filter].
      destruct (ColumnMetadata.isPk (ColumnMetadataBuilder.column cb));
        [cbn [List.map]; rewrite <- app_assoc|]; reflexivity.
    + intros n c Hn. apply Hdom in Hn as [Hn|Hn]; [|right; right; exact Hn].
      destruct (decide (ColumnMetadata.name (ColumnMetadataBuilder.column cb) = n)) as [E|E].
      * right. rewrite <- E. left.
      * rewrite lookup_insert_ne in Hn by exact E. left. exact Hn.
Qed.

(** What the metadata [Build] returns holds of its builder. *)
Lemma table_Build_metadata (g g' : Registry.t) (b : TableMetadataBuilder.t)
    (opt : TableMetadataBuildOption.t) (tm : TableMetadata.t) :
  TableMetadataBuilder.Build g b opt = Done (tm, g') ->
  TableMetadata.name tm = TableMetadataBuilder.name b /\
  TableMetadata.recordType tm = TableMetadataBuilder.recordType b /\
  TableMetadata.columns tm
  = List.map ColumnMetadataBuilder.column (TableMetadataBuilder.columns b).
Proof.
  unfold TableMetadataBuilder.Build.
  destruct (TableMetadataBuilder.collectColumns _ _ _ _) as [[[C M] P]|] eqn:Hc;
    unfold mbind, outcome_bind, obind; [|discriminate].
  destruct (negb _); [discriminate|].
  destruct (Registry.registeredTableTypeToName g !! _); [discriminate|].
  intros [= <- _]. apply collectColumns_Done_inv in Hc as (_ & _ & -> & _ & _).
  repeat split.
Qed.

Lemma lookup_map {A C} (f : A -> C) (l : list A) (i : nat) :
  List.map f l !! i = f <$> (l !! i).
Proof.
  revert i. induction l as [|x l IH]; intros [|i]; try reflexivity. apply IH.
Qed.

(** C8. The column a table stores for an added column has the (trimmed)
    name of the column in double quotes exactly when this name is, letter for
    letter, in the keyword set at the time of [AddColumns], and the name as
    it is otherwise; the set holds the predefined list and, of every added
    keyword, what [strings.ToLower] makes of it. A column stored in quotes is
    found again by its unquoted name, also after more keywords are added. *)
Theorem keyword_quoting (mapRunes : string -> string) (added more : list string)
    (g g' : Registry.t) (b0 : TableMetadataBuilder.t)
    (cbs : list ColumnMetadataBuilder.t) (i : nat) (cb : ColumnMetadataBuilder.t)
    (opt : TableMetadataBuildOption.t) (tm : TableMetadata.t) :
  cbs !! i = Some cb ->
  TableMetadataBuilder.Build g
    (TableMetadataBuilder.AddColumns (keywordsAfter mapRunes added) b0 cbs) opt
  = Done (tm, g') ->
  let name := strings.TrimSpace (ColumnMetadata.name (ColumnMetadataBuilder.column cb)) in
  exists c,
    TableMetadata.columns tm !! (length (TableMetadataBuilder.columns b0) + i) = Some c /\
    c = ColumnMetadataBuilder.column (ColumnMetadataBuilder.setName cb (ColumnMetadata.name c)) /\
    (ColumnMetadata.name c = quoted name <->
     name ∈ predefinedList \/ name ∈ List.map (strings.ToLower mapRunes) added) /\
    (ColumnMetadata.name c = quoted name \/ ColumnMetadata.name c = name) /\
    (ColumnMetadata.name c = quoted name ->
     TableMetadata.MustGetColumnByName (keywordsAfter mapRunes (added ++ more)) tm name
     = Done c).
Proof.
  intros Hcb Hbuild name.
  set (stored := wrapWithDoubleQuoteIfSqlKeyword (keywordsAfter mapRunes added) name).
  exists (ColumnMetadataBuilder.column (ColumnMetadataBuilder.setName cb stored)).
  cbn [ColumnMetadataBuilder.setName ColumnMetadataBuilder.column ColumnMetadata.name].
  split; [|split; [reflexivity|split; [|split]]].
  - destruct (table_Build_metadata _ _ _ _ _ Hbuild) as (_ & _ & ->).
    rewrite AddColumns_columns, List.map_app.
    rewrite lookup_app_r by (rewrite length_map; lia).
    rewrite length_map.
    replace (length (TableMetadataBuilder.columns b0) + i
             - length (TableMetadataBuilder.columns b0)) with i by lia.
    rewrite !lookup_map, Hcb. reflexivity.
  - unfold stored. rewrite wrap_quoted_iff. apply keywordsAfter_elem.
  - unfold stored, wrapWithDoubleQuoteIfSqlKeyword.
    destruct (decide (name ∈ keywordsAfter mapRunes added)); [left|right]; reflexivity.
  - intros Hq.
    assert (Hin : name ∈ keywordsAfter mapRunes (added ++ more)).
    { apply wrap_quoted_iff, keywordsAfter_elem in Hq. apply keywordsAfter_elem.
      destruct Hq as [Hq|Hq]; [left; exact Hq|right].
      rewrite List.map_app. apply elem_of_app. left. exact Hq. }
    assert (Hl : TableMetadata.columnsByName tm !! stored
                 = Some (ColumnMetadataBuilder.column
                           (ColumnMetadataBuilder.setName cb stored))).
    { apply (Build_columnsByName g g' _ opt tm
               (ColumnMetadataBuilder.setName cb stored) Hbuild).
      rewrite AddColumns_columns. apply elem_of_app. right.
      apply list_elem_of_In, in_map_iff. exists cb. split; [reflexivity|].
      apply list_elem_of_In, (list_elem_of_lookup_2 _ i), Hcb. }
    unfold TableMetadata.MustGetColumnByName.
    rewrite (proj2 (wrap_quoted_iff _ _) Hin), <- Hq, Hl. reflexivity.
Qed.

Lemma keyword_quoting_witness :
  exists c,
    TableMetadata.columns (fst fixtures.keywordRegistered)
      !! (length (TableMetadataBuilder.columns (NewTableMetadata "counter" "counters")) + 0)
    = Some c /\
    c = ColumnMetadataBuilder.column
          (ColumnMetadataBuilder.setName fixtures.keywordColumn (ColumnMetadata.name c)) /\
    (ColumnMetadata.name c
     = quoted (strings.TrimSpace
                 (ColumnMetadata.name
                    (ColumnMetadataBuilder.column fixtures.keywordColumn))) <->
     strings.TrimSpace
       (ColumnMetadata.name (ColumnMetadataBuilder.column fixtures.keywordColumn))
       ∈ predefinedList \/
     strings.TrimSpace
       (ColumnMetadata.name (ColumnMetadataBuilder.column fixtures.keywordColumn))
       ∈ List.map (strings.ToLower fixtures.lowerLatin1) ["Offset"]) /\
    (ColumnMetadata.name c
     = quoted (strings.TrimSpace
                 (ColumnMetadata.name
                    (ColumnMetadataBuilder.column fixtures.keywordColumn))) \/
     ColumnMetadata.name c
     = strings.TrimSpace
         (ColumnMetadata.name (ColumnMetadataBuilder.column fixtures.keywordColumn))) /\
    (ColumnMetadata.name c
     = quoted (strings.TrimSpace
                 (ColumnMetadata.name
                    (ColumnMetadataBuilder.column fixtures.keywordColumn))) ->
     TableMetadata.MustGetColumnByName
       (keywordsAfter fixtures.lowerLatin1 (["Offset"] ++ ["zone"]))
       (fst fixtures.keywordRegistered)
       (strings.TrimSpace
          (ColumnMetadata.name (ColumnMetadataBuilder.column fixtures.keywordColumn)))
     = Done c).
Proof.
  apply (keyword_quoting fixtures.lowerLatin1 ["Offset"] ["zone"] Registry.init
           (snd fixtures.keywordRegistered) (NewTableMetadata "counter" "counters")
           [fixtures.keywordColumn] 0 fixtures.keywordColumn
           {| TableMetadataBuildOption.ExpectedPkColumns := ["count"] |}
           (fst fixtures.keywordRegistered)).
  - reflexivity.
  - vm_compute. reflexivity.
Defined.

(** An added keyword is kept in lower case: the keyword added as USER
    quotes the name user, which differs from it in case only and is no keyword otherwise,
    and leaves the name USER unquoted. *)
Lemma added_keyword_is_lower_cased :
  ("user" ∉ claimedKeywords ["USER"]) /\
  wrapWithDoubleQuoteIfSqlKeyword (keywordsAfter fixtures.lowerLatin1 ["USER"]) "user"
  = quoted "user" /\
  ("USER" ∈ claimedKeywords ["USER"]) /\
  wrapWithDoubleQuoteIfSqlKeyword (keywordsAfter fixtures.lowerLatin1 ["USER"]) "USER"
  = "USER".
Proof.
  split; [vm_compute; notin_list|].
  split; [vm_compute; reflexivity|].
  split; [vm_compute; repeat constructor|].
  vm_compute. reflexivity.
Qed.

(** A keyword of ASCII bytes is lowered byte by byte, whatever the case
    mapping of the other runes. *)
Lemma ToLower_ascii (mapRunes : string -> string) (keyword : string) :
  strings.isASCII keyword = true ->
  strings.ToLower mapRunes keyword = strings.lowerBytes keyword.
Proof. intros H. unfold strings.ToLower. rewrite H. reflexivity. Qed.

(** A keyword with a letter outside ASCII goes through the case mapping of
    its runes: with the mapping of the Latin-1 letters, the keyword added as
    [É] (the bytes 195, 137) quotes the name [é] (195, 169) and leaves the
    name [É] unquoted. *)
Example added_keyword_outside_ascii :
  wrapWithDoubleQuoteIfSqlKeyword
    (keywordsAfter fixtures.lowerLatin1 [strings.bytes [195; 137]]) (strings.bytes [195; 169])
  = quoted (strings.bytes [195; 169]) /\
  wrapWithDoubleQuoteIfSqlKeyword
    (keywordsAfter fixtures.lowerLatin1 [strings.bytes [195; 137]]) (strings.bytes [195; 137])
  = strings.bytes [195; 137].
Proof. split; vm_compute; reflexivity. Qed.

(** ** C7: reading the scanned rows *)

Lemma GetTable_before_Next (sr : ScannedRows.t) (byAlias : string) :
  ScannedRows.anyNext sr = false -> fails (ScannedRows.GetTable sr byAlias).
Proof. intros H. unfold ScannedRows.GetTable. rewrite H. simpl. eexists. reflexivity. Qed.

Lemma GetTable_marks (sr : ScannedRows.t) (cur : gmap string row.t) (byAlias : string)
    (r : row.t) :
  ScannedRows.anyNext sr = true ->
  ScannedRows.rowsOfAliasToRow sr !! ScannedRows.rowIdx sr = Some cur ->
  cur !! byAlias = Some r ->
  ScannedRows.GetTable sr byAlias
  = Done (row.valueFunc r tt,
          {| ScannedRows.rowsOfAliasToRow :=
               <[ScannedRows.rowIdx sr := <[byAlias := row.markRead r]> cur]>
                 (ScannedRows.rowsOfAliasToRow sr);
             ScannedRows.rowIdx := ScannedRows.rowIdx sr;
             ScannedRows.anyNext := ScannedRows.anyNext sr |}).
Proof.
  intros Hn Hcur Hr. unfold ScannedRows.GetTable. rewrite Hn, Hcur, Hr. reflexivity.
Qed.

(** After [GetTable] for the aliases [reads] of the current row, this row
    has the records of [reads] marked and the others as they were; the
    other rows are as they were. *)
Lemma readAll_marks (reads : list string) (sr : ScannedRows.t) (cur : gmap string row.t) :
  ScannedRows.anyNext sr = true ->
  ScannedRows.rowsOfAliasToRow sr !! ScannedRows.rowIdx sr = Some cur ->
  (forall a, a ∈ reads -> is_Some (cur !! a)) ->
  exists sr' cur',
    readAll sr reads = Done sr' /\
    ScannedRows.anyNext sr' = true /\
    ScannedRows.rowIdx sr' = ScannedRows.rowIdx sr /\
    length (ScannedRows.rowsOfAliasToRow sr') = length (ScannedRows.rowsOfAliasToRow sr) /\
    ScannedRows.rowsOfAliasToRow sr' !! ScannedRows.rowIdx sr = Some cur' /\
    (forall i, i <> ScannedRows.rowIdx sr ->
       ScannedRows.rowsOfAliasToRow sr' !! i = ScannedRows.rowsOfAliasToRow sr !! i) /\
    forall a, cur' !! a = (if decide (a ∈ reads) then row.markRead <$> cur !! a
                           else cur !! a).
Proof.
  revert sr cur. induction reads as [|a reads IH]; intros sr cur Hn Hcur Hdom.
  - exists sr, cur. repeat split; try assumption; try reflexivity.
  - destruct (Hdom a) as [r Hr]; [left|].
    cbn [readAll]. rewrite (GetTable_marks sr cur a r Hn Hcur Hr).
    set (sr1 := {| ScannedRows.rowsOfAliasToRow := _ |}).
    assert (Hlt : ScannedRows.rowIdx sr < length (ScannedRows.rowsOfAliasToRow sr)).
    { eapply lookup_lt_Some, Hcur. }
    destruct (IH sr1 (<[a := row.markRead r]> cur))
      as (sr' & cur' & Hrun & Hn' & Hidx & Hlen & Hcur' & Hframe & Hmarks).
    + exact Hn.
    + subst sr1. cbn. apply list_lookup_insert_eq. exact Hlt.
    + intros a' Ha'. destruct (decide (a = a')) as [<-|Hne].
      * rewrite lookup_insert_eq. eauto.
      * rewrite lookup_insert_ne by exact Hne. apply Hdom. right. exact Ha'.
    + exists sr', cur'. split; [exact Hrun|]. split; [exact Hn'|].
      split; [exact Hidx|]. split.
      { rewrite Hlen. subst sr1. cbn. apply length_insert. }
      split; [exact Hcur'|]. split.
      { intros i Hi. rewrite (Hframe i Hi). subst sr1. cbn.
        apply list_lookup_insert_ne. intros E. apply Hi. symmetry. exact E. }
      intros a'. rewrite Hmarks.
      destruct (decide (a = a')) as [<-|Hne].
      * rewrite lookup_insert_eq.
        destruct (decide (a ∈ reads)), (decide (a ∈ a :: reads)) as [|Hn2];
          rewrite ?Hr; try reflexivity; exfalso; apply Hn2; left.
      * rewrite lookup_insert_ne by exact Hne.
        destruct (decide (a' ∈ reads)) as [Hin|Hnin],
                 (decide (a' ∈ a :: reads)) as [Hin2|Hnin2]; try reflexivity.
        -- exfalso. apply Hnin2. right. exact Hin.
        -- exfalso. apply elem_of_cons in Hin2 as [->|Hin2]; [apply Hne; reflexivity|].
           apply Hnin, Hin2.
Qed.

(** A successful [Next] stands on a row that exists and, on pristine rows,
    is unread. *)
Lemma Next_positions (sr0 sr : ScannedRows.t) :
  pristine sr0 ->
  ScannedRows.Next sr0 = Done (true, sr) ->
  ScannedRows.anyNext sr = true /\
  ScannedRows.rowsOfAliasToRow sr = ScannedRows.rowsOfAliasToRow sr0 /\
  (ScannedRows.anyNext sr0 = false \/ ScannedRows.rowIdx sr0 < ScannedRows.rowIdx sr) /\
  exists cur,
    ScannedRows.rowsOfAliasToRow sr !! ScannedRows.rowIdx sr = Some cur /\ unread cur.
Proof.
  intros Hp. unfold ScannedRows.Next.
  match goal with
  | |- context [mbind _ ?o] => destruct o as [[]|msg]
  end; unfold mbind, outcome_bind, obind; [|discriminate].
  destruct (ScannedRows.anyNext sr0) eqn:Hn; intros [= Hlt <-];
    cbn [ScannedRows.rowsOfAliasToRow ScannedRows.rowIdx ScannedRows.anyNext] in *.
  - split; [reflexivity|]. split; [reflexivity|]. split; [right; lia|].
    apply Nat.ltb_lt in Hlt. apply lookup_lt_is_Some in Hlt as [cur Hcur].
    exists cur. split; [exact Hcur|]. eapply Hp; [exact Hcur|]. right. lia.
  - split; [reflexivity|]. split; [reflexivity|]. split; [left; reflexivity|].
    apply Nat.ltb_lt in Hlt. apply lookup_lt_is_Some in Hlt as [cur Hcur].
    exists cur. split; [exact Hcur|]. eapply Hp; [exact Hcur|]. left. exact Hn.
Qed.

Lemma Next_unread (sr : ScannedRows.t) (cur : gmap string row.t) (a : string) (r : row.t) :
  ScannedRows.anyNext sr = true ->
  ScannedRows.rowsOfAliasToRow sr !! ScannedRows.rowIdx sr = Some cur ->
  cur !! a = Some r -> row.read r = false ->
  fails (ScannedRows.Next sr).
Proof.
  intros Hn Hcur Ha Hr. unfold ScannedRows.Next. rewrite Hn, Hcur.
  case_bool_decide as Hall.
  - specialize (Hall a r Ha). cbn in Hall. congruence.
  - eexists. reflexivity.
Qed.

Lemma Next_all_read (sr : ScannedRows.t) (cur : gmap string row.t) :
  ScannedRows.anyNext sr = true ->
  ScannedRows.rowsOfAliasToRow sr !! ScannedRows.rowIdx sr = Some cur ->
  (forall a r, cur !! a = Some r -> row.read r = true) ->
  ScannedRows.Next sr
  = Done (Nat.ltb (S (ScannedRows.rowIdx sr)) (length (ScannedRows.rowsOfAliasToRow sr)),
          {| ScannedRows.rowsOfAliasToRow := ScannedRows.rowsOfAliasToRow sr;
             ScannedRows.rowIdx := S (ScannedRows.rowIdx sr);
             ScannedRows.anyNext := true |}).
Proof.
  intros Hn Hcur Hall. unfold ScannedRows.Next. rewrite Hn, Hcur.
  case_bool_decide as Hdec; [reflexivity|]. exfalso. apply Hdec. exact Hall.
Qed.

(** C7. [GetTable] before the first [Next] panics. On rows as [scanRows]
    hands them over, after a [Next] that returned true and [GetTable] for the
    aliases [reads] of the current row: if an alias of the row is not among
    [reads], [Next] panics; if every alias of the row is among them, [Next]
    returns, true when a row follows and false at the end. *)
Theorem rows_must_be_read (sr0 sr : ScannedRows.t) (reads : list string) :
  pristine sr0 ->
  ScannedRows.Next sr0 = Done (true, sr) ->
  (forall s byAlias,
     ScannedRows.anyNext s = false -> fails (ScannedRows.GetTable s byAlias)) /\
  exists cur,
    ScannedRows.rowsOfAliasToRow sr !! ScannedRows.rowIdx sr = Some cur /\
    ((forall a, a ∈ reads -> is_Some (cur !! a)) ->
     exists sr',
       readAll sr reads = Done sr' /\ pristine sr' /\
       ((exists a, is_Some (cur !! a) /\ a ∉ reads) -> fails (ScannedRows.Next sr')) /\
       ((forall a, is_Some (cur !! a) -> a ∈ reads) ->
        exists sr'',
          ScannedRows.Next sr'
          = Done (Nat.ltb (S (ScannedRows.rowIdx sr))
                    (length (ScannedRows.rowsOfAliasToRow sr)), sr'') /\
          ScannedRows.rowIdx sr'' = S (ScannedRows.rowIdx sr))).
Proof.
  intros Hp Hnext. split; [intros s byAlias; apply GetTable_before_Next|].
  destruct (Next_positions sr0 sr Hp Hnext) as (Hn & Hrows & Hidx & cur & Hcur & Hunread).
  exists cur. split; [exact Hcur|]. intros Hdom.
  destruct (readAll_marks reads sr cur Hn Hcur Hdom)
    as (sr' & cur' & Hrun & Hn' & Hidx' & Hlen & Hcur' & Hframe & Hmarks).
  exists sr'. split; [exact Hrun|]. split; [|split].
  - intros i m Hm [Hf|Hlt]; [congruence|].
    rewrite Hidx' in Hlt. rewrite Hframe in Hm by lia. rewrite Hrows in Hm.
    eapply Hp; [exact Hm|]. destruct Hidx as [Hf|Hlt0]; [left; exact Hf|right; lia].
  - intros (a & [r Hr] & Hnot).
    apply (Next_unread sr' cur' a r Hn'); [rewrite Hidx'; exact Hcur'| |].
    + rewrite Hmarks. destruct (decide (a ∈ reads)); [contradiction|exact Hr].
    + apply (Hunread a r Hr).
  - intros Hall. eexists. split.
    + rewrite (Next_all_read sr' cur' Hn'); [|rewrite Hidx'; exact Hcur'|].
      * rewrite Hidx', Hlen. reflexivity.
      * intros a r Hr. rewrite Hmarks in Hr.
        destruct (decide (a ∈ reads)) as [Hin|Hnin].
        -- destruct (cur !! a); [|discriminate]. injection Hr as <-. reflexivity.
        -- exfalso. apply Hnin, Hall. eauto.
    + cbn. rewrite ?Hidx'. reflexivity.
Qed.

(** The rows [scanRows] returns are pristine and not yet entered. *)
Lemma scanTables_unread (sqlKeywords : gset string) (lay : scanLayout.t)
    (tables : list (string * TableToUse.t)) (st st' : rowScan.t) :
  unread (rowScan.aliasToRow st) ->
  scanTables sqlKeywords lay tables st = Done st' ->
  unread (rowScan.aliasToRow st').
Proof.
  revert st. induction tables as [|[alias table] tables IH]; intros st Hu.
  - simpl. intros [= <-]. exact Hu.
  - cbn [scanTables]. unfold scanTable at 1.
    destruct (TableMetadata.selectSpecOfColumns _ _ _ _) as [[vf specs]|];
      unfold mbind at 1 2, outcome_bind, obind; [|discriminate].
    destruct (registerColumns _ _ _ _) as [dest|]; [|discriminate].
    apply IH. cbn. apply map_Forall_insert_2; [reflexivity|exact Hu].
Qed.

Lemma scanLoop_unread (sqlKeywords : gset string) (lay : scanLayout.t)
    (range : nat -> gmap string TableToUse.t -> list (string * TableToUse.t))
    (rows : SqlRows.t) (count remaining row nextRow : nat)
    (acc out : list (gmap string row.t)) :
  Forall unread acc ->
  scanLoop sqlKeywords lay range rows count remaining row nextRow acc = Done (inl out) ->
  Forall unread out.
Proof.
  revert row nextRow acc. induction remaining as [|remaining IH]; intros row nextRow acc Hacc.
  - simpl. intros [= <-]. exact Hacc.
  - cbn [scanLoop]. unfold constructRow.
    destruct (scanTables _ _ _ _) as [st|] eqn:Hst;
      unfold mbind, outcome_bind, obind; [|discriminate].
    destruct (SqlRows.Scan _ _ _); [discriminate|].
    destruct (runTransforms _); [discriminate|].
    apply IH. apply Forall_app. split; [exact Hacc|]. constructor; [|constructor].
    eapply scanTables_unread; [|exact Hst]. cbn. apply map_Forall_empty.
Qed.

Lemma scanRows_pristine (sqlKeywords : gset string)
    (range : nat -> gmap string TableToUse.t -> list (string * TableToUse.t))
    (b : SqlBuilder.t) (rows : SqlRows.t) (err : option string) (sr : ScannedRows.t) :
  scanRows sqlKeywords range b rows err = Done (inl sr) ->
  pristine sr /\ ScannedRows.anyNext sr = false.
Proof.
  unfold scanRows. destruct err; [discriminate|].
  destruct (negb _); [discriminate|].
  destruct (scanLoop _ _ _ _ _ _ _ _ _) as [[out|e]|] eqn:Hloop;
    unfold mbind, outcome_bind, obind; [|discriminate|discriminate].
  intros [= <-]. split; [|reflexivity].
  intros i m Hm _. cbn in Hm.
  apply scanLoop_unread in Hloop; [|constructor].
  eapply Forall_lookup_1 in Hloop; [exact Hloop|exact Hm].
Qed.

Lemma pristine_of_unread (sr : ScannedRows.t) :
  Forall unread (ScannedRows.rowsOfAliasToRow sr) -> pristine sr.
Proof. intros H i m Hm _. eapply Forall_lookup_1 in H; [exact H|exact Hm]. Qed.

Lemma rows_must_be_read_witness :
  exists cur,
    ScannedRows.rowsOfAliasToRow fixtures.onFirstRow
      !! ScannedRows.rowIdx fixtures.onFirstRow = Some cur /\
    ((forall a, a ∈ ["alias1"] -> is_Some (cur !! a)) ->
     exists sr',
       readAll fixtures.onFirstRow ["alias1"] = Done sr' /\ pristine sr' /\
       ((exists a, is_Some (cur !! a) /\ a ∉ ["alias1"]) -> fails (ScannedRows.Next sr')) /\
       ((forall a, is_Some (cur !! a) -> a ∈ ["alias1"]) ->
        exists sr'',
          ScannedRows.Next sr'
          = Done (Nat.ltb (S (ScannedRows.rowIdx fixtures.onFirstRow))
                    (length (ScannedRows.rowsOfAliasToRow fixtures.onFirstRow)), sr'') /\
          ScannedRows.rowIdx sr'' = S (ScannedRows.rowIdx fixtures.onFirstRow))).
Proof.
  refine (proj2 (rows_must_be_read fixtures.testRows fixtures.onFirstRow ["alias1"] _ _)).
  - apply pristine_of_unread. unfold fixtures.testRows.
    cbn [ScannedRows.rowsOfAliasToRow].
    repeat (apply List.Forall_cons;
            [apply (bool_decide_unpack _); vm_compute; reflexivity|]).
    apply List.Forall_nil.
  - vm_compute. reflexivity.
Defined.

(** The test of the package: three rows of two aliases, each read in full,
    and the same with one alias skipped. *)
Example scanned_rows_read_in_full :
  (sr ← ScannedRows.Next fixtures.testRows;
   sr ← readAll sr.2 ["alias1"; "alias2"];
   sr ← ScannedRows.Next sr;
   sr ← readAll sr.2 ["alias1"; "alias2"];
   sr ← ScannedRows.Next sr;
   sr ← readAll sr.2 ["alias1"; "alias2"];
   sr ← ScannedRows.Next sr;
   Done sr.1) = Done false.
Proof. vm_compute. reflexivity. Qed.

Example scanned_rows_skipped_alias :
  (sr ← ScannedRows.Next fixtures.testRows;
   sr ← readAll sr.2 ["alias1"];
   sr ← ScannedRows.Next sr;
   Done sr.1)
  = Panic "not all columns are read before moving to the next row".
Proof. vm_compute. reflexivity. Qed.

(** ** C4: the positions of the scan targets *)

Lemma fold_layoutStep_counter (columns : list GenericColumnToUse.t) (acc : scanLayout.t * nat) :
  snd (List.fold_left layoutStep columns acc) = length columns + snd acc.
Proof.
  revert acc. induction columns as [|c columns IH]; intros acc; [reflexivity|].
  cbn [List.fold_left length]. rewrite IH. destruct acc as [lay i]. simpl. lia.
Qed.

Lemma buildLayout_snoc (columns : list GenericColumnToUse.t) (column : GenericColumnToUse.t) :
  buildLayout (columns ++ [column])
  = fst (layoutStep (buildLayout columns, length columns) column).
Proof.
  unfold buildLayout. rewrite fold_left_app. cbn [List.fold_left].
  pose proof (fold_layoutStep_counter columns (scanLayout.empty, 0)) as Hc.
  destruct (List.fold_left layoutStep columns (scanLayout.empty, 0)) as [lay i].
  simpl in Hc |- *. replace i with (length columns) by lia. reflexivity.
Qed.

Lemma indexOfPair_snoc (columns : list GenericColumnToUse.t) (column : GenericColumnToUse.t)
    (p : string * string) :
  indexOfPair (buildLayout (columns ++ [column])) p
  = if decide (pairOf column = p) then Some (length columns)
    else indexOfPair (buildLayout columns) p.
Proof.
  rewrite buildLayout_snoc. unfold indexOfPair, layoutStep, pairOf. cbn [fst scanLayout.tableAliasToColumnToIndex].
  destruct p as [alias name]. cbn [fst snd].
  set (m := scanLayout.tableAliasToColumnToIndex (buildLayout columns)).
  destruct (decide (TableToUse.tableAlias (GenericColumnToUse.table column) = alias)) as [Ha|Ha].
  - subst alias. rewrite lookup_insert_eq. cbn.
    destruct (decide (GenericColumnToUse.name column = name)) as [Hn|Hn].
    + subst name. rewrite lookup_insert_eq. rewrite decide_True by reflexivity. reflexivity.
    + rewrite lookup_insert_ne by exact Hn. rewrite decide_False by congruence.
      destruct (m !! _); [reflexivity|]. cbn. apply lookup_empty.
  - rewrite lookup_insert_ne by exact Ha. rewrite decide_False by congruence. reflexivity.
Qed.

(** The index map holds, for a pair, the index at which the pair appears
    last in the select list. *)
Lemma index_map_keeps_last_index (columns : list GenericColumnToUse.t)
    (p : string * string) (i : nat) :
  indexOfPair (buildLayout columns) p = Some i <->
  (pairOf <$> columns) !! i = Some p /\
  forall j, i < j -> (pairOf <$> columns) !! j <> Some p.
Proof.
  revert i. induction columns as [|column columns IH] using rev_ind; intros i.
  - split; [discriminate|]. intros [H _]. discriminate.
  - rewrite indexOfPair_snoc, fmap_app. cbn [fmap list_fmap].
    destruct (decide (pairOf column = p)) as [Hp|Hp].
    + split.
      * intros [= <-]. split.
        -- rewrite lookup_app_r; rewrite length_fmap; [|lia].
           rewrite Nat.sub_diag. cbn. congruence.
        -- intros j Hj Hsome. apply lookup_lt_Some in Hsome.
           rewrite length_app, length_fmap in Hsome. simpl in Hsome. lia.
      * intros [Hi Hlast]. f_equal.
        destruct (Nat.lt_trichotomy i (length columns)) as [Hlt|[->|Hgt]]; [|reflexivity|].
        -- exfalso. apply (Hlast (length columns) Hlt).
           rewrite lookup_app_r; rewrite length_fmap; [|lia].
           rewrite Nat.sub_diag. cbn. congruence.
        -- apply lookup_lt_Some in Hi. rewrite length_app, length_fmap in Hi.
           simpl in Hi. lia.
    + rewrite IH. split.
      * intros [Hi Hlast]. split.
        -- apply lookup_app_l_Some. exact Hi.
        -- intros j Hj Hsome.
           destruct (Nat.lt_ge_cases j (length columns)) as [Hlt|Hge].
           ++ rewrite lookup_app_l in Hsome by (rewrite length_fmap; exact Hlt).
              exact (Hlast j Hj Hsome).
           ++ rewrite lookup_app_r in Hsome by (rewrite length_fmap; exact Hge).
              rewrite length_fmap in Hsome.
              destruct (j - length columns) as [|k]; cbn in Hsome; [|discriminate].
              congruence.
      * intros [Hi Hlast].
        assert (Hlt : i < length columns).
        { apply lookup_lt_Some in Hi as Hlen. rewrite length_app, length_fmap in Hlen.
          simpl in Hlen.
          destruct (Nat.eq_dec i (length columns)) as [->|]; [|lia].
          rewrite lookup_app_r in Hi by (rewrite length_fmap; lia).
          rewrite length_fmap, Nat.sub_diag in Hi. cbn in Hi. congruence. }
        rewrite lookup_app_l in Hi by (rewrite length_fmap; exact Hlt).
        split; [exact Hi|]. intros j Hj Hsome. apply (Hlast j Hj).
        apply lookup_app_l_Some. exact Hsome.
Qed.

(** A pair that appears again keeps no index at its first position. *)
Lemma repeated_pair_loses_first_index (columns : list GenericColumnToUse.t)
    (p : string * string) (i j : nat) :
  (pairOf <$> columns) !! i = Some p -> (pairOf <$> columns) !! j = Some p -> i < j ->
  indexOfPair (buildLayout columns) p <> Some i.
Proof.
  intros Hi Hj Hlt H. apply index_map_keeps_last_index in H as [_ Hlast].
  exact (Hlast j Hlt Hj).
Qed.

Lemma namesOf_snoc (alias : string) (columns : list GenericColumnToUse.t)
    (column : GenericColumnToUse.t) :
  namesOf alias (columns ++ [column])
  = namesOf alias columns
    ++ (if decide (aliasOf column = alias) then [GenericColumnToUse.name column] else []).
Proof.
  unfold namesOf. rewrite filter_app, fmap_app. f_equal.
  destruct (decide (aliasOf column = alias)) as [H|H].
  - rewrite filter_cons_True by exact H. reflexivity.
  - rewrite filter_cons_False by exact H. reflexivity.
Qed.

Lemma buildLayout_columns (columns : list GenericColumnToUse.t) (alias : string) :
  default [] (scanLayout.columnsByTableAlias (buildLayout columns) !! alias)
  = namesOf alias columns.
Proof.
  induction columns as [|column columns IH] using rev_ind; [reflexivity|].
  rewrite buildLayout_snoc, namesOf_snoc. unfold layoutStep.
  cbn [fst scanLayout.columnsByTableAlias]. fold (aliasOf column).
  destruct (decide (aliasOf column = alias)) as [<-|Hne].
  - rewrite lookup_insert_eq. cbn [default]. rewrite IH. reflexivity.
  - rewrite lookup_insert_ne by exact Hne. rewrite IH, app_nil_r. reflexivity.
Qed.

Lemma buildLayout_tables (columns : list GenericColumnToUse.t) (alias : string) :
  match scanLayout.tablesByAlias (buildLayout columns) !! alias with
  | Some table => TableToUse.tableAlias table = alias
  | None => forall column, column ∈ columns -> aliasOf column <> alias
  end.
Proof.
  induction columns as [|column columns IH] using rev_ind.
  - change (scanLayout.tablesByAlias (buildLayout [])) with (∅ : gmap string TableToUse.t).
    rewrite lookup_empty. intros column H. inversion H.
  - rewrite buildLayout_snoc. unfold layoutStep.
    cbn [fst scanLayout.tablesByAlias]. fold (aliasOf column).
    destruct (decide (aliasOf column = alias)) as [<-|Hne].
    + rewrite lookup_insert_eq. reflexivity.
    + rewrite lookup_insert_ne by exact Hne.
      destruct (scanLayout.tablesByAlias (buildLayout columns) !! alias); [exact IH|].
      intros c Hc. apply elem_of_app in Hc as [Hc|Hc]; [exact (IH c Hc)|].
      apply list_elem_of_singleton in Hc. subst c. exact Hne.
Qed.

Lemma buildLayout_index (columns : list GenericColumnToUse.t) (alias name : string) :
  default ∅ (scanLayout.tableAliasToColumnToIndex (buildLayout columns) !! alias) !! name
  = indexOfPair (buildLayout columns) (alias, name).
Proof.
  unfold indexOfPair. cbn [fst snd].
  destruct (scanLayout.tableAliasToColumnToIndex (buildLayout columns) !! alias);
    [reflexivity|apply lookup_empty].
Qed.

(** In a select list without a repeated pair every column has its own index
    in the index map. *)
Lemma index_of_unrepeated_pair (columns : list GenericColumnToUse.t) (i : nat)
    (column : GenericColumnToUse.t) :
  NoDup (pairOf <$> columns) -> columns !! i = Some column ->
  indexOfPair (buildLayout columns) (pairOf column) = Some i.
Proof.
  intros Hnd Hi. apply index_map_keeps_last_index.
  assert (Hp : (pairOf <$> columns) !! i = Some (pairOf column)).
  { rewrite list_lookup_fmap, Hi. reflexivity. }
  split; [exact Hp|]. intros j Hj Hsome.
  pose proof (NoDup_lookup _ i j _ Hnd Hp Hsome). lia.
Qed.

Lemma namesOf_lookup (alias : string) (columns : list GenericColumnToUse.t) (k : nat)
    (name : string) :
  namesOf alias columns !! k = Some name ->
  exists i column, columns !! i = Some column /\ pairOf column = (alias, name).
Proof.
  intros Hk. apply list_elem_of_lookup_2 in Hk. unfold namesOf in Hk.
  apply list_elem_of_fmap in Hk as (column & -> & Hin).
  apply list_elem_of_filter in Hin as [Ha Hin].
  apply list_elem_of_lookup_1 in Hin as [i Hi].
  exists i, column. split; [exact Hi|]. unfold pairOf. fold (aliasOf column).
  rewrite Ha. reflexivity.
Qed.

Lemma namesOf_NoDup (alias : string) (columns : list GenericColumnToUse.t) :
  NoDup (pairOf <$> columns) -> NoDup (namesOf alias columns).
Proof.
  induction columns as [|column columns IH]; intros Hnd; [constructor|].
  rewrite fmap_cons in Hnd. apply NoDup_cons in Hnd as [Hnot Hnd].
  unfold namesOf. destruct (decide (aliasOf column = alias)) as [Ha|Ha].
  - rewrite filter_cons_True by exact Ha. rewrite fmap_cons.
    apply NoDup_cons. split; [|exact (IH Hnd)].
    intros Hin. apply Hnot. apply list_elem_of_fmap in Hin as (c & Hname & Hin).
    apply list_elem_of_filter in Hin as [Hc Hin].
    apply list_elem_of_fmap. exists c. split; [|exact Hin].
    unfold pairOf. fold (aliasOf column) (aliasOf c). congruence.
  - rewrite filter_cons_False by exact Ha. exact (IH Hnd).
Qed.

Lemma namesOf_position (alias : string) (columns : list GenericColumnToUse.t)
    (column : GenericColumnToUse.t) :
  column ∈ columns -> aliasOf column = alias ->
  exists k, namesOf alias columns !! k = Some (GenericColumnToUse.name column).
Proof.
  intros Hin Ha. apply list_elem_of_lookup_1. unfold namesOf.
  apply list_elem_of_fmap. exists column. split; [reflexivity|].
  apply list_elem_of_filter. split; assumption.
Qed.

Lemma registerColumns_targets (indexOf : gmap string nat) (names : list string)
    (specs : list ResultColumnSelectSpec.t) (dest dest' : list any) :
  registerColumns indexOf names specs dest = Done dest' ->
  length dest' = length dest /\
  (forall j, (forall name, name ∈ names -> default 0 (indexOf !! name) <> j) ->
             dest' !! j = dest !! j) /\
  (forall k name,
     names !! k = Some name ->
     (forall k' name', k < k' -> names !! k' = Some name' ->
                       default 0 (indexOf !! name') <> default 0 (indexOf !! name)) ->
     exists spec,
       specs !! k = Some spec /\
       dest' !! default 0 (indexOf !! name)
       = Some (ResultColumnSelectSpec.ToQueryArg spec tt)).
Proof.
  revert specs dest. induction names as [|name0 names IH]; intros specs dest.
  - simpl. intros [= <-]. split; [reflexivity|]. split; [reflexivity|].
    intros k name H. discriminate.
  - cbn [registerColumns]. destruct specs as [|spec0 specs]; [discriminate|].
    destruct (Nat.ltb_spec (default 0 (indexOf !! name0)) (length dest)) as [Hlt|];
      [|discriminate].
    intros Hrun. apply IH in Hrun as (Hlen & Hframe & Hset).
    rewrite length_insert in Hlen. split; [exact Hlen|]. split.
    + intros j Hj. rewrite Hframe.
      * apply list_lookup_insert_ne. apply Hj. left.
      * intros name Hin. apply Hj. right. exact Hin.
    + intros [|k] name Hk Hlater.
      * injection Hk as <-. exists spec0. split; [reflexivity|].
        rewrite Hframe.
        -- apply list_lookup_insert_eq. exact Hlt.
        -- intros name' Hin. apply list_elem_of_lookup_1 in Hin as [k' Hk'].
           apply (Hlater (S k') name'); [lia|exact Hk'].
      * apply (Hset k name Hk). intros k' name' Hlt' Hk'.
        apply (Hlater (S k') name'); [lia|exact Hk'].
Qed.

Lemma index_of_name (columns : list GenericColumnToUse.t) (alias name : string) (k : nat) :
  NoDup (pairOf <$> columns) ->
  namesOf alias columns !! k = Some name ->
  exists i column,
    columns !! i = Some column /\ pairOf column = (alias, name) /\
    default 0 (default ∅ (scanLayout.tableAliasToColumnToIndex (buildLayout columns)
                            !! alias) !! name) = i.
Proof.
  intros Hnd Hk. destruct (namesOf_lookup _ _ _ _ Hk) as (i & column & Hi & Hp).
  exists i, column. split; [exact Hi|]. split; [exact Hp|].
  rewrite buildLayout_index, <- Hp, (index_of_unrepeated_pair _ _ _ Hnd Hi). reflexivity.
Qed.

Lemma scanTable_targets (sqlKeywords : gset string) (columns : list GenericColumnToUse.t)
    (alias : string) (table : TableToUse.t) (st st' : rowScan.t) :
  NoDup (pairOf <$> columns) ->
  scanLayout.tablesByAlias (buildLayout columns) !! alias = Some table ->
  scanTable sqlKeywords (buildLayout columns) table st = Done st' ->
  length (rowScan.columnsForScanning st') = length (rowScan.columnsForScanning st) /\
  (forall i column, columns !! i = Some column -> aliasOf column <> alias ->
     rowScan.columnsForScanning st' !! i = rowScan.columnsForScanning st !! i) /\
  (forall i column, columns !! i = Some column -> aliasOf column = alias ->
     targetOf sqlKeywords columns (rowScan.columnsForScanning st') i column).
Proof.
  intros Hnd Htable. pose proof (buildLayout_tables columns alias) as Halias.
  rewrite Htable in Halias. unfold scanTable. rewrite Halias, buildLayout_columns.
  destruct (TableMetadata.selectSpecOfColumns _ _ _ _) as [[vf specs]|] eqn:Hspecs;
    unfold mbind at 1, outcome_bind, obind; [|discriminate].
  destruct (registerColumns _ _ _ _) as [dest|] eqn:Hreg;
    unfold mbind, outcome_bind, obind; [|discriminate].
  intros [= <-]. cbn [rowScan.columnsForScanning].
  apply registerColumns_targets in Hreg as (Hlen & Hframe & Hset).
  split; [exact Hlen|]. split.
  - intros i column Hi Hne. apply Hframe. intros name Hin E.
    apply list_elem_of_lookup_1 in Hin as [k Hk].
    destruct (index_of_name _ _ _ _ Hnd Hk) as (i' & column' & Hi' & Hp & Hidx).
    rewrite Hidx in E. subst i'. rewrite Hi in Hi'. injection Hi' as <-.
    apply Hne. unfold pairOf in Hp. fold (aliasOf column) in Hp. congruence.
  - intros i column Hi Ha.
    destruct (namesOf_position alias columns column) as [k Hk];
      [eapply list_elem_of_lookup_2; exact Hi|exact Ha|].
    assert (Hidx : default 0 (default ∅ (scanLayout.tableAliasToColumnToIndex
                                           (buildLayout columns) !! alias)
                              !! GenericColumnToUse.name column) = i).
    { rewrite buildLayout_index.
      replace (alias, GenericColumnToUse.name column) with (pairOf column)
        by (unfold pairOf; fold (aliasOf column); rewrite Ha; reflexivity).
      rewrite (index_of_unrepeated_pair _ _ _ Hnd Hi). reflexivity. }
    destruct (Hset k _ Hk) as (spec & Hspec & Hdest).
    { intros k' name' Hlt Hk' E. rewrite Hidx in E.
      destruct (index_of_name _ _ _ _ Hnd Hk') as (i' & column' & Hi' & Hp & Hidx').
      rewrite Hidx' in E. subst i'. rewrite Hi in Hi'. injection Hi' as <-.
      assert (Hname : name' = GenericColumnToUse.name column).
      { unfold pairOf in Hp. congruence. }
      subst name'.
      pose proof (NoDup_lookup _ k k' _ (namesOf_NoDup alias columns Hnd) Hk Hk'). lia. }
    rewrite Hidx in Hdest.
    exists table, (rowScan.nextRow st), vf, specs, k, spec. rewrite Ha.
    repeat split; assumption.
Qed.

Lemma scanTables_targets (sqlKeywords : gset string) (columns : list GenericColumnToUse.t)
    (range : list (string * TableToUse.t)) (st st' : rowScan.t) :
  NoDup (pairOf <$> columns) ->
  NoDup range.*1 ->
  (forall alias table, (alias, table) ∈ range ->
     scanLayout.tablesByAlias (buildLayout columns) !! alias = Some table) ->
  scanTables sqlKeywords (buildLayout columns) range st = Done st' ->
  length (rowScan.columnsForScanning st') = length (rowScan.columnsForScanning st) /\
  (forall i column, columns !! i = Some column -> aliasOf column ∉ range.*1 ->
     rowScan.columnsForScanning st' !! i = rowScan.columnsForScanning st !! i) /\
  (forall i column, columns !! i = Some column -> aliasOf column ∈ range.*1 ->
     targetOf sqlKeywords columns (rowScan.columnsForScanning st') i column).
Proof.
  intros Hnd. revert st. induction range as [|[alias table] range IH]; intros st Hr Hin.
  - simpl. intros [= <-]. split; [reflexivity|]. split; [reflexivity|].
    intros i column _ H. inversion H.
  - cbn [scanTables].
    destruct (scanTable _ _ _ _) as [st1|] eqn:H1;
      unfold mbind, outcome_bind, obind; [|discriminate].
    intros Hrest. rewrite fmap_cons in Hr. cbn [fst] in Hr.
    apply NoDup_cons in Hr as [Hnot Hr].
    apply (scanTable_targets _ _ alias) in H1 as (Hlen1 & Hframe1 & Hset1);
      [|exact Hnd|apply Hin; left].
    apply IH in Hrest as (Hlen & Hframe & Hset);
      [|exact Hr|intros a t Hat; apply Hin; right; exact Hat].
    split; [congruence|]. split.
    + intros i column Hi Hout. rewrite fmap_cons, not_elem_of_cons in Hout.
      destruct Hout as [Hne Hout]. cbn [fst] in Hne.
      rewrite (Hframe i column Hi Hout). apply (Hframe1 i column Hi Hne).
    + intros i column Hi Hmem. rewrite fmap_cons, elem_of_cons in Hmem. cbn [fst] in Hmem.
      destruct (decide (aliasOf column ∈ range.*1)) as [Hrange|Hrange].
      * apply (Hset i column Hi Hrange).
      * destruct Hmem as [Ha|Hmem]; [|contradiction].
        destruct (Hset1 i column Hi Ha) as (t & row & vf & specs & k & spec & H).
        exists t, row, vf, specs, k, spec. rewrite (Hframe i column Hi Hrange). exact H.
Qed.

(** In a select list without a repeated (alias, column) pair, whatever the
    order in which the tables are visited, every position of the columns
    for scanning holds the scan target of the column at this position. *)
Lemma scan_targets_of_unrepeated_pairs (sqlKeywords : gset string)
    (columns : list GenericColumnToUse.t) (range : list (string * TableToUse.t))
    (nextRow : nat) (st : rowScan.t) :
  NoDup (pairOf <$> columns) ->
  range ≡ₚ map_to_list (scanLayout.tablesByAlias (buildLayout columns)) ->
  constructRow sqlKeywords (buildLayout columns) range (length columns) nextRow = Done st ->
  length (rowScan.columnsForScanning st) = length columns /\
  forall i column, columns !! i = Some column ->
    targetOf sqlKeywords columns (rowScan.columnsForScanning st) i column.
Proof.
  intros Hnd Hperm Hrun. unfold constructRow in Hrun.
  apply (scanTables_targets _ columns) in Hrun as (Hlen & _ & Hset); [|exact Hnd| |].
  - cbn [rowScan.columnsForScanning] in Hlen. rewrite length_replicate in Hlen.
    split; [exact Hlen|]. intros i column Hi. apply (Hset i column Hi).
    pose proof (buildLayout_tables columns (aliasOf column)) as Ht.
    destruct (scanLayout.tablesByAlias (buildLayout columns) !! aliasOf column)
      as [table|] eqn:Htable.
    + apply list_elem_of_fmap. exists (aliasOf column, table). split; [reflexivity|].
      rewrite Hperm. apply elem_of_map_to_list. exact Htable.
    + exfalso. apply (Ht column); [eapply list_elem_of_lookup_2; exact Hi|reflexivity].
  - rewrite Hperm. apply NoDup_fst_map_to_list.
  - intros alias table Hin. rewrite Hperm in Hin. apply elem_of_map_to_list in Hin.
    exact Hin.
Qed.

(** The select list of the package's scanner test: every scan target stands
    at the position of its column. *)
Example scan_targets_of_four_columns :
  rowScan.columnsForScanning <$>
    constructRow fixtures.keywords (buildLayout fixtures.fourColumns)
      (map_to_list (scanLayout.tablesByAlias (buildLayout fixtures.fourColumns)))
      (length fixtures.fourColumns) 0
  = Done [AFieldPtr 0 "Amount"; AFieldPtr 1 "rawAmount"; AFieldPtr 0 "rawCost";
          AFieldPtr 1 "Pk3"].
Proof. vm_compute. reflexivity. Qed.

(** C4, at a select list that names one column twice: the index map keeps
    the later index of the pair, both scan targets of the pair go to position
    1 and position 0, where the pair first appears, stays nil; a driver that
    refuses a nil destination fails on every row. *)
Theorem repeated_pair_leaves_first_position_empty :
  default ∅ (scanLayout.tableAliasToColumnToIndex (buildLayout fixtures.amountTwice) !! "t1")
    !! "amount" = Some 1 /\
  rowScan.columnsForScanning <$>
    constructRow fixtures.keywords (buildLayout fixtures.amountTwice)
      (map_to_list (scanLayout.tablesByAlias (buildLayout fixtures.amountTwice)))
      (length fixtures.amountTwice) 0
  = Done [ANil; AFieldPtr 0 "Amount"] /\
  scanRows fixtures.keywords fixtures.rangeOfMap
    (builderOf (chain (Select fixtures.amountTwice) [Builder.From [fixtures.t1]]))
    fixtures.oneRow None
  = Done (inr "failed to scan row: destination not a pointer").
Proof. repeat split; vm_compute; reflexivity. Qed.

(** * Further properties *)

(** ** Registering a table and finding it again *)

(** X1. [Build] of a table builder returns exactly when no two columns share
    a (stored) name, the names of the primary-key columns are a permutation of
    the expected names and the record type is not registered yet; the metadata
    it returns has the name of the builder and its columns, in their order. *)
Theorem table_Build_returns_iff (g : Registry.t) (b : TableMetadataBuilder.t)
    (opt : TableMetadataBuildOption.t) :
  ((exists tm g', TableMetadataBuilder.Build g b opt = Done (tm, g')) <->
   NoDup (columnNames b) /\
   pkNamesOf (TableMetadataBuilder.columns b)
     ≡ₚ wrapManyWithDoubleQuoteIfSqlKeyword (Registry.sqlKeywords g)
          (TableMetadataBuildOption.ExpectedPkColumns opt) /\
   Registry.registeredTableTypeToName g !! TableMetadataBuilder.recordType b = None) /\
  (forall tm g', TableMetadataBuilder.Build g b opt = Done (tm, g') ->
     TableMetadata.name tm = TableMetadataBuilder.name b /\
     TableMetadata.recordType tm = TableMetadataBuilder.recordType b /\
     TableMetadata.columns tm
     = List.map ColumnMetadataBuilder.column (TableMetadataBuilder.columns b)).
Proof.
  split.
  - split.
    + intros (tm & g' & Hbuild). unfold TableMetadataBuilder.Build in Hbuild.
      destruct (TableMetadataBuilder.collectColumns _ _ _ _) as [[[C M] P]|] eqn:Hc;
        unfold mbind, outcome_bind, obind in Hbuild; [|discriminate].
      apply collectColumns_Done_inv in Hc as (Hnd & _ & _ & -> & _).
      unfold deepEqualStrings in Hbuild. case_bool_decide as E; [|discriminate].
      cbn [negb] in Hbuild.
      destruct (Registry.registeredTableTypeToName g !! _) eqn:Hreg; [discriminate|].
      split; [exact Hnd|]. split; [|reflexivity].
      apply sortStrings_eq_iff. exact E.
    + intros (Hnd & Hperm & Hfree).
      destruct (TableMetadataBuilder.Build g b opt) as [[tm g']|msg] eqn:Hbuild; [eauto|].
      exfalso. apply (proj1 (Build_fails_iff_sorted g b opt Hfree Hnd)).
      * exists msg. exact Hbuild.
      * apply sortStrings_eq_iff. exact Hperm.
  - intros tm g'. apply table_Build_metadata.
Qed.

(** X2. A table that [Build] has registered is found again under its record
    type: [GetTableMetadata] returns the metadata [Build] returned, the table
    name is among the registered names, and [UseTable] gives an unsealed table
    whose name and alias are the name of the table. *)
Theorem registered_table_is_found (g g' : Registry.t) (b : TableMetadataBuilder.t)
    (opt : TableMetadataBuildOption.t) (tm : TableMetadata.t) (uid : Z) :
  TableMetadataBuilder.Build g b opt = Done (tm, g') ->
  GetTableMetadata g' (TableMetadataBuilder.recordType b) = Done tm /\
  TableMetadataBuilder.name b ∈ GetRegisteredTablesName g' /\
  UseTable g' (TableMetadataBuilder.recordType b) uid
  = Done {| TableToUse.uid := uid; TableToUse.sealed := false;
            TableToUse.metadata := tm;
            TableToUse.name := TableMetadataBuilder.name b;
            TableToUse.alias := TableMetadataBuilder.name b |}.
Proof.
  intros Hbuild.
  pose proof (table_Build_metadata g g' b opt tm Hbuild) as (Hname & Htype & _).
  unfold TableMetadataBuilder.Build in Hbuild.
  destruct (TableMetadataBuilder.collectColumns _ _ _ _) as [[[C M] P]|];
    unfold mbind, outcome_bind, obind in Hbuild; [|discriminate].
  destruct (negb _); [discriminate|].
  destruct (Registry.registeredTableTypeToName g !! _); [discriminate|].
  injection Hbuild as Htm <-.
  assert (Hget : GetTableMetadata
                   {| Registry.registeredTableTypeToName :=
                        <[TableMetadataBuilder.recordType b := TableMetadataBuilder.name b]>
                          (Registry.registeredTableTypeToName g);
                      Registry.registeredTables :=
                        <[TableMetadataBuilder.name b := tm]> (Registry.registeredTables g);
                      Registry.sqlKeywords := Registry.sqlKeywords g |}
                   (TableMetadataBuilder.recordType b) = Done tm).
  { unfold GetTableMetadata. cbn [Registry.registeredTableTypeToName Registry.registeredTables].
    rewrite !lookup_insert_eq, Htype, String.eqb_refl. reflexivity. }
  rewrite Htm. split; [exact Hget|]. split.
  - unfold GetRegisteredTablesName. cbn [Registry.registeredTables].
    apply list_elem_of_In, in_map_iff. exists (TableMetadataBuilder.name b, tm).
    split; [reflexivity|]. apply list_elem_of_In, elem_of_map_to_list, lookup_insert_eq.
  - unfold UseTable. rewrite Hget. unfold mbind, outcome_bind, obind. rewrite Hname.
    reflexivity.
Qed.

Lemma registered_table_is_found_witness :
  GetTableMetadata (snd fixtures.registered1)
    (TableMetadataBuilder.recordType fixtures.tableTest1Builder) = Done fixtures.tableTest1 /\
  TableMetadataBuilder.name fixtures.tableTest1Builder
    ∈ GetRegisteredTablesName (snd fixtures.registered1) /\
  UseTable (snd fixtures.registered1)
    (TableMetadataBuilder.recordType fixtures.tableTest1Builder) 5
  = Done {| TableToUse.uid := 5; TableToUse.sealed := false;
            TableToUse.metadata := fixtures.tableTest1;
            TableToUse.name := TableMetadataBuilder.name fixtures.tableTest1Builder;
            TableToUse.alias := TableMetadataBuilder.name fixtures.tableTest1Builder |}.
Proof.
  apply (registered_table_is_found Registry.init (snd fixtures.registered1)
           fixtures.tableTest1Builder
           {| TableMetadataBuildOption.ExpectedPkColumns := ["pk1"; "pk2"] |}).
  vm_compute. reflexivity.
Defined.


(** X3. The registry keeps one table per table name: when a second record
    type is registered under the name of a table of another type, the first
    type still points to this name and [GetTableMetadata] for it panics on the
    type assertion. *)
Theorem same_table_name_hides_the_first_type (g g' : Registry.t)
    (b : TableMetadataBuilder.t) (opt : TableMetadataBuildOption.t)
    (tm : TableMetadata.t) (T : string) :
  Registry.registeredTableTypeToName g !! T = Some (TableMetadataBuilder.name b) ->
  TableMetadataBuilder.Build g b opt = Done (tm, g') ->
  GetTableMetadata g' T
  = Panic ("interface conversion: interface {} is TableMetadata["
           +:+ TableMetadataBuilder.recordType b +:+ "], not TableMetadata[" +:+ T +:+ "]").
Proof.
  intros HT Hbuild.
  pose proof (table_Build_metadata g g' b opt tm Hbuild) as (_ & Htype & _).
  unfold TableMetadataBuilder.Build in Hbuild.
  destruct (TableMetadataBuilder.collectColumns _ _ _ _) as [[[C M] P]|];
    unfold mbind, outcome_bind, obind in Hbuild; [|discriminate].
  destruct (negb _); [discriminate|].
  destruct (Registry.registeredTableTypeToName g !! TableMetadataBuilder.recordType b)
    eqn:Hfree; [discriminate|].
  injection Hbuild as Htm <-. rewrite Htm.
  assert (Hne : TableMetadataBuilder.recordType b <> T) by congruence.
  unfold GetTableMetadata. cbn [Registry.registeredTableTypeToName Registry.registeredTables].
  rewrite lookup_insert_ne by exact Hne. rewrite HT, lookup_insert_eq, Htype.
  destruct (String.eqb_spec (TableMetadataBuilder.recordType b) T) as [E|_];
    [contradiction|reflexivity].
Qed.

Lemma same_table_name_hides_the_first_type_witness :
  GetTableMetadata (snd samples.shadowed) "testStruct1"
  = Panic ("interface conversion: interface {} is TableMetadata["
           +:+ TableMetadataBuilder.recordType samples.shadowBuilder
           +:+ "], not TableMetadata[" +:+ "testStruct1" +:+ "]").
Proof.
  apply (same_table_name_hides_the_first_type fixtures.globals (snd samples.shadowed)
           samples.shadowBuilder
           {| TableMetadataBuildOption.ExpectedPkColumns := [] |} (fst samples.shadowed)).
  - vm_compute. reflexivity.
  - vm_compute. reflexivity.
Defined.


Lemma Build_columnsByName_names (g g' : Registry.t) (b : TableMetadataBuilder.t)
    (opt : TableMetadataBuildOption.t) (tm : TableMetadata.t) (n : string)
    (c : ColumnMetadata.t) :
  TableMetadataBuilder.Build g b opt = Done (tm, g') ->
  TableMetadata.columnsByName tm !! n = Some c -> n ∈ columnNames b.
Proof.
  unfold TableMetadataBuilder.Build.
  destruct (TableMetadataBuilder.collectColumns _ _ _ _) as [[[C M] P]|] eqn:Hc;
    unfold mbind, outcome_bind, obind; [|discriminate].
  destruct (negb _); [discriminate|].
  destruct (Registry.registeredTableTypeToName g !! _); [discriminate|].
  intros [= <- _]. cbn [TableMetadata.columnsByName]. intros Hn.
  apply collectColumns_Done_inv in Hc as (_ & _ & _ & _ & Hdom).
  destruct (Hdom n c Hn) as [H|H]; [rewrite lookup_empty in H; discriminate|exact H].
Qed.

(** X4. A column whose name was no keyword when its table was registered is
    stored unquoted; when the name becomes a keyword afterwards, lookups by
    this name quote it and miss the column: [MustGetColumnByName] panics. *)
Theorem keyword_added_after_registration_hides_the_column (sqlKeywords later : gset string)
    (g g' : Registry.t) (b0 : TableMetadataBuilder.t) (cbs : list ColumnMetadataBuilder.t)
    (cb : ColumnMetadataBuilder.t) (opt : TableMetadataBuildOption.t)
    (tm : TableMetadata.t) :
  cb ∈ cbs ->
  TableMetadataBuilder.Build g (TableMetadataBuilder.AddColumns sqlKeywords b0 cbs) opt
  = Done (tm, g') ->
  let name := strings.TrimSpace (ColumnMetadata.name (ColumnMetadataBuilder.column cb)) in
  name ∉ sqlKeywords -> name ∈ later ->
  quoted name ∉ columnNames (TableMetadataBuilder.AddColumns sqlKeywords b0 cbs) ->
  TableMetadata.MustGetColumnByName sqlKeywords tm name
  = Done (ColumnMetadataBuilder.column (ColumnMetadataBuilder.setName cb name)) /\
  TableMetadata.MustGetColumnByName later tm name
  = Panic ("column with name " +:+ name +:+ " not found").
Proof.
  intros Hcb Hbuild name Hplain Hlater Hfree.
  assert (Hstored : wrapWithDoubleQuoteIfSqlKeyword sqlKeywords name = name).
  { unfold wrapWithDoubleQuoteIfSqlKeyword. rewrite decide_False by exact Hplain.
    reflexivity. }
  split.
  - assert (Hl : TableMetadata.columnsByName tm !! name
                 = Some (ColumnMetadataBuilder.column
                           (ColumnMetadataBuilder.setName cb name))).
    { apply (Build_columnsByName g g' _ opt tm
               (ColumnMetadataBuilder.setName cb name) Hbuild).
      rewrite AddColumns_columns. apply elem_of_app. right.
      apply list_elem_of_In, in_map_iff. exists cb. split; [|apply list_elem_of_In, Hcb].
      fold name. rewrite Hstored. reflexivity. }
    unfold TableMetadata.MustGetColumnByName. rewrite Hstored, Hl. reflexivity.
  - unfold TableMetadata.MustGetColumnByName.
    rewrite (proj2 (wrap_quoted_iff later name) Hlater).
    destruct (TableMetadata.columnsByName tm !! quoted name) as [c|] eqn:Hq; [|reflexivity].
    exfalso. apply Hfree. eapply Build_columnsByName_names; [exact Hbuild|exact Hq].
Qed.

Lemma keyword_added_after_registration_hides_the_column_witness :
  TableMetadata.MustGetColumnByName (Registry.sqlKeywords Registry.init) fixtures.tableTest1
    (strings.TrimSpace
       (ColumnMetadata.name
          (ColumnMetadataBuilder.column (fixtures.plainColumn "amount" "Amount" 2))))
  = Done (ColumnMetadataBuilder.column
            (ColumnMetadataBuilder.setName (fixtures.plainColumn "amount" "Amount" 2)
               (strings.TrimSpace
                  (ColumnMetadata.name
                     (ColumnMetadataBuilder.column
                        (fixtures.plainColumn "amount" "Amount" 2)))))) /\
  TableMetadata.MustGetColumnByName
    (AddSqlKeyword fixtures.lowerLatin1 (Registry.sqlKeywords Registry.init) "Amount")
    fixtures.tableTest1
    (strings.TrimSpace
       (ColumnMetadata.name
          (ColumnMetadataBuilder.column (fixtures.plainColumn "amount" "Amount" 2))))
  = Panic ("column with name "
           +:+ strings.TrimSpace
                 (ColumnMetadata.name
                    (ColumnMetadataBuilder.column
                       (fixtures.plainColumn "amount" "Amount" 2)))
           +:+ " not found").
Proof.
  apply (keyword_added_after_registration_hides_the_column
           (Registry.sqlKeywords Registry.init)
           (AddSqlKeyword fixtures.lowerLatin1 (Registry.sqlKeywords Registry.init) "Amount")
           Registry.init (snd fixtures.registered1)
           (NewTableMetadata "testStruct1" "table1")
           [ ColumnMetadataBuilder.PrimaryKey (fixtures.plainColumn "pk1" "Pk1" 0);
             ColumnMetadataBuilder.PrimaryKey (fixtures.plainColumn "pk2" "Pk2" 1);
             fixtures.plainColumn "amount" "Amount" 2;
             fixtures.moneyColumn "cost" "rawCost" 3 ]
           (fixtures.plainColumn "amount" "Amount" 2)
           {| TableMetadataBuildOption.ExpectedPkColumns := ["pk1"; "pk2"] |}
           fixtures.tableTest1).
  - right. right. left.
  - vm_compute. reflexivity.
  - vm_compute. notin_list.
  - apply (bool_decide_unpack _). vm_compute. reflexivity.
  - vm_compute. notin_list.
Defined.

(** ** Tables in use and their columns *)

(** X5. A table that [Seal] has returned is sealed with a name and an alias
    that are not empty, and is what it was otherwise; [As] and [Alias] panic on
    it, and sealing it again changes nothing. *)
Theorem sealed_table_is_frozen (t t' : TableToUse.t) :
  TableToUse.Seal t = Done t' ->
  TableToUse.sealed t' = true /\
  TableToUse.name t' = TableToUse.name t /\ TableToUse.name t' <> "" /\
  TableToUse.alias t' = TableToUse.alias t /\ TableToUse.alias t' <> "" /\
  TableToUse.uid t' = TableToUse.uid t /\
  TableToUse.metadata t' = TableToUse.metadata t /\
  (forall name, fails (TableToUse.As t' name)) /\
  (forall alias, fails (TableToUse.Alias t' alias)) /\
  TableToUse.Seal t' = Done t'.
Proof.
  unfold TableToUse.Seal.
  destruct (Nat.eqb_spec (String.length (TableToUse.name t)) 0) as [|Hname]; [discriminate|].
  destruct (Nat.eqb_spec (String.length (TableToUse.alias t)) 0) as [|Halias]; [discriminate|].
  intros [= <-]. cbn.
  destruct (Nat.eqb_spec (String.length (TableToUse.name t)) 0) as [|_]; [contradiction|].
  destruct (Nat.eqb_spec (String.length (TableToUse.alias t)) 0) as [|_]; [contradiction|].
  repeat split; try (intros ?; eexists; reflexivity).
  - intros E. apply Hname. rewrite E. reflexivity.
  - intros E. apply Halias. rewrite E. reflexivity.
Qed.

Lemma sealed_table_is_frozen_witness :
  TableToUse.sealed fixtures.t1 = true /\
  TableToUse.name fixtures.t1 = TableToUse.name samples.aliasedT1 /\
  TableToUse.name fixtures.t1 <> "" /\
  TableToUse.alias fixtures.t1 = TableToUse.alias samples.aliasedT1 /\
  TableToUse.alias fixtures.t1 <> "" /\
  TableToUse.uid fixtures.t1 = TableToUse.uid samples.aliasedT1 /\
  TableToUse.metadata fixtures.t1 = TableToUse.metadata samples.aliasedT1 /\
  (forall name, fails (TableToUse.As fixtures.t1 name)) /\
  (forall alias, fails (TableToUse.Alias fixtures.t1 alias)) /\
  TableToUse.Seal fixtures.t1 = Done fixtures.t1.
Proof.
  apply (sealed_table_is_frozen samples.aliasedT1 fixtures.t1). vm_compute. reflexivity.
Defined.


(** X6. [Alias] compares the alias with the name of the table to tell
    whether one was given: after an alias other than this name every further
    [Alias] panics, and after an alias equal to it the table is as before and
    takes an alias again. *)
Theorem Alias_is_given_once (t t' : TableToUse.t) (alias : string) :
  TableToUse.Alias t alias = Done t' ->
  TableToUse.alias t' = alias /\
  (alias <> TableMetadata.name (TableToUse.metadata t) ->
   forall alias', fails (TableToUse.Alias t' alias')) /\
  (alias = TableMetadata.name (TableToUse.metadata t) ->
   forall alias', TableToUse.Alias t' alias' = TableToUse.Alias t alias').
Proof.
  unfold TableToUse.Alias at 1, TableToUse.mustNotSealed.
  destruct (TableToUse.sealed t) eqn:Hsealed; unfold mbind, outcome_bind, obind;
    [discriminate|].
  destruct (String.eqb_spec alias "") as [|Hne]; [discriminate|].
  destruct (String.eqb_spec (TableToUse.alias t) (TableMetadata.name (TableToUse.metadata t)))
    as [Hold|]; [|discriminate].
  cbn [negb]. intros [= <-]. split; [reflexivity|]. split.
  - intros Hother alias'. unfold TableToUse.Alias, TableToUse.mustNotSealed. cbn.
    rewrite ?Hsealed. unfold mbind, outcome_bind, obind.
    destruct (String.eqb alias' ""); [eexists; reflexivity|].
    destruct (String.eqb_spec alias (TableMetadata.name (TableToUse.metadata t)));
      [contradiction|]. eexists. reflexivity.
  - intros -> alias'. unfold TableToUse.Alias, TableToUse.mustNotSealed. cbn.
    rewrite ?Hsealed, Hold. unfold mbind, outcome_bind, obind.
    destruct (String.eqb alias' ""); [reflexivity|].
    rewrite String.eqb_refl. reflexivity.
Qed.

Lemma Alias_is_given_once_witness :
  TableToUse.alias samples.aliasedT1 = "t1" /\
  ("t1" <> TableMetadata.name (TableToUse.metadata samples.usedT1) ->
   forall alias', fails (TableToUse.Alias samples.aliasedT1 alias')) /\
  ("t1" = TableMetadata.name (TableToUse.metadata samples.usedT1) ->
   forall alias', TableToUse.Alias samples.aliasedT1 alias'
                  = TableToUse.Alias samples.usedT1 alias').
Proof.
  apply (Alias_is_given_once samples.usedT1 samples.aliasedT1 "t1"). vm_compute. reflexivity.
Defined.


Lemma omapM_map {A C D} (f : C -> outcome D) (h : A -> C) (g : A -> D) (l : list A) :
  (forall x, x ∈ l -> f (h x) = Done (g x)) ->
  omapM f (List.map h l) = Done (List.map g l).
Proof.
  induction l as [|x l IH]; intros Hf; [reflexivity|].
  cbn [omapM List.map]. rewrite (Hf x) by left.
  rewrite IH; [reflexivity|]. intros y Hy. apply Hf. right. exact Hy.
Qed.

(** X7. On a sealed table of a registered record type, [Columns] without a
    name gives every column of the table, in the order of the table, provided
    that no stored column name is a keyword at the time of the call. *)
Theorem Columns_without_names_gives_every_column (sqlKeywords : gset string)
    (g g' : Registry.t) (b : TableMetadataBuilder.t) (opt : TableMetadataBuildOption.t)
    (t : TableToUse.t) :
  TableMetadataBuilder.Build g b opt = Done (TableToUse.metadata t, g') ->
  TableToUse.sealed t = true ->
  (forall name, name ∈ columnNames b -> name ∉ sqlKeywords) ->
  Columns sqlKeywords t [] = Done (allColumns t).
Proof.
  intros Hbuild Hsealed Hplain. unfold Columns, TableToUse.mustSealed. rewrite Hsealed.
  cbn [negb length Nat.eqb]. unfold mbind at 1, outcome_bind, obind.
  pose proof (table_Build_metadata g g' b opt _ Hbuild) as (_ & _ & Hcols).
  unfold allColumns, TableMetadata.ColumnsName. rewrite Hcols, !List.map_map.
  apply (omapM_map _ (fun cb => ColumnMetadata.name (ColumnMetadataBuilder.column cb))).
  intros cb Hcb.
  assert (Hname : ColumnMetadata.name (ColumnMetadataBuilder.column cb) ∉ sqlKeywords).
  { apply Hplain. unfold columnNames. apply list_elem_of_In, in_map_iff.
    exists cb. split; [reflexivity|]. apply list_elem_of_In, Hcb. }
  unfold TableMetadata.MustGetColumnByName, wrapWithDoubleQuoteIfSqlKeyword.
  rewrite decide_False by exact Hname.
  rewrite (Build_columnsByName g g' b opt _ cb Hbuild Hcb). reflexivity.
Qed.

Lemma Columns_without_names_gives_every_column_witness :
  Columns fixtures.keywords fixtures.table1 [] = Done (allColumns fixtures.table1).
Proof.
  apply (Columns_without_names_gives_every_column fixtures.keywords Registry.init
           (snd fixtures.registered1) fixtures.tableTest1Builder
           {| TableMetadataBuildOption.ExpectedPkColumns := ["pk1"; "pk2"] |}
           fixtures.table1).
  - vm_compute. reflexivity.
  - vm_compute. reflexivity.
  - intros name Hin. vm_compute in Hin. vm_compute.
    repeat (apply elem_of_cons in Hin as [->|Hin]; [notin_list|]).
    inversion Hin.
Defined.


(** X8. [ColumnsExcept] with the name of every column of the table leaves no
    name for [Columns], which then takes every column: excluding all the
    columns gives all the columns. *)
Theorem ColumnsExcept_every_column_gives_every_column (sqlKeywords : gset string)
    (t : TableToUse.t) (exceptColumns : list string) :
  TableToUse.sealed t = true ->
  exceptColumns <> [] ->
  (forall name, name ∈ TableMetadata.ColumnsName (TableToUse.metadata t) ->
     name ∈ List.map (wrapWithDoubleQuoteIfSqlKeyword sqlKeywords) exceptColumns) ->
  ColumnsExcept sqlKeywords t exceptColumns = Columns sqlKeywords t [].
Proof.
  intros Hsealed Hne Hall. unfold ColumnsExcept, TableToUse.mustSealed. rewrite Hsealed.
  cbn [negb]. unfold mbind at 1, outcome_bind, obind.
  destruct exceptColumns as [|e rest]; [contradiction|]. cbn [length Nat.eqb].
  f_equal. set (names := TableMetadata.ColumnsName (TableToUse.metadata t)) in *.
  clearbody names. induction names as [|n names IH]; [reflexivity|].
  cbn [List.filter]. rewrite bool_decide_eq_true_2.
  - cbn [negb]. apply IH. intros name Hin. apply Hall. right. exact Hin.
  - apply elem_of_list_to_set. apply Hall. left.
Qed.

Lemma ColumnsExcept_every_column_gives_every_column_witness :
  ColumnsExcept fixtures.keywords fixtures.table1 ["pk1"; "pk2"; "amount"; "cost"]
  = Columns fixtures.keywords fixtures.table1 [].
Proof.
  apply (ColumnsExcept_every_column_gives_every_column fixtures.keywords fixtures.table1).
  - vm_compute. reflexivity.
  - discriminate.
  - intros name Hin. vm_compute in Hin. vm_compute. exact Hin.
Defined.

(** ** The text of a SELECT statement *)

Lemma writeJoinOn_from (columns : list GenericColumnToUse.t) (i : nat) (sb : string) :
  match onPairs columns with
  | Some ps =>
      writeJoinOn columns (S i) sb
      = Done (sb +:+ List.fold_right (fun x r => " AND " +:+ x +:+ r) "" ps)
  | None => writeJoinOn columns (S i) sb = Panic "runtime error: index out of range"
  end.
Proof.
  enough (Hboth :
    (forall i sb, match onPairs columns with
       | Some ps =>
           writeJoinOn columns (S i) sb
           = Done (sb +:+ List.fold_right (fun x r => " AND " +:+ x +:+ r) "" ps)
       | None => writeJoinOn columns (S i) sb = Panic "runtime error: index out of range"
       end) /\
    (forall c i sb, match onPairs (c :: columns) with
       | Some ps =>
           writeJoinOn (c :: columns) (S i) sb
           = Done (sb +:+ List.fold_right (fun x r => " AND " +:+ x +:+ r) "" ps)
       | None => writeJoinOn (c :: columns) (S i) sb = Panic "runtime error: index out of range"
       end)).
  { apply Hboth. }
  clear i sb. induction columns as [|r columns [IH1 IH2]].
  - split; intros; simpl; [rewrite append_nil_r|]; reflexivity.
  - split; [intros i sb; apply IH2|].
    intros l i sb. cbn [onPairs writeJoinOn Nat.ltb Nat.leb].
    specialize (IH1 (i + 2) ((sb +:+ " AND ") +:+ aliasQualified l +:+ " = "
                             +:+ aliasQualified r)).
    replace (S i + 2) with (S (i + 2)) by lia.
    change GenericColumnToUse.nameWithAlias with aliasQualified.
    destruct (onPairs columns) as [ps|]; [|exact IH1].
    rewrite IH1. cbn [List.fold_right]. rewrite !append_assoc. reflexivity.
Qed.

Lemma writeJoinOn_pairs (columns : list GenericColumnToUse.t) (sb : string) :
  match onPairs columns with
  | Some ps => writeJoinOn columns 0 sb = Done (sb +:+ strings.Join ps " AND ")
  | None => writeJoinOn columns 0 sb = Panic "runtime error: index out of range"
  end.
Proof.
  destruct columns as [|l [|r rest]]; [simpl; rewrite append_nil_r; reflexivity
                                      |reflexivity|].
  cbn [onPairs writeJoinOn Nat.ltb Nat.leb].
  pose proof (writeJoinOn_from rest 1 (sb +:+ aliasQualified l +:+ " = " +:+ aliasQualified r))
    as H.
  change (0 + 2) with 2. change GenericColumnToUse.nameWithAlias with aliasQualified.
  destruct (onPairs rest) as [ps|]; [|exact H].
  rewrite H. unfold strings.Join. rewrite concat_cons, !append_assoc. reflexivity.
Qed.

Lemma writeJoins_text (joinsOn : list joinOn.t) (sb : string) :
  match joinsText joinsOn with
  | Some s => writeJoins joinsOn sb = Done (sb +:+ s)
  | None => fails (writeJoins joinsOn sb)
  end.
Proof.
  revert sb. induction joinsOn as [|j rest IH]; intros sb.
  - simpl. rewrite append_nil_r. reflexivity.
  - cbn [joinsText writeJoins]. unfold joinText.
    set (sb0 := (match joinOn.joinType j with
                 | InnerJoin => _ | LeftJoin => _ | RightJoin => _ end
                 +:+ _ +:+ _ +:+ _ +:+ _)%string).
    pose proof (writeJoinOn_pairs (joinOn.joinOnColumns j) sb0) as Hon.
    destruct (onPairs (joinOn.joinOnColumns j)) as [ps|].
    + rewrite Hon. unfold mbind, outcome_bind, obind.
      specialize (IH ((sb0 +:+ strings.Join ps " AND ") +:+ LF)).
      destruct (joinsText rest) as [r|].
      * rewrite IH. subst sb0. unfold joinWord.
        destruct (joinOn.joinType j); rewrite !append_assoc; reflexivity.
      * exact IH.
    + rewrite Hon. unfold mbind, outcome_bind, obind. apply fails_Panic.
Qed.

Lemma writeWhere_text (b : SqlBuilder.t) (sb : string) :
  match whereText b with
  | Some w => writeWhere b sb = Done (sb +:+ w)
  | None => fails (writeWhere b sb)
  end.
Proof.
  unfold whereText. destruct (SqlBuilder.whereTokens b) as [|t tokens] eqn:Htokens.
  - unfold writeWhere. rewrite Htokens. simpl. rewrite append_nil_r. reflexivity.
  - assert (Hne : SqlBuilder.whereTokens b <> []) by (rewrite Htokens; discriminate).
    pose proof (writeWhere_stream b sb Hne) as H. rewrite Htokens in H.
    destruct (renderStream aliasQualified (t :: tokens)) as [s|]; [|exact H].
    rewrite H, ?append_assoc. reflexivity.
Qed.

Lemma writeOrderBy_text (b : SqlBuilder.t) (sb : string) :
  writeOrderBy b sb = sb +:+ orderText b.
Proof.
  unfold writeOrderBy, orderText. destruct (SqlBuilder.orders b) as [|o orders].
  - simpl. rewrite append_nil_r. reflexivity.
  - cbn [length Nat.ltb Nat.leb]. rewrite writeSeparated_join, ?append_assoc.
    reflexivity.
Qed.

Lemma writeOffsetLimit_text (b : SqlBuilder.t) (sb : string) :
  writeOffsetLimit (SqlBuilder.offset b) (SqlBuilder.limit b) sb = sb +:+ pagingText b.
Proof.
  unfold writeOffsetLimit, pagingText.
  destruct (N.ltb 0 (SqlBuilder.offset b)), (N.ltb 0 (SqlBuilder.limit b));
    cbn [andb]; rewrite ?append_assoc, ?append_nil_r; reflexivity.
Qed.

Lemma Build_select_sections (b : SqlBuilder.t) :
  match
    (if Nat.eqb (length (SqlBuilder.selectFromTable b)) 0 then None
     else
       match joinsText (SqlBuilder.joinsOn b), whereText b with
       | Some js, Some w =>
           Some (if String.eqb (SqlBuilder.selectType b) selectTypeExists
                 then "SELECT EXISTS("
                      +:+ ("SELECT " +:+ selectHead b +:+ fromText b +:+ js +:+ w
                           +:+ orderText b +:+ pagingText b) +:+ ")"
                 else "SELECT " +:+ selectHead b +:+ fromText b +:+ js +:+ w
                      +:+ orderText b +:+ pagingText b)
       | _, _ => None
       end)
  with
  | Some text =>
      (if Nat.eqb (length (SqlBuilder.selectFromTable b)) 0 then Panic "no tables selected"
       else
         sb ← writeJoins (SqlBuilder.joinsOn b) (writeFrom b (writeSelectList b "SELECT "));
         sb ← writeWhere b sb;
         Done (if String.eqb (SqlBuilder.selectType b) selectTypeExists
               then "SELECT EXISTS("
                    +:+ writeOffsetLimit (SqlBuilder.offset b) (SqlBuilder.limit b)
                          (writeOrderBy b sb) +:+ ")"
               else writeOffsetLimit (SqlBuilder.offset b) (SqlBuilder.limit b)
                      (writeOrderBy b sb),
               SqlBuilder.whereArgs b))
      = Done (text, SqlBuilder.whereArgs b)
  | None =>
      fails
        (if Nat.eqb (length (SqlBuilder.selectFromTable b)) 0 then Panic "no tables selected"
         else
           sb ← writeJoins (SqlBuilder.joinsOn b) (writeFrom b (writeSelectList b "SELECT "));
           sb ← writeWhere b sb;
           Done (if String.eqb (SqlBuilder.selectType b) selectTypeExists
                 then "SELECT EXISTS("
                      +:+ writeOffsetLimit (SqlBuilder.offset b) (SqlBuilder.limit b)
                            (writeOrderBy b sb) +:+ ")"
                 else writeOffsetLimit (SqlBuilder.offset b) (SqlBuilder.limit b)
                        (writeOrderBy b sb),
                 SqlBuilder.whereArgs b))
  end.
Proof.
  destruct (Nat.eqb (length (SqlBuilder.selectFromTable b)) 0); [apply fails_Panic|].
  set (sb0 := writeFrom b (writeSelectList b "SELECT ")).
  assert (Hsb0 : sb0 = "SELECT " +:+ selectHead b +:+ fromText b).
  { subst sb0. unfold writeFrom, writeSelectList, selectHead, fromText.
    change GenericColumnToUse.nameWithAlias with aliasQualified.
    destruct (String.eqb (SqlBuilder.selectType b) selectTypeExists);
      [|destruct (String.eqb (SqlBuilder.selectType b) selectTypeCount)];
      rewrite ?writeSeparated_join, ?append_assoc; reflexivity. }
  pose proof (writeJoins_text (SqlBuilder.joinsOn b) sb0) as Hj.
  unfold mbind, outcome_bind, obind.
  destruct (joinsText (SqlBuilder.joinsOn b)) as [js|].
  2:{ destruct Hj as [msg ->]. apply fails_Panic. }
  rewrite Hj. cbv beta iota.
  pose proof (writeWhere_text b (sb0 +:+ js)) as Hw.
  destruct (whereText b) as [w|].
  2:{ destruct Hw as [msg ->]. apply fails_Panic. }
  rewrite Hw. cbv beta iota.
  rewrite writeOrderBy_text, writeOffsetLimit_text, Hsb0.
  destruct (String.eqb (SqlBuilder.selectType b) selectTypeExists);
    rewrite !append_assoc; reflexivity.
Qed.

Lemma Build_select_cases (sqlKeywords : gset string) (b : SqlBuilder.t) :
  SqlBuilder._type b = sqlBuilderTypeSelect ->
  match selectText b with
  | Some text => Build sqlKeywords b = Done (text, SqlBuilder.whereArgs b)
  | None => fails (Build sqlKeywords b)
  end.
Proof.
  intros Ht. unfold Build. rewrite Ht.
  change (String.eqb sqlBuilderTypeSelect sqlBuilderTypeSelect) with true. cbv iota.
  unfold selectText, buildSelect. cbv zeta.
  set (exists_ := String.eqb (SqlBuilder.selectType b) selectTypeExists).
  set (count := String.eqb (SqlBuilder.selectType b) selectTypeCount).
  destruct (Nat.eqb (length (SqlBuilder.selectColumns b)) 0); cbn [andb].
  - destruct (String.eqb_spec (SqlBuilder.selectType b) selectTypeBasic) as [E|E].
    + assert (Hno : orb exists_ count = false).
      { subst exists_ count. rewrite E. reflexivity. }
      rewrite Hno. cbn [negb]. unfold mbind, outcome_bind, obind. apply fails_Panic.
    + destruct (orb exists_ count); cbn [negb];
        unfold mbind at 1, outcome_bind, obind; [|apply fails_Panic].
      apply Build_select_sections.
  - unfold mbind at 1, outcome_bind, obind. apply Build_select_sections.
Qed.

(** X9. [Build] of a SELECT builder returns the statement put together from
    its sections (the select list or [1] or [COUNT(1)], FROM, the joins, WHERE,
    ORDER BY, OFFSET and LIMIT, an EXISTS statement wrapped in
    [SELECT EXISTS(...)]) and the WHERE arguments as they were given; it
    panics exactly when a basic SELECT has no column, when there is no FROM
    table, when a join holds a key column without its partner or when a WHERE
    token is of an unsupported kind. *)
Theorem Build_select_statement (sqlKeywords : gset string) (b : SqlBuilder.t) :
  SqlBuilder._type b = sqlBuilderTypeSelect ->
  (forall text, selectText b = Some text ->
     Build sqlKeywords b = Done (text, SqlBuilder.whereArgs b)) /\
  (selectText b = None -> fails (Build sqlKeywords b)).
Proof.
  intros Ht. pose proof (Build_select_cases sqlKeywords b Ht) as H.
  split.
  - intros text E. rewrite E in H. exact H.
  - intros E. rewrite E in H. exact H.
Qed.

Lemma Build_select_statement_witness :
  Build fixtures.keywords samples.multiOperations
  = Done (samples.multiOperationsSql, SqlBuilder.whereArgs samples.multiOperations).
Proof.
  apply (proj1 (Build_select_statement fixtures.keywords samples.multiOperations
                  ltac:(vm_compute; reflexivity)) samples.multiOperationsSql).
  vm_compute. reflexivity.
Defined.

(** ** The tables and the joins a builder holds *)

Lemma grows_refl (b : SqlBuilder.t) : grows b b.
Proof.
  split; [|auto]. exists (SqlBuilder.aliasToTableUniqueId b), (SqlBuilder.tableUniqueIdToAlias b).
  symmetry. apply set_maps_id.
Qed.

Lemma grows_trans (b1 b2 b3 : SqlBuilder.t) : grows b1 b2 -> grows b2 b3 -> grows b1 b3.
Proof.
  intros [(m1 & m2 & ->) H12] [(m1' & m2' & ->) H23]. split; [|auto].
  exists m1', m2'. destruct b1. reflexivity.
Qed.

Lemma registerUsingTable_grows (use : TableToUse.t) (b : SqlBuilder.t) :
  match registerUsingTable use b with
  | Ok _ b' => grows b b' /\ registeredIn b' use
  | Panicked _ b' => b' = b
  end.
Proof.
  unfold registerUsingTable. unfoldB. unfold TableToUse.mustSealed.
  destruct (TableToUse.sealed use) eqn:Hsealed; simpl; [|reflexivity].
  unfold TableToUse.tableAlias, TableToUse.uniqueIdentity.
  assert (Hgrow : (forall u, SqlBuilder.aliasToTableUniqueId b !! TableToUse.alias use = Some u ->
                             u = TableToUse.uid use) ->
    grows b
      (SqlBuilder.set_tableUniqueIdToAlias
         (<[TableToUse.uid use := TableToUse.alias use]> (SqlBuilder.tableUniqueIdToAlias b))
         (SqlBuilder.set_aliasToTableUniqueId
            (<[TableToUse.alias use := TableToUse.uid use]>
               (SqlBuilder.aliasToTableUniqueId b)) b)) /\
    registeredIn
      (SqlBuilder.set_tableUniqueIdToAlias
         (<[TableToUse.uid use := TableToUse.alias use]> (SqlBuilder.tableUniqueIdToAlias b))
         (SqlBuilder.set_aliasToTableUniqueId
            (<[TableToUse.alias use := TableToUse.uid use]>
               (SqlBuilder.aliasToTableUniqueId b)) b)) use).
  { intros Hsame. split; [split|].
    - eexists _, _. reflexivity.
    - intros t [Hs Ht]. split; [exact Hs|]. simpl.
      destruct (decide (TableToUse.alias use = TableToUse.alias t)) as [E|E].
      + rewrite E, lookup_insert_eq. rewrite <- E in Ht. rewrite (Hsame _ Ht). reflexivity.
      + rewrite lookup_insert_ne by exact E. exact Ht.
    - split; [exact Hsealed|]. simpl. apply lookup_insert_eq. }
  destruct (SqlBuilder.aliasToTableUniqueId b !! TableToUse.alias use) as [u|] eqn:Ealias.
  - destruct (Z.eqb_spec u (TableToUse.uid use)) as [->|Hne]; simpl; [|reflexivity].
    apply Hgrow. intros u' [= <-]. reflexivity.
  - simpl. apply Hgrow. intros u' H. discriminate.
Qed.

Lemma forEach_register_grows {A} (f : A -> TableToUse.t) (l : list A) (b : SqlBuilder.t) :
  match forEach l (fun x => registerUsingTable (f x)) b with
  | Ok _ b' => grows b b' /\ Forall (registeredIn b') (List.map f l)
  | Panicked _ b' => grows b b'
  end.
Proof.
  revert b. induction l as [|x l IH]; intros b; simpl.
  - split; [apply grows_refl|constructor].
  - unfold bindB. pose proof (registerUsingTable_grows (f x) b) as Hx.
    destruct (registerUsingTable (f x) b) as [[] b1|msg b1].
    + destruct Hx as [Hg Hreg]. specialize (IH b1).
      destruct (forEach l _ b1) as [[] b2|msg b2].
      * destruct IH as [Hg' Hall]. split; [eapply grows_trans; eassumption|].
        constructor; [apply Hg', Hreg|exact Hall].
      * eapply grows_trans; eassumption.
    + subst b1. apply grows_refl.
Qed.

Lemma pair_ind {A} (P : list A -> Prop) :
  P [] -> (forall x, P [x]) -> (forall x y l, P l -> P (x :: y :: l)) -> forall l, P l.
Proof.
  intros Hnil Hone Hstep l.
  enough (H : P l /\ forall x, P (x :: l)) by apply H.
  induction l as [|y l [IH1 IH2]]; [split; [exact Hnil|exact Hone]|].
  split; [apply IH2|]. intros x. apply Hstep, IH1.
Qed.

Lemma joinPairs_grows (joinOnTableName : string) (l : list GenericColumnToUse.t)
    (i : nat) (b : SqlBuilder.t) :
  match Builder.joinPairs joinOnTableName l i b with
  | Ok _ b' =>
      grows b b' /\
      (Nat.eqb (length l mod 2) 0 = true ->
       Forall (registeredIn b') (List.map GenericColumnToUse.table l) /\
       pairedWith joinOnTableName l)
  | Panicked _ b' => grows b b'
  end.
Proof.
  revert i b. induction l as [| x | x y l IH] using pair_ind; intros i b.
  - simpl. split; [apply grows_refl|]. intros _. split; [constructor|exact I].
  - simpl. split; [apply grows_refl|]. intros H. discriminate.
  - cbn [Builder.joinPairs]. unfoldB.
    destruct (String.eqb_spec (TableToUse.tableName (GenericColumnToUse.table x))
                (TableToUse.tableName (GenericColumnToUse.table y))) as [E|Hdiff];
      [apply grows_refl|].
    destruct (String.eqb_spec (TableToUse.tableName (GenericColumnToUse.table x))
                joinOnTableName) as [Ex|Hx];
      [|destruct (String.eqb_spec (TableToUse.tableName (GenericColumnToUse.table y))
                   joinOnTableName) as [Ey|Hy]]; cbn [negb andb];
      try apply grows_refl.
    all: pose proof (registerUsingTable_grows (GenericColumnToUse.table x) b) as H1;
      destruct (registerUsingTable (GenericColumnToUse.table x) b) as [[] b1|msg b1];
      [|subst b1; apply grows_refl];
      destruct H1 as [Hg1 Hr1];
      pose proof (registerUsingTable_grows (GenericColumnToUse.table y) b1) as H2;
      destruct (registerUsingTable (GenericColumnToUse.table y) b1) as [[] b2|msg b2];
      [|subst b2; exact Hg1];
      destruct H2 as [Hg2 Hr2];
      specialize (IH (i + 2) b2);
      destruct (Builder.joinPairs joinOnTableName l (i + 2) b2) as [[] b3|msg b3];
      [|eapply grows_trans; [eapply grows_trans|]; eassumption];
      destruct IH as [Hg3 Hrest];
      (split; [eapply grows_trans; [eapply grows_trans|]; eassumption|]);
      intros Heven;
      assert (Heven' : Nat.eqb (length l mod 2) 0 = true)
        by (cbn [length] in Heven;
            replace (S (S (length l))) with (length l + 1 * 2) in Heven by lia;
            rewrite Nat.Div0.mod_add in Heven; exact Heven);
      destruct (Hrest Heven') as [Hall Hpairs];
      (split; [cbn [List.map]; constructor; [apply Hg3, Hg2, Hr1|];
               constructor; [apply Hg3, Hr2|exact Hall]|]);
      cbn [pairedWith]; (split; [exact Hdiff|]); (split; [|exact Hpairs]); tauto.
Qed.

Lemma wellHeld_grows (b b' : SqlBuilder.t) : grows b b' -> wellHeld b -> wellHeld b'.
Proof.
  intros [(m1 & m2 & ->) Hmono] [Hheld Hpaired]. split.
  - unfold held in *. eapply Forall_impl; [exact Hheld|]. exact Hmono.
  - exact Hpaired.
Qed.

Ltac solve_held :=
  unfold wellHeld, held, paired, heldTables, registeredIn in *; simpl in *; assumption.

Lemma wellHeld_Select (columns : list GenericColumnToUse.t) :
  preserves wellHeld
    (forEach columns (fun column => registerUsingTable (GenericColumnToUse.table column));;
     modify (fun b => SqlBuilder.set_selectColumns (SqlBuilder.selectColumns b ++ columns) b)).
Proof.
  intros b Hb. unfoldB.
  pose proof (forEach_register_grows GenericColumnToUse.table columns b) as H.
  destruct (forEach columns _ b) as [[] b1|msg b1]; simpl.
  - destruct H as [Hg Hall]. destruct (wellHeld_grows _ _ Hg Hb) as [Hheld Hpaired].
    split; [|exact Hpaired]. unfold held, heldTables in *. simpl.
    rewrite List.map_app, <- app_assoc. apply Forall_app in Hheld as [Hcols Hrest].
    apply Forall_app. split; [exact Hcols|]. apply Forall_app. split; [exact Hall|exact Hrest].
  - apply (wellHeld_grows _ _ H Hb).
Qed.

Lemma wellHeld_From (tables : list TableToUse.t) :
  preserves wellHeld
    (forEach tables registerUsingTable;; modify (SqlBuilder.set_selectFromTable tables)).
Proof.
  intros b Hb. unfoldB.
  pose proof (forEach_register_grows (fun t => t) tables b) as H.
  destruct (forEach tables _ b) as [[] b1|msg b1]; simpl.
  - destruct H as [Hg Hall]. destruct (wellHeld_grows _ _ Hg Hb) as [Hheld Hpaired].
    split; [|exact Hpaired]. unfold held, heldTables in *. simpl.
    rewrite List.map_id in Hall.
    apply Forall_app in Hheld as [Hcols Hrest]. apply Forall_app in Hrest as [_ Hrest].
    apply Forall_app. split; [exact Hcols|]. apply Forall_app. split; [exact Hall|exact Hrest].
  - apply (wellHeld_grows _ _ H Hb).
Qed.

Lemma wellHeld_Join (joinType : JoinType) (joinOnTable : TableToUse.t)
    (onKeyPairs : list GenericColumnToUse.t) :
  Nat.eqb (length onKeyPairs mod 2) 0 = true ->
  preserves wellHeld
    (Builder.joinPairs (TableToUse.tableName joinOnTable) onKeyPairs 0;;
     modify (fun b => SqlBuilder.set_joinsOn
       (SqlBuilder.joinsOn b ++
          [{| joinOn.joinType := joinType; joinOn.joinOnTable := joinOnTable;
              joinOn.joinOnColumns := onKeyPairs |}]) b)).
Proof.
  intros Heven b Hb. unfoldB.
  pose proof (joinPairs_grows (TableToUse.tableName joinOnTable) onKeyPairs 0 b) as H.
  destruct (Builder.joinPairs _ onKeyPairs 0 b) as [[] b1|msg b1]; simpl.
  - destruct H as [Hg Hok]. destruct (Hok Heven) as [Hall Hpairs].
    destruct (wellHeld_grows _ _ Hg Hb) as [Hheld Hpaired]. split.
    + unfold held, heldTables in *. simpl.
      rewrite flat_map_app. cbn [List.flat_map]. rewrite app_nil_r, <- !app_assoc.
      apply Forall_app in Hheld as [Hcols Hrest]. apply Forall_app in Hrest as [Hfrom Hrest].
      apply Forall_app in Hrest as [Hjoins Hins].
      repeat (apply Forall_app; split); assumption.
    + unfold paired in *. simpl. apply Forall_app. split; [exact Hpaired|].
      constructor; [exact Hpairs|constructor].
  - apply (wellHeld_grows _ _ H Hb).
Qed.

Ltac through_guards :=
  repeat (apply preserves_bind; [solve [pres]|intros _]).

Lemma wellHeld_performAny (c : anyCall) : preserves wellHeld (performAny c).
Proof.
  destruct c as [c|p|]; simpl.
  - destruct c; simpl.
    + unfold Builder.Select. through_guards.
      apply preserves_defer; [intros; solve_held|]. apply wellHeld_Select.
    + unfold Builder.From. through_guards.
      apply preserves_defer; [intros; solve_held|]. apply wellHeld_From.
    + unfold Builder.Join.
      apply preserves_bind; [solve [pres]|intros _].
      apply preserves_bind; [solve [pres]|intros _].
      intros b Hb. unfold mbind, B_bind, bindB.
      destruct (Nat.eqb (length onKeyPairs mod 2) 0) eqn:Heven; cbn [negb].
      * unfold retB.
        apply (preserves_defer wellHeld (setPreviousAction previousIsSelectJoin)); [| |exact Hb].
        -- intros; solve_held.
        -- apply wellHeld_Join, Heven.
      * exact Hb.
    + unfold Builder.Where. pres; solve_held.
    + unfold Builder.And, Builder.continueWhere. pres; solve_held.
    + unfold Builder.Or, Builder.continueWhere. pres; solve_held.
    + unfold Builder.Args. pres; solve_held.
    + unfold Builder.OrderBy. pres; solve_held.
    + unfold Builder.ThenBy. pres; solve_held.
    + unfold Builder.Offset. pres; solve_held.
    + unfold Builder.Limit. pres; solve_held.
    + unfold Builder.Values. pres; try solve_held.
      apply preserves_forEach. intros. pres.
    + unfold Builder.OnConflict. pres; try solve_held.
      apply preserves_forEach. intros. pres.
    + unfold Builder.DoUpdate. pres; solve_held.
    + unfold Builder.DoNothing. pres; solve_held.
  - unfold Builder.Pagination, Builder.Offset, Builder.Limit. pres; solve_held.
  - unfold Builder.DoUpdateExceptPrimaryKeys, Builder.DoUpdate. pres; solve_held.
Qed.

Lemma wellHeld_newSqlBuilder : wellHeld newSqlBuilder.
Proof. split; constructor. Qed.

Lemma wellHeld_construct (c : constructor) : wellHeld (builderOf (construct c)).
Proof.
  assert (Hselect : forall columns, wellHeld (builderOf (Select columns))).
  { intros columns. unfold Select.
    apply (wellHeld_performAny (Fluent (CSelect columns))).
    pose proof wellHeld_newSqlBuilder as H. solve_held. }
  destruct c as [columns| | |g use columns]; cbn [construct].
  - apply Hselect.
  - unfold SelectExists. specialize (Hselect []).
    destruct (Select []); cbn [builderOf] in *; solve_held.
  - unfold SelectCount. specialize (Hselect []).
    destruct (Select []); cbn [builderOf] in *; solve_held.
  - unfold InsertInto.
    assert (Hstart : wellHeld (SqlBuilder.set__type sqlBuilderTypeInsert newSqlBuilder)).
    { pose proof wellHeld_newSqlBuilder as H. solve_held. }
    revert Hstart. generalize (SqlBuilder.set__type sqlBuilderTypeInsert newSqlBuilder).
    change (preserves wellHeld
      (defer (setPreviousAction previousIsInsertInto)
         (columns0 ← (if Nat.eqb (length columns) 0
                      then metadata ← lift (GetTableMetadata g
                                              (TableMetadata.recordType
                                                 (TableToUse.metadata use)));
                           lift (omapM (fun c => Col (Registry.sqlKeywords g) use
                                                   (ColumnMetadata.name c))
                                   (TableMetadata.Columns metadata))
                      else retB columns);
          modify (SqlBuilder.set_insertColumns columns0);;
          registerUsingTable use;;
          modify (SqlBuilder.set_insertIntoTable (Some use))))).
    apply preserves_defer; [intros; solve_held|].
    apply preserves_bind; [pres|intros columns0].
    apply preserves_bind; [pres; solve_held|intros _].
    intros b Hb. unfoldB.
    pose proof (registerUsingTable_grows use b) as H.
    destruct (registerUsingTable use b) as [[] b1|msg b1]; simpl.
    + destruct H as [Hg Hreg]. destruct (wellHeld_grows _ _ Hg Hb) as [Hheld Hpaired].
      split; [|exact Hpaired]. unfold held, heldTables in *. simpl.
      apply Forall_app in Hheld as [Hcols Hrest]. apply Forall_app in Hrest as [Hfrom Hrest].
      apply Forall_app in Hrest as [Hjoins _].
      repeat (apply Forall_app; split); try assumption. constructor; [exact Hreg|constructor].
    + subst b1. exact Hb.
Qed.

(** X10. Whatever constructor and calls made it, a builder holds sealed
    tables only, each registered under its alias with its own unique id:
    wherever the select list, FROM, the key columns of the joins or the target
    of an INSERT name two tables by one alias, the two carry one unique id. *)
Theorem tables_of_a_builder_are_registered (start : constructor) (calls : list anyCall) :
  let b := afterCalls calls (builderOf (construct start)) in
  Forall (registeredIn b) (heldTables b) /\
  forall t t', t ∈ heldTables b -> t' ∈ heldTables b ->
    TableToUse.alias t = TableToUse.alias t' -> TableToUse.uid t = TableToUse.uid t'.
Proof.
  intros b.
  assert (Hb : wellHeld b).
  { apply preserves_afterCalls; [intros c _; apply wellHeld_performAny|].
    apply wellHeld_construct. }
  destruct Hb as [Hheld _]. split; [exact Hheld|].
  intros t t' Ht Ht' Halias. unfold held in Hheld. rewrite Forall_forall in Hheld.
  destruct (Hheld t Ht) as [_ H1]. destruct (Hheld t' Ht') as [_ H2].
  rewrite Halias, H2 in H1. congruence.
Qed.

(** X11. Whatever constructor and calls made it, every join of a builder has
    its key columns in pairs of two tables of different names, one of them of
    the name of the joined table; so [Build] never runs past the end of the key
    columns of a join. *)
Theorem joins_of_a_builder_are_paired (start : constructor) (calls : list anyCall) :
  let b := afterCalls calls (builderOf (construct start)) in
  paired b /\ is_Some (joinsText (SqlBuilder.joinsOn b)).
Proof.
  intros b.
  assert (Hb : wellHeld b).
  { apply preserves_afterCalls; [intros c _; apply wellHeld_performAny|].
    apply wellHeld_construct. }
  destruct Hb as [_ Hpaired]. split; [exact Hpaired|].
  unfold paired in Hpaired. induction Hpaired as [|j js Hj _ IH]; [eexists; reflexivity|].
  cbn [joinsText]. unfold joinText.
  assert (Hon : is_Some (onPairs (joinOn.joinOnColumns j))).
  { revert Hj. generalize (TableToUse.name (joinOn.joinOnTable j)).
    intros n. induction (joinOn.joinOnColumns j) as [| x | x y l IHl] using pair_ind.
    - intros _. eexists. reflexivity.
    - intros [].
    - intros (_ & _ & Hrest). cbn [onPairs]. destruct (IHl Hrest) as [ps ->].
      eexists. reflexivity. }
  destruct Hon as [ps ->]. destruct IH as [r ->]. eexists. reflexivity.
Qed.

(** ** The state a call leaves *)

Lemma guard_bind_Ok {A} (g : B unit) (k : B A) (b b' : SqlBuilder.t) (a : A) :
  guard g -> (g;; k) b = Ok a b' -> k b = Ok a b'.
Proof.
  intros Hg. unfoldB. destruct (Hg b) as [->|[msg ->]]; [auto|discriminate].
Qed.

Lemma cond_guard (c : bool) (msg : string) : guard (if c then panic msg else retB tt).
Proof. intros b. destruct c; [right; eexists|left]; reflexivity. Qed.

Lemma cond_guard2 (c1 c2 : bool) (msg1 msg2 : string) :
  guard (if c1 then panic msg1 else if c2 then panic msg2 else retB tt).
Proof. intros b. destruct c1, c2; first [right; eexists; reflexivity|left; reflexivity]. Qed.

Lemma defer_Ok {A} (d : SqlBuilder.t -> SqlBuilder.t) (body : B A) (b b' : SqlBuilder.t)
    (a : A) :
  defer d body b = Ok a b' -> exists b1, body b = Ok a b1 /\ b' = d b1.
Proof.
  unfold defer. destruct (body b) as [a1 b1|msg b1]; [|discriminate].
  intros [= <- <-]. eauto.
Qed.

Ltac solve_kind :=
  unfold kindIs in *; simpl in *; assumption.

Lemma kindIs_performAny (ty : sqlBuilderType) (st : selectType) (c : anyCall) :
  preserves (kindIs ty st) (performAny c).
Proof.
  destruct c as [c|p|]; simpl.
  - destruct c; simpl.
    + unfold Builder.Select. pres; try solve_kind.
      apply preserves_forEach. intros. unfold registerUsingTable. pres; solve_kind.
    + unfold Builder.From. pres; try solve_kind.
      apply preserves_forEach. intros. unfold registerUsingTable. pres; solve_kind.
    + unfold Builder.Join. pres; try solve_kind.
      apply preserves_joinPairs. intros. unfold registerUsingTable. pres; solve_kind.
    + unfold Builder.Where. pres; solve_kind.
    + unfold Builder.And, Builder.continueWhere. pres; solve_kind.
    + unfold Builder.Or, Builder.continueWhere. pres; solve_kind.
    + unfold Builder.Args. pres; solve_kind.
    + unfold Builder.OrderBy. pres; solve_kind.
    + unfold Builder.ThenBy. pres; solve_kind.
    + unfold Builder.Offset. pres; solve_kind.
    + unfold Builder.Limit. pres; solve_kind.
    + unfold Builder.Values. pres; try solve_kind.
      apply preserves_forEach. intros. pres.
    + unfold Builder.OnConflict. pres; try solve_kind.
      apply preserves_forEach. intros. pres.
    + unfold Builder.DoUpdate. pres; solve_kind.
    + unfold Builder.DoNothing. pres; solve_kind.
  - unfold Builder.Pagination, Builder.Offset, Builder.Limit. pres; solve_kind.
  - unfold Builder.DoUpdateExceptPrimaryKeys, Builder.DoUpdate. pres; solve_kind.
Qed.

Ltac peel H :=
  repeat (apply guard_bind_Ok in H;
          [|first [apply mustTypeSelect_guard | apply mustTypeInsert_guard
                  |apply mustBasicSelect_guard | apply mustPreviousAction_guard
                  |apply cond_guard | apply cond_guard2]]).

Ltac deferred H :=
  peel H; apply defer_Ok in H as (? & _ & ->); reflexivity.

Lemma continueWhere_keeps_action (word : string) (whereTokens : list token)
    (b b' : SqlBuilder.t) :
  Builder.continueWhere word whereTokens b = Ok tt b' ->
  SqlBuilder.previousAction b' = SqlBuilder.previousAction b.
Proof.
  unfold Builder.continueWhere. unfold mbind at 1, B_bind, bindB, get.
  destruct (String.eqb (SqlBuilder._type b) sqlBuilderTypeSelect);
    [|destruct (String.eqb (SqlBuilder._type b) sqlBuilderTypeInsert); [|discriminate]];
    intros H; peel H; unfold mbind at 1, B_bind, bindB, get in H; peel H;
    unfoldB; injection H as <-; reflexivity.
Qed.

(** X12. A fluent call that returns leaves the builder of the kind it was and
    with the call's own action as the previous action; [And], [Or], [Args] and
    [ThenBy] leave the previous action as they found it, so that what may
    follow them is what may follow [Where] and [OrderBy]. *)
Theorem returned_call_records_its_action (b b' : SqlBuilder.t) (c : call) :
  perform c b = Ok tt b' ->
  SqlBuilder._type b' = SqlBuilder._type b /\
  SqlBuilder.selectType b' = SqlBuilder.selectType b /\
  SqlBuilder.previousAction b'
  = default (SqlBuilder.previousAction b) (recordedAction (SqlBuilder._type b) c).
Proof.
  intros Hok.
  pose proof (kindIs_performAny (SqlBuilder._type b) (SqlBuilder.selectType b) (Fluent c) b
                (conj eq_refl eq_refl)) as Hkind.
  cbn [performAny] in Hkind. rewrite Hok in Hkind. destruct Hkind as [Hty Hst].
  split; [exact Hty|]. split; [exact Hst|].
  destruct c; cbn [perform recordedAction default] in *.
  - unfold Builder.Select in Hok. deferred Hok.
  - unfold Builder.From in Hok. deferred Hok.
  - unfold Builder.Join in Hok. deferred Hok.
  - unfold Builder.Where in Hok. unfold mbind at 1, B_bind, bindB, get in Hok.
    destruct (String.eqb (SqlBuilder._type b) sqlBuilderTypeSelect);
      [|destruct (String.eqb (SqlBuilder._type b) sqlBuilderTypeInsert); [|discriminate]];
      deferred Hok.
  - eapply continueWhere_keeps_action, Hok.
  - eapply continueWhere_keeps_action, Hok.
  - unfold Builder.Args in Hok. peel Hok. unfoldB. injection Hok as <-. reflexivity.
  - unfold Builder.OrderBy in Hok. deferred Hok.
  - unfold Builder.ThenBy in Hok. peel Hok. unfoldB. injection Hok as <-. reflexivity.
  - unfold Builder.Offset in Hok. deferred Hok.
  - unfold Builder.Limit in Hok. deferred Hok.
  - unfold Builder.Values in Hok. deferred Hok.
  - unfold Builder.OnConflict in Hok. deferred Hok.
  - unfold Builder.DoUpdate in Hok. deferred Hok.
  - unfold Builder.DoNothing in Hok. deferred Hok.
Qed.

Lemma returned_call_records_its_action_witness :
  SqlBuilder._type
    (builderOf (perform (CThenBy (fixtures.col fixtures.t1 "pk1") ASC) samples.ordered))
  = SqlBuilder._type samples.ordered /\
  SqlBuilder.selectType
    (builderOf (perform (CThenBy (fixtures.col fixtures.t1 "pk1") ASC) samples.ordered))
  = SqlBuilder.selectType samples.ordered /\
  SqlBuilder.previousAction
    (builderOf (perform (CThenBy (fixtures.col fixtures.t1 "pk1") ASC) samples.ordered))
  = default (SqlBuilder.previousAction samples.ordered)
      (recordedAction (SqlBuilder._type samples.ordered)
         (CThenBy (fixtures.col fixtures.t1 "pk1") ASC)).
Proof.
  apply (returned_call_records_its_action samples.ordered). vm_compute. reflexivity.
Defined.

(** ** What [Values] and [OnConflict] accept *)

Lemma forEach_checks {A} (P : A -> Prop) (f : A -> B unit) (l : list A) (b : SqlBuilder.t) :
  (forall x, x ∈ l ->
     (P x /\ f x b = Ok tt b) \/ (~ P x /\ exists msg, f x b = Panicked msg b)) ->
  (Forall P l /\ forEach l f b = Ok tt b) \/
  (~ Forall P l /\ exists msg, forEach l f b = Panicked msg b).
Proof.
  induction l as [|x l IH]; intros Hf; simpl.
  - left. split; [constructor|reflexivity].
  - unfold bindB. destruct (Hf x ltac:(left)) as [[Hx ->]|[Hx [msg ->]]].
    + destruct IH as [[Hl ->]|[Hl [msg ->]]].
      * intros y Hy. apply Hf. right. exact Hy.
      * left. split; [constructor; assumption|reflexivity].
      * right. split; [|eauto]. intros H. apply Hl. apply Forall_cons in H. apply H.
    + right. split; [|eauto]. intros H. apply Hx. apply Forall_cons in H. apply H.
Qed.

(** X13. After [InsertInto], [Values] accepts the values exactly when the type
    name of each, behind a pointer if it is one, is the name of the record type
    of the table, and then keeps them in place of any earlier ones. When it
    refuses a value it panics with the values as they were and yet with
    VALUES as the previous action. *)
Theorem Values_checks_the_type_names (b : SqlBuilder.t) (t : TableToUse.t)
    (values : list any) :
  SqlBuilder._type b = sqlBuilderTypeInsert ->
  SqlBuilder.previousAction b = previousIsInsertInto ->
  SqlBuilder.insertIntoTable b = Some t ->
  (Forall (valueOfTable t) values /\
   Builder.Values values b
   = Ok tt (setPreviousAction previousIsInsertIntoValues
              (SqlBuilder.set_insertValues values b))) \/
  (~ Forall (valueOfTable t) values /\
   exists msg,
     Builder.Values values b
     = Panicked msg (setPreviousAction previousIsInsertIntoValues b)).
Proof.
  intros Hty Hprev Htable. unfold Builder.Values.
  assert (Hguards : forall k : B unit,
            (mustTypeInsert;; mustPreviousAction [previousIsInsertInto];; k) b = k b).
  { intros k. unfoldB.
    destruct (mustTypeInsert_spec b) as [[_ ->]|[Hne _]]; [|contradiction].
    rewrite mustPreviousAction_accepts; [reflexivity|]. rewrite Hprev. left. }
  rewrite Hguards. unfold defer, mbind, B_bind, bindB.
  match goal with
  | |- context [forEach values ?f b] =>
      destruct (forEach_checks (valueOfTable t) f values b) as [[Hall ->]|[Hnot [msg ->]]];
        [|left; split; [exact Hall|reflexivity]|right; split; [exact Hnot|eauto]]
  end.
  intros v _. unfoldB. rewrite Htable. unfold valueOfTable.
  unfold TableMetadata.typeName, TableToUse.genericTableMeta.
  destruct (getStructTypeName v) as [tn|msg]; [|right; split; [discriminate|eauto]].
  destruct (String.eqb_spec tn (TableMetadata.recordType (TableToUse.metadata t)))
    as [->|Hne]; cbn [negb].
  - left. split; reflexivity.
  - right. split; [congruence|eauto].
Qed.

Lemma Values_checks_the_type_names_witness :
  (Forall (valueOfTable fixtures.table1) [fixtures.rowA; APtr fixtures.rowB] /\
   Builder.Values [fixtures.rowA; APtr fixtures.rowB] samples.insertInto1
   = Ok tt (setPreviousAction previousIsInsertIntoValues
              (SqlBuilder.set_insertValues [fixtures.rowA; APtr fixtures.rowB]
                 samples.insertInto1))) \/
  (~ Forall (valueOfTable fixtures.table1) [fixtures.rowA; APtr fixtures.rowB] /\
   exists msg,
     Builder.Values [fixtures.rowA; APtr fixtures.rowB] samples.insertInto1
     = Panicked msg (setPreviousAction previousIsInsertIntoValues samples.insertInto1)).
Proof.
  apply (Values_checks_the_type_names samples.insertInto1 fixtures.table1);
    vm_compute; reflexivity.
Defined.


(** X14. After [Values], [OnConflict] accepts the columns exactly when the
    table of each has the name of the table of the INSERT, whichever table in
    use the column was taken from; when it refuses a column it panics with no
    conflict key kept and yet with ON CONFLICT as the previous action. *)
Theorem OnConflict_checks_the_table_names (b : SqlBuilder.t) (t : TableToUse.t)
    (columns : list GenericColumnToUse.t) :
  SqlBuilder._type b = sqlBuilderTypeInsert ->
  SqlBuilder.previousAction b = previousIsInsertIntoValues ->
  SqlBuilder.insertIntoTable b = Some t ->
  SqlBuilder.insertOnConflictKeys b = [] ->
  (Forall (columnOfTable t) columns /\
   Builder.OnConflict columns b
   = Ok tt (setPreviousAction previousIsInsertIntoOnConflict
              (SqlBuilder.set_insertOnConflictKeys columns b))) \/
  (~ Forall (columnOfTable t) columns /\
   exists msg,
     Builder.OnConflict columns b
     = Panicked msg (setPreviousAction previousIsInsertIntoOnConflict b)).
Proof.
  intros Hty Hprev Htable Hkeys. unfold Builder.OnConflict.
  assert (Hguards : forall k : B unit,
            (mustTypeInsert;; mustPreviousAction [previousIsInsertIntoValues];; k) b = k b).
  { intros k. unfoldB.
    destruct (mustTypeInsert_spec b) as [[_ ->]|[Hne _]]; [|contradiction].
    rewrite mustPreviousAction_accepts; [reflexivity|]. rewrite Hprev. left. }
  rewrite Hguards. unfold defer, mbind, B_bind, bindB, get.
  rewrite Hkeys. cbn [length Nat.ltb Nat.leb].
  change (retB tt b) with (Ok tt b). cbv iota.
  match goal with
  | |- context [forEach columns ?f b] =>
      destruct (forEach_checks (columnOfTable t) f columns b) as [[Hall ->]|[Hnot [msg ->]]];
        [|left; split; [exact Hall|reflexivity]|right; split; [exact Hnot|eauto]]
  end.
  intros column _. rewrite Htable. unfold columnOfTable, TableToUse.tableName.
  destruct (String.eqb_spec (TableToUse.name (GenericColumnToUse.table column))
              (TableToUse.name t)) as [E|Hne]; cbn [negb].
  - left. split; [exact E|reflexivity].
  - right. split; [exact Hne|]. eexists. reflexivity.
Qed.

Lemma OnConflict_checks_the_table_names_witness :
  (Forall (columnOfTable fixtures.table1) [fixtures.col fixtures.t1 "pk1"] /\
   Builder.OnConflict [fixtures.col fixtures.t1 "pk1"] samples.insertValues1
   = Ok tt (setPreviousAction previousIsInsertIntoOnConflict
              (SqlBuilder.set_insertOnConflictKeys [fixtures.col fixtures.t1 "pk1"]
                 samples.insertValues1))) \/
  (~ Forall (columnOfTable fixtures.table1) [fixtures.col fixtures.t1 "pk1"] /\
   exists msg,
     Builder.OnConflict [fixtures.col fixtures.t1 "pk1"] samples.insertValues1
     = Panicked msg (setPreviousAction previousIsInsertIntoOnConflict samples.insertValues1)).
Proof.
  apply (OnConflict_checks_the_table_names samples.insertValues1 fixtures.table1);
    vm_compute; reflexivity.
Defined.

(** ** Joins without keys, and the columns an INSERT updates *)

(** X15. [Join] without key columns checks nothing of the joined table: on a
    SELECT builder after [From] or [Join] it returns for any table, sealed or
    not and whatever its alias, registers nothing and adds a join whose ON part
    is empty. *)
Theorem Join_without_keys_takes_any_table (b : SqlBuilder.t) (joinType : JoinType)
    (joinOnTable : TableToUse.t) :
  SqlBuilder._type b = sqlBuilderTypeSelect ->
  SqlBuilder.previousAction b ∈ [previousIsSelectFrom; previousIsSelectJoin] ->
  Builder.Join joinType joinOnTable [] b
  = Ok tt (setPreviousAction previousIsSelectJoin
             (SqlBuilder.set_joinsOn
                (SqlBuilder.joinsOn b
                 ++ [{| joinOn.joinType := joinType; joinOn.joinOnTable := joinOnTable;
                        joinOn.joinOnColumns := [] |}]) b)) /\
  joinText {| joinOn.joinType := joinType; joinOn.joinOnTable := joinOnTable;
              joinOn.joinOnColumns := [] |}
  = Some (joinWord joinType +:+ TableToUse.name joinOnTable +:+ " AS "
          +:+ TableToUse.alias joinOnTable +:+ " ON " +:+ LF).
Proof.
  intros Hty Hprev. split; [|reflexivity].
  unfold Builder.Join. unfoldB.
  destruct (mustTypeSelect_spec b) as [[_ ->]|[Hne _]]; [|contradiction].
  rewrite (mustPreviousAction_accepts _ _ Hprev). reflexivity.
Qed.

Lemma Join_without_keys_takes_any_table_witness :
  Builder.Join InnerJoin fixtures.emptyTable [] fixtures.selectFromT1
  = Ok tt (setPreviousAction previousIsSelectJoin
             (SqlBuilder.set_joinsOn
                (SqlBuilder.joinsOn fixtures.selectFromT1
                 ++ [{| joinOn.joinType := InnerJoin;
                        joinOn.joinOnTable := fixtures.emptyTable;
                        joinOn.joinOnColumns := [] |}]) fixtures.selectFromT1)) /\
  joinText {| joinOn.joinType := InnerJoin; joinOn.joinOnTable := fixtures.emptyTable;
              joinOn.joinOnColumns := [] |}
  = Some (joinWord InnerJoin +:+ TableToUse.name fixtures.emptyTable +:+ " AS "
          +:+ TableToUse.alias fixtures.emptyTable +:+ " ON " +:+ LF).
Proof.
  apply (Join_without_keys_takes_any_table fixtures.selectFromT1 InnerJoin
           fixtures.emptyTable).
  - vm_compute. reflexivity.
  - vm_compute. left.
Defined.


Lemma exceptPrimaryKeysTokens_from (columns : list GenericColumnToUse.t) (tokens : list token) :
  tokens <> [] ->
  List.fold_left (fun tokens column =>
      if GenericColumnToUse.isPk column then tokens
      else
        let tokens :=
          if Nat.ltb 0 (length tokens) then tokens ++ [TokAny (AString ("," +:+ LF))]
          else tokens in
        tokens ++ [TokAny (AString (GenericColumnToUse.FromExcluded column))])
    columns tokens
  = tokens
    ++ List.flat_map (fun column =>
         [TokAny (AString ("," +:+ LF));
          TokAny (AString (GenericColumnToUse.FromExcluded column))])
         (List.filter (fun column => negb (GenericColumnToUse.isPk column)) columns).
Proof.
  revert tokens. induction columns as [|column columns IH]; intros tokens Hne.
  - simpl. rewrite app_nil_r. reflexivity.
  - cbn [List.fold_left List.filter]. destruct (GenericColumnToUse.isPk column); cbn [negb].
    + apply IH, Hne.
    + rewrite (nonempty_length _ Hne). rewrite IH.
      * cbn [List.flat_map]. rewrite <- !app_assoc. reflexivity.
      * destruct tokens; [contradiction|discriminate].
Qed.

Lemma separatedTokens_cons (column : GenericColumnToUse.t)
    (columns : list GenericColumnToUse.t) :
  separatedTokens (column :: columns)
  = TokAny (AString (GenericColumnToUse.FromExcluded column))
    :: List.flat_map (fun column =>
         [TokAny (AString ("," +:+ LF));
          TokAny (AString (GenericColumnToUse.FromExcluded column))]) columns.
Proof.
  revert column. induction columns as [|c columns IH]; intros column; [reflexivity|].
  change (separatedTokens (column :: c :: columns))
    with (TokAny (AString (GenericColumnToUse.FromExcluded column))
          :: TokAny (AString ("," +:+ LF)) :: separatedTokens (c :: columns)).
  rewrite IH. reflexivity.
Qed.

(** The loop of [DoUpdateExceptPrimaryKeys] leaves one token for every
    column that is no primary key, with a separator between two of them. *)
Lemma exceptPrimaryKeysTokens_are_the_other_columns
    (columns : list GenericColumnToUse.t) :
  Builder.exceptPrimaryKeysTokens columns
  = separatedTokens
      (List.filter (fun column => negb (GenericColumnToUse.isPk column)) columns).
Proof.
  unfold Builder.exceptPrimaryKeysTokens.
  induction columns as [|column columns IH]; [reflexivity|].
  cbn [List.fold_left List.filter]. destruct (GenericColumnToUse.isPk column); cbn [negb].
  - exact IH.
  - cbn [length Nat.ltb Nat.leb app].
    rewrite exceptPrimaryKeysTokens_from by discriminate.
    rewrite separatedTokens_cons. reflexivity.
Qed.

(** X16. On an INSERT builder that holds conflict keys, after [OnConflict]
    or [DoUpdate], [DoUpdateExceptPrimaryKeys] adds to the DO UPDATE tokens one
    token [col = excluded.col] for every column of the table that is no primary
    key, in the order of the table, with a comma and a line feed between two
    of them and after the tokens already there, and leaves DO UPDATE as the
    previous action; for a table of primary-key columns alone it returns
    without adding a column. *)
Theorem DoUpdateExceptPrimaryKeys_updates_the_other_columns (b : SqlBuilder.t)
    (t : TableToUse.t) :
  SqlBuilder._type b = sqlBuilderTypeInsert ->
  SqlBuilder.previousAction b ∈
    [previousIsInsertIntoOnConflict; previousIsInsertIntoOnConflictDoUpdate] ->
  SqlBuilder.insertIntoTable b = Some t ->
  SqlBuilder.insertOnConflictKeys b <> [] ->
  Builder.DoUpdateExceptPrimaryKeys b
  = Ok tt (setPreviousAction previousIsInsertIntoOnConflictDoUpdate
             (SqlBuilder.set_insertOnConflictDoUpdateTokens
                (SqlBuilder.insertOnConflictDoUpdateTokens b
                 ++ match SqlBuilder.insertOnConflictDoUpdateTokens b with
                    | [] => []
                    | _ :: _ => [TokAny (AString ("," +:+ LF))]
                    end
                 ++ separatedTokens
                      (List.filter (fun column => negb (GenericColumnToUse.isPk column))
                         (allColumns t))) b)).
Proof.
  intros Hty Hprev Ht Hkeys.
  unfold Builder.DoUpdateExceptPrimaryKeys. unfoldB.
  destruct (mustTypeInsert_spec b) as [[_ Hm]|[Hne _]]; [|contradiction].
  rewrite Hm, Ht. unfold Builder.DoUpdate. unfoldB.
  rewrite Hm, (mustPreviousAction_accepts _ _ Hprev).
  rewrite exceptPrimaryKeysTokens_are_the_other_columns.
  destruct (SqlBuilder.insertOnConflictKeys b) as [|key keys] eqn:Hk; [contradiction|].
  cbn [length Nat.ltb Nat.leb].
  destruct (SqlBuilder.insertOnConflictDoUpdateTokens b) as [|tok toks] eqn:Htoks.
  - cbn [length Nat.ltb Nat.leb]. unfold setPreviousAction. destruct b. simpl in *.
    subst. reflexivity.
  - cbn [length Nat.ltb Nat.leb]. unfold setPreviousAction. destruct b. simpl in *.
    subst. rewrite <- app_assoc. reflexivity.
Qed.

Lemma DoUpdateExceptPrimaryKeys_updates_the_other_columns_witness :
  Builder.DoUpdateExceptPrimaryKeys samples.insertConflict1
  = Ok tt (setPreviousAction previousIsInsertIntoOnConflictDoUpdate
             (SqlBuilder.set_insertOnConflictDoUpdateTokens
                (SqlBuilder.insertOnConflictDoUpdateTokens samples.insertConflict1
                 ++ match SqlBuilder.insertOnConflictDoUpdateTokens samples.insertConflict1 with
                    | [] => []
                    | _ :: _ => [TokAny (AString ("," +:+ LF))]
                    end
                 ++ separatedTokens
                      (List.filter (fun column => negb (GenericColumnToUse.isPk column))
                         (allColumns fixtures.table1))) samples.insertConflict1)).
Proof.
  apply (DoUpdateExceptPrimaryKeys_updates_the_other_columns samples.insertConflict1
           fixtures.table1).
  - vm_compute. reflexivity.
  - vm_compute. left.
  - vm_compute. reflexivity.
  - vm_compute. discriminate.
Defined.


(** X17. [InsertInto] without columns, for a sealed table whose record type
    is registered and whose columns are found by their names, returns an INSERT
    builder that inserts every column of the table, in the order of the table,
    has the table as its target and registered under its alias, and stands
    after INSERT INTO. *)
Theorem InsertInto_without_columns_takes_every_column (g : Registry.t) (use : TableToUse.t) :
  GetTableMetadata g (TableMetadata.recordType (TableToUse.metadata use))
  = Done (TableToUse.metadata use) ->
  TableToUse.sealed use = true ->
  (forall c, c ∈ TableMetadata.columns (TableToUse.metadata use) ->
     TableMetadata.MustGetColumnByName (Registry.sqlKeywords g) (TableToUse.metadata use)
       (ColumnMetadata.name c) = Done c) ->
  exists b,
    InsertInto g use [] = Ok tt b /\
    SqlBuilder._type b = sqlBuilderTypeInsert /\
    SqlBuilder.previousAction b = previousIsInsertInto /\
    SqlBuilder.insertColumns b = allColumns use /\
    SqlBuilder.insertIntoTable b = Some use /\
    SqlBuilder.insertValues b = [] /\
    SqlBuilder.aliasToTableUniqueId b = {[ TableToUse.alias use := TableToUse.uid use ]}.
Proof.
  intros Hget Hsealed Hfound. unfold InsertInto. cbn [length Nat.eqb].
  unfold defer. unfoldB. rewrite Hget. unfold TableMetadata.Columns.
  assert (Hcols : omapM (fun c => Col (Registry.sqlKeywords g) use (ColumnMetadata.name c))
                    (TableMetadata.columns (TableToUse.metadata use))
                  = Done (allColumns use)).
  { unfold allColumns.
    rewrite <- (List.map_id (TableMetadata.columns (TableToUse.metadata use))) at 1.
    apply (omapM_map _ (fun c => c)). intros c Hc.
    unfold Col, Column, Columns, TableToUse.mustSealed. rewrite Hsealed.
    cbn [negb length Nat.eqb omapM]. unfold mbind, outcome_bind, obind.
    rewrite (Hfound c Hc). reflexivity. }
  rewrite Hcols. unfold registerUsingTable. unfoldB.
  unfold TableToUse.mustSealed. rewrite Hsealed. cbn.
  eexists. split; [reflexivity|]. cbn.
  repeat split.
Qed.

Lemma InsertInto_without_columns_takes_every_column_witness :
  exists b,
    InsertInto fixtures.globals fixtures.table1 [] = Ok tt b /\
    SqlBuilder._type b = sqlBuilderTypeInsert /\
    SqlBuilder.previousAction b = previousIsInsertInto /\
    SqlBuilder.insertColumns b = allColumns fixtures.table1 /\
    SqlBuilder.insertIntoTable b = Some fixtures.table1 /\
    SqlBuilder.insertValues b = [] /\
    SqlBuilder.aliasToTableUniqueId b
    = {[ TableToUse.alias fixtures.table1 := TableToUse.uid fixtures.table1 ]}.
Proof.
  apply (InsertInto_without_columns_takes_every_column fixtures.globals fixtures.table1).
  - vm_compute. reflexivity.
  - vm_compute. reflexivity.
  - intros c Hin. vm_compute in Hin.
    repeat (apply elem_of_cons in Hin as [->|Hin]; [vm_compute; reflexivity|]).
    inversion Hin.
Defined.

(** ** Paging by page and size *)

Lemma wrapInt_small (z : Z) : (- 2 ^ 63 <= z < 2 ^ 63)%Z -> wrapInt z = z.
Proof. intros H. unfold wrapInt. rewrite Z.mod_small; lia. Qed.

Lemma wrapUint_small (z : Z) : (0 <= z < 2 ^ 64)%Z -> wrapUint z = Z.to_N z.
Proof. intros H. unfold wrapUint. rewrite Z.mod_small; [reflexivity|exact H]. Qed.

(** X18. For a page and a size of at least 1 whose product stays in an int,
    [NewPaginationFromPagingConfig] gives the offset [(page - 1) * size] and the
    limit [size]; on a basic SELECT builder that has its FROM and no offset,
    [Pagination] with it sets the two and leaves LIMIT as the previous action,
    and the statement pages by [OFFSET ... LIMIT ...], or by [LIMIT ...] alone
    on the first page, where the offset is 0 and [Offset] is not called. *)
Theorem Pagination_of_a_page (page size : Z) (b : SqlBuilder.t) :
  (1 <= page < 2 ^ 63)%Z -> (1 <= size < 2 ^ 63)%Z -> ((page - 1) * size < 2 ^ 63)%Z ->
  SqlBuilder._type b = sqlBuilderTypeSelect ->
  SqlBuilder.selectType b = selectTypeBasic ->
  SqlBuilder.previousAction b ∈
    [previousIsSelectFrom; previousIsSelectJoin; previousIsSelectWhere;
     previousIsSelectOrderBy] ->
  SqlBuilder.offset b = 0%N ->
  exists p b',
    NewPaginationFromPagingConfig page size = Done p /\
    Pagination_Offset (Some p) = Z.to_N ((page - 1) * size) /\
    Pagination_Limit (Some p) = Z.to_N size /\
    Builder.Pagination (Some p) b = Ok tt b' /\
    SqlBuilder.offset b' = Z.to_N ((page - 1) * size) /\
    SqlBuilder.limit b' = Z.to_N size /\
    SqlBuilder.previousAction b' = previousIsSelectLimit /\
    pagingText b'
    = if Z.eqb page 1 then "LIMIT " +:+ fmt.uintd (Z.to_N size) +:+ LF
      else "OFFSET " +:+ fmt.uintd (Z.to_N ((page - 1) * size))
           +:+ " LIMIT " +:+ fmt.uintd (Z.to_N size) +:+ LF.
Proof.
  intros Hpage Hsize Hprod Hty Hst Hprev Hoff.
  assert (Hnn : (0 <= (page - 1) * size)%Z) by nia.
  assert (Hp : NewPaginationFromPagingConfig page size
               = Done {| Pagination.offset := Z.to_N ((page - 1) * size);
                         Pagination.limit := Z.to_N size |}).
  { unfold NewPaginationFromPagingConfig.
    destruct (Z.ltb_spec page 1); [lia|]. destruct (Z.ltb_spec size 1); [lia|].
    rewrite (wrapInt_small (page - 1)) by lia.
    rewrite (wrapInt_small ((page - 1) * size)) by lia.
    rewrite !wrapUint_small by lia. reflexivity. }
  assert (Hlim : (0 <? Z.to_N size)%N = true) by (apply N.ltb_lt; lia).
  assert (Hpo : SqlBuilder.previousAction b ∈
                  [previousIsSelectFrom; previousIsSelectJoin; previousIsSelectWhere;
                   previousIsSelectOrderBy; previousIsSelectLimit]).
  { revert Hprev. rewrite !elem_of_cons, !elem_of_nil. tauto. }
  assert (Hpl : SqlBuilder.previousAction b ∈
                  [previousIsSelectFrom; previousIsSelectJoin; previousIsSelectWhere;
                   previousIsSelectOrderBy; previousIsSelectOffset]).
  { revert Hprev. rewrite !elem_of_cons, !elem_of_nil. tauto. }
  unfold Builder.Pagination.
  destruct (Z.eqb_spec page 1) as [->|Hne].
  - eexists _, _. split; [exact Hp|]. split; [reflexivity|]. split; [reflexivity|].
    cbn [Pagination.offset Pagination.limit]. rewrite Hlim.
    change ((1 - 1) * size)%Z with (0 * size)%Z. rewrite Z.mul_0_l.
    change (0 <? Z.to_N 0)%N with false. unfoldB.
    rewrite (Limit_returns _ _ Hty Hst Hpl).
    split; [reflexivity|]. cbn. split; [exact Hoff|]. split; [reflexivity|].
    split; [reflexivity|]. unfold pagingText. cbn. rewrite Hoff, Hlim. reflexivity.
  - assert (Hpos : (0 <? Z.to_N ((page - 1) * size))%N = true) by (apply N.ltb_lt; nia).
    eexists _, _. split; [exact Hp|]. split; [reflexivity|]. split; [reflexivity|].
    cbn [Pagination.offset Pagination.limit]. rewrite Hlim, Hpos.
    unfoldB. rewrite (Offset_returns _ _ Hty Hst Hpo).
    rewrite Limit_returns; [|exact Hty|exact Hst|cbn; repeat constructor].
    split; [reflexivity|]. cbn. split; [reflexivity|]. split; [reflexivity|].
    split; [reflexivity|]. unfold pagingText. cbn. rewrite Hpos, Hlim. reflexivity.
Qed.

Lemma Pagination_of_a_page_witness :
  exists p b',
    NewPaginationFromPagingConfig 3 20 = Done p /\
    Pagination_Offset (Some p) = Z.to_N ((3 - 1) * 20) /\
    Pagination_Limit (Some p) = Z.to_N 20 /\
    Builder.Pagination (Some p) fixtures.selectFromT1 = Ok tt b' /\
    SqlBuilder.offset b' = Z.to_N ((3 - 1) * 20) /\
    SqlBuilder.limit b' = Z.to_N 20 /\
    SqlBuilder.previousAction b' = previousIsSelectLimit /\
    pagingText b'
    = if Z.eqb 3 1 then "LIMIT " +:+ fmt.uintd (Z.to_N 20) +:+ LF
      else "OFFSET " +:+ fmt.uintd (Z.to_N ((3 - 1) * 20))
           +:+ " LIMIT " +:+ fmt.uintd (Z.to_N 20) +:+ LF.
Proof.
  apply (Pagination_of_a_page 3 20 fixtures.selectFromT1).
  - vm_compute. split; [discriminate|reflexivity].
  - vm_compute. split; [discriminate|reflexivity].
  - vm_compute. reflexivity.
  - vm_compute. reflexivity.
  - vm_compute. reflexivity.
  - vm_compute. left.
  - vm_compute. reflexivity.
Defined.

(** ** Reading the scanned rows to the end *)

Lemma Next_first (sr : ScannedRows.t) :
  ScannedRows.anyNext sr = false ->
  ScannedRows.Next sr
  = Done (Nat.ltb 0 (length (ScannedRows.rowsOfAliasToRow sr)),
          {| ScannedRows.rowsOfAliasToRow := ScannedRows.rowsOfAliasToRow sr;
             ScannedRows.rowIdx := 0; ScannedRows.anyNext := true |}).
Proof. intros Hn. unfold ScannedRows.Next. rewrite Hn. reflexivity. Qed.

Lemma ReadFromRow_single (t : TableToUse.t) (pre post : list row.t) (r : row.t) :
  isRecordOf (TableMetadata.recordType (TableToUse.metadata t)) (recordOf r) ->
  ReadFromRow t
    {| ScannedRows.rowsOfAliasToRow :=
         singleRow (TableToUse.alias t) <$> (pre ++ r :: post);
       ScannedRows.rowIdx := length pre; ScannedRows.anyNext := true |}
  = Done (recordOf r,
          {| ScannedRows.rowsOfAliasToRow :=
               singleRow (TableToUse.alias t) <$> (pre ++ row.markRead r :: post);
             ScannedRows.rowIdx := length pre; ScannedRows.anyNext := true |}).
Proof.
  intros Hrec. unfold ReadFromRow.
  assert (Hcur : (singleRow (TableToUse.alias t) <$> (pre ++ r :: post)) !! length pre
                 = Some (singleRow (TableToUse.alias t) r)).
  { rewrite list_lookup_fmap, lookup_app_r by lia. rewrite Nat.sub_diag. reflexivity. }
  rewrite (GetTable_marks _ (singleRow (TableToUse.alias t) r) (TableToUse.alias t) r);
    [|reflexivity|exact Hcur|apply lookup_singleton_eq].
  unfold mbind, outcome_bind, obind. fold (recordOf r). rewrite Hrec.
  cbn [ScannedRows.rowsOfAliasToRow ScannedRows.rowIdx ScannedRows.anyNext].
  do 3 f_equal. unfold singleRow. rewrite insert_singleton_eq.
  rewrite !fmap_app, !fmap_cons.
  rewrite insert_app_r_alt by (rewrite length_fmap; lia).
  rewrite length_fmap, Nat.sub_diag. reflexivity.
Qed.

Lemma readAllLoop_single (t : TableToUse.t) (post pre : list row.t) (r : row.t)
    (acc : list any) (fuel : nat) :
  row.read r = true ->
  length post < fuel ->
  Forall (fun r' => isRecordOf (TableMetadata.recordType (TableToUse.metadata t))
                      (recordOf r')) post ->
  readAllLoop fuel t
    {| ScannedRows.rowsOfAliasToRow :=
         singleRow (TableToUse.alias t) <$> (pre ++ r :: post);
       ScannedRows.rowIdx := length pre; ScannedRows.anyNext := true |} acc
  = Done (acc ++ (recordOf <$> post),
          {| ScannedRows.rowsOfAliasToRow :=
               singleRow (TableToUse.alias t) <$> (pre ++ r :: (row.markRead <$> post));
             ScannedRows.rowIdx := length pre + S (length post);
             ScannedRows.anyNext := true |}).
Proof.
  revert pre r acc fuel. induction post as [|r' post IH]; intros pre r acc fuel Hr Hfuel Hrec;
    (destruct fuel as [|fuel]; [simpl in Hfuel; lia|]); cbn [readAllLoop].
  - rewrite (Next_all_read _ (singleRow (TableToUse.alias t) r)); [|reflexivity| |].
    + cbn [ScannedRows.rowsOfAliasToRow ScannedRows.rowIdx].
      rewrite length_fmap, length_app. cbn [length].
      replace (Nat.ltb (S (length pre)) (length pre + 1)) with false
        by (symmetry; apply Nat.ltb_ge; lia).
      unfold mbind, outcome_bind, obind. rewrite app_nil_r.
      replace (length pre + 1) with (S (length pre)) by lia. reflexivity.
    + cbn. rewrite list_lookup_fmap, lookup_app_r by lia.
      rewrite Nat.sub_diag. reflexivity.
    + intros a r0 Ha. unfold singleRow in Ha.
      apply lookup_singleton_Some in Ha as [_ <-]. exact Hr.
  - apply Forall_cons in Hrec as [Hrec' Hrec].
    rewrite (Next_all_read _ (singleRow (TableToUse.alias t) r)); [|reflexivity| |].
    + cbn [ScannedRows.rowsOfAliasToRow ScannedRows.rowIdx].
      rewrite length_fmap, length_app. cbn [length].
      replace (Nat.ltb (S (length pre)) (length pre + S (S (length post)))) with true
        by (symmetry; apply Nat.ltb_lt; lia).
      unfold mbind at 1, outcome_bind, obind.
      replace (pre ++ r :: r' :: post) with ((pre ++ [r]) ++ r' :: post)
        by (rewrite <- app_assoc; reflexivity).
      replace (S (length pre)) with (length (pre ++ [r]))
        by (rewrite length_app; simpl; lia).
      rewrite (ReadFromRow_single t _ _ _ Hrec').
      unfold mbind, outcome_bind, obind.
      rewrite (IH (pre ++ [r]) (row.markRead r') (acc ++ [recordOf r']) fuel);
        [|reflexivity|simpl in Hfuel; lia|exact Hrec].
      rewrite <- !app_assoc, length_app. cbn [length app fmap list_fmap].
      do 3 f_equal. lia.
    + cbn. rewrite list_lookup_fmap, lookup_app_r by lia.
      rewrite Nat.sub_diag. reflexivity.
    + intros a r0 Ha. unfold singleRow in Ha.
      apply lookup_singleton_Some in Ha as [_ <-]. exact Hr.
Qed.

(** The turns counted for the loop are enough: it ends by itself, with
    its result or with a panic of [Next] or of [ReadFromRow]. *)
Lemma Next_not_loopNotEnded (sr : ScannedRows.t) :
  ScannedRows.Next sr <> Panic loopNotEnded.
Proof.
  unfold ScannedRows.Next. destruct (ScannedRows.anyNext sr); [|discriminate].
  destruct (ScannedRows.rowsOfAliasToRow sr !! ScannedRows.rowIdx sr); [|discriminate].
  destruct (bool_decide _); discriminate.
Qed.

Lemma ReadFromRow_steps (t : TableToUse.t) (sr : ScannedRows.t) :
  match ReadFromRow t sr with
  | Done (_, sr') =>
      ScannedRows.anyNext sr' = ScannedRows.anyNext sr /\
      ScannedRows.rowIdx sr' = ScannedRows.rowIdx sr /\
      length (ScannedRows.rowsOfAliasToRow sr') = length (ScannedRows.rowsOfAliasToRow sr)
  | Panic msg => msg <> loopNotEnded
  end.
Proof.
  unfold ReadFromRow, ScannedRows.GetTable.
  destruct (ScannedRows.anyNext sr); cbn [negb]; [|discriminate].
  destruct (ScannedRows.rowsOfAliasToRow sr !! ScannedRows.rowIdx sr) as [cur|];
    [|discriminate].
  destruct (cur !! TableToUse.alias t) as [r|]; [|discriminate].
  unfold mbind, outcome_bind, obind.
  destruct (assertRecord _ (row.valueFunc r tt)) as [v|msg] eqn:Hv.
  - cbn. rewrite length_insert. repeat split.
  - unfold assertRecord in Hv.
    destruct (row.valueFunc r tt); try (destruct (String.eqb _ _)); try discriminate;
      injection Hv as <-; rewrite append_cons; discriminate.
Qed.

Lemma readAllLoop_ends (t : TableToUse.t) (fuel : nat) (sr : ScannedRows.t)
    (acc : list any) :
  1 <= fuel ->
  (if ScannedRows.anyNext sr
   then length (ScannedRows.rowsOfAliasToRow sr) <= ScannedRows.rowIdx sr + fuel
   else length (ScannedRows.rowsOfAliasToRow sr) < fuel) ->
  readAllLoop fuel t sr acc <> Panic loopNotEnded.
Proof.
  revert sr acc. induction fuel as [|fuel IH]; intros sr acc Hfuel Hrows; [lia|].
  cbn [readAllLoop].
  pose proof (Next_not_loopNotEnded sr) as Hnext.
  destruct (ScannedRows.Next sr) as [[more sr1]|msg] eqn:Hsr1;
    unfold mbind at 1, outcome_bind, obind; [|congruence].
  destruct more; [|discriminate].
  assert (Hsr : ScannedRows.anyNext sr1 = true /\
                length (ScannedRows.rowsOfAliasToRow sr1)
                = length (ScannedRows.rowsOfAliasToRow sr) /\
                ScannedRows.rowIdx sr1 < length (ScannedRows.rowsOfAliasToRow sr1) /\
                length (ScannedRows.rowsOfAliasToRow sr1) <= ScannedRows.rowIdx sr1 + fuel).
  { revert Hsr1. unfold ScannedRows.Next.
    match goal with
    | |- context [mbind _ ?o] => destruct o as [[]|msg]
    end; unfold mbind, outcome_bind, obind; [|discriminate].
    intros [= Hlt <-]. apply Nat.ltb_lt in Hlt.
    destruct (ScannedRows.anyNext sr); cbn in *; repeat split; lia. }
  destruct Hsr as (Hn1 & Hlen1 & Hlt1 & Hle1).
  pose proof (ReadFromRow_steps t sr1) as Hread.
  destruct (ReadFromRow t sr1) as [[v sr2]|msg];
    unfold mbind, outcome_bind, obind; [|congruence].
  destruct Hread as (Hn2 & Hidx2 & Hlen2).
  apply IH; [lia|]. rewrite Hn2, Hn1, Hidx2, Hlen2. exact Hle1.
Qed.

Lemma ReadAllFromRows_ends (t : TableToUse.t) (sr : ScannedRows.t) :
  ReadAllFromRows t sr <> Panic loopNotEnded.
Proof.
  unfold ReadAllFromRows. apply readAllLoop_ends; [lia|].
  destruct (ScannedRows.anyNext sr); lia.
Qed.

(** X19. On rows that hold the records of the table's alias only,
    [ReadAllFromRows] returns the record of every row, in the order of the
    rows, and leaves the rows read and the scanner after the last row. *)
Theorem ReadAllFromRows_of_one_table (t : TableToUse.t) (sr : ScannedRows.t)
    (rs : list row.t) :
  ScannedRows.anyNext sr = false ->
  ScannedRows.rowsOfAliasToRow sr = singleRow (TableToUse.alias t) <$> rs ->
  Forall (fun r => isRecordOf (TableMetadata.recordType (TableToUse.metadata t))
                     (recordOf r)) rs ->
  ReadAllFromRows t sr
  = Done (recordOf <$> rs,
          {| ScannedRows.rowsOfAliasToRow :=
               singleRow (TableToUse.alias t) <$> (row.markRead <$> rs);
             ScannedRows.rowIdx := length rs; ScannedRows.anyNext := true |}).
Proof.
  intros Hn Hrows Hrec. unfold ReadAllFromRows. cbn [readAllLoop].
  rewrite (Next_first sr Hn), Hrows, length_fmap.
  destruct rs as [|r rs].
  - reflexivity.
  - cbn [length Nat.ltb Nat.leb]. unfold mbind at 1, outcome_bind, obind.
    apply Forall_cons in Hrec as [Hr Hrec].
    pose proof (ReadFromRow_single t [] rs r Hr) as Hread.
    cbn [app length] in Hread. rewrite Hread. unfold mbind, outcome_bind, obind.
    pose proof (readAllLoop_single t rs [] (row.markRead r) [recordOf r] (length rs + 1)
                  eq_refl) as Hloop.
    cbn [app length] in Hloop.
    replace (length rs + 1) with (S (length rs)) in Hloop by lia.
    cbn [app]. rewrite Hloop; [reflexivity|lia|exact Hrec].
Qed.

Lemma ReadAllFromRows_of_one_table_witness :
  ReadAllFromRows fixtures.t1 samples.scannedT1
  = Done (recordOf <$> samples.rowsOfT1,
          {| ScannedRows.rowsOfAliasToRow :=
               singleRow (TableToUse.alias fixtures.t1) <$> (row.markRead <$> samples.rowsOfT1);
             ScannedRows.rowIdx := length samples.rowsOfT1;
             ScannedRows.anyNext := true |}).
Proof.
  apply (ReadAllFromRows_of_one_table fixtures.t1 samples.scannedT1 samples.rowsOfT1).
  - reflexivity.
  - reflexivity.
  - repeat constructor.
Defined.

(** X20. On rows that hold the record of a second alias as well,
    [ReadAllFromRows] panics after the first row: it reads the record of its
    own alias only, and [Next] refuses to go on. *)
Theorem ReadAllFromRows_panics_on_a_second_alias (t : TableToUse.t) (sr : ScannedRows.t)
    (cur : gmap string row.t) (r other : row.t) (alias : string) :
  ScannedRows.anyNext sr = false ->
  ScannedRows.rowsOfAliasToRow sr !! 0 = Some cur ->
  cur !! TableToUse.alias t = Some r ->
  isRecordOf (TableMetadata.recordType (TableToUse.metadata t)) (recordOf r) ->
  cur !! alias = Some other -> alias <> TableToUse.alias t -> row.read other = false ->
  ReadAllFromRows t sr = Panic "not all columns are read before moving to the next row".
Proof.
  intros Hn Hcur Hr Hrec Hother Hne Hunread. unfold ReadAllFromRows.
  destruct (ScannedRows.rowsOfAliasToRow sr) as [|m rows] eqn:Hrows; [discriminate|].
  injection Hcur as ->. cbn [length readAllLoop].
  rewrite (Next_first sr Hn), Hrows. cbn [length Nat.ltb Nat.leb].
  unfold mbind, outcome_bind, obind. unfold ReadFromRow.
  rewrite (GetTable_marks _ cur (TableToUse.alias t) r); [|reflexivity|reflexivity|exact Hr].
  unfold mbind, outcome_bind, obind.
  unfold isRecordOf, recordOf in Hrec. rewrite Hrec.
  unfold ScannedRows.Next.
  cbn [ScannedRows.anyNext ScannedRows.rowIdx ScannedRows.rowsOfAliasToRow].
  cbn [insert list_insert lookup list_lookup].
  case_bool_decide as Hall; [|reflexivity].
  exfalso. specialize (Hall alias other). cbn in Hall.
  rewrite lookup_insert_ne in Hall by congruence.
  specialize (Hall Hother). congruence.
Qed.

Lemma ReadAllFromRows_panics_on_a_second_alias_witness :
  ReadAllFromRows fixtures.t1 samples.scannedT1T2
  = Panic "not all columns are read before moving to the next row".
Proof.
  apply (ReadAllFromRows_panics_on_a_second_alias fixtures.t1 samples.scannedT1T2
           {[ "t1" := samples.recordRow fixtures.rowA; "t2" := fixtures.valueRow 1 ]}
           (samples.recordRow fixtures.rowA) (fixtures.valueRow 1) "t2").
  - reflexivity.
  - reflexivity.
  - vm_compute. reflexivity.
  - vm_compute. reflexivity.
  - vm_compute. reflexivity.
  - vm_compute. discriminate.
  - reflexivity.
Defined.

(** X21. Once [Next] has returned false, the scanner is past its rows: a
    further [Next] and every [GetTable] panic with an index out of range. *)
Theorem scanner_is_spent_after_the_last_row (sr sr' : ScannedRows.t) :
  ScannedRows.Next sr = Done (false, sr') ->
  ScannedRows.Next sr' = Panic ScannedRows.indexOutOfRange /\
  forall byAlias, ScannedRows.GetTable sr' byAlias = Panic ScannedRows.indexOutOfRange.
Proof.
  unfold ScannedRows.Next at 1.
  match goal with
  | |- context [mbind _ ?o] => destruct o as [[]|msg]
  end; unfold mbind, outcome_bind, obind; [|discriminate].
  intros [= Hlt <-]. apply Nat.ltb_ge in Hlt.
  assert (Hnone : forall rows idx, length rows <= idx ->
            (rows : list (gmap string row.t)) !! idx = None).
  { intros rows idx H. apply lookup_ge_None. exact H. }
  destruct (ScannedRows.anyNext sr);
    cbn [ScannedRows.rowsOfAliasToRow ScannedRows.rowIdx ScannedRows.anyNext] in Hlt;
    (split; [|intros byAlias]);
    unfold ScannedRows.Next, ScannedRows.GetTable;
    cbn [ScannedRows.rowsOfAliasToRow ScannedRows.rowIdx ScannedRows.anyNext negb];
    rewrite (Hnone _ _ Hlt); reflexivity.
Qed.


Lemma scanner_is_spent_after_the_last_row_witness :
  ScannedRows.Next (snd (fixtures.expect (true, samples.noRows)
                           (ScannedRows.Next samples.noRows)))
  = Panic ScannedRows.indexOutOfRange /\
  forall byAlias,
    ScannedRows.GetTable (snd (fixtures.expect (true, samples.noRows)
                                 (ScannedRows.Next samples.noRows))) byAlias
    = Panic ScannedRows.indexOutOfRange.
Proof.
  apply (scanner_is_spent_after_the_last_row samples.noRows). reflexivity.
Defined.

(** ** The rows [scanRows] returns *)

Lemma scanTables_aliases (sqlKeywords : gset string) (lay : scanLayout.t)
    (tables : list (string * TableToUse.t)) (st st' : rowScan.t) :
  scanTables sqlKeywords lay tables st = Done st' ->
  forall a, is_Some (rowScan.aliasToRow st' !! a) <->
            is_Some (rowScan.aliasToRow st !! a) \/
            exists key table, (key, table) ∈ tables /\ TableToUse.tableAlias table = a.
Proof.
  revert st. induction tables as [|[key table] tables IH]; intros st.
  - simpl. intros [= <-] a. split; [intros H; left; exact H|].
    intros [H|(k & t & H & _)]; [exact H|inversion H].
  - cbn [scanTables]. unfold scanTable at 1.
    destruct (TableMetadata.selectSpecOfColumns _ _ _ _) as [[vf specs]|];
      unfold mbind at 1 2, outcome_bind, obind; [|discriminate].
    destruct (registerColumns _ _ _ _) as [dest|]; [|discriminate].
    intros Hrest a. rewrite (IH _ Hrest a). cbn [rowScan.aliasToRow].
    rewrite lookup_insert_is_Some. split.
    + intros [[Ha|[_ H]]|(k & t & H & Ha)].
      * right. exists key, table. split; [left|exact Ha].
      * left. exact H.
      * right. exists k, t. split; [right; exact H|exact Ha].
    + intros [H|(k & t & H & Ha)].
      * destruct (decide (TableToUse.tableAlias table = a)) as [E|E]; [left; left; exact E|].
        left. right. split; [exact E|exact H].
      * apply elem_of_cons in H as [[= -> ->]|H].
        -- left. left. exact Ha.
        -- right. exists k, t. split; [exact H|exact Ha].
Qed.

Lemma scanLoop_rows (sqlKeywords : gset string) (lay : scanLayout.t)
    (range : nat -> gmap string TableToUse.t -> list (string * TableToUse.t))
    (rows : SqlRows.t) (count remaining row nextRow : nat)
    (acc out : list (gmap string row.t)) :
  scanLoop sqlKeywords lay range rows count remaining row nextRow acc = Done (inl out) ->
  exists new,
    out = acc ++ new /\ length new = remaining /\
    forall i m, new !! i = Some m ->
      forall a, is_Some (m !! a) <->
                exists key table, (key, table) ∈ range (row + i) (scanLayout.tablesByAlias lay)
                                  /\ TableToUse.tableAlias table = a.
Proof.
  revert row nextRow acc. induction remaining as [|remaining IH]; intros row nextRow acc.
  - simpl. intros [= <-]. exists []. rewrite app_nil_r.
    split; [reflexivity|]. split; [reflexivity|]. intros i m H. discriminate.
  - cbn [scanLoop]. unfold constructRow.
    destruct (scanTables _ _ _ _) as [st|] eqn:Hst;
      unfold mbind, outcome_bind, obind; [|discriminate].
    destruct (SqlRows.Scan _ _ _); [discriminate|].
    destruct (runTransforms _); [discriminate|].
    intros Hrest. apply IH in Hrest as (new & -> & Hlen & Hdom).
    exists (rowScan.aliasToRow st :: new). rewrite <- app_assoc. split; [reflexivity|].
    split; [simpl; lia|]. intros [|i] m Hm a.
    + injection Hm as <-. rewrite (scanTables_aliases _ _ _ _ _ Hst a).
      cbn [rowScan.aliasToRow]. rewrite lookup_empty, Nat.add_0_r. split.
      * intros [[x H]|H]; [discriminate|exact H].
      * intros H. right. exact H.
    + rewrite (Hdom i m Hm a). replace (S row + i) with (row + S i) by lia. reflexivity.
Qed.

Lemma buildLayout_tables_Some (columns : list GenericColumnToUse.t) (alias : string) :
  is_Some (scanLayout.tablesByAlias (buildLayout columns) !! alias) <->
  exists column, column ∈ columns /\ aliasOf column = alias.
Proof.
  induction columns as [|column columns IH] using rev_ind.
  - change (scanLayout.tablesByAlias (buildLayout [])) with (∅ : gmap string TableToUse.t).
    rewrite lookup_empty. split; [intros [x H]; discriminate|].
    intros (c & H & _). inversion H.
  - rewrite buildLayout_snoc. unfold layoutStep.
    cbn [fst scanLayout.tablesByAlias]. fold (aliasOf column).
    rewrite lookup_insert_is_Some, IH. split.
    + intros [Ha|[_ (c & Hc & Ha)]].
      * exists column. split; [apply elem_of_app; right; left|exact Ha].
      * exists c. split; [apply elem_of_app; left; exact Hc|exact Ha].
    + intros (c & Hc & Ha). apply elem_of_app in Hc as [Hc|Hc].
      * destruct (decide (aliasOf column = alias)) as [E|E]; [left; exact E|].
        right. split; [exact E|]. exists c. split; assumption.
      * apply list_elem_of_singleton in Hc. subst c. left. exact Ha.
Qed.

(** X22. When [scanRows] returns rows, it returns one logical row for every
    row of the driver, not yet entered, and every logical row holds a record
    for exactly the aliases of the select list. *)
Theorem scanRows_returns_a_row_per_driver_row (sqlKeywords : gset string)
    (range : nat -> gmap string TableToUse.t -> list (string * TableToUse.t))
    (b : SqlBuilder.t) (rows : SqlRows.t) (err : option string) (sr : ScannedRows.t) :
  (forall row m, range row m ≡ₚ map_to_list m) ->
  scanRows sqlKeywords range b rows err = Done (inl sr) ->
  ScannedRows.Count sr = SqlRows.count rows /\
  ScannedRows.rowIdx sr = 0 /\ ScannedRows.anyNext sr = false /\
  forall i m, ScannedRows.rowsOfAliasToRow sr !! i = Some m ->
    forall a, is_Some (m !! a) <->
              exists column, column ∈ SqlBuilder.selectColumns b /\ aliasOf column = a.
Proof.
  intros Hrange. unfold scanRows. destruct err; [discriminate|].
  destruct (negb _); [discriminate|].
  destruct (scanLoop _ _ _ _ _ _ _ _ _) as [[out|e]|] eqn:Hloop;
    unfold mbind, outcome_bind, obind; [|discriminate|discriminate].
  intros [= <-]. apply scanLoop_rows in Hloop as (new & -> & Hlen & Hdom).
  unfold ScannedRows.Count.
  cbn [ScannedRows.rowsOfAliasToRow ScannedRows.rowIdx ScannedRows.anyNext app].
  split; [exact Hlen|]. split; [reflexivity|]. split; [reflexivity|].
  intros i m Hm a. rewrite (Hdom i m Hm a), <- buildLayout_tables_Some. split.
  - intros (key & table & Hin & Ha). rewrite Hrange in Hin.
    apply elem_of_map_to_list in Hin.
    pose proof (buildLayout_tables (SqlBuilder.selectColumns b) key) as Hkey.
    rewrite Hin in Hkey. rewrite <- Ha, Hkey. eauto.
  - intros [table Htable].
    pose proof (buildLayout_tables (SqlBuilder.selectColumns b) a) as Hkey.
    rewrite Htable in Hkey. exists a, table. split; [|exact Hkey].
    rewrite Hrange. apply elem_of_map_to_list. exact Htable.
Qed.

Lemma scanRows_returns_a_row_per_driver_row_witness :
  ScannedRows.Count samples.scannedFour = SqlRows.count samples.driverOfTwo /\
  ScannedRows.rowIdx samples.scannedFour = 0 /\
  ScannedRows.anyNext samples.scannedFour = false /\
  forall i m, ScannedRows.rowsOfAliasToRow samples.scannedFour !! i = Some m ->
    forall a, is_Some (m !! a) <->
              exists column,
                column ∈ SqlBuilder.selectColumns samples.selectFour /\ aliasOf column = a.
Proof.
  apply (scanRows_returns_a_row_per_driver_row fixtures.keywords fixtures.rangeOfMap
           samples.selectFour samples.driverOfTwo None samples.scannedFour).
  - intros row m. reflexivity.
  - vm_compute. reflexivity.
Defined.

